(** * Thread control of the JDWP debug agent (libjdwp/threadControl.c)

    A shallow embedding of the suspend/resume bookkeeping of
    [threadControl.c]: the per-thread [ThreadNode] records, the three thread
    lists, the JVMTI thread-local slot used to find a node, and the
    operations that reconcile the debugger-visible suspend counts with the
    JVMTI suspend and resume primitives.

    The C code mutates [ThreadNode] structures through pointers that are
    shared between the thread lists and the thread-local storage of the
    runtime.  The embedding keeps that sharing: nodes live in a heap indexed
    by node addresses, the lists and the thread-local slots hold addresses.
    Every operation is a function in a small state-and-exit monad over the
    [World]; the JVMTI calls it makes are appended to a trace, and the
    answers of the runtime are read from a [Runtime] record whose functions
    take the trace so far as the history.

    Left out: logging ([LOG_MISC], [log_debugee_location]), the JNI local
    reference frames ([WITH_LOCAL_REFS]) and the debugging dumps.

    Two builds.  [j9cfg.h], which is not among the sources, defines
    [J9VM_OPT_CRIU_SUPPORT] or leaves it out.  Section [ThreadControl] is
    the file as compiled without the macro.  With it the file has
    [find_ext_function] and one more block in each of
    [threadControl_addDebugThread] and [threadControl_removeDebugThread];
    module [Criu] holds these three functions as compiled with the macro.

    The lists.  A [ThreadList] is a chain of [next] and [prev] pointers from
    its [first] field.  The embedding holds each chain as the list of the
    addresses on it, and a node that is off every chain has null links.
    [addNode] and [removeNode] are given on these lists; module [Links]
    holds the two functions on the pointers themselves, and
    [Links_refine] shows that on a chain the two agree.  They agree only
    there: for a node whose [list] field names a list that the node is not
    linked on, or for a node added while it is linked, the C code cuts or
    knots the chain and the lists of the embedding no longer describe
    it. *)

From stdpp Require Import gmap list.
From Stdlib Require Import ZArith Lia.
From Stdlib Require String.

Open Scope Z_scope.

(** ** Machine integers *)

(** [jint] is a 32-bit and [jlong] a 64-bit two's complement integer; both
    are held in [Z] and every increment and decrement wraps. *)
Definition jint_min : Z := - 2 ^ 31.
Definition jint_max : Z := 2 ^ 31 - 1.
Definition jint_wrap (z : Z) : Z := (z + 2 ^ 31) mod 2 ^ 32 - 2 ^ 31.
Definition jint_inc (z : Z) : Z := jint_wrap (z + 1).
Definition jint_dec (z : Z) : Z := jint_wrap (z - 1).
Definition jlong_wrap (z : Z) : Z := (z + 2 ^ 63) mod 2 ^ 64 - 2 ^ 63.
Definition jlong_inc (z : Z) : Z := jlong_wrap (z + 1).

(** ** JNI references, JVMTI codes *)

(** A JNI reference is identified with the object it names, so that
    [isSameObject] is equality; [NULL] is the null reference. *)
Definition jobject := Z.
Definition jthread := jobject.
Definition jclass := jobject.
Definition jmethodID := Z.
Definition jlocation := Z.
Definition NULL : jobject := 0.

Definition isSameObject (a b : jobject) : bool := a =? b.

(** Modelled from the spec: the [jvmtiError] enumeration of jvmti.h and the
    agent's own codes of util.h are declared outside this file.  The codes
    that threadControl.c names are constructors; every other code of the
    runtime is [JVMTI_ERROR_other]. *)
Inductive jvmtiError : Type :=
| JVMTI_ERROR_NONE
| JVMTI_ERROR_THREAD_NOT_ALIVE
| JVMTI_ERROR_THREAD_SUSPENDED
| AGENT_ERROR_INTERNAL
| AGENT_ERROR_OUT_OF_MEMORY
| AGENT_ERROR_NULL_POINTER
| AGENT_ERROR_INVALID_THREAD
| AGENT_ERROR_NO_MORE_FRAMES
| JVMTI_ERROR_other (code : Z).

Definition is_NONE (e : jvmtiError) : bool :=
  match e with JVMTI_ERROR_NONE => true | _ => false end.
Definition is_THREAD_NOT_ALIVE (e : jvmtiError) : bool :=
  match e with JVMTI_ERROR_THREAD_NOT_ALIVE => true | _ => false end.
Definition is_THREAD_SUSPENDED (e : jvmtiError) : bool :=
  match e with JVMTI_ERROR_THREAD_SUSPENDED => true | _ => false end.

Inductive jvmtiEventMode : Type := JVMTI_ENABLE | JVMTI_DISABLE.

Definition is_ENABLE (m : jvmtiEventMode) : bool :=
  match m with JVMTI_ENABLE => true | JVMTI_DISABLE => false end.

(** Modelled from the spec: the [EventIndex] enumeration of util.h.  Its
    zero value, written [EI_none] here, is not an event: threadControl.c
    tests [current_ei != 0] and [cleInfo.ei != 0]. *)
Inductive EventIndex : Type :=
| EI_none
| EI_SINGLE_STEP
| EI_BREAKPOINT
| EI_FRAME_POP
| EI_EXCEPTION
| EI_THREAD_START
| EI_THREAD_END
| EI_CLASS_PREPARE
| EI_FIELD_ACCESS
| EI_FIELD_MODIFICATION
| EI_METHOD_ENTRY
| EI_METHOD_EXIT
| EI_VIRTUAL_THREAD_START
| EI_VIRTUAL_THREAD_END.

Definition ei_is_zero (ei : EventIndex) : bool :=
  match ei with EI_none => true | _ => false end.
Definition is_SINGLE_STEP (ei : EventIndex) : bool :=
  match ei with EI_SINGLE_STEP => true | _ => false end.
Definition is_THREAD_START (ei : EventIndex) : bool :=
  match ei with EI_THREAD_START => true | _ => false end.
Definition is_THREAD_END (ei : EventIndex) : bool :=
  match ei with EI_THREAD_END => true | _ => false end.

(** [JVMTI_THREAD_STATE_ALIVE] is bit 0 of the thread state. *)
Definition JVMTI_THREAD_STATE_ALIVE : Z := 1.

(** ** The data model *)

(** Addresses of [ThreadNode] structures; [None] is the null pointer. *)
Definition NodeId := nat.

(** The three static [ThreadList] variables, named by their address. *)
Inductive ThreadList : Type := runningThreads | otherThreads | runningVThreads.

Definition ThreadList_eqb (a b : ThreadList) : bool :=
  match a, b with
  | runningThreads, runningThreads => true
  | otherThreads, otherThreads => true
  | runningVThreads, runningVThreads => true
  | _, _ => false
  end.

Record CoLocatedEventInfo : Type := {
  cle_ei : EventIndex;
  cle_clazz : jclass;
  cle_method : jmethodID;
  cle_location : jlocation
}.

(** [StepRequest], [InvokeRequest] and the event bag belong to other
    modules; threadControl.c only stores them. *)
Definition StepRequest := Z.
Definition InvokeRequest := Z.
Definition bag := Z.

(** [struct ThreadNode].  The [next] and [prev] links are the position of
    the node's address in the list it is on; [node_list] is the [list]
    field (which list the node is on, [None] when on none). *)
Record ThreadNode : Type := {
  thread : jthread;
  toBeResumed : bool;
  pendingInterrupt : bool;
  isDebugThread : bool;
  suspendOnStart : bool;
  isStarted : bool;
  is_vthread : bool;
  popFrameEvent : bool;
  popFrameProceed : bool;
  popFrameThread : bool;
  current_ei : EventIndex;
  pendingStop : jobject;
  suspendCount : Z;
  instructionStepMode : jvmtiEventMode;
  currentStep : StepRequest;
  currentInvoke : InvokeRequest;
  eventBag : bag;
  cleInfo : CoLocatedEventInfo;
  frameGeneration : Z;
  node_list : option ThreadList
}.

Definition set_thread (v : jthread) (n : ThreadNode) : ThreadNode :=
  {| thread := v; toBeResumed := toBeResumed n;
     pendingInterrupt := pendingInterrupt n; isDebugThread := isDebugThread n;
     suspendOnStart := suspendOnStart n; isStarted := isStarted n;
     is_vthread := is_vthread n; popFrameEvent := popFrameEvent n;
     popFrameProceed := popFrameProceed n; popFrameThread := popFrameThread n;
     current_ei := current_ei n; pendingStop := pendingStop n;
     suspendCount := suspendCount n;
     instructionStepMode := instructionStepMode n;
     currentStep := currentStep n; currentInvoke := currentInvoke n;
     eventBag := eventBag n; cleInfo := cleInfo n;
     frameGeneration := frameGeneration n; node_list := node_list n |}.

Definition set_toBeResumed (v : bool) (n : ThreadNode) : ThreadNode :=
  {| thread := thread n; toBeResumed := v;
     pendingInterrupt := pendingInterrupt n; isDebugThread := isDebugThread n;
     suspendOnStart := suspendOnStart n; isStarted := isStarted n;
     is_vthread := is_vthread n; popFrameEvent := popFrameEvent n;
     popFrameProceed := popFrameProceed n; popFrameThread := popFrameThread n;
     current_ei := current_ei n; pendingStop := pendingStop n;
     suspendCount := suspendCount n;
     instructionStepMode := instructionStepMode n;
     currentStep := currentStep n; currentInvoke := currentInvoke n;
     eventBag := eventBag n; cleInfo := cleInfo n;
     frameGeneration := frameGeneration n; node_list := node_list n |}.

Definition set_pendingInterrupt (v : bool) (n : ThreadNode) : ThreadNode :=
  {| thread := thread n; toBeResumed := toBeResumed n;
     pendingInterrupt := v; isDebugThread := isDebugThread n;
     suspendOnStart := suspendOnStart n; isStarted := isStarted n;
     is_vthread := is_vthread n; popFrameEvent := popFrameEvent n;
     popFrameProceed := popFrameProceed n; popFrameThread := popFrameThread n;
     current_ei := current_ei n; pendingStop := pendingStop n;
     suspendCount := suspendCount n;
     instructionStepMode := instructionStepMode n;
     currentStep := currentStep n; currentInvoke := currentInvoke n;
     eventBag := eventBag n; cleInfo := cleInfo n;
     frameGeneration := frameGeneration n; node_list := node_list n |}.

Definition set_isDebugThread (v : bool) (n : ThreadNode) : ThreadNode :=
  {| thread := thread n; toBeResumed := toBeResumed n;
     pendingInterrupt := pendingInterrupt n; isDebugThread := v;
     suspendOnStart := suspendOnStart n; isStarted := isStarted n;
     is_vthread := is_vthread n; popFrameEvent := popFrameEvent n;
     popFrameProceed := popFrameProceed n; popFrameThread := popFrameThread n;
     current_ei := current_ei n; pendingStop := pendingStop n;
     suspendCount := suspendCount n;
     instructionStepMode := instructionStepMode n;
     currentStep := currentStep n; currentInvoke := currentInvoke n;
     eventBag := eventBag n; cleInfo := cleInfo n;
     frameGeneration := frameGeneration n; node_list := node_list n |}.

Definition set_suspendOnStart (v : bool) (n : ThreadNode) : ThreadNode :=
  {| thread := thread n; toBeResumed := toBeResumed n;
     pendingInterrupt := pendingInterrupt n; isDebugThread := isDebugThread n;
     suspendOnStart := v; isStarted := isStarted n;
     is_vthread := is_vthread n; popFrameEvent := popFrameEvent n;
     popFrameProceed := popFrameProceed n; popFrameThread := popFrameThread n;
     current_ei := current_ei n; pendingStop := pendingStop n;
     suspendCount := suspendCount n;
     instructionStepMode := instructionStepMode n;
     currentStep := currentStep n; currentInvoke := currentInvoke n;
     eventBag := eventBag n; cleInfo := cleInfo n;
     frameGeneration := frameGeneration n; node_list := node_list n |}.

Definition set_isStarted (v : bool) (n : ThreadNode) : ThreadNode :=
  {| thread := thread n; toBeResumed := toBeResumed n;
     pendingInterrupt := pendingInterrupt n; isDebugThread := isDebugThread n;
     suspendOnStart := suspendOnStart n; isStarted := v;
     is_vthread := is_vthread n; popFrameEvent := popFrameEvent n;
     popFrameProceed := popFrameProceed n; popFrameThread := popFrameThread n;
     current_ei := current_ei n; pendingStop := pendingStop n;
     suspendCount := suspendCount n;
     instructionStepMode := instructionStepMode n;
     currentStep := currentStep n; currentInvoke := currentInvoke n;
     eventBag := eventBag n; cleInfo := cleInfo n;
     frameGeneration := frameGeneration n; node_list := node_list n |}.

Definition set_is_vthread (v : bool) (n : ThreadNode) : ThreadNode :=
  {| thread := thread n; toBeResumed := toBeResumed n;
     pendingInterrupt := pendingInterrupt n; isDebugThread := isDebugThread n;
     suspendOnStart := suspendOnStart n; isStarted := isStarted n;
     is_vthread := v; popFrameEvent := popFrameEvent n;
     popFrameProceed := popFrameProceed n; popFrameThread := popFrameThread n;
     current_ei := current_ei n; pendingStop := pendingStop n;
     suspendCount := suspendCount n;
     instructionStepMode := instructionStepMode n;
     currentStep := currentStep n; currentInvoke := currentInvoke n;
     eventBag := eventBag n; cleInfo := cleInfo n;
     frameGeneration := frameGeneration n; node_list := node_list n |}.

Definition set_current_ei (v : EventIndex) (n : ThreadNode) : ThreadNode :=
  {| thread := thread n; toBeResumed := toBeResumed n;
     pendingInterrupt := pendingInterrupt n; isDebugThread := isDebugThread n;
     suspendOnStart := suspendOnStart n; isStarted := isStarted n;
     is_vthread := is_vthread n; popFrameEvent := popFrameEvent n;
     popFrameProceed := popFrameProceed n; popFrameThread := popFrameThread n;
     current_ei := v; pendingStop := pendingStop n;
     suspendCount := suspendCount n;
     instructionStepMode := instructionStepMode n;
     currentStep := currentStep n; currentInvoke := currentInvoke n;
     eventBag := eventBag n; cleInfo := cleInfo n;
     frameGeneration := frameGeneration n; node_list := node_list n |}.

Definition set_pendingStop (v : jobject) (n : ThreadNode) : ThreadNode :=
  {| thread := thread n; toBeResumed := toBeResumed n;
     pendingInterrupt := pendingInterrupt n; isDebugThread := isDebugThread n;
     suspendOnStart := suspendOnStart n; isStarted := isStarted n;
     is_vthread := is_vthread n; popFrameEvent := popFrameEvent n;
     popFrameProceed := popFrameProceed n; popFrameThread := popFrameThread n;
     current_ei := current_ei n; pendingStop := v;
     suspendCount := suspendCount n;
     instructionStepMode := instructionStepMode n;
     currentStep := currentStep n; currentInvoke := currentInvoke n;
     eventBag := eventBag n; cleInfo := cleInfo n;
     frameGeneration := frameGeneration n; node_list := node_list n |}.

Definition set_suspendCount (v : Z) (n : ThreadNode) : ThreadNode :=
  {| thread := thread n; toBeResumed := toBeResumed n;
     pendingInterrupt := pendingInterrupt n; isDebugThread := isDebugThread n;
     suspendOnStart := suspendOnStart n; isStarted := isStarted n;
     is_vthread := is_vthread n; popFrameEvent := popFrameEvent n;
     popFrameProceed := popFrameProceed n; popFrameThread := popFrameThread n;
     current_ei := current_ei n; pendingStop := pendingStop n;
     suspendCount := v;
     instructionStepMode := instructionStepMode n;
     currentStep := currentStep n; currentInvoke := currentInvoke n;
     eventBag := eventBag n; cleInfo := cleInfo n;
     frameGeneration := frameGeneration n; node_list := node_list n |}.

Definition set_instructionStepMode (v : jvmtiEventMode) (n : ThreadNode)
  : ThreadNode :=
  {| thread := thread n; toBeResumed := toBeResumed n;
     pendingInterrupt := pendingInterrupt n; isDebugThread := isDebugThread n;
     suspendOnStart := suspendOnStart n; isStarted := isStarted n;
     is_vthread := is_vthread n; popFrameEvent := popFrameEvent n;
     popFrameProceed := popFrameProceed n; popFrameThread := popFrameThread n;
     current_ei := current_ei n; pendingStop := pendingStop n;
     suspendCount := suspendCount n;
     instructionStepMode := v;
     currentStep := currentStep n; currentInvoke := currentInvoke n;
     eventBag := eventBag n; cleInfo := cleInfo n;
     frameGeneration := frameGeneration n; node_list := node_list n |}.

Definition set_currentStep (v : StepRequest) (n : ThreadNode) : ThreadNode :=
  {| thread := thread n; toBeResumed := toBeResumed n;
     pendingInterrupt := pendingInterrupt n; isDebugThread := isDebugThread n;
     suspendOnStart := suspendOnStart n; isStarted := isStarted n;
     is_vthread := is_vthread n; popFrameEvent := popFrameEvent n;
     popFrameProceed := popFrameProceed n; popFrameThread := popFrameThread n;
     current_ei := current_ei n; pendingStop := pendingStop n;
     suspendCount := suspendCount n;
     instructionStepMode := instructionStepMode n;
     currentStep := v; currentInvoke := currentInvoke n;
     eventBag := eventBag n; cleInfo := cleInfo n;
     frameGeneration := frameGeneration n; node_list := node_list n |}.

Definition set_eventBag (v : bag) (n : ThreadNode) : ThreadNode :=
  {| thread := thread n; toBeResumed := toBeResumed n;
     pendingInterrupt := pendingInterrupt n; isDebugThread := isDebugThread n;
     suspendOnStart := suspendOnStart n; isStarted := isStarted n;
     is_vthread := is_vthread n; popFrameEvent := popFrameEvent n;
     popFrameProceed := popFrameProceed n; popFrameThread := popFrameThread n;
     current_ei := current_ei n; pendingStop := pendingStop n;
     suspendCount := suspendCount n;
     instructionStepMode := instructionStepMode n;
     currentStep := currentStep n; currentInvoke := currentInvoke n;
     eventBag := v; cleInfo := cleInfo n;
     frameGeneration := frameGeneration n; node_list := node_list n |}.

Definition set_cleInfo (v : CoLocatedEventInfo) (n : ThreadNode) : ThreadNode :=
  {| thread := thread n; toBeResumed := toBeResumed n;
     pendingInterrupt := pendingInterrupt n; isDebugThread := isDebugThread n;
     suspendOnStart := suspendOnStart n; isStarted := isStarted n;
     is_vthread := is_vthread n; popFrameEvent := popFrameEvent n;
     popFrameProceed := popFrameProceed n; popFrameThread := popFrameThread n;
     current_ei := current_ei n; pendingStop := pendingStop n;
     suspendCount := suspendCount n;
     instructionStepMode := instructionStepMode n;
     currentStep := currentStep n; currentInvoke := currentInvoke n;
     eventBag := eventBag n; cleInfo := v;
     frameGeneration := frameGeneration n; node_list := node_list n |}.

Definition set_frameGeneration (v : Z) (n : ThreadNode) : ThreadNode :=
  {| thread := thread n; toBeResumed := toBeResumed n;
     pendingInterrupt := pendingInterrupt n; isDebugThread := isDebugThread n;
     suspendOnStart := suspendOnStart n; isStarted := isStarted n;
     is_vthread := is_vthread n; popFrameEvent := popFrameEvent n;
     popFrameProceed := popFrameProceed n; popFrameThread := popFrameThread n;
     current_ei := current_ei n; pendingStop := pendingStop n;
     suspendCount := suspendCount n;
     instructionStepMode := instructionStepMode n;
     currentStep := currentStep n; currentInvoke := currentInvoke n;
     eventBag := eventBag n; cleInfo := cleInfo n;
     frameGeneration := v; node_list := node_list n |}.

Definition set_popFrameThread (v : bool) (n : ThreadNode) : ThreadNode :=
  {| thread := thread n; toBeResumed := toBeResumed n;
     pendingInterrupt := pendingInterrupt n; isDebugThread := isDebugThread n;
     suspendOnStart := suspendOnStart n; isStarted := isStarted n;
     is_vthread := is_vthread n; popFrameEvent := popFrameEvent n;
     popFrameProceed := popFrameProceed n; popFrameThread := v;
     current_ei := current_ei n; pendingStop := pendingStop n;
     suspendCount := suspendCount n;
     instructionStepMode := instructionStepMode n;
     currentStep := currentStep n; currentInvoke := currentInvoke n;
     eventBag := eventBag n; cleInfo := cleInfo n;
     frameGeneration := frameGeneration n; node_list := node_list n |}.

Definition set_node_list (v : option ThreadList) (n : ThreadNode) : ThreadNode :=
  {| thread := thread n; toBeResumed := toBeResumed n;
     pendingInterrupt := pendingInterrupt n; isDebugThread := isDebugThread n;
     suspendOnStart := suspendOnStart n; isStarted := isStarted n;
     is_vthread := is_vthread n; popFrameEvent := popFrameEvent n;
     popFrameProceed := popFrameProceed n; popFrameThread := popFrameThread n;
     current_ei := current_ei n; pendingStop := pendingStop n;
     suspendCount := suspendCount n;
     instructionStepMode := instructionStepMode n;
     currentStep := currentStep n; currentInvoke := currentInvoke n;
     eventBag := eventBag n; cleInfo := cleInfo n;
     frameGeneration := frameGeneration n; node_list := v |}.

(** The node as [memset] leaves it in [insertThread]: all flags false, all references
    [NULL], all counts 0.  The zero of [jvmtiEventMode] is
    [JVMTI_DISABLE]. *)
Definition zero_node : ThreadNode :=
  {| thread := NULL; toBeResumed := false; pendingInterrupt := false;
     isDebugThread := false; suspendOnStart := false; isStarted := false;
     is_vthread := false; popFrameEvent := false; popFrameProceed := false;
     popFrameThread := false; current_ei := EI_none; pendingStop := NULL;
     suspendCount := 0; instructionStepMode := JVMTI_DISABLE;
     currentStep := 0; currentInvoke := 0; eventBag := 0;
     cleInfo := {| cle_ei := EI_none; cle_clazz := NULL; cle_method := 0;
                   cle_location := 0 |};
     frameGeneration := 0; node_list := None |}.

Definition HANDLING_EVENT (n : ThreadNode) : bool := negb (ei_is_zero (current_ei n)).

Record DeferredEventMode : Type := {
  dem_ei : EventIndex;
  dem_mode : jvmtiEventMode;
  dem_thread : jthread
}.

(** The fields of [gdata] that threadControl.c reads. *)
Record GlobalData : Type := {
  vthreadsSupported : bool;
  jvmtiCallBacksCleared : bool;
  assertOn : bool;
  rememberVThreadsWhenDisconnected : bool
}.

(** ** Calls that leave the module *)

Inductive Monitor : Type := threadLock | popFrameEventLock | popFrameProceedLock.

(** The other modules whose locks [getLocks] takes. *)
Inductive Subsystem : Type :=
  eventHandler | invoker | eventHelper | stepControl | commonRef.

(** What a call of [jvmtiAllocate] is for. *)
Inductive AllocKind : Type :=
| AllocThreadNode
| AllocDeferredEventMode
| AllocThreadArray (length : Z)
| AllocErrorArray (length : Z).

Inductive Event : Type :=
| EvSuspendThread (t : jthread)
| EvResumeThread (t : jthread)
| EvSuspendThreadList (ts : list jthread)
| EvResumeThreadList (ts : list jthread)
| EvSuspendAllVirtualThreads (except : list jthread)
| EvResumeAllVirtualThreads (except : list jthread)
| EvSetThreadLocalStorage (t : jthread) (node : option NodeId)
| EvSetEventNotificationMode (mode : jvmtiEventMode) (ei : EventIndex) (t : jthread)
| EvInterruptThread (t : jthread)
| EvStopThread (t : jthread) (throwable : jobject)
| EvMonitorCreate (m : Monitor)
| EvMonitorEnter (m : Monitor)
| EvMonitorExit (m : Monitor)
| EvMonitorNotifyAll (m : Monitor)
| EvLock (s : Subsystem)
| EvUnlock (s : Subsystem)
| EvPinAll
| EvUnpinAll
| EvUnblockCommandLoop
| EvHelperSuspendThread (sessionID : Z) (t : jthread)
| EvClearStepRequest (t : jthread)
| EvResetStepRequest (t : jthread)
| EvEnableInvokeRequests (t : jthread)
| EvThrow (exception : jobject)
| EvExceptionClear
| EvWaitForActiveCallbacks
| EvAssertionFailed (line : nat)
| EvGetExtensionFunctions
| EvAddDebugThreadToCheckpointState (t : jthread)
| EvRemoveDebugThreadFromCheckpointState (t : jthread).

(** The suspend and resume primitives of the runtime. *)
Definition is_suspend_resume_primitive (e : Event) : bool :=
  match e with
  | EvSuspendThread _ | EvResumeThread _
  | EvSuspendThreadList _ | EvResumeThreadList _
  | EvSuspendAllVirtualThreads _ | EvResumeAllVirtualThreads _ => true
  | _ => false
  end.

(** The answers of the runtime and of the other modules.  Each takes the
    calls made so far, so an answer may depend on everything the agent has
    done before. *)
Record Runtime : Type := {
  rt_isVThread : jthread -> bool;
  rt_GetThreadState : list Event -> jthread -> jvmtiError * Z;
  rt_GetThreadLocalStorage : list Event -> jthread -> jvmtiError;
  rt_SetThreadLocalStorage : list Event -> jthread -> option NodeId -> jvmtiError;
  rt_SuspendThread : list Event -> jthread -> jvmtiError;
  rt_ResumeThread : list Event -> jthread -> jvmtiError;
  rt_SuspendThreadList : list Event -> list jthread -> jvmtiError * list jvmtiError;
  rt_ResumeThreadList : list Event -> list jthread -> jvmtiError * list jvmtiError;
  rt_SuspendAllVirtualThreads : list Event -> list jthread -> jvmtiError;
  rt_ResumeAllVirtualThreads : list Event -> list jthread -> jvmtiError;
  rt_SetEventNotificationMode :
    list Event -> jvmtiEventMode -> EventIndex -> jthread -> jvmtiError;
  rt_allThreads : list Event -> option (list jthread);
  rt_jvmtiAllocate : list Event -> AllocKind -> bool;
  rt_createEventBag : list Event -> option bag;
  rt_NewGlobalRef : list Event -> jobject -> bool;
  rt_clearRequest : list Event -> jthread -> StepRequest -> StepRequest
}.

(** ** The state of the module *)

Record World : Type := {
  gdata : GlobalData;
  heap : gmap NodeId ThreadNode;
  tls : gmap jthread NodeId;
  runningThreads_nodes : list NodeId;
  otherThreads_nodes : list NodeId;
  runningVThreads_nodes : list NodeId;
  numRunningVThreads : Z;
  suspendAllCount : Z;
  debugThreads : list jthread;
  deferredEventModes : list DeferredEventMode;
  popFrameLocks : bool;
  trace : list Event
}.

Definition set_heap (v : gmap NodeId ThreadNode) (w : World) : World :=
  {| gdata := gdata w; heap := v; tls := tls w;
     runningThreads_nodes := runningThreads_nodes w;
     otherThreads_nodes := otherThreads_nodes w;
     runningVThreads_nodes := runningVThreads_nodes w;
     numRunningVThreads := numRunningVThreads w;
     suspendAllCount := suspendAllCount w; debugThreads := debugThreads w;
     deferredEventModes := deferredEventModes w;
     popFrameLocks := popFrameLocks w; trace := trace w |}.

Definition set_tls (v : gmap jthread NodeId) (w : World) : World :=
  {| gdata := gdata w; heap := heap w; tls := v;
     runningThreads_nodes := runningThreads_nodes w;
     otherThreads_nodes := otherThreads_nodes w;
     runningVThreads_nodes := runningVThreads_nodes w;
     numRunningVThreads := numRunningVThreads w;
     suspendAllCount := suspendAllCount w; debugThreads := debugThreads w;
     deferredEventModes := deferredEventModes w;
     popFrameLocks := popFrameLocks w; trace := trace w |}.

Definition list_nodes (l : ThreadList) (w : World) : list NodeId :=
  match l with
  | runningThreads => runningThreads_nodes w
  | otherThreads => otherThreads_nodes w
  | runningVThreads => runningVThreads_nodes w
  end.

Definition set_list_nodes (l : ThreadList) (v : list NodeId) (w : World) : World :=
  {| gdata := gdata w; heap := heap w; tls := tls w;
     runningThreads_nodes :=
       match l with runningThreads => v | _ => runningThreads_nodes w end;
     otherThreads_nodes :=
       match l with otherThreads => v | _ => otherThreads_nodes w end;
     runningVThreads_nodes :=
       match l with runningVThreads => v | _ => runningVThreads_nodes w end;
     numRunningVThreads := numRunningVThreads w;
     suspendAllCount := suspendAllCount w; debugThreads := debugThreads w;
     deferredEventModes := deferredEventModes w;
     popFrameLocks := popFrameLocks w; trace := trace w |}.

Definition set_numRunningVThreads (v : Z) (w : World) : World :=
  {| gdata := gdata w; heap := heap w; tls := tls w;
     runningThreads_nodes := runningThreads_nodes w;
     otherThreads_nodes := otherThreads_nodes w;
     runningVThreads_nodes := runningVThreads_nodes w;
     numRunningVThreads := v;
     suspendAllCount := suspendAllCount w; debugThreads := debugThreads w;
     deferredEventModes := deferredEventModes w;
     popFrameLocks := popFrameLocks w; trace := trace w |}.

Definition set_suspendAllCount (v : Z) (w : World) : World :=
  {| gdata := gdata w; heap := heap w; tls := tls w;
     runningThreads_nodes := runningThreads_nodes w;
     otherThreads_nodes := otherThreads_nodes w;
     runningVThreads_nodes := runningVThreads_nodes w;
     numRunningVThreads := numRunningVThreads w;
     suspendAllCount := v; debugThreads := debugThreads w;
     deferredEventModes := deferredEventModes w;
     popFrameLocks := popFrameLocks w; trace := trace w |}.

Definition set_debugThreads (v : list jthread) (w : World) : World :=
  {| gdata := gdata w; heap := heap w; tls := tls w;
     runningThreads_nodes := runningThreads_nodes w;
     otherThreads_nodes := otherThreads_nodes w;
     runningVThreads_nodes := runningVThreads_nodes w;
     numRunningVThreads := numRunningVThreads w;
     suspendAllCount := suspendAllCount w; debugThreads := v;
     deferredEventModes := deferredEventModes w;
     popFrameLocks := popFrameLocks w; trace := trace w |}.

Definition set_deferredEventModes (v : list DeferredEventMode) (w : World)
  : World :=
  {| gdata := gdata w; heap := heap w; tls := tls w;
     runningThreads_nodes := runningThreads_nodes w;
     otherThreads_nodes := otherThreads_nodes w;
     runningVThreads_nodes := runningVThreads_nodes w;
     numRunningVThreads := numRunningVThreads w;
     suspendAllCount := suspendAllCount w; debugThreads := debugThreads w;
     deferredEventModes := v;
     popFrameLocks := popFrameLocks w; trace := trace w |}.

Definition set_popFrameLocks (v : bool) (w : World) : World :=
  {| gdata := gdata w; heap := heap w; tls := tls w;
     runningThreads_nodes := runningThreads_nodes w;
     otherThreads_nodes := otherThreads_nodes w;
     runningVThreads_nodes := runningVThreads_nodes w;
     numRunningVThreads := numRunningVThreads w;
     suspendAllCount := suspendAllCount w; debugThreads := debugThreads w;
     deferredEventModes := deferredEventModes w;
     popFrameLocks := v; trace := trace w |}.

Definition set_trace (v : list Event) (w : World) : World :=
  {| gdata := gdata w; heap := heap w; tls := tls w;
     runningThreads_nodes := runningThreads_nodes w;
     otherThreads_nodes := otherThreads_nodes w;
     runningVThreads_nodes := runningVThreads_nodes w;
     numRunningVThreads := numRunningVThreads w;
     suspendAllCount := suspendAllCount w; debugThreads := debugThreads w;
     deferredEventModes := deferredEventModes w;
     popFrameLocks := popFrameLocks w; trace := v |}.

(** ** The monad *)

(** Why an operation did not return: [EXIT_ERROR] left the process (with the
    error and the source line of the call), or a node pointer that is not
    allocated, or a null pointer, was dereferenced. *)
Inductive Abort : Type :=
| ExitError (e : jvmtiError) (line : nat)
| BadPointer (node : NodeId)
| NullDereference.

Inductive Outcome (A : Type) : Type :=
| Ok (a : A) (w : World)
| Fatal (x : Abort) (w : World).
Arguments Ok {A} a w.
Arguments Fatal {A} x w.

Definition M (A : Type) : Type := World -> Outcome A.

Definition ret {A : Type} (a : A) : M A := fun w => Ok a w.
Definition bind {A B : Type} (m : M A) (f : A -> M B) : M B := fun w =>
  match m w with
  | Ok a w' => f a w'
  | Fatal x w' => Fatal x w'
  end.

Declare Scope M_scope.
Delimit Scope M_scope with M.
Bind Scope M_scope with M.
Notation "x ← y ; z" := (bind y (fun x => z))
  (at level 20, y at level 100, z at level 200, only parsing) : M_scope.
Notation "' x ← y ; z" := (bind y (fun x => z))
  (at level 20, x pattern, y at level 100, z at level 200, only parsing) : M_scope.
Notation "x ;; z" := (bind x (fun _ => z))
  (at level 100, z at level 200, only parsing, right associativity) : M_scope.
Open Scope M_scope.

Definition get_world : M World := fun w => Ok w w.
Definition modify_world (f : World -> World) : M unit := fun w => Ok tt (f w).
Definition skip : M unit := ret tt.
Definition emit (e : Event) : M unit :=
  modify_world (fun w => set_trace (trace w ++ [e]) w).

(** Modelled from the spec: the [EXIT_ERROR] macro of util.h, which the spec
    describes as the fatal exit of the process. *)
Definition EXIT_ERROR {A : Type} (e : jvmtiError) (line : nat) : M A :=
  fun w => Fatal (ExitError e line) w.

(** Modelled from the spec: the [JDI_ASSERT] macro of util.h.  The spec calls
    it an assertion; a failed check is recorded in the trace when
    assertions are switched on ([gdata->assertOn]) and is otherwise
    skipped. *)
Definition JDI_ASSERT (line : nat) (expression : bool) : M unit :=
  w ← get_world;
  if assertOn (gdata w) && negb expression
  then emit (EvAssertionFailed line)
  else skip.

(** A node read and written through its pointer. *)
Definition read_node (node : NodeId) : M ThreadNode := fun w =>
  match heap w !! node with
  | Some n => Ok n w
  | None => Fatal (BadPointer node) w
  end.

Definition modify_node (node : NodeId) (f : ThreadNode -> ThreadNode) : M unit :=
  n ← read_node node;
  modify_world (fun w => set_heap (<[node := f n]> (heap w)) w).

Definition debugMonitorEnter (m : Monitor) : M unit := emit (EvMonitorEnter m).
Definition debugMonitorExit (m : Monitor) : M unit := emit (EvMonitorExit m).
Definition debugMonitorNotifyAll (m : Monitor) : M unit := emit (EvMonitorNotifyAll m).

(** ** The operations of threadControl.c *)

Section ThreadControl.

Context (vm : Runtime).

(** The rendezvous of the pop-frame protocol blocks on a raw monitor until
    another thread of the process answers.  The two blocking pieces,
    [popFrameCompleteEvent] on the side of the popped thread and
    [popOneFrame] on the side of the command thread, are taken as they
    come. *)
Context (popFrameCompleteEvent : jthread -> M unit).
Context (popOneFrame : jthread -> M jvmtiError).

(** The answer of [invoker_isEnabled], a function of invoker.c. *)
Context (invoker_isEnabled : list Event -> jthread -> bool).

(** *** Calls of the runtime *)

Definition JVMTI_SuspendThread (t : jthread) : M jvmtiError :=
  w ← get_world;
  emit (EvSuspendThread t);;
  ret (rt_SuspendThread vm (trace w) t).

Definition JVMTI_ResumeThread (t : jthread) : M jvmtiError :=
  w ← get_world;
  emit (EvResumeThread t);;
  ret (rt_ResumeThread vm (trace w) t).

Definition JVMTI_SuspendThreadList (ts : list jthread)
  : M (jvmtiError * list jvmtiError) :=
  w ← get_world;
  emit (EvSuspendThreadList ts);;
  ret (rt_SuspendThreadList vm (trace w) ts).

Definition JVMTI_ResumeThreadList (ts : list jthread)
  : M (jvmtiError * list jvmtiError) :=
  w ← get_world;
  emit (EvResumeThreadList ts);;
  ret (rt_ResumeThreadList vm (trace w) ts).

Definition JVMTI_SuspendAllVirtualThreads (except : list jthread) : M jvmtiError :=
  w ← get_world;
  emit (EvSuspendAllVirtualThreads except);;
  ret (rt_SuspendAllVirtualThreads vm (trace w) except).

Definition JVMTI_ResumeAllVirtualThreads (except : list jthread) : M jvmtiError :=
  w ← get_world;
  emit (EvResumeAllVirtualThreads except);;
  ret (rt_ResumeAllVirtualThreads vm (trace w) except).

Definition JVMTI_SetEventNotificationMode
    (mode : jvmtiEventMode) (ei : EventIndex) (t : jthread) : M jvmtiError :=
  w ← get_world;
  emit (EvSetEventNotificationMode mode ei t);;
  ret (rt_SetEventNotificationMode vm (trace w) mode ei t).

(** [jvmtiAllocate] gives [false] for a null result. *)
Definition jvmtiAllocate (k : AllocKind) : M bool :=
  w ← get_world;
  ret (rt_jvmtiAllocate vm (trace w) k).

(** [saveGlobalRef(env, obj, &ref)]: the value left in [ref], [NULL] when no
    global reference could be made. *)
Definition saveGlobalRef (obj : jobject) : M jobject :=
  w ← get_world;
  ret (if rt_NewGlobalRef vm (trace w) obj then obj else NULL).

(** [newArray(length, nbytes)]: a zeroed array of [length] entries, or the
    null pointer. *)
Definition newArray {A : Type} (k : AllocKind) (length : Z) (zero : A)
  : M (option (list A)) :=
  ok ← jvmtiAllocate k;
  ret (if ok then Some (replicate (Z.to_nat length) zero) else None).

Definition isVThread (t : jthread) : bool := rt_isVThread vm t.

(** Get the state of the thread direct from JVMTI (line 156). *)
Definition threadState (t : jthread) : M (jvmtiError * Z) :=
  w ← get_world;
  ret (rt_GetThreadState vm (trace w) t).

(** Set TLS on a specific jthread to the ThreadNode* (line 165). *)
Definition setThreadLocalStorage (t : jthread) (node : option NodeId) : M unit :=
  w ← get_world;
  let error := rt_SetThreadLocalStorage vm (trace w) t node in
  emit (EvSetThreadLocalStorage t node);;
  (if is_NONE error
   then modify_world (fun w =>
          set_tls (match node with
                   | Some p => <[t := p]> (tls w)
                   | None => delete t (tls w)
                   end) w)
   else skip);;
  if is_THREAD_NOT_ALIVE error && bool_decide (node = None) then skip
  else if negb (is_NONE error) then EXIT_ERROR error 177
  else skip.

(** Get TLS on a specific jthread, which is the ThreadNode* (line 182). *)
Definition getThreadLocalStorage (t : jthread) : M (option NodeId) :=
  w ← get_world;
  let error := rt_GetThreadLocalStorage vm (trace w) t in
  if is_THREAD_NOT_ALIVE error then ret None
  else if negb (is_NONE error) then EXIT_ERROR error 196
  else ret (tls w !! t).

(** *** The thread lists *)

Fixpoint nonTlsSearch_from (nodes : list NodeId) (t : jthread)
  : M (option NodeId) :=
  match nodes with
  | [] => ret None
  | node :: rest =>
      n ← read_node node;
      if isSameObject (thread n) t then ret (Some node)
      else nonTlsSearch_from rest t
  end.

(** Search list for nodes that match this thread (line 208). *)
Definition nonTlsSearch (lst : ThreadList) (t : jthread) : M (option NodeId) :=
  w ← get_world;
  nonTlsSearch_from (list_nodes lst w) t.

(** [list == NULL || list == &l] *)
Definition any_or (lst : option ThreadList) (l : ThreadList) : bool :=
  match lst with
  | None => true
  | Some l' => ThreadList_eqb l' l
  end.

(** [node->list != list] *)
Definition not_on (n : ThreadNode) (l : ThreadList) : bool :=
  match node_list n with
  | None => true
  | Some l' => negb (ThreadList_eqb l' l)
  end.

(** [JDI_ASSERT(!nonTlsSearch(getEnv(), &l, thread))]: the search runs only
    when assertions are on. *)
Definition assert_not_on (line : nat) (l : ThreadList) (t : jthread) : M unit :=
  w ← get_world;
  if assertOn (gdata w)
  then r ← nonTlsSearch l t; JDI_ASSERT line (bool_decide (r = None))
  else skip.

(** Search for a thread on the list. If list==NULL, search all lists
    (line 229). *)
Definition findThread (lst : option ThreadList) (t : jthread)
  : M (option NodeId) :=
  node ← getThreadLocalStorage t;
  node ← match node with
          | Some _ => ret node
          | None =>
              node ← (if any_or lst otherThreads
                       then nonTlsSearch otherThreads t
                       else ret None);
              w ← get_world;
              if negb (jvmtiCallBacksCleared (gdata w)) then
                assert_not_on 267 runningThreads t;;
                assert_not_on 268 runningVThreads t;;
                ret node
              else
                match node with
                | Some _ => ret node
                | None =>
                    node ← (if any_or lst runningThreads
                             then nonTlsSearch runningThreads t
                             else ret None);
                    match node with
                    | Some _ => ret node
                    | None =>
                        if any_or lst runningVThreads
                        then nonTlsSearch runningVThreads t
                        else ret None
                    end
                end
          end;
  match node, lst with
  | Some p, Some l =>
      n ← read_node p;
      if not_on n l then ret None else ret node
  | _, _ => ret node
  end.

(** Search for a running thread, including vthreads (line 296). *)
Definition findRunningThread (t : jthread) : M (option NodeId) :=
  if isVThread t
  then findThread (Some runningVThreads) t
  else findThread (Some runningThreads) t.

Definition remove_id (node : NodeId) (nodes : list NodeId) : list NodeId :=
  filter (fun p => p ≠ node) nodes.

(** Remove a ThreadNode from a ThreadList (line 309), for a node that is
    linked on the list its [list] field names: the chain loses the node
    ([Links.removeNode] is the pointer code, [Links_refine] the agreement).
    A node whose [list] field is null has no [prev] either, and the C code
    then writes through the null list pointer. *)
Definition removeNode (node : NodeId) : M unit :=
  n ← read_node node;
  match node_list n with
  | None => fun w => Fatal NullDereference w
  | Some l =>
      modify_world (fun w => set_list_nodes l (remove_id node (list_nodes l w)) w);;
      modify_node node (set_node_list None);;
      if ThreadList_eqb l runningVThreads
      then modify_world (fun w =>
             set_numRunningVThreads (jint_dec (numRunningVThreads w)) w)
      else skip
  end.

(** Add a ThreadNode to a ThreadList (line 336), for a node that is linked
    on no list: the node becomes the head of the chain ([Links.addNode] is
    the pointer code, [Links_refine] the agreement). *)
Definition addNode (lst : ThreadList) (node : NodeId) : M unit :=
  modify_node node (set_node_list None);;
  modify_world (fun w => set_list_nodes lst (node :: list_nodes lst w) w);;
  modify_node node (set_node_list (Some lst));;
  if ThreadList_eqb lst runningVThreads
  then modify_world (fun w =>
         set_numRunningVThreads (jint_inc (numRunningVThreads w)) w)
  else skip.

(** [threadControl_isDebugThread] (line 1752). *)
Definition contains (lst : list jthread) (item : jthread) : bool :=
  existsb (fun x => isSameObject x item) lst.

Definition threadControl_isDebugThread (t : jthread) : M bool :=
  debugMonitorEnter threadLock;;
  w ← get_world;
  let rc := existsb (fun d => isSameObject t d) (debugThreads w) in
  debugMonitorExit threadLock;;
  ret rc.

Fixpoint remove_first (t : jthread) (ds : list jthread) : option (list jthread) :=
  match ds with
  | [] => None
  | d :: rest =>
      if isSameObject t d then Some rest
      else match remove_first t rest with
           | Some rest' => Some (d :: rest')
           | None => None
           end
  end.

(** [threadControl_removeDebugThread] (line 1718), as built without
    [J9VM_OPT_CRIU_SUPPORT]; the build with it is
    [Criu.threadControl_removeDebugThread], where the status returned is
    the one of the checkpoint extension, which the only caller drops. *)
Definition threadControl_removeDebugThread (t : jthread) : M jvmtiError :=
  debugMonitorEnter threadLock;;
  w ← get_world;
  error ← match remove_first t (debugThreads w) with
           | Some ds => modify_world (set_debugThreads ds);; ret JVMTI_ERROR_NONE
           | None => ret AGENT_ERROR_INVALID_THREAD
           end;
  debugMonitorExit threadLock;;
  ret error.

(** [stepControl_clearRequest(node->thread, &node->currentStep)] *)
Definition stepControl_clearRequest (node : NodeId) : M unit :=
  n ← read_node node;
  w ← get_world;
  emit (EvClearStepRequest (thread n));;
  modify_node node (set_currentStep (rt_clearRequest vm (trace w) (thread n) (currentStep n))).

Definition jvmtiDeallocate (node : NodeId) : M unit :=
  modify_world (fun w => set_heap (delete node (heap w)) w).

(** [insertThread] (line 355). *)
Definition insertThread (lst : ThreadList) (t : jthread) : M NodeId :=
  let is_vthread := ThreadList_eqb lst runningVThreads in
  found ← findThread (Some lst) t;
  match found with
  | Some node => ret node
  | None =>
      ok ← jvmtiAllocate AllocThreadNode;
      if negb ok then EXIT_ERROR AGENT_ERROR_OUT_OF_MEMORY 366 else
      w ← get_world;
      let node : NodeId := fresh (dom (heap w)) in
      modify_world (fun w => set_heap (<[node := zero_node]> (heap w)) w);;
      w ← get_world;
      match rt_createEventBag vm (trace w) with
      | None => jvmtiDeallocate node;; EXIT_ERROR AGENT_ERROR_OUT_OF_MEMORY 373
      | Some eventBag =>
          ref ← saveGlobalRef t;
          modify_node node (set_thread ref);;
          if isSameObject ref NULL
          then jvmtiDeallocate node;; EXIT_ERROR AGENT_ERROR_OUT_OF_MEMORY 385
          else
          lst ← (if negb is_vthread then
                   dbg ← threadControl_isDebugThread ref;
                   (if dbg then modify_node node (set_isDebugThread true)
                    else
                      w ← get_world;
                      if 0 <? suspendAllCount w then
                        modify_node node (set_suspendCount (suspendAllCount w));;
                        modify_node node (set_suspendOnStart true)
                      else skip);;
                   ret lst
                 else
                   '(error, vthread_state) ← threadState ref;
                   (if negb (is_NONE error) then EXIT_ERROR error 407 else skip);;
                   let lst := if Z.land vthread_state JVMTI_THREAD_STATE_ALIVE =? 0
                              then otherThreads else lst in
                   w ← get_world;
                   (if 0 <? suspendAllCount w then
                      modify_node node (set_suspendCount (suspendAllCount w));;
                      if vthread_state =? 0
                      then modify_node node (set_suspendOnStart true)
                      else skip
                    else skip);;
                   (if negb (vthread_state =? 0)
                    then modify_node node (set_isStarted true)
                    else skip);;
                   ret lst);
          modify_node node (set_current_ei EI_none);;
          modify_node node (set_is_vthread is_vthread);;
          modify_node node (set_instructionStepMode JVMTI_DISABLE);;
          modify_node node (set_eventBag eventBag);;
          addNode lst node;;
          (if negb (ThreadList_eqb lst otherThreads)
           then n ← read_node node; setThreadLocalStorage (thread n) (Some node)
           else skip);;
          ret node
      end
  end.

(** [clearThread] (line 466). *)
Definition clearThread (node : NodeId) : M unit :=
  n ← read_node node;
  (if negb (isSameObject (pendingStop n) NULL)
   then modify_node node (set_pendingStop NULL)
   else skip);;
  stepControl_clearRequest node;;
  (if isDebugThread n
   then threadControl_removeDebugThread (thread n);; skip
   else skip);;
  setThreadLocalStorage (thread n) None;;
  jvmtiDeallocate node.

(** [removeThread] (line 483). *)
Definition removeThread (node : NodeId) : M unit :=
  removeNode node;;
  clearThread node.

Fixpoint removeResumed_from (nodes : list NodeId) : M unit :=
  match nodes with
  | [] => skip
  | node :: rest =>
      n ← read_node node;
      (if suspendCount n =? 0 then removeThread node else skip);;
      removeResumed_from rest
  end.

(** [removeResumed] (line 491): the walk reads [node->next] before a node is
    freed, so it visits the nodes that were on the list when it began. *)
Definition removeResumed (lst : ThreadList) : M unit :=
  w ← get_world;
  removeResumed_from (list_nodes lst w).

Fixpoint removeVThreads_from (nodes : list NodeId) : M unit :=
  match nodes with
  | [] => skip
  | node :: rest =>
      removeNode node;;
      clearThread node;;
      removeVThreads_from rest
  end.

(** [removeVThreads] (line 506). *)
Definition removeVThreads : M unit :=
  w ← get_world;
  removeVThreads_from (list_nodes runningVThreads w).

(** [moveNode] (line 519). *)
Definition moveNode (source dest : ThreadList) (node : NodeId) : M unit :=
  removeNode node;;
  w ← get_world;
  (if assertOn (gdata w)
   then n ← read_node node;
        r ← findThread (Some dest) (thread n);
        JDI_ASSERT 523 (bool_decide (r = None))
   else skip);;
  addNode dest node.

Fixpoint enumerate_from {A : Type} (nodes : list NodeId)
    (function : NodeId -> A -> M (jvmtiError * A)) (arg : A)
  : M (jvmtiError * A) :=
  match nodes with
  | [] => ret (JVMTI_ERROR_NONE, arg)
  | node :: rest =>
      '(error, arg) ← function node arg;
      if is_NONE error then enumerate_from rest function arg
      else ret (error, arg)
  end.

(** [enumerateOverThreadList] (line 529).  The visitor gets the value that
    its [arg] pointer designates and gives back the updated one.  No visitor
    unlinks a node, and a node inserted meanwhile goes to the head, before
    the node being visited, so the walk covers the nodes that were on the
    list when it began. *)
Definition enumerateOverThreadList {A : Type} (lst : ThreadList)
    (function : NodeId -> A -> M (jvmtiError * A)) (arg : A)
  : M (jvmtiError * A) :=
  w ← get_world;
  enumerate_from (list_nodes lst w) function arg.
(** *** Suspending and resuming one node *)

(** [commonSuspendByNode] (line 752). *)
Definition commonSuspendByNode (node : NodeId) : M jvmtiError :=
  n ← read_node node;
  error ← JVMTI_SuspendThread (thread n);
  (if is_NONE error then modify_node node (set_toBeResumed true) else skip);;
  JDI_ASSERT 772 (negb (is_THREAD_SUSPENDED error));;
  ret error.

(** [node->suspendCount++] and [node->suspendCount--] *)
Definition incr_suspendCount (node : NodeId) : M unit :=
  n ← read_node node;
  modify_node node (set_suspendCount (jint_inc (suspendCount n))).

Definition decr_suspendCount (node : NodeId) : M unit :=
  n ← read_node node;
  modify_node node (set_suspendCount (jint_dec (suspendCount n))).

(** [node->frameGeneration++] *)
Definition incr_frameGeneration (node : NodeId) : M unit :=
  n ← read_node node;
  modify_node node (set_frameGeneration (jlong_inc (frameGeneration n))).

(** [deferredSuspendThreadByNode] (line 785). *)
Definition deferredSuspendThreadByNode (node : NodeId) : M jvmtiError :=
  n ← read_node node;
  if isDebugThread n then ret JVMTI_ERROR_NONE else
  error ← (if 0 <? suspendCount n then
             error ← commonSuspendByNode node;
             (if negb (is_NONE error) then decr_suspendCount node else skip);;
             ret error
           else ret JVMTI_ERROR_NONE);
  modify_node node (set_suspendOnStart false);;
  debugMonitorNotifyAll threadLock;;
  ret error.

(** [suspendThreadByNode] (line 820). *)
Definition suspendThreadByNode (node : NodeId) : M jvmtiError :=
  n ← read_node node;
  if isDebugThread n then ret JVMTI_ERROR_NONE else
  if suspendOnStart n then
    incr_suspendCount node;;
    ret JVMTI_ERROR_NONE
  else
  error ← (if suspendCount n =? 0 then
             error ← commonSuspendByNode node;
             if is_THREAD_NOT_ALIVE error then
               modify_node node (set_suspendOnStart true);;
               ret JVMTI_ERROR_NONE
             else ret error
           else ret JVMTI_ERROR_NONE);
  (if is_NONE error then incr_suspendCount node else skip);;
  debugMonitorNotifyAll threadLock;;
  ret error.

(** [resumeThreadByNode] (line 863). *)
Definition resumeThreadByNode (node : NodeId) : M jvmtiError :=
  n ← read_node node;
  if isDebugThread n then ret JVMTI_ERROR_NONE else
  if 0 <? suspendCount n then
    decr_suspendCount node;;
    debugMonitorNotifyAll threadLock;;
    n ← read_node node;
    if (suspendCount n =? 0) && toBeResumed n then
      JDI_ASSERT 877 (negb (suspendOnStart n));;
      error ← JVMTI_ResumeThread (thread n);
      incr_frameGeneration node;;
      modify_node node (set_toBeResumed false);;
      if is_THREAD_NOT_ALIVE error && negb (isStarted n)
      then ret JVMTI_ERROR_NONE
      else ret error
    else ret JVMTI_ERROR_NONE
  else ret JVMTI_ERROR_NONE.

(** *** Locks *)

Definition lock (s : Subsystem) : M unit := emit (EvLock s).
Definition unlock (s : Subsystem) : M unit := emit (EvUnlock s).

(** [getLocks] (line 646) and [releaseLocks] (line 666). *)
Definition getLocks : M unit :=
  lock eventHandler;;
  lock invoker;;
  lock eventHelper;;
  lock stepControl;;
  lock commonRef;;
  debugMonitorEnter threadLock.

Definition releaseLocks : M unit :=
  debugMonitorExit threadLock;;
  unlock commonRef;;
  unlock stepControl;;
  unlock eventHelper;;
  unlock invoker;;
  unlock eventHandler.

Definition preSuspend : M unit := getLocks.
Definition postSuspend : M unit := releaseLocks.

(** *** Suspending and resuming by thread *)

(** [commonSuspend] (line 928). *)
Definition commonSuspend (t : jthread) (deferred : bool) : M jvmtiError :=
  found ← findRunningThread t;
  node ← match found with
          | Some node => ret node
          | None =>
              if isVThread t
              then insertThread runningVThreads t
              else insertThread otherThreads t
          end;
  if deferred
  then deferredSuspendThreadByNode node
  else suspendThreadByNode node.

(** The array and the write position that a [jthread **listPtr] argument
    walks.  A write past the end of the array is dropped here; in C it is
    outside the array. *)
Definition ListPtr : Type := list jthread * nat.

Definition store_thread (t : jthread) (arg : ListPtr) : ListPtr :=
  (<[snd arg := t]> (fst arg), S (snd arg)).

(** [resumeCopyHelper] (line 964); [arg] is [None] for a null [arg]. *)
Definition resumeCopyHelper (node : NodeId) (arg : option ListPtr)
  : M (jvmtiError * option ListPtr) :=
  n ← read_node node;
  if isDebugThread n then ret (JVMTI_ERROR_NONE, arg) else
  if 1 <? suspendCount n then
    decr_suspendCount node;;
    ret (JVMTI_ERROR_NONE, arg)
  else
  if (suspendCount n =? 1) && suspendOnStart n then
    JDI_ASSERT 986 (negb (toBeResumed n));;
    decr_suspendCount node;;
    ret (JVMTI_ERROR_NONE, arg)
  else
  match arg with
  | None => ret (JVMTI_ERROR_NONE, arg)
  | Some listPtr =>
      if (suspendCount n =? 1) && toBeResumed n then
        JDI_ASSERT 1004 (negb (suspendOnStart n));;
        ret (JVMTI_ERROR_NONE, Some (store_thread (thread n) listPtr))
      else ret (JVMTI_ERROR_NONE, arg)
  end.

(** [resumeCountHelper] (line 1013). *)
Definition resumeCountHelper (node : NodeId) (counter : Z) : M (jvmtiError * Z) :=
  n ← read_node node;
  if isDebugThread n then ret (JVMTI_ERROR_NONE, counter) else
  if (suspendCount n =? 1) && toBeResumed n then
    JDI_ASSERT 1028 (negb (suspendOnStart n));;
    ret (JVMTI_ERROR_NONE, jint_inc counter)
  else ret (JVMTI_ERROR_NONE, counter).

(** The loop that follows [ResumeThreadList] in [commonResumeList]
    (lines 1121 to 1140). *)
Fixpoint commonResumeList_loop (reqList : list jthread) : M unit :=
  match reqList with
  | [] => skip
  | t :: rest =>
      found ← findRunningThread t;
      match found with
      | None => EXIT_ERROR AGENT_ERROR_INVALID_THREAD 1126
      | Some node =>
          decr_suspendCount node;;
          modify_node node (set_toBeResumed false);;
          incr_frameGeneration node;;
          commonResumeList_loop rest
      end
  end.

(** [commonResumeList] (line 1075). *)
Definition commonResumeList : M jvmtiError :=
  '(_, reqCnt) ← enumerateOverThreadList runningThreads resumeCountHelper 0;
  '(_, reqCnt) ← enumerateOverThreadList runningVThreads resumeCountHelper reqCnt;
  if reqCnt =? 0 then
    enumerateOverThreadList runningThreads resumeCopyHelper None;;
    enumerateOverThreadList runningVThreads resumeCopyHelper None;;
    ret JVMTI_ERROR_NONE
  else
  reqList ← newArray (AllocThreadArray reqCnt) reqCnt NULL;
  match reqList with
  | None => EXIT_ERROR AGENT_ERROR_OUT_OF_MEMORY 1104
  | Some reqList =>
      results ← newArray (AllocErrorArray reqCnt) reqCnt JVMTI_ERROR_NONE;
      match results with
      | None => EXIT_ERROR AGENT_ERROR_OUT_OF_MEMORY 1109
      | Some _ =>
          '(_, reqPtr) ← enumerateOverThreadList runningThreads resumeCopyHelper
                            (Some (reqList, 0%nat));
          '(_, reqPtr) ← enumerateOverThreadList runningVThreads resumeCopyHelper
                            reqPtr;
          let reqList := match reqPtr with Some p => fst p | None => reqList end in
          '(error, _) ← JVMTI_ResumeThreadList reqList;
          commonResumeList_loop reqList;;
          debugMonitorNotifyAll threadLock;;
          ret error
      end
  end.

(** The first loop of [commonSuspendList] (lines 1171 to 1202). *)
Fixpoint commonSuspendList_scan (initList : list jthread) (req : ListPtr)
  : M ListPtr :=
  match initList with
  | [] => ret req
  | t :: rest =>
      found ← findThread (Some runningThreads) t;
      node ← match found with
              | Some node => ret node
              | None => insertThread otherThreads t
              end;
      n ← read_node node;
      if isDebugThread n then commonSuspendList_scan rest req else
      if suspendOnStart n || (0 <? suspendCount n) then
        incr_suspendCount node;;
        commonSuspendList_scan rest req
      else
      if suspendCount n =? 0
      then commonSuspendList_scan rest (store_thread t req)
      else commonSuspendList_scan rest req
  end.

(** [results[i]] of an array that [newArray] zeroed before the runtime
    filled it. *)
Definition result_at (results : list jvmtiError) (i : nat) : jvmtiError :=
  default JVMTI_ERROR_NONE (results !! i).

(** The loop that follows [SuspendThreadList] in [commonSuspendList]
    (lines 1216 to 1251). *)
Fixpoint commonSuspendList_loop (reqList : list jthread)
    (results : list jvmtiError) (i : nat) : M unit :=
  match reqList with
  | [] => skip
  | t :: rest =>
      found ← findThread None t;
      match found with
      | None => EXIT_ERROR AGENT_ERROR_INVALID_THREAD 1221
      | Some node =>
          result ← (if is_NONE (result_at results i) then
                      modify_node node (set_toBeResumed true);;
                      ret (result_at results i)
                    else if is_THREAD_SUSPENDED (result_at results i) then
                      ret JVMTI_ERROR_NONE
                    else if is_THREAD_NOT_ALIVE (result_at results i) then
                      modify_node node (set_suspendOnStart true);;
                      ret JVMTI_ERROR_NONE
                    else ret (result_at results i));
          (if is_NONE result then incr_suspendCount node else skip);;
          commonSuspendList_loop rest results (S i)
      end
  end.

(** [commonSuspendList] (line 1153); [initCount] is the length of
    [initList]. *)
Definition commonSuspendList (initList : list jthread) : M jvmtiError :=
  let initCount := Z.of_nat (length initList) in
  reqList ← newArray (AllocThreadArray initCount) initCount NULL;
  match reqList with
  | None => EXIT_ERROR AGENT_ERROR_OUT_OF_MEMORY 1165
  | Some reqList =>
      '(reqList, reqCnt) ← commonSuspendList_scan initList (reqList, 0%nat);
      error ← (if (0 <? reqCnt)%nat then
                 results ← newArray (AllocErrorArray (Z.of_nat reqCnt))
                              (Z.of_nat reqCnt) JVMTI_ERROR_NONE;
                 match results with
                 | None => EXIT_ERROR AGENT_ERROR_OUT_OF_MEMORY 1208
                 | Some _ =>
                     '(error, results) ← JVMTI_SuspendThreadList (take reqCnt reqList);
                     commonSuspendList_loop (take reqCnt reqList) results 0%nat;;
                     ret error
                 end
               else ret JVMTI_ERROR_NONE);
      debugMonitorNotifyAll threadLock;;
      ret error
  end.

(** [commonResume] (line 1261). *)
Definition commonResume (t : jthread) : M jvmtiError :=
  found ← findThread None t;
  match found with
  | Some node => resumeThreadByNode node
  | None => ret JVMTI_ERROR_NONE
  end.

(** [threadControl_suspendThread] (line 1288). *)
Definition threadControl_suspendThread (t : jthread) (deferred : bool)
  : M jvmtiError :=
  preSuspend;;
  error ← commonSuspend t deferred;
  postSuspend;;
  ret error.

Definition unblockCommandLoop : M unit := emit EvUnblockCommandLoop.

(** [threadControl_resumeThread] (line 1305). *)
Definition threadControl_resumeThread (t : jthread) (do_unblock : bool)
  : M jvmtiError :=
  lock eventHandler;;
  debugMonitorEnter threadLock;;
  error ← commonResume t;
  removeResumed otherThreads;;
  debugMonitorExit threadLock;;
  unlock eventHandler;;
  (if do_unblock then unblockCommandLoop else skip);;
  ret error.

(** [threadControl_suspendCount] (line 1330): the status and the value
    stored through [count].  The [error] bound in the virtual-thread
    branch is the inner variable of the source; the status returned is the
    outer one. *)
Definition threadControl_suspendCount (t : jthread) : M (jvmtiError * Z) :=
  debugMonitorEnter threadLock;;
  node ← findRunningThread t;
  node ← match node with
          | None => findThread (Some otherThreads) t
          | Some _ => ret node
          end;
  let error := JVMTI_ERROR_NONE in
  count ← match node with
           | Some p => n ← read_node p; ret (suspendCount n)
           | None =>
               if isVThread t then
                 '(error, vthread_state) ← threadState t;
                 (if negb (is_NONE error) then EXIT_ERROR error 1355 else skip);;
                 if vthread_state =? 0 then ret 0
                 else w ← get_world; ret (suspendAllCount w)
               else ret 0
           end;
  debugMonitorExit threadLock;;
  ret (error, count).

(** *** Suspending and resuming the whole VM *)

(** [incrementSuspendCountHelper] (line 1388). *)
Definition incrementSuspendCountHelper (node : NodeId) (arg : unit)
  : M (jvmtiError * unit) :=
  modify_node node (set_toBeResumed true);;
  incr_suspendCount node;;
  ret (JVMTI_ERROR_NONE, arg).

(** [suspendAllHelper] (line 1401); [arg] is the thread array of the
    [SuspendAllArg]. *)
Definition suspendAllHelper (node : NodeId) (arg : list jthread)
  : M (jvmtiError * list jthread) :=
  n ← read_node node;
  if negb (contains arg (thread n)) then
    error ← commonSuspend (thread n) false;
    ret (error, arg)
  else ret (JVMTI_ERROR_NONE, arg).

Definition commonRef_pinAll : M unit := emit EvPinAll.
Definition commonRef_unpinAll : M unit := emit EvUnpinAll.

(** [threadControl_suspendAll] (line 1414). *)
Definition threadControl_suspendAll : M jvmtiError :=
  preSuspend;;
  w ← get_world;
  (if vthreadsSupported (gdata w) then
     (if suspendAllCount w =? 0 then
        error ← JVMTI_SuspendAllVirtualThreads [];
        (if negb (is_NONE error) then EXIT_ERROR error 1443 else skip);;
        debugMonitorNotifyAll threadLock
      else skip);;
     '(error, _) ← enumerateOverThreadList runningVThreads
                      incrementSuspendCountHelper tt;
     JDI_ASSERT 1457 (is_NONE error)
   else skip);;
  w ← get_world;
  error ← match rt_allThreads vm (trace w) with
           | None => ret AGENT_ERROR_OUT_OF_MEMORY
           | Some threads =>
               error ← commonSuspendList threads;
               if negb (is_NONE error) then ret error else
               '(error, _) ← enumerateOverThreadList otherThreads
                                suspendAllHelper threads;
               (if is_NONE error then
                  commonRef_pinAll;;
                  modify_world (fun w =>
                    set_suspendAllCount (jint_inc (suspendAllCount w)) w)
                else skip);;
               ret error
           end;
  postSuspend;;
  ret error.

(** [resumeHelper] (line 1502). *)
Definition resumeHelper (node : NodeId) (ignored : unit) : M (jvmtiError * unit) :=
  error ← resumeThreadByNode node;
  ret (error, ignored).

(** [excludeCountHelper] (line 1513). *)
Definition excludeCountHelper (node : NodeId) (counter : Z) : M (jvmtiError * Z) :=
  n ← read_node node;
  JDI_ASSERT 1516 (is_vthread n);;
  if 0 <? suspendCount n
  then ret (JVMTI_ERROR_NONE, jint_inc counter)
  else ret (JVMTI_ERROR_NONE, counter).

(** [excludeCopyHelper] (line 1524). *)
Definition excludeCopyHelper (node : NodeId) (listPtr : ListPtr)
  : M (jvmtiError * ListPtr) :=
  n ← read_node node;
  JDI_ASSERT 1527 (is_vthread n);;
  if 0 <? suspendCount n
  then ret (JVMTI_ERROR_NONE, store_thread (thread n) listPtr)
  else ret (JVMTI_ERROR_NONE, listPtr).

(** [threadControl_resumeAll] (line 1536). *)
Definition threadControl_resumeAll : M jvmtiError :=
  lock eventHandler;;
  debugMonitorEnter threadLock;;
  w ← get_world;
  (if vthreadsSupported (gdata w) && (suspendAllCount w =? 1) then
     '(_, excludeCnt) ← enumerateOverThreadList runningVThreads
                           excludeCountHelper 0;
     excludeList ← (if 0 <? excludeCnt then
                       excludeList ← newArray (AllocThreadArray excludeCnt)
                                        excludeCnt NULL;
                       match excludeList with
                       | None => EXIT_ERROR AGENT_ERROR_OUT_OF_MEMORY 1569
                       | Some excludeList =>
                           '(_, excludeListPtr) ←
                              enumerateOverThreadList runningVThreads
                                excludeCopyHelper (excludeList, 0%nat);
                           ret (fst excludeListPtr)
                       end
                     else ret []);
     error ← JVMTI_ResumeAllVirtualThreads excludeList;
     (if negb (is_NONE error) then EXIT_ERROR error 1580 else skip);;
     debugMonitorNotifyAll threadLock
   else skip);;
  error ← commonResumeList;
  w ← get_world;
  error ← (if is_NONE error && negb (bool_decide (otherThreads_nodes w = [])) then
             '(error, _) ← enumerateOverThreadList otherThreads resumeHelper tt;
             removeResumed otherThreads;;
             ret error
           else ret error);
  w ← get_world;
  (if 0 <? suspendAllCount w then
     commonRef_unpinAll;;
     modify_world (fun w => set_suspendAllCount (jint_dec (suspendAllCount w)) w)
   else skip);;
  debugMonitorExit threadLock;;
  unlock eventHandler;;
  unblockCommandLoop;;
  ret error.

(** *** Deferred event modes *)

(** [threadSetEventNotificationMode] (line 604). *)
Definition threadSetEventNotificationMode (node : NodeId)
    (mode : jvmtiEventMode) (ei : EventIndex) (t : jthread) : M jvmtiError :=
  (if is_SINGLE_STEP ei
   then modify_node node (set_instructionStepMode mode)
   else skip);;
  JVMTI_SetEventNotificationMode mode ei t.

(** [addDeferredEventMode] (line 569), with [insertEventMode] (line 545)
    appending to the FIFO. *)
Definition addDeferredEventMode (mode : jvmtiEventMode) (ei : EventIndex)
    (t : jthread) : M jvmtiError :=
  ok ← jvmtiAllocate AllocDeferredEventMode;
  if negb ok then ret AGENT_ERROR_OUT_OF_MEMORY else
  ref ← saveGlobalRef t;
  modify_world (fun w =>
    set_deferredEventModes
      (deferredEventModes w ++ [{| dem_ei := ei; dem_mode := mode; dem_thread := ref |}])
      w);;
  ret JVMTI_ERROR_NONE.

(** The walk of [processDeferredEventModes]: [kept] are the entries already
    passed over, [rest] those still to visit. *)
Fixpoint processDeferredEventModes_from (kept rest : list DeferredEventMode)
    (t : jthread) (node : NodeId) : M unit :=
  match rest with
  | [] => skip
  | eventMode :: next =>
      if isSameObject t (dem_thread eventMode) then
        error ← threadSetEventNotificationMode node (dem_mode eventMode)
                   (dem_ei eventMode) (dem_thread eventMode);
        (if negb (is_NONE error) then EXIT_ERROR error 634 else skip);;
        modify_world (set_deferredEventModes (kept ++ next));;
        processDeferredEventModes_from kept next t node
      else processDeferredEventModes_from (kept ++ [eventMode]) next t node
  end.

(** [processDeferredEventModes] (line 619). *)
Definition processDeferredEventModes (t : jthread) (node : NodeId) : M unit :=
  w ← get_world;
  processDeferredEventModes_from [] (deferredEventModes w) t node.

(** [threadControl_getInstructionStepMode] (line 2515). *)
Definition threadControl_getInstructionStepMode (t : jthread) : M jvmtiEventMode :=
  debugMonitorEnter threadLock;;
  found ← findRunningThread t;
  mode ← match found with
          | Some node => n ← read_node node; ret (instructionStepMode n)
          | None => ret JVMTI_DISABLE
          end;
  debugMonitorExit threadLock;;
  ret mode.

(** [threadControl_setEventMode] (line 2532). *)
Definition threadControl_setEventMode (mode : jvmtiEventMode) (ei : EventIndex)
    (t : jthread) : M jvmtiError :=
  if isSameObject t NULL then JVMTI_SetEventNotificationMode mode ei t else
  debugMonitorEnter threadLock;;
  found ← findRunningThread t;
  error ← match found with
           | None => addDeferredEventMode mode ei t
           | Some node =>
               n ← read_node node;
               if negb (isStarted n)
               then addDeferredEventMode mode ei t
               else threadSetEventNotificationMode node mode ei t
           end;
  debugMonitorExit threadLock;;
  ret error.

(** *** Pop frames *)

(** [initLocks] (line 1773); [popFrameLocks] tells whether
    [popFrameEventLock] is set. *)
Definition initLocks : M unit :=
  w ← get_world;
  if negb (popFrameLocks w) then
    emit (EvMonitorCreate popFrameEventLock);;
    emit (EvMonitorCreate popFrameProceedLock);;
    modify_world (set_popFrameLocks true)
  else skip.

(** [getPopFrameThread] (line 1782). *)
Definition getPopFrameThread (t : jthread) : M bool :=
  debugMonitorEnter threadLock;;
  found ← findThread None t;
  b ← match found with
       | None => ret false
       | Some node => n ← read_node node; ret (popFrameThread n)
       end;
  debugMonitorExit threadLock;;
  ret b.

(** [setPopFrameThread] (line 1803). *)
Definition setPopFrameThread (t : jthread) (value : bool) : M unit :=
  debugMonitorEnter threadLock;;
  found ← findThread None t;
  match found with
  | None => EXIT_ERROR AGENT_ERROR_NULL_POINTER 1812
  | Some node => modify_node node (set_popFrameThread value)
  end;;
  debugMonitorExit threadLock.

(** The loop [while (framesPopped++ < popCount)] of [threadControl_popFrames];
    [error] is the status before the loop. *)
Fixpoint popFrames_loop (count : nat) (t : jthread) (error : jvmtiError)
  : M jvmtiError :=
  match count with
  | O => ret error
  | S count' =>
      error ← popOneFrame t;
      if negb (is_NONE error) then ret error
      else popFrames_loop count' t error
  end.

(** [threadControl_popFrames] (line 1972); [FrameNumber] is a [jint]. *)
Definition threadControl_popFrames (t : jthread) (fnum : Z) : M jvmtiError :=
  initLocks;;
  let popCount := jint_wrap (fnum + 1) in
  if popCount <? 1 then ret AGENT_ERROR_NO_MORE_FRAMES else
  prevStepMode ← threadControl_getInstructionStepMode t;
  w ← get_world;
  let prevInvokeRequestMode := invoker_isEnabled (trace w) t in
  error ← threadControl_setEventMode JVMTI_ENABLE EI_SINGLE_STEP t;
  if negb (is_NONE error) then ret error else
  debugMonitorEnter popFrameEventLock;;
  setPopFrameThread t true;;
  error ← popFrames_loop (Z.to_nat popCount) t error;
  setPopFrameThread t false;;
  debugMonitorExit popFrameEventLock;;
  (if is_ENABLE prevStepMode then emit (EvResetStepRequest t) else skip);;
  (if prevInvokeRequestMode then emit (EvEnableInvokeRequests t) else skip);;
  threadControl_setEventMode prevStepMode EI_SINGLE_STEP t;;
  ret error.

(** [checkForPopFrameEvents] (line 2041). *)
Definition checkForPopFrameEvents (ei : EventIndex) (t : jthread) : M bool :=
  popping ← getPopFrameThread t;
  if popping then
    match ei with
    | EI_THREAD_START => EXIT_ERROR AGENT_ERROR_INTERNAL 2048
    | EI_THREAD_END =>
        setPopFrameThread t false;;
        popFrameCompleteEvent t;;
        ret false
    | EI_VIRTUAL_THREAD_START | EI_VIRTUAL_THREAD_END =>
        JDI_ASSERT 2057 false;;
        ret false
    | EI_SINGLE_STEP =>
        popFrameCompleteEvent t;;
        ret true
    | EI_BREAKPOINT | EI_EXCEPTION | EI_FIELD_ACCESS | EI_FIELD_MODIFICATION
    | EI_METHOD_ENTRY | EI_METHOD_EXIT => ret true
    | _ => ret false
    end
  else ret false.

(** *** The event gate *)

(** The fields of [EventInfo] that the entry reads. *)
Record EventInfo : Type := {
  ev_ei : EventIndex;
  ev_thread : jthread;
  ev_is_vthread : bool
}.

Definition is_VIRTUAL_THREAD_START (ei : EventIndex) : bool :=
  match ei with EI_VIRTUAL_THREAD_START => true | _ => false end.
Definition is_VIRTUAL_THREAD_END (ei : EventIndex) : bool :=
  match ei with EI_VIRTUAL_THREAD_END => true | _ => false end.

(** [threadControl_onEventHandlerEntry] (line 2080); the result is [None]
    for a null event bag. *)
Definition threadControl_onEventHandlerEntry (sessionID : Z)
    (evinfo : EventInfo) (currentException : jobject) : M (option bag) :=
  let ei := ev_ei evinfo in
  let t := ev_thread evinfo in
  consumed ← checkForPopFrameEvents ei t;
  if consumed then
    (if negb (isSameObject currentException NULL)
     then emit (EvThrow currentException)
     else emit EvExceptionClear);;
    ret None
  else
  debugMonitorEnter threadLock;;
  found ← findThread (Some otherThreads) t;
  node ← match found with
          | Some node =>
              n ← read_node node;
              moveNode otherThreads
                (if is_vthread n then runningVThreads else runningThreads) node;;
              setThreadLocalStorage t (Some node);;
              ret node
          | None =>
              if ev_is_vthread evinfo
              then insertThread runningVThreads t
              else insertThread runningThreads t
          end;
  JDI_ASSERT 2138 (negb (is_VIRTUAL_THREAD_START ei));;
  JDI_ASSERT 2139 (negb (is_VIRTUAL_THREAD_END ei));;
  (if is_THREAD_START ei then
     modify_node node (set_isStarted true);;
     processDeferredEventModes t node
   else skip);;
  (if is_THREAD_END ei then modify_node node (set_isStarted true) else skip);;
  modify_node node (set_current_ei ei);;
  n ← read_node node;
  let threadToSuspend := if suspendOnStart n then thread n else NULL in
  debugMonitorExit threadLock;;
  (if negb (isSameObject threadToSuspend NULL)
   then emit (EvHelperSuspendThread sessionID threadToSuspend)
   else skip);;
  ret (Some (eventBag n)).

(** [doPendingTasks] (line 2169). *)
Definition doPendingTasks (node : NodeId) : M unit :=
  n ← read_node node;
  (if pendingInterrupt n then
     emit (EvInterruptThread (thread n));;
     modify_node node (set_pendingInterrupt false)
   else skip);;
  if negb (isSameObject (pendingStop n) NULL) then
    emit (EvStopThread (thread n) (pendingStop n));;
    modify_node node (set_pendingStop NULL)
  else skip.

(** [threadControl_onEventHandlerExit] (line 2195). *)
Definition threadControl_onEventHandlerExit (ei : EventIndex) (t : jthread)
    (eventBag : bag) : M unit :=
  (if is_THREAD_END ei then lock eventHandler else skip);;
  debugMonitorEnter threadLock;;
  found ← findRunningThread t;
  match found with
  | None => EXIT_ERROR AGENT_ERROR_NULL_POINTER 2210
  | Some node =>
      if is_THREAD_END ei then removeThread node
      else
        doPendingTasks node;;
        modify_node node (set_eventBag eventBag);;
        modify_node node (set_current_ei EI_none)
  end;;
  debugMonitorExit threadLock;;
  if is_THREAD_END ei then unlock eventHandler else skip.

(** *** Co-located events *)

Definition set_cle_ei (v : EventIndex) (c : CoLocatedEventInfo) : CoLocatedEventInfo :=
  {| cle_ei := v; cle_clazz := cle_clazz c; cle_method := cle_method c;
     cle_location := cle_location c |}.
Definition set_cle_clazz (v : jclass) (c : CoLocatedEventInfo) : CoLocatedEventInfo :=
  {| cle_ei := cle_ei c; cle_clazz := v; cle_method := cle_method c;
     cle_location := cle_location c |}.
Definition set_cle_method (v : jmethodID) (c : CoLocatedEventInfo) : CoLocatedEventInfo :=
  {| cle_ei := cle_ei c; cle_clazz := cle_clazz c; cle_method := v;
     cle_location := cle_location c |}.
Definition set_cle_location (v : jlocation) (c : CoLocatedEventInfo) : CoLocatedEventInfo :=
  {| cle_ei := cle_ei c; cle_clazz := cle_clazz c; cle_method := cle_method c;
     cle_location := v |}.

(** [node->cleInfo.field = v] *)
Definition modify_cleInfo (node : NodeId)
    (f : CoLocatedEventInfo -> CoLocatedEventInfo) : M unit :=
  n ← read_node node;
  modify_node node (set_cleInfo (f (cleInfo n))).

(** [threadControl_clearCLEInfo] (line 2297). *)
Definition threadControl_clearCLEInfo (t : jthread) : M unit :=
  debugMonitorEnter threadLock;;
  found ← findRunningThread t;
  match found with
  | Some node =>
      modify_cleInfo node (set_cle_ei EI_none);;
      n ← read_node node;
      if negb (isSameObject (cle_clazz (cleInfo n)) NULL)
      then modify_cleInfo node (set_cle_clazz NULL)
      else skip
  | None => skip
  end;;
  debugMonitorExit threadLock.

(** [threadControl_cmpCLEInfo] (line 2315). *)
Definition threadControl_cmpCLEInfo (t : jthread) (clazz : jclass)
    (method : jmethodID) (location : jlocation) : M bool :=
  debugMonitorEnter threadLock;;
  found ← findRunningThread t;
  result ← match found with
            | Some node =>
                n ← read_node node;
                ret (negb (ei_is_zero (cle_ei (cleInfo n)))
                     && (cle_method (cleInfo n) =? method)
                     && (cle_location (cleInfo n) =? location)
                     && isSameObject (cle_clazz (cleInfo n)) clazz)
            | None => ret false
            end;
  debugMonitorExit threadLock;;
  ret result.

(** [threadControl_saveCLEInfo] (line 2339). *)
Definition threadControl_saveCLEInfo (t : jthread) (ei : EventIndex)
    (clazz : jclass) (method : jmethodID) (location : jlocation) : M unit :=
  debugMonitorEnter threadLock;;
  found ← findRunningThread t;
  match found with
  | Some node =>
      modify_cleInfo node (set_cle_ei ei);;
      ref ← saveGlobalRef clazz;
      modify_cleInfo node (set_cle_clazz ref);;
      modify_cleInfo node (set_cle_method method);;
      modify_cleInfo node (set_cle_location location)
  | None => skip
  end;;
  debugMonitorExit threadLock.

(** *** Debug threads, start-up and reset *)

Definition MAX_DEBUG_THREADS : nat := 10.

(** [threadControl_addDebugThread] (line 1687), as built without
    [J9VM_OPT_CRIU_SUPPORT]; the build with it is
    [Criu.threadControl_addDebugThread]. *)
Definition threadControl_addDebugThread (t : jthread) : M jvmtiError :=
  debugMonitorEnter threadLock;;
  w ← get_world;
  error ← (if (MAX_DEBUG_THREADS <=? length (debugThreads w))%nat
           then ret AGENT_ERROR_OUT_OF_MEMORY
           else
             ref ← saveGlobalRef t;
             if isSameObject ref NULL then ret AGENT_ERROR_OUT_OF_MEMORY
             else
               modify_world (fun w => set_debugThreads (debugThreads w ++ [ref]) w);;
               ret JVMTI_ERROR_NONE);
  debugMonitorExit threadLock;;
  ret error.

(** [threadControl_initialize] (line 677). *)
Definition threadControl_initialize : M unit :=
  modify_world (set_suspendAllCount 0);;
  modify_world (set_list_nodes runningThreads []);;
  modify_world (set_list_nodes otherThreads []);;
  modify_world (set_list_nodes runningVThreads []);;
  modify_world (set_debugThreads []);;
  emit (EvMonitorCreate threadLock).

Fixpoint onHook_loop (threads : list jthread) : M unit :=
  match threads with
  | [] => skip
  | t :: rest =>
      node ← insertThread runningThreads t;
      modify_node node (set_isStarted true);;
      onHook_loop rest
  end.

(** [threadControl_onHook] (line 698). *)
Definition threadControl_onHook : M unit :=
  debugMonitorEnter threadLock;;
  w ← get_world;
  match rt_allThreads vm (trace w) with
  | None => EXIT_ERROR AGENT_ERROR_OUT_OF_MEMORY 723
  | Some threads => onHook_loop threads
  end;;
  debugMonitorExit threadLock.

(** [resetHelper] (line 2436). *)
Definition resetHelper (node : NodeId) (arg : unit) : M (jvmtiError * unit) :=
  n ← read_node node;
  (if toBeResumed n then
     JVMTI_ResumeThread (thread n);;
     incr_frameGeneration node
   else skip);;
  stepControl_clearRequest node;;
  modify_node node (set_toBeResumed false);;
  modify_node node (set_suspendCount 0);;
  modify_node node (set_suspendOnStart false);;
  ret (JVMTI_ERROR_NONE, arg).

(** [threadControl_reset] (line 2452). *)
Definition threadControl_reset : M unit :=
  lock eventHandler;;
  debugMonitorEnter threadLock;;
  w ← get_world;
  (if vthreadsSupported (gdata w) && (0 <? suspendAllCount w) then
     error ← JVMTI_ResumeAllVirtualThreads [];
     if negb (is_NONE error) then EXIT_ERROR error 2467 else skip
   else skip);;
  enumerateOverThreadList runningThreads resetHelper tt;;
  enumerateOverThreadList otherThreads resetHelper tt;;
  enumerateOverThreadList runningVThreads resetHelper tt;;
  removeResumed otherThreads;;
  modify_world (set_deferredEventModes []);;
  modify_world (set_suspendAllCount 0);;
  w ← get_world;
  JDI_ASSERT 2483 (bool_decide (otherThreads_nodes w = []));;
  debugMonitorNotifyAll threadLock;;
  debugMonitorExit threadLock;;
  unlock eventHandler;;
  w ← get_world;
  if negb (rememberVThreadsWhenDisconnected (gdata w)) then
    emit EvWaitForActiveCallbacks;;
    debugMonitorEnter threadLock;;
    removeVThreads;;
    debugMonitorExit threadLock
  else skip.

End ThreadControl.

(** The static variables of threadControl.c as the loader leaves them. *)
Definition initial_world (g : GlobalData) : World :=
  {| gdata := g; heap := ∅; tls := ∅;
     runningThreads_nodes := []; otherThreads_nodes := [];
     runningVThreads_nodes := []; numRunningVThreads := 0;
     suspendAllCount := 0; debugThreads := []; deferredEventModes := [];
     popFrameLocks := false; trace := [] |}.


(** ** Queries and requests on single threads *)

Definition set_popFrameEvent (v : bool) (n : ThreadNode) : ThreadNode :=
  {| thread := thread n; toBeResumed := toBeResumed n;
     pendingInterrupt := pendingInterrupt n; isDebugThread := isDebugThread n;
     suspendOnStart := suspendOnStart n; isStarted := isStarted n;
     is_vthread := is_vthread n; popFrameEvent := v;
     popFrameProceed := popFrameProceed n; popFrameThread := popFrameThread n;
     current_ei := current_ei n; pendingStop := pendingStop n;
     suspendCount := suspendCount n;
     instructionStepMode := instructionStepMode n;
     currentStep := currentStep n; currentInvoke := currentInvoke n;
     eventBag := eventBag n; cleInfo := cleInfo n;
     frameGeneration := frameGeneration n; node_list := node_list n |}.

Definition set_popFrameProceed (v : bool) (n : ThreadNode) : ThreadNode :=
  {| thread := thread n; toBeResumed := toBeResumed n;
     pendingInterrupt := pendingInterrupt n; isDebugThread := isDebugThread n;
     suspendOnStart := suspendOnStart n; isStarted := isStarted n;
     is_vthread := is_vthread n; popFrameEvent := popFrameEvent n;
     popFrameProceed := v; popFrameThread := popFrameThread n;
     current_ei := current_ei n; pendingStop := pendingStop n;
     suspendCount := suspendCount n;
     instructionStepMode := instructionStepMode n;
     currentStep := currentStep n; currentInvoke := currentInvoke n;
     eventBag := eventBag n; cleInfo := cleInfo n;
     frameGeneration := frameGeneration n; node_list := node_list n |}.

Section Requests.

Context (vm : Runtime).

(** The answers of [InterruptThread] and [StopThread], given the calls made
    so far. *)
Context (rt_InterruptThread : list Event -> jthread -> jvmtiError).
Context (rt_StopThread : list Event -> jthread -> jobject -> jvmtiError).

(** [map2jdwpThreadStatus] and [map2jdwpSuspendStatus] of util.c and the
    constant [JDWP_THREAD_STATUS(RUNNING)]. *)
Context (map2jdwpThreadStatus map2jdwpSuspendStatus : Z -> Z).
Context (JDWP_THREAD_STATUS_RUNNING : Z).

Definition JVMTI_InterruptThread (t : jthread) : M jvmtiError :=
  w ← get_world;
  emit (EvInterruptThread t);;
  ret (rt_InterruptThread (trace w) t).

Definition JVMTI_StopThread (t : jthread) (throwable : jobject) : M jvmtiError :=
  w ← get_world;
  emit (EvStopThread t throwable);;
  ret (rt_StopThread (trace w) t throwable).

(** [threadControl_interrupt] (line 2269). *)
Definition threadControl_interrupt (t : jthread) : M jvmtiError :=
  debugMonitorEnter threadLock;;
  found ← findThread vm (Some runningThreads) t;
  error ← match found with
           | None => JVMTI_InterruptThread t
           | Some node =>
               n ← read_node node;
               if negb (HANDLING_EVENT n) then JVMTI_InterruptThread t
               else
                 modify_node node (set_pendingInterrupt true);;
                 ret JVMTI_ERROR_NONE
           end;
  debugMonitorExit threadLock;;
  ret error.

(** [threadControl_setPendingInterrupt] (line 2361). *)
Definition threadControl_setPendingInterrupt (t : jthread) : M unit :=
  JDI_ASSERT 2373 (negb (isVThread vm t));;
  debugMonitorEnter threadLock;;
  found ← findThread vm (Some runningThreads) t;
  match found with
  | Some node => modify_node node (set_pendingInterrupt true)
  | None => skip
  end;;
  debugMonitorExit threadLock.

(** [threadControl_stop] (line 2385). *)
Definition threadControl_stop (t : jthread) (throwable : jobject) : M jvmtiError :=
  debugMonitorEnter threadLock;;
  found ← findThread vm (Some runningThreads) t;
  error ← match found with
           | None => JVMTI_StopThread t throwable
           | Some node =>
               n ← read_node node;
               if negb (HANDLING_EVENT n) then JVMTI_StopThread t throwable
               else
                 ref ← saveGlobalRef vm throwable;
                 modify_node node (set_pendingStop ref);;
                 ret JVMTI_ERROR_NONE
           end;
  debugMonitorExit threadLock;;
  ret error.

(** [threadControl_getFrameGeneration] (line 2585). *)
Definition threadControl_getFrameGeneration (t : jthread) : M Z :=
  debugMonitorEnter threadLock;;
  found ← findThread vm None t;
  frameGeneration ← match found with
                     | Some node => n ← read_node node; ret (frameGeneration n)
                     | None => ret (-1)
                     end;
  debugMonitorExit threadLock;;
  ret frameGeneration.

(** [threadControl_applicationThreadStatus] (line 2233): the status
    returned and the values stored through [pstatus] and [statusFlags]. *)
Definition threadControl_applicationThreadStatus (t : jthread)
  : M (jvmtiError * Z * Z) :=
  debugMonitorEnter threadLock;;
  '(error, state) ← threadState vm t;
  let pstatus := map2jdwpThreadStatus state in
  let statusFlags := map2jdwpSuspendStatus state in
  pstatus ← (if is_NONE error then
               found ← findRunningThread vm t;
               match found with
               | Some node =>
                   n ← read_node node;
                   if HANDLING_EVENT n then ret JDWP_THREAD_STATUS_RUNNING
                   else ret pstatus
               | None => ret pstatus
               end
             else ret pstatus);
  debugMonitorExit threadLock;;
  ret (error, pstatus, statusFlags).

(** The loop of [threadControl_allVThreads] that counts the nodes when
    assertions are on: a [jint] incremented once per node. *)
Fixpoint count_nodes (nodes : list NodeId) (counted : Z) : Z :=
  match nodes with
  | [] => counted
  | _ :: rest => count_nodes rest (jint_inc counted)
  end.

(** The loop of [threadControl_allVThreads] that fills the array. *)
Fixpoint fill_vthreads (nodes : list NodeId) (arr : ListPtr) : M ListPtr :=
  match nodes with
  | [] => ret arr
  | node :: rest =>
      n ← read_node node;
      fill_vthreads rest (store_thread (thread n) arr)
  end.

(** [threadControl_allVThreads] (line 2605): the array returned ([None] for
    the null pointer) and the value stored through [numVThreads].  The array
    has room for [numRunningVThreads] entries and the walk writes one entry
    for every node of [runningVThreads]; the entries that the walk does not
    reach are not initialised in C and are [NULL] here. *)
Definition threadControl_allVThreads : M (option (list jthread) * Z) :=
  debugMonitorEnter threadLock;;
  w ← get_world;
  let numVThreads := numRunningVThreads w in
  (if assertOn (gdata w)
   then JDI_ASSERT 2622 (count_nodes (runningVThreads_nodes w) 0
                         =? numRunningVThreads w)
   else skip);;
  ok ← jvmtiAllocate vm (AllocThreadArray (numRunningVThreads w));
  vthreads ← (if ok then
                arr ← fill_vthreads (runningVThreads_nodes w)
                        (replicate (Z.to_nat (numRunningVThreads w)) NULL, 0%nat);
                ret (Some (fst arr))
              else ret None);
  debugMonitorExit threadLock;;
  ret (vthreads, numVThreads).

(** [getPopFrameEvent] (line 1820). *)
Definition getPopFrameEvent (t : jthread) : M bool :=
  debugMonitorEnter threadLock;;
  found ← findThread vm None t;
  b ← match found with
       | None => EXIT_ERROR AGENT_ERROR_NULL_POINTER 1832
       | Some node => n ← read_node node; ret (popFrameEvent n)
       end;
  debugMonitorExit threadLock;;
  ret b.

(** [setPopFrameEvent] (line 1842). *)
Definition setPopFrameEvent (t : jthread) (value : bool) : M unit :=
  debugMonitorEnter threadLock;;
  found ← findThread vm None t;
  match found with
  | None => EXIT_ERROR AGENT_ERROR_NULL_POINTER 1851
  | Some node =>
      modify_node node (set_popFrameEvent value);;
      incr_frameGeneration node
  end;;
  debugMonitorExit threadLock.

(** [getPopFrameProceed] (line 1860). *)
Definition getPopFrameProceed (t : jthread) : M bool :=
  debugMonitorEnter threadLock;;
  found ← findThread vm None t;
  b ← match found with
       | None => EXIT_ERROR AGENT_ERROR_NULL_POINTER 1872
       | Some node => n ← read_node node; ret (popFrameProceed n)
       end;
  debugMonitorExit threadLock;;
  ret b.

(** [setPopFrameProceed] (line 1882). *)
Definition setPopFrameProceed (t : jthread) (value : bool) : M unit :=
  debugMonitorEnter threadLock;;
  found ← findThread vm None t;
  match found with
  | None => EXIT_ERROR AGENT_ERROR_NULL_POINTER 1891
  | Some node => modify_node node (set_popFrameProceed value)
  end;;
  debugMonitorExit threadLock.

End Requests.

(** * The build with [J9VM_OPT_CRIU_SUPPORT] *)

(** [threadControl.c] as compiled with [J9VM_OPT_CRIU_SUPPORT]: the lookup
    of an extension function and the two functions that tell the
    checkpoint extension about the agent's own threads.  The two static
    function pointers [addDebugThreadToCheckpointState_func] and
    [removeDebugThreadFromCheckpointState_func], which only these two
    functions touch, are passed in and handed back.  [ibmjvmti.h], which
    gives the names of the extension functions, is not among the sources:
    the two names are parameters. *)
Module Criu.

(** A [jvmtiExtensionFunction] of the checkpoint extension: its answer for
    a thread, given the calls made so far. *)
Definition jvmtiExtensionFunction : Type := list Event -> jthread -> jvmtiError.

(** The two fields of [jvmtiExtensionFunctionInfo] that the lookup reads. *)
Record jvmtiExtensionFunctionInfo : Type := {
  id : String.string;
  func : option jvmtiExtensionFunction
}.

Section Build.

Context (vm : Runtime).
Context (rt_GetExtensionFunctions :
           list Event -> jvmtiError * list jvmtiExtensionFunctionInfo).
Context (OPENJ9_FUNCTION_ADD_DEBUG_THREAD : String.string).
Context (OPENJ9_FUNCTION_REMOVE_DEBUG_THREAD : String.string).

(** The loop of [find_ext_function]: the [func] of the first entry whose
    [id] is [funcName]. *)
Fixpoint find_ext_from (extList : list jvmtiExtensionFunctionInfo)
    (funcName : String.string) : option jvmtiExtensionFunction :=
  match extList with
  | [] => None
  | info :: rest =>
      if String.eqb (id info) funcName then func info
      else find_ext_from rest funcName
  end.

(** [find_ext_function] (line 1660).  When [GetExtensionFunctions] fails
    the function prints a message and returns the null pointer. *)
Definition find_ext_function (funcName : String.string)
  : M (option jvmtiExtensionFunction) :=
  w ← get_world;
  emit EvGetExtensionFunctions;;
  let '(err, extList) := rt_GetExtensionFunctions (trace w) in
  if is_NONE err then ret (find_ext_from extList funcName) else ret None.

(** The call of the extension function through its pointer, which is not
    tested for null. *)
Definition call_extension (func : option jvmtiExtensionFunction) (e : Event)
    (t : jthread) : M jvmtiError :=
  match func with
  | None => fun w => Fatal NullDereference w
  | Some f => w ← get_world; emit e;; ret (f (trace w) t)
  end.

(** [if (NULL == func) func = find_ext_function(gdata->jvmti, name)] *)
Definition cached (func : option jvmtiExtensionFunction) (name : String.string)
  : M (option jvmtiExtensionFunction) :=
  match func with
  | None => find_ext_function name
  | Some f => ret (Some f)
  end.

(** [threadControl_addDebugThread] (line 1687). *)
Definition threadControl_addDebugThread
    (addDebugThreadToCheckpointState_func : option jvmtiExtensionFunction)
    (t : jthread) : M (jvmtiError * option jvmtiExtensionFunction) :=
  debugMonitorEnter threadLock;;
  w ← get_world;
  answer ←
    (if (MAX_DEBUG_THREADS <=? length (debugThreads w))%nat
     then ret (AGENT_ERROR_OUT_OF_MEMORY, addDebugThreadToCheckpointState_func)
     else
       ref ← saveGlobalRef vm t;
       if isSameObject ref NULL
       then ret (AGENT_ERROR_OUT_OF_MEMORY, addDebugThreadToCheckpointState_func)
       else
         modify_world (fun w => set_debugThreads (debugThreads w ++ [ref]) w);;
         func ← cached addDebugThreadToCheckpointState_func
                  OPENJ9_FUNCTION_ADD_DEBUG_THREAD;
         error ← call_extension func (EvAddDebugThreadToCheckpointState t) t;
         ret (error, func));
  debugMonitorExit threadLock;;
  ret answer.

(** [threadControl_removeDebugThread] (line 1718). *)
Definition threadControl_removeDebugThread
    (removeDebugThreadFromCheckpointState_func : option jvmtiExtensionFunction)
    (t : jthread) : M (jvmtiError * option jvmtiExtensionFunction) :=
  debugMonitorEnter threadLock;;
  w ← get_world;
  answer ←
    match remove_first t (debugThreads w) with
    | Some ds =>
        modify_world (set_debugThreads ds);;
        func ← cached removeDebugThreadFromCheckpointState_func
                 OPENJ9_FUNCTION_REMOVE_DEBUG_THREAD;
        error ← call_extension func (EvRemoveDebugThreadFromCheckpointState t) t;
        ret (error, func)
    | None => ret (AGENT_ERROR_INVALID_THREAD,
                   removeDebugThreadFromCheckpointState_func)
    end;
  debugMonitorExit threadLock;;
  ret answer.

End Build.

End Criu.

(** * The links of the thread lists *)

(** [addNode] and [removeNode] on the pointers: the [next], [prev] and
    [list] fields of the nodes, the [first] field of the three lists, and
    the counter [numRunningVThreads].  A function gives no store when the C
    code reads or writes through a null pointer or through a pointer to no
    node. *)
Module Links.

(** The link fields of a [ThreadNode]; [owner] is its [list] field. *)
Record Node : Type := {
  next : option NodeId;
  prev : option NodeId;
  owner : option ThreadList
}.

Record Store : Type := {
  nodes : gmap NodeId Node;
  first : ThreadList -> option NodeId;
  numRunningVThreads : Z
}.

Definition set_next (v : option NodeId) (n : Node) : Node :=
  {| next := v; prev := prev n; owner := owner n |}.
Definition set_prev (v : option NodeId) (n : Node) : Node :=
  {| next := next n; prev := v; owner := owner n |}.
Definition set_owner (v : option ThreadList) (n : Node) : Node :=
  {| next := next n; prev := prev n; owner := v |}.

(** [p->field = v] *)
Definition write (p : NodeId) (f : Node -> Node) (s : Store) : option Store :=
  match nodes s !! p with
  | Some n =>
      Some {| nodes := <[p := f n]> (nodes s); first := first s;
              numRunningVThreads := numRunningVThreads s |}
  | None => None
  end.

(** [list->first = v] *)
Definition set_first (l : ThreadList) (v : option NodeId) (s : Store) : Store :=
  {| nodes := nodes s;
     first := fun l' => if ThreadList_eqb l' l then v else first s l';
     numRunningVThreads := numRunningVThreads s |}.

Definition set_numRunningVThreads (v : Z) (s : Store) : Store :=
  {| nodes := nodes s; first := first s; numRunningVThreads := v |}.

(** [removeNode] (line 309). *)
Definition removeNode (node : NodeId) (s : Store) : option Store :=
  nodes s !! node ≫= fun n =>
  let prev := prev n in
  let next := next n in
  let list := owner n in
  match prev with
  | Some q => write q (set_next next) s
  | None => Some s
  end ≫= fun s =>
  match next with
  | Some q => write q (set_prev prev) s
  | None => Some s
  end ≫= fun s =>
  match prev, list with
  | None, Some l => Some (set_first l next s)
  | None, None => None
  | Some _, _ => Some s
  end ≫= fun s =>
  write node (set_next None) s ≫= fun s =>
  write node (set_prev None) s ≫= fun s =>
  write node (set_owner None) s ≫= fun s =>
  Some (match list with
        | Some runningVThreads =>
            set_numRunningVThreads (jint_dec (numRunningVThreads s)) s
        | _ => s
        end).

(** [addNode] (line 336). *)
Definition addNode (list : ThreadList) (node : NodeId) (s : Store) : option Store :=
  write node (set_next None) s ≫= fun s =>
  write node (set_prev None) s ≫= fun s =>
  write node (set_owner None) s ≫= fun s =>
  match first s list with
  | None => Some (set_first list (Some node) s)
  | Some head =>
      write head (set_prev (Some node)) s ≫= fun s =>
      write node (set_next (first s list)) s ≫= fun s =>
      Some (set_first list (Some node) s)
  end ≫= fun s =>
  write node (set_owner (Some list)) s ≫= fun s =>
  Some (match list with
        | runningVThreads =>
            set_numRunningVThreads (jint_inc (numRunningVThreads s)) s
        | _ => s
        end).

End Links.
(** * Vocabulary of the statements *)

(** The suspend and resume primitives among some calls. *)
Definition primitive_calls (tr : list Event) : list Event :=
  filter (fun e => is_suspend_resume_primitive e = true) tr.

(** The world after one node was rewritten and some calls were made. *)
Definition node_update (node : NodeId) (n' : ThreadNode) (events : list Event)
    (w : World) : World :=
  set_trace (trace w ++ events) (set_heap (<[node := n']> (heap w)) w).

(** * Sample runtimes and worlds *)

(** A runtime in which every call succeeds.  Threads numbered from 100 are
    virtual; [states] gives the JVMTI state of a thread and [all] is the
    answer of [allThreads]. *)
Definition rt_ok (states : jthread -> Z) (all : list jthread) : Runtime :=
  {| rt_isVThread := fun t => 100 <=? t;
     rt_GetThreadState := fun _ t => (JVMTI_ERROR_NONE, states t);
     rt_GetThreadLocalStorage := fun _ t =>
       if states t =? 0 then JVMTI_ERROR_THREAD_NOT_ALIVE else JVMTI_ERROR_NONE;
     rt_SetThreadLocalStorage := fun _ _ _ => JVMTI_ERROR_NONE;
     rt_SuspendThread := fun _ t =>
       if states t =? 0 then JVMTI_ERROR_THREAD_NOT_ALIVE else JVMTI_ERROR_NONE;
     rt_ResumeThread := fun _ _ => JVMTI_ERROR_NONE;
     rt_SuspendThreadList := fun _ ts =>
       (JVMTI_ERROR_NONE,
        map (fun t => if states t =? 0 then JVMTI_ERROR_THREAD_NOT_ALIVE
                      else JVMTI_ERROR_NONE) ts);
     rt_ResumeThreadList := fun _ ts =>
       (JVMTI_ERROR_NONE, map (fun _ => JVMTI_ERROR_NONE) ts);
     rt_SuspendAllVirtualThreads := fun _ _ => JVMTI_ERROR_NONE;
     rt_ResumeAllVirtualThreads := fun _ _ => JVMTI_ERROR_NONE;
     rt_SetEventNotificationMode := fun _ _ _ _ => JVMTI_ERROR_NONE;
     rt_allThreads := fun _ => Some all;
     rt_jvmtiAllocate := fun _ _ => true;
     rt_createEventBag := fun _ => Some 1;
     rt_NewGlobalRef := fun _ _ => true;
     rt_clearRequest := fun _ _ s => s |}.

(** Every thread alive and runnable ([JVMTI_THREAD_STATE_ALIVE] with
    [JVMTI_THREAD_STATE_RUNNABLE]). *)
Definition all_alive : jthread -> Z := fun _ => 5.

Definition gdata_vthreads : GlobalData :=
  {| vthreadsSupported := true; jvmtiCallBacksCleared := false;
     assertOn := true; rememberVThreadsWhenDisconnected := false |}.

(** A world with one node, at address 0. *)
Definition one_node_world (n : ThreadNode) : World :=
  set_heap {[ 0%nat := n ]} (initial_world gdata_vthreads).

(** The node of a started platform thread that nobody has suspended. *)
Definition idle_node (t : jthread) : ThreadNode :=
  set_node_list (Some runningThreads) (set_isStarted true (set_thread t zero_node)).

(** What [initLocks] leaves: the two pop-frame monitors exist. *)
Definition after_initLocks (w : World) : World :=
  if popFrameLocks w then w
  else set_popFrameLocks true
         (set_trace (trace w ++ [EvMonitorCreate popFrameEventLock;
                                 EvMonitorCreate popFrameProceedLock]) w).


(** * The lookup as the spec words it, and well-formed worlds *)

(** Is the node on list [l], by its [list] field? *)
Definition is_on (n : ThreadNode) (l : ThreadList) : bool := negb (not_on n l).

(** Every address on a thread list is allocated and the node there names
    that list in its [list] field. *)
Definition on_list (w : World) (l : ThreadList) (p : NodeId) : bool :=
  match heap w !! p with
  | Some n => is_on n l
  | None => false
  end.

Definition lists_ok (w : World) : bool :=
  forallb (fun l => forallb (on_list w l) (list_nodes l w))
          [runningThreads; otherThreads; runningVThreads].

(** Every thread-local slot that is set holds the address of an allocated
    node of that very thread. *)
Definition slots_ok (w : World) : bool :=
  forallb (fun '(t, p) =>
             match heap w !! p with
             | Some n => isSameObject (thread n) t
             | None => false
             end)
          (map_to_list (tls w)).

(** Linear scan of a list for the first node of thread [t]. *)
Fixpoint scan_from (h : gmap NodeId ThreadNode) (nodes : list NodeId)
    (t : jthread) : option NodeId :=
  match nodes with
  | [] => None
  | p :: rest =>
      match h !! p with
      | Some n => if isSameObject (thread n) t then Some p else scan_from h rest t
      | None => None
      end
  end.

Definition scan (w : World) (l : ThreadList) (t : jthread) : option NodeId :=
  scan_from (heap w) (list_nodes l w) t.

(** The thread-local slot of [t] as the runtime reports it with status
    [e]. *)
Definition slot (e : jvmtiError) (w : World) (t : jthread) : option NodeId :=
  if is_NONE e then tls w !! t else None.

(** The lookup of spec section 4.1.  Primary path: the thread-local slot.
    Fallback when the slot is null: scan [other]; the running lists are
    scanned only once the event callbacks have been cleared.  With a list
    requested, only a node on that list counts. *)
Definition lookup (e : jvmtiError) (w : World) (lst : option ThreadList)
    (t : jthread) : option NodeId :=
  let found :=
    match slot e w t with
    | Some p => Some p
    | None =>
        let in_other := if any_or lst otherThreads then scan w otherThreads t else None in
        if negb (jvmtiCallBacksCleared (gdata w)) then in_other
        else match in_other with
             | Some p => Some p
             | None =>
                 match (if any_or lst runningThreads
                        then scan w runningThreads t else None) with
                 | Some p => Some p
                 | None =>
                     if any_or lst runningVThreads
                     then scan w runningVThreads t else None
                 end
             end
    end in
  match found, lst with
  | Some p, Some l =>
      match heap w !! p with
      | Some n => if is_on n l then Some p else None
      | None => None
      end
  | _, _ => found
  end.

(** The running list for the kind of thread [t] is. *)
Definition running_list (vm : Runtime) (t : jthread) : ThreadList :=
  if rt_isVThread vm t then runningVThreads else runningThreads.

(** The events [JDI_ASSERT] leaves. *)
Definition is_assertion (e : Event) : Prop :=
  exists line, e = EvAssertionFailed line.

(** The world after some calls that changed nothing but the trace. *)
Definition with_events (events : list Event) (w : World) : World :=
  set_trace (trace w ++ events) w.




(** The world a computation ends in. *)
Definition world_after {A : Type} (m : M A) (w : World) : World :=
  match m w with
  | Ok _ w' => w'
  | Fatal _ w' => w'
  end.

(** The agent after start-up, with the platform threads 1 and 2 running. *)
Definition rt_two_threads : Runtime := rt_ok all_alive [1; 2].

Definition hooked_world : World :=
  world_after (threadControl_initialize;; threadControl_onHook rt_two_threads)
              (initial_world gdata_vthreads).

(** Is thread [t] tracked, and by which node: the lookup among the running
    threads of its kind, then on [other], as [threadControl_suspendCount]
    asks; [e] is the status of the read of the slot. *)
Definition tracked (vm : Runtime) (e : jvmtiError) (w : World) (t : jthread)
  : option NodeId :=
  match lookup e w (Some (running_list vm t)) t with
  | Some p => Some p
  | None => lookup e w (Some otherThreads) t
  end.

(** [wp m Q w]: if [m] returns from [w], its result and final world satisfy
    [Q]. *)
Definition wp {A : Type} (m : M A) (Q : A -> World -> Prop) (w : World) : Prop :=
  match m w with
  | Ok a w' => Q a w'
  | Fatal _ _ => True
  end.

(** The world [w'] is [w] after some assertion events. *)
Definition only_assertions (w w' : World) : Prop :=
  exists events, w' = with_events events w /\ Forall is_assertion events.


(** Node [p] holds [n] in [w], and the counters that [insertThread] reads
    are those of [w0]. *)
Definition tracks (w0 : World) (p : NodeId) (n : ThreadNode) (w : World) : Prop :=
  heap w !! p = Some n /\
  suspendAllCount w = suspendAllCount w0 /\
  debugThreads w = debugThreads w0.

(** Is [t] one of the debug threads of [w]? *)
Definition is_debug (w : World) (t : jthread) : bool :=
  existsb (fun d => isSameObject t d) (debugThreads w).

(** The agent in the middle of a VM-wide suspend, thread 7 being one of its
    own threads. *)
Definition suspended_world : World :=
  world_after (threadControl_initialize;;
               threadControl_addDebugThread rt_two_threads 7;;
               threadControl_suspendAll rt_two_threads)
              (initial_world gdata_vthreads).

(** The same agent after a node was created for its debug thread 7, and
    after a node was created for the application thread 3. *)
Definition debug_node_world : World :=
  world_after (insertThread rt_two_threads otherThreads 7) suspended_world.

Definition new_node_world : World :=
  world_after (insertThread rt_two_threads otherThreads 3) suspended_world.

(** Two nodes with the same identity: the same thread, on the same list. *)
Definition node_sim (o o' : option ThreadNode) : Prop :=
  match o, o' with
  | Some n, Some n' => thread n' = thread n /\ node_list n' = node_list n
  | None, None => True
  | _, _ => False
  end.

(** Two worlds with the same lists, slots and configuration, whose nodes
    have the same identities; the bookkeeping fields of the nodes and the
    trace may differ. *)
Definition same_shape (w w' : World) : Prop :=
  gdata w' = gdata w /\
  tls w' = tls w /\
  (forall l, list_nodes l w' = list_nodes l w) /\
  forall q, node_sim (heap w !! q) (heap w' !! q).

(** The comparison that [threadControl_cmpCLEInfo] makes on a record. *)
Definition cle_matches (info : CoLocatedEventInfo) (clazz : jclass)
    (method : jmethodID) (location : jlocation) : bool :=
  negb (ei_is_zero (cle_ei info))
  && (cle_method info =? method)
  && (cle_location info =? location)
  && isSameObject (cle_clazz info) clazz.

(** * Scenarios *)

(** No pop-frame is in progress in the scenarios, so the rendezvous of the
    popped thread is never reached. *)
Definition no_rendezvous : jthread -> M unit := fun _ => skip.

(** The start event of thread [t], handled from entry to exit. *)
Definition thread_start (vm : Runtime) (t : jthread) : M unit :=
  eventBag ← threadControl_onEventHandlerEntry vm no_rendezvous 0
                {| ev_ei := EI_THREAD_START; ev_thread := t;
                   ev_is_vthread := rt_isVThread vm t |} NULL;
  match eventBag with
  | Some b => threadControl_onEventHandlerExit vm EI_THREAD_START t b
  | None => skip
  end.

(** Scenario 3 of the spec: the virtual threads v1 = 101 and v2 = 102 are
    tracked, a VM-wide suspend is done, then v1 is suspended once more. *)
Definition v1 : jthread := 101.
Definition v2 : jthread := 102.

Definition exclusion_scenario : M jvmtiError :=
  thread_start rt_two_threads v1;;
  thread_start rt_two_threads v2;;
  threadControl_suspendAll rt_two_threads;;
  threadControl_suspendThread rt_two_threads v1 false.

Definition exclusion_world : World := world_after exclusion_scenario hooked_world.

(** The calls made after the trace had [k] entries. *)
Definition calls_since (k : nat) (w : World) : list Event :=
  primitive_calls (drop k (trace w)).

(** The fields of the node of thread [t] on list [l] that the suspend
    bookkeeping is about: [suspendCount], [toBeResumed], [suspendOnStart]
    and [frameGeneration]. *)
Definition bookkeeping (w : World) (l : ThreadList) (t : jthread)
  : option (Z * bool * bool * Z) :=
  match scan w l t with
  | Some p =>
      match heap w !! p with
      | Some n => Some (suspendCount n, toBeResumed n, suspendOnStart n,
                        frameGeneration n)
      | None => None
      end
  | None => None
  end.

(** A runtime in which thread 101 is a virtual thread that has not started
    yet, and the same runtime once the thread runs. *)
Definition unstarted_101 : jthread -> Z := fun t => if t =? 101 then 0 else 5.
Definition rt_before_start : Runtime := rt_ok unstarted_101 [1; 2].

(** The race on a thread that is suspended before it starts: the debugger
    suspends the unstarted virtual thread 101; the thread starts, and its
    start event is handled up to the point where the deferred suspend is
    handed to the helper thread; before the helper runs, the debugger
    suspends the whole VM. *)
Definition start_race : M jvmtiError :=
  threadControl_suspendThread rt_before_start 101 false;;
  threadControl_onEventHandlerEntry rt_two_threads no_rendezvous 0
    {| ev_ei := EI_THREAD_START; ev_thread := 101; ev_is_vthread := true |} NULL;;
  threadControl_suspendAll rt_two_threads.

Definition start_race_world : World := world_after start_race hooked_world.

(** What follows the race: the VM is resumed, then the thread itself. *)
Definition after_start_race : M jvmtiError :=
  threadControl_resumeAll rt_two_threads;;
  threadControl_resumeThread rt_two_threads 101 true.

(** The failed assertions in a trace. *)
Definition failed_assertions (tr : list Event) : list Event :=
  filter (fun e => match e with EvAssertionFailed _ => true | _ => false end = true) tr.

(** * The list resume *)

(** The node at an address, for addresses known to be allocated. *)
Definition node_at (w : World) (p : NodeId) : ThreadNode :=
  default zero_node (heap w !! p).

(** The nodes of the two running lists, in the order [commonResumeList]
    walks them. *)
Definition running_nodes (w : World) : list NodeId :=
  runningThreads_nodes w ++ runningVThreads_nodes w.

(** A node that needs a hard resume: not a debug thread, [suspendCount] 1
    and [toBeResumed]. *)
Definition is_hard (n : ThreadNode) : bool :=
  negb (isDebugThread n) && (suspendCount n =? 1) && toBeResumed n.

Definition hard_resume (w : World) (nodes : list NodeId) : list NodeId :=
  filter (fun p => is_hard (node_at w p) = true) nodes.

Definition threads_of (w : World) (nodes : list NodeId) : list jthread :=
  map (fun p => thread (node_at w p)) nodes.

(** What the accounting pass does to a node that needs no hard resume. *)
Definition accounted (n : ThreadNode) : ThreadNode :=
  if isDebugThread n then n
  else if 1 <? suspendCount n then set_suspendCount (jint_dec (suspendCount n)) n
  else if (suspendCount n =? 1) && suspendOnStart n
       then set_suspendCount (jint_dec (suspendCount n)) n
  else n.

(** What the loop after [ResumeThreadList] does to a node. *)
Definition hard_resumed (n : ThreadNode) : ThreadNode :=
  set_frameGeneration (jlong_inc (frameGeneration n))
    (set_toBeResumed false
       (set_suspendCount (jint_dec (suspendCount n)) n)).

(** The running lists hold each node once; the thread-local slot of the
    thread of a running node points at the node; the nodes of
    [runningVThreads] and no others belong to virtual threads. *)
Definition running_ok (vm : Runtime) (w : World) : bool :=
  bool_decide (NoDup (running_nodes w))
  && forallb (fun p => match heap w !! p with
                       | Some n => bool_decide (tls w !! thread n = Some p)
                                   && negb (rt_isVThread vm (thread n))
                       | None => false
                       end) (runningThreads_nodes w)
  && forallb (fun p => match heap w !! p with
                       | Some n => bool_decide (tls w !! thread n = Some p)
                                   && rt_isVThread vm (thread n)
                       | None => false
                       end) (runningVThreads_nodes w).

(** No running node has both [toBeResumed] and [suspendOnStart]. *)
Definition flags_ok (w : World) : bool :=
  forallb (fun p => negb (toBeResumed (node_at w p) && suspendOnStart (node_at w p)))
          (running_nodes w).

(** Two worlds that differ in the heap only. *)
Definition heap_only (w w' : World) : Prop := w' = set_heap (heap w') w.

(** A runtime like [rt_two_threads] whose [ResumeThreadList] reports a
    failure for every thread of the list, and for the list as a whole. *)
Definition rt_resume_fails : Runtime :=
  {| rt_isVThread := rt_isVThread rt_two_threads;
     rt_GetThreadState := rt_GetThreadState rt_two_threads;
     rt_GetThreadLocalStorage := rt_GetThreadLocalStorage rt_two_threads;
     rt_SetThreadLocalStorage := rt_SetThreadLocalStorage rt_two_threads;
     rt_SuspendThread := rt_SuspendThread rt_two_threads;
     rt_ResumeThread := rt_ResumeThread rt_two_threads;
     rt_SuspendThreadList := rt_SuspendThreadList rt_two_threads;
     rt_ResumeThreadList := fun _ ts =>
       (JVMTI_ERROR_other 13, map (fun _ => JVMTI_ERROR_other 13) ts);
     rt_SuspendAllVirtualThreads := rt_SuspendAllVirtualThreads rt_two_threads;
     rt_ResumeAllVirtualThreads := rt_ResumeAllVirtualThreads rt_two_threads;
     rt_SetEventNotificationMode := rt_SetEventNotificationMode rt_two_threads;
     rt_allThreads := rt_allThreads rt_two_threads;
     rt_jvmtiAllocate := rt_jvmtiAllocate rt_two_threads;
     rt_createEventBag := rt_createEventBag rt_two_threads;
     rt_NewGlobalRef := rt_NewGlobalRef rt_two_threads;
     rt_clearRequest := rt_clearRequest rt_two_threads |}.

(** * The sweep of [otherThreads] *)

(** The runtime answers the clearing of a thread-local slot with success or
    with [THREAD_NOT_ALIVE], whatever happened before. *)
Definition slot_clearable (vm : Runtime) : Prop :=
  forall tr t,
    is_NONE (rt_SetThreadLocalStorage vm tr t None)
    || is_THREAD_NOT_ALIVE (rt_SetThreadLocalStorage vm tr t None) = true.

(** From [w] to [w'] no suspend or resume primitive was called. *)
Definition no_primitive (w w' : World) : Prop :=
  exists events, trace w' = trace w ++ events /\ primitive_calls events = [].


(** [returns m Q w]: from [w] the computation [m] returns, with a result
    and a final world that satisfy [Q]. *)
Definition returns {A : Type} (m : M A) (Q : A -> World -> Prop) (w : World)
  : Prop :=
  exists a w', m w = Ok a w' /\ Q a w'.

(** Clearing a node: [w'] is [w] but for node [p], which is still
    allocated, and no suspend or resume primitive was called. *)
Definition clearing (p : NodeId) (w w' : World) : Prop :=
  delete p (heap w') = delete p (heap w) /\
  is_Some (heap w' !! p) /\
  no_primitive w w'.

(** * Further well-formedness conditions *)

(** The counter [numRunningVThreads] is the length of [runningVThreads]. *)
Definition count_ok (w : World) : bool :=
  numRunningVThreads w =? Z.of_nat (length (runningVThreads_nodes w)).

(** No list holds a node twice.  The [next] and [prev] links of the C
    lists cannot say anything else: a node has one [prev], so a chain that
    starts at [first] and ends at a null [next] passes each node once.
    Together with [lists_ok], which gives every listed node its list in the
    [list] field, no node is on two lists either. *)
Definition linked (w : World) : Prop :=
  forall l, NoDup (list_nodes l w).

(** What [addNode] and [removeNode] do to the counter of list [l]. *)
Definition counted (l : ThreadList) (f : Z -> Z) (count : Z) : Z :=
  if ThreadList_eqb l runningVThreads then f count else count.

Definition counted_world (l : ThreadList) (f : Z -> Z) (w : World) : World :=
  if ThreadList_eqb l runningVThreads
  then set_numRunningVThreads (f (numRunningVThreads w)) w
  else w.

(** * Deferred event modes *)

(** The deferred entries of thread [t], and the others. *)
Definition modes_of (t : jthread) (ds : list DeferredEventMode)
  : list DeferredEventMode :=
  filter (fun d => dem_thread d = t) ds.

Definition modes_kept (t : jthread) (ds : list DeferredEventMode)
  : list DeferredEventMode :=
  filter (fun d => dem_thread d <> t) ds.

(** The calls of [SetEventNotificationMode] that apply the entries. *)
Definition mode_calls (ds : list DeferredEventMode) : list Event :=
  map (fun d => EvSetEventNotificationMode (dem_mode d) (dem_ei d) (dem_thread d)) ds.

(** The single-step mode that a node records while the entries are
    applied in order. *)
Definition apply_modes (ds : list DeferredEventMode) (n : ThreadNode) : ThreadNode :=
  foldl (fun n d => if is_SINGLE_STEP (dem_ei d)
                    then set_instructionStepMode (dem_mode d) n else n) n ds.

(** The runtime accepts every change of event mode for thread [t]. *)
Definition modes_accepted (vm : Runtime) (t : jthread) : Prop :=
  forall tr mode ei, rt_SetEventNotificationMode vm tr mode ei t = JVMTI_ERROR_NONE.

(** The running node of [t] when it has one that is marked as started; [e]
    is the status of the read of the slot. *)
Definition started_node (vm : Runtime) (e : jvmtiError) (w : World) (t : jthread)
  : option NodeId :=
  match lookup e w (Some (running_list vm t)) t with
  | Some p => if isStarted (node_at w p) then Some p else None
  | None => None
  end.

(** * Nested suspends *)

(** [m] run [k] times in a row; the results are dropped. *)
Fixpoint times {A : Type} (k : nat) (m : M A) : M unit :=
  match k with
  | O => skip
  | S k' => m;; times k' m
  end.

(** A node that the runtime has suspended, with [c] suspends outstanding. *)
Definition held (c : Z) (n : ThreadNode) : ThreadNode :=
  set_suspendCount c (set_toBeResumed true n).

(** A node that nobody has suspended. *)
Definition unsuspended (n : ThreadNode) : bool :=
  negb (isDebugThread n) && (suspendCount n =? 0)
  && negb (suspendOnStart n) && negb (toBeResumed n).

(** [m] returns from [w] having rewritten node [node] to [n'], with these
    calls of suspend and resume primitives and no other change but the
    trace. *)
Definition rewrites {A : Type} (m : M A) (node : NodeId) (n' : ThreadNode)
    (calls : list Event) (w : World) : Prop :=
  exists a events,
    m w = Ok a (node_update node n' events w) /\
    primitive_calls events = calls.

(** * Requests held while an event is handled *)

(** The calls that deliver what a node holds back: the pending interrupt,
    then the pending stop. *)
Definition pending_tasks (n : ThreadNode) : list Event :=
  (if pendingInterrupt n then [EvInterruptThread (thread n)] else [])
  ++ (if isSameObject (pendingStop n) NULL then []
      else [EvStopThread (thread n) (pendingStop n)]).

(** A node that has left its event handler with event bag [b]. *)
Definition left_handler (b : bag) (n : ThreadNode) : ThreadNode :=
  set_current_ei EI_none
    (set_eventBag b (set_pendingStop NULL (set_pendingInterrupt false n))).

(** The runtime reads the thread-local slot of [t] with success. *)
Definition slot_read (vm : Runtime) (t : jthread) : Prop :=
  forall tr, rt_GetThreadLocalStorage vm tr t = JVMTI_ERROR_NONE.

(** * The end of a thread *)

(** The calls that act on the run of a thread. *)
Definition acts_on_thread (e : Event) : bool :=
  match e with
  | EvInterruptThread _ | EvStopThread _ _ | EvHelperSuspendThread _ _ => true
  | _ => is_suspend_resume_primitive e
  end.

(** From [w] to [w'] the thread lists and their counter are kept, the
    thread-local slots are kept but for that of [t], which may have been
    cleared, and no call acted on the run of a thread. *)
Definition tidying (t : jthread) (w w' : World) : Prop :=
  (forall l, list_nodes l w' = list_nodes l w) /\
  numRunningVThreads w' = numRunningVThreads w /\
  suspendAllCount w' = suspendAllCount w /\
  (tls w' = tls w \/ tls w' = delete t (tls w)) /\
  exists events, trace w' = trace w ++ events /\
                 Forall (fun e => acts_on_thread e = false) events.

(** * Event handlers *)

(** An event that neither starts nor ends a thread. *)
Definition ordinary_event (ei : EventIndex) : bool :=
  negb (ei_is_zero ei)
  && negb (is_THREAD_START ei) && negb (is_THREAD_END ei)
  && negb (is_VIRTUAL_THREAD_START ei) && negb (is_VIRTUAL_THREAD_END ei).

(** The list on which an event puts the node of its thread. *)
Definition event_list (evinfo : EventInfo) : ThreadList :=
  if ev_is_vthread evinfo then runningVThreads else runningThreads.

(** The request that [threadControl_onEventHandlerEntry] passes to the
    event helper for a node that was suspended before it started. *)
Definition start_suspension (sessionID : Z) (n : ThreadNode) : list Event :=
  if suspendOnStart n && negb (isSameObject (thread n) NULL)
  then [EvHelperSuspendThread sessionID (thread n)] else [].

(** The running list that the node of a thread goes to at its first
    event. *)
Definition start_list (n : ThreadNode) : ThreadList :=
  if is_vthread n then runningVThreads else runningThreads.

(** The node of thread [t] after the entry of its [THREAD_START] handler
    has moved it off [otherThreads] and applied the deferred modes [ds]. *)
Definition started_as (t : jthread) (ds : list DeferredEventMode)
    (n : ThreadNode) : ThreadNode :=
  set_current_ei EI_THREAD_START
    (apply_modes (modes_of t ds)
       (set_isStarted true (set_node_list (Some (start_list n)) n))).

(** The runtime accepts that the slot of [t] is set. *)
Definition slot_settable (vm : Runtime) (t : jthread) : Prop :=
  forall tr p, rt_SetThreadLocalStorage vm tr t (Some p) = JVMTI_ERROR_NONE.

(** * Sample worlds *)

(** A world that tracks one thread: the node [n] at address 0, on list
    [l], with the slot of its thread set. *)
Definition tracked_world (l : ThreadList) (n : ThreadNode) : World :=
  set_tls {[ thread n := 0%nat ]}
    (set_list_nodes l [0%nat] (one_node_world (set_node_list (Some l) n))).

(** The node of the platform thread 1 while it handles a breakpoint. *)
Definition in_breakpoint : ThreadNode := set_current_ei EI_BREAKPOINT (idle_node 1).

(** A breakpoint event on the platform thread 1. *)
Definition breakpoint_event : EventInfo :=
  {| ev_ei := EI_BREAKPOINT; ev_thread := 1; ev_is_vthread := false |}.

(** The start event of the platform thread 1. *)
Definition start_event : EventInfo :=
  {| ev_ei := EI_THREAD_START; ev_thread := 1; ev_is_vthread := false |}.

Definition gdata_quiet : GlobalData :=
  {| vthreadsSupported := true; jvmtiCallBacksCleared := false;
     assertOn := false; rememberVThreadsWhenDisconnected := false |}.

(** The node of thread 1, suspended once before it started. *)
Definition waiting_node : ThreadNode :=
  set_node_list (Some otherThreads)
    (set_suspendOnStart true (set_suspendCount 1 (set_thread 1 zero_node))).

(** A world in which thread 1 has not started: its node waits on
    [otherThreads], its slot is empty, and a single-step mode is deferred
    for it. *)
Definition waiting_world : World :=
  set_deferredEventModes
    [{| dem_ei := EI_SINGLE_STEP; dem_mode := JVMTI_ENABLE; dem_thread := 1 |};
     {| dem_ei := EI_BREAKPOINT; dem_mode := JVMTI_ENABLE; dem_thread := 2 |}]
    (set_list_nodes otherThreads [0%nat]
       (set_heap {[ 0%nat := waiting_node ]} (initial_world gdata_quiet))).

(** The answers of [InterruptThread] and [StopThread] in the samples. *)
Definition interrupt_ok : list Event -> jthread -> jvmtiError :=
  fun _ _ => JVMTI_ERROR_NONE.
Definition stop_ok : list Event -> jthread -> jobject -> jvmtiError :=
  fun _ _ _ => JVMTI_ERROR_NONE.

(** * The count of VM-wide suspends *)

(** From [w] to [w'] the count of VM-wide suspends is kept. *)
Definition keeps_count (w w' : World) : Prop :=
  suspendAllCount w' = suspendAllCount w.

(** * A suspend before the thread starts *)

(** The node that [insertThread] makes on [otherThreads] for the platform
    thread [t], with event bag [b], and the same node after a suspend that
    found the thread not alive. *)
Definition new_node (t : jthread) (b : bag) : ThreadNode :=
  set_node_list (Some otherThreads) (set_eventBag b (set_thread t zero_node)).

Definition pending_node (t : jthread) (b : bag) : ThreadNode :=
  set_suspendCount 1 (set_suspendOnStart true (new_node t b)).

(** The runtime has memory for a node, and gives every node the event
    bag [b]. *)
Definition node_available (vm : Runtime) (b : bag) : Prop :=
  (forall tr, rt_jvmtiAllocate vm tr AllocThreadNode = true) /\
  (forall tr, rt_createEventBag vm tr = Some b).

(** * The results of a list suspend *)

(** The node of a thread after [commonSuspendList] has read the result
    [e] that [SuspendThreadList] gave for it. *)
Definition after_list_suspend (e : jvmtiError) (n : ThreadNode) : ThreadNode :=
  if is_NONE e
  then set_suspendCount (jint_inc (suspendCount n)) (set_toBeResumed true n)
  else if is_THREAD_SUSPENDED e
  then set_suspendCount (jint_inc (suspendCount n)) n
  else if is_THREAD_NOT_ALIVE e
  then set_suspendCount (jint_inc (suspendCount n)) (set_suspendOnStart true n)
  else n.

(** Every thread of [ts] has its slot set to an allocated node, and no two
    of them share a node. *)
Definition slots_set (w : World) (ts : list jthread) : Prop :=
  (forall t, t ∈ ts -> exists p, tls w !! t = Some p /\ is_Some (heap w !! p)) /\
  (forall t t' p, t ∈ ts -> t' ∈ ts ->
     tls w !! t = Some p -> tls w !! t' = Some p -> t = t').

(** The runtime reports thread [t] as not alive: its slot cannot be read
    and it cannot be suspended, both calls answer [THREAD_NOT_ALIVE]. *)
Definition not_alive (vm : Runtime) (t : jthread) : Prop :=
  (forall tr, rt_GetThreadLocalStorage vm tr t = JVMTI_ERROR_THREAD_NOT_ALIVE) /\
  (forall tr, rt_SuspendThread vm tr t = JVMTI_ERROR_THREAD_NOT_ALIVE).

(** A runtime in which no thread has started: every thread is in state 0,
    and every call that needs a live thread answers [THREAD_NOT_ALIVE]. *)
Definition rt_not_started : Runtime :=
  {| rt_isVThread := rt_isVThread rt_two_threads;
     rt_GetThreadState := fun _ _ => (JVMTI_ERROR_NONE, 0);
     rt_GetThreadLocalStorage := fun _ _ => JVMTI_ERROR_THREAD_NOT_ALIVE;
     rt_SetThreadLocalStorage := fun _ _ _ => JVMTI_ERROR_THREAD_NOT_ALIVE;
     rt_SuspendThread := fun _ _ => JVMTI_ERROR_THREAD_NOT_ALIVE;
     rt_ResumeThread := fun _ _ => JVMTI_ERROR_THREAD_NOT_ALIVE;
     rt_SuspendThreadList := fun _ ts =>
       (JVMTI_ERROR_NONE, map (fun _ => JVMTI_ERROR_THREAD_NOT_ALIVE) ts);
     rt_ResumeThreadList := fun _ ts =>
       (JVMTI_ERROR_NONE, map (fun _ => JVMTI_ERROR_THREAD_NOT_ALIVE) ts);
     rt_SuspendAllVirtualThreads := rt_SuspendAllVirtualThreads rt_two_threads;
     rt_ResumeAllVirtualThreads := rt_ResumeAllVirtualThreads rt_two_threads;
     rt_SetEventNotificationMode := rt_SetEventNotificationMode rt_two_threads;
     rt_allThreads := fun _ => Some [];
     rt_jvmtiAllocate := rt_jvmtiAllocate rt_two_threads;
     rt_createEventBag := rt_createEventBag rt_two_threads;
     rt_NewGlobalRef := rt_NewGlobalRef rt_two_threads;
     rt_clearRequest := rt_clearRequest rt_two_threads |}.

(** A runtime like [rt_two_threads] in which [SuspendThread] fails with
    [JVMTI_ERROR_INTERNAL] (113). *)
Definition rt_suspend_fails : Runtime :=
  {| rt_isVThread := rt_isVThread rt_two_threads;
     rt_GetThreadState := rt_GetThreadState rt_two_threads;
     rt_GetThreadLocalStorage := rt_GetThreadLocalStorage rt_two_threads;
     rt_SetThreadLocalStorage := rt_SetThreadLocalStorage rt_two_threads;
     rt_SuspendThread := fun _ _ => JVMTI_ERROR_other 113;
     rt_ResumeThread := rt_ResumeThread rt_two_threads;
     rt_SuspendThreadList := rt_SuspendThreadList rt_two_threads;
     rt_ResumeThreadList := rt_ResumeThreadList rt_two_threads;
     rt_SuspendAllVirtualThreads := rt_SuspendAllVirtualThreads rt_two_threads;
     rt_ResumeAllVirtualThreads := rt_ResumeAllVirtualThreads rt_two_threads;
     rt_SetEventNotificationMode := rt_SetEventNotificationMode rt_two_threads;
     rt_allThreads := rt_allThreads rt_two_threads;
     rt_jvmtiAllocate := rt_jvmtiAllocate rt_two_threads;
     rt_createEventBag := rt_createEventBag rt_two_threads;
     rt_NewGlobalRef := rt_NewGlobalRef rt_two_threads;
     rt_clearRequest := rt_clearRequest rt_two_threads |}.

(** The node of thread 1 between a suspend request made before the thread
    was alive and the deferred suspend at its start. *)
Definition deferred_node : ThreadNode :=
  set_suspendOnStart true (set_suspendCount 1 (idle_node 1)).

(** * The list suspend *)

(** The node in the slot of thread [t]. *)
Definition slot_node (w : World) (t : jthread) : ThreadNode :=
  match tls w !! t with
  | Some p => node_at w p
  | None => zero_node
  end.

(** Does [commonSuspendList] ask the runtime to suspend the thread of this
    node?  Not a debug thread, and not a thread that waits for a deferred
    suspend or is suspended already. *)
Definition to_request (n : ThreadNode) : bool :=
  negb (isDebugThread n)
  && negb (suspendOnStart n || (0 <? suspendCount n))
  && (suspendCount n =? 0).

(** The node after the first pass of [commonSuspendList]: a nested or
    deferred suspend is counted at once. *)
Definition scanned (n : ThreadNode) : ThreadNode :=
  if isDebugThread n then n
  else if suspendOnStart n || (0 <? suspendCount n)
  then set_suspendCount (jint_inc (suspendCount n)) n
  else n.

(** The threads of [ts] that go on the request list, in order. *)
Definition requested (w : World) (ts : list jthread) : list jthread :=
  filter (fun t => to_request (slot_node w t) = true) ts.

(** The runtime has memory for every array. *)
Definition arrays_available (vm : Runtime) : Prop :=
  forall tr k, rt_jvmtiAllocate vm tr k = true.

(** From [w] to [w'] only the heap and the trace have changed. *)
Definition nodes_and_calls (w w' : World) : Prop :=
  w' = set_trace (trace w') (set_heap (heap w') w).

(** * Start-up *)

(** The node that [threadControl_onHook] makes for the thread [t], with
    event bag [b]. *)
Definition hooked_node (t : jthread) (b : bag) : ThreadNode :=
  set_isStarted true
    (set_node_list (Some runningThreads) (set_eventBag b (set_thread t zero_node))).

(** The table tracks exactly the threads [ts]: [runningThreads] holds, from
    its head, one started node for each of them in this order, the slot of
    each thread holds its node, and no other slot is set; the other lists
    are empty, and neither a VM-wide suspend nor a debugger thread is on
    record. *)
Definition hooked (b : bag) (ts : list jthread) (w : World) : Prop :=
  otherThreads_nodes w = [] /\
  runningVThreads_nodes w = [] /\
  suspendAllCount w = 0 /\
  debugThreads w = [] /\
  Forall2 (fun p t => heap w !! p = Some (hooked_node t b) /\ tls w !! t = Some p)
          (runningThreads_nodes w) ts /\
  (forall t, is_Some (tls w !! t) -> t ∈ ts).

(** The runtime has memory for nodes, lists the threads [ts] as the ones
    alive, gives a global reference for each of them, and reads and sets
    their slots. *)
Definition hookable (vm : Runtime) (b : bag) (ts : list jthread) : Prop :=
  node_available vm b /\
  (forall tr, rt_allThreads vm tr = Some ts) /\
  forall t, t ∈ ts ->
    t <> NULL /\ slot_read vm t /\ slot_settable vm t /\
    forall tr, rt_NewGlobalRef vm tr t = true.

(** * The checkpoint extension *)

(** The function that a call of the build with CRIU support goes through,
    given the calls made so far: the cached pointer or, when that is null,
    what the lookup by name finds. *)
Definition resolved
    (get : list Event -> jvmtiError * list Criu.jvmtiExtensionFunctionInfo)
    (name : String.string) (func : option Criu.jvmtiExtensionFunction)
    (tr : list Event) : option Criu.jvmtiExtensionFunction :=
  match func with
  | Some f => Some f
  | None =>
      if is_NONE (fst (get tr)) then Criu.find_ext_from (snd (get tr)) name
      else None
  end.

(** The call that the lookup leaves in the trace when the pointer is not
    cached. *)
Definition lookup_calls (func : option Criu.jvmtiExtensionFunction) : list Event :=
  match func with
  | Some _ => []
  | None => [EvGetExtensionFunctions]
  end.

(** The monitor calls. *)
Definition is_monitor (e : Event) : bool :=
  match e with
  | EvMonitorCreate _ | EvMonitorEnter _ | EvMonitorExit _
  | EvMonitorNotifyAll _ => true
  | _ => false
  end.

(** A runtime without the checkpoint extension, and one that offers the
    two functions under the names [add] and [remove]; the first refuses
    every thread with error 99, the second accepts every thread. *)
Definition no_extension
  : list Event -> jvmtiError * list Criu.jvmtiExtensionFunctionInfo :=
  fun _ => (JVMTI_ERROR_NONE, []).

Definition ext_refuses : Criu.jvmtiExtensionFunction :=
  fun _ _ => JVMTI_ERROR_other 99.
Definition ext_accepts : Criu.jvmtiExtensionFunction :=
  fun _ _ => JVMTI_ERROR_NONE.

Module SampleNames.
Import String.
Definition ADD_NAME : string := "add"%string.
Definition REMOVE_NAME : string := "remove"%string.
End SampleNames.

Definition checkpoint_extension
  : list Event -> jvmtiError * list Criu.jvmtiExtensionFunctionInfo :=
  fun _ => (JVMTI_ERROR_NONE,
            [ {| Criu.id := SampleNames.ADD_NAME; Criu.func := Some ext_refuses |};
              {| Criu.id := SampleNames.REMOVE_NAME;
                 Criu.func := Some ext_accepts |} ]).

(** * The chains behind the lists *)

(** The node before position [i] of a chain. *)
Definition before (nodes : list NodeId) (i : nat) : option NodeId :=
  match i with
  | O => None
  | S j => nodes !! j
  end.

(** The store holds the nodes [nodes], in this order, as the chain of list
    [l]: [first] is the first of them, each has the next one in [next] and
    the one before in [prev], null at the two ends, and names [l] in its
    [list] field. *)
Definition chain (s : Links.Store) (l : ThreadList) (nodes : list NodeId) : Prop :=
  Links.first s l = nodes !! 0%nat /\
  forall i p, nodes !! i = Some p ->
    Links.nodes s !! p
    = Some {| Links.next := nodes !! S i;
              Links.prev := before nodes i;
              Links.owner := Some l |}.

(** The store is what the world describes: the chain of each list is the
    list of the world, the same nodes are allocated and have the same
    [list] fields, a node that names no list has null links, and the
    counters agree. *)
Definition represents (s : Links.Store) (w : World) : Prop :=
  (forall l, chain s l (list_nodes l w)) /\
  (forall p, Links.owner <$> Links.nodes s !! p = node_list <$> heap w !! p) /\
  (forall p c, Links.nodes s !! p = Some c -> Links.owner c = None ->
     Links.next c = None /\ Links.prev c = None) /\
  Links.numRunningVThreads s = numRunningVThreads w.

(** A store with the two nodes 0 and 1 chained on [runningThreads], and the
    world that describes it. *)
Definition two_links : Links.Store :=
  {| Links.nodes :=
       {[ 0%nat := {| Links.next := Some 1%nat; Links.prev := None;
                      Links.owner := Some runningThreads |};
          1%nat := {| Links.next := None; Links.prev := Some 0%nat;
                      Links.owner := Some runningThreads |} ]};
     Links.first := fun l => match l with runningThreads => Some 0%nat | _ => None end;
     Links.numRunningVThreads := 0 |}.

Definition two_nodes : World :=
  set_list_nodes runningThreads [0%nat; 1%nat]
    (set_heap {[ 0%nat := idle_node 1; 1%nat := idle_node 2 ]}
       (initial_world gdata_quiet)).
(** * Properties *)

(** ** Arithmetic of the machine integers *)

Lemma jint_wrap_id (z : Z) : jint_min <= z <= jint_max -> jint_wrap z = z.
Proof.
  unfold jint_min, jint_max, jint_wrap. intros Hz.
  rewrite Z.mod_small; lia.
Qed.

Lemma jint_inc_no_overflow (z : Z) :
  jint_min <= z < jint_max -> jint_inc z = z + 1.
Proof. intros Hz. apply jint_wrap_id. lia. Qed.

Lemma jint_dec_no_overflow (z : Z) :
  jint_min < z <= jint_max -> jint_dec z = z - 1.
Proof. intros Hz. apply jint_wrap_id. lia. Qed.

(** ** Running the monad *)

Lemma read_node_ok (w : World) (node : NodeId) (n : ThreadNode) :
  heap w !! node = Some n -> read_node node w = Ok n w.
Proof. intros H. unfold read_node. by rewrite H. Qed.

Lemma modify_node_ok (w : World) (node : NodeId) (n : ThreadNode)
    (f : ThreadNode -> ThreadNode) :
  heap w !! node = Some n ->
  modify_node node f w = Ok tt (set_heap (<[node := f n]> (heap w)) w).
Proof.
  intros H. unfold modify_node, bind. by rewrite (read_node_ok _ _ _ H).
Qed.

Lemma bind_ok {A B : Type} (m : M A) (f : A -> M B) (w w' : World) (a : A) :
  m w = Ok a w' -> bind m f w = f a w'.
Proof. intros H. unfold bind. by rewrite H. Qed.

Lemma bind_assoc {A B C : Type} (m : M A) (f : A -> M B) (g : B -> M C)
    (w : World) :
  bind (bind m f) g w = bind m (fun a => bind (f a) g) w.
Proof. unfold bind. by destruct (m w). Qed.

Lemma bind_inv {A B : Type} (m : M A) (f : A -> M B) (w w' : World) (b : B) :
  bind m f w = Ok b w' -> exists a w1, m w = Ok a w1 /\ f a w1 = Ok b w'.
Proof.
  unfold bind. destruct (m w) as [a w1|]; [|done]. intros H. by exists a, w1.
Qed.

Lemma node_at_Some (w : World) (p : NodeId) (n : ThreadNode) :
  heap w !! p = Some n -> node_at w p = n.
Proof. intros Hn. unfold node_at. by rewrite Hn. Qed.

Lemma node_at_insert_ne (w : World) (p q : NodeId) (n : ThreadNode) :
  p <> q -> node_at (set_heap (<[p := n]> (heap w)) w) q = node_at w q.
Proof. intros Hne. unfold node_at. cbn [heap set_heap]. by rewrite lookup_insert_ne. Qed.

Lemma world_eta (w : World) : set_trace (trace w) (set_heap (heap w) w) = w.
Proof. by destruct w. Qed.

Lemma primitive_calls_app (a b : list Event) :
  primitive_calls (a ++ b) = primitive_calls a ++ primitive_calls b.
Proof. apply filter_app. Qed.

(** Unfolding of the monad and of the node accessors, one step at a time. *)
Ltac munfold :=
  cbv beta iota delta [bind ret skip emit modify_world get_world JDI_ASSERT
    debugMonitorNotifyAll debugMonitorEnter debugMonitorExit
    JVMTI_SuspendThread JVMTI_ResumeThread incr_suspendCount decr_suspendCount
    incr_frameGeneration commonSuspendByNode read_node modify_node
    is_NONE is_THREAD_NOT_ALIVE is_THREAD_SUSPENDED negb andb orb];
  cbn [heap trace gdata tls set_heap set_trace].

Ltac mrewrite :=
  repeat match goal with
  | H : ?x = ?y |- context [?x] =>
      lazymatch x with
      | context [match _ with _ => _ end] => fail
      | _ => tryif is_var x then fail else rewrite H
      end
  end.

Ltac mrun := repeat (progress (munfold; mrewrite; rewrite ?lookup_insert_eq)).

(** Two worlds that differ in one node and in the calls made. *)
Ltac world_eq :=
  unfold node_update;
  match goal with w : World |- _ => destruct w end;
  cbv [set_heap set_trace heap trace gdata tls runningThreads_nodes
       otherThreads_nodes runningVThreads_nodes numRunningVThreads
       suspendAllCount debugThreads deferredEventModes popFrameLocks];
  cbn [heap trace gdata] in *;
  f_equal;
  first [ reflexivity
        | rewrite ?insert_insert_eq; reflexivity
        | symmetry; eapply insert_id; eassumption
        | rewrite <- ?app_assoc; reflexivity
        | rewrite app_nil_r; reflexivity ].

Ltac mdone := f_equal; world_eq.


(** Two worlds that differ in the trace only. *)
Ltac trace_eq :=
  unfold with_events;
  cbv [set_trace gdata heap tls runningThreads_nodes otherThreads_nodes
       runningVThreads_nodes numRunningVThreads suspendAllCount debugThreads
       deferredEventModes popFrameLocks trace];
  f_equal;
  repeat (progress (rewrite <- ?app_assoc; cbn [app]));
  reflexivity.

(** Two worlds built from the same world by rewriting one node and adding
    to the trace. *)
Ltac world_norm :=
  unfold with_events, node_update;
  cbv [set_trace set_heap gdata heap tls runningThreads_nodes otherThreads_nodes
       runningVThreads_nodes numRunningVThreads suspendAllCount debugThreads
       deferredEventModes popFrameLocks trace];
  f_equal;
  first [ reflexivity
        | rewrite ?insert_insert_eq; reflexivity
        | repeat (progress (rewrite <- ?app_assoc; cbn [app])); reflexivity ].

(** ** Well-formed worlds *)

Lemma lists_ok_spec (w : World) :
  lists_ok w = true ->
  forall l p, p ∈ list_nodes l w ->
    exists n, heap w !! p = Some n /\ is_on n l = true.
Proof.
  unfold lists_ok. cbn [forallb]. rewrite !andb_true_iff.
  intros (Hr & Ho & Hv & _) l p Hp.
  assert (Hl : forallb (on_list w l) (list_nodes l w) = true) by (by destruct l).
  rewrite forallb_forall in Hl.
  specialize (Hl p). rewrite <- list_elem_of_In in Hl. specialize (Hl Hp).
  unfold on_list in Hl. destruct (heap w !! p) as [n|]; [|done]. by exists n.
Qed.

Lemma slots_ok_spec (w : World) :
  slots_ok w = true ->
  forall t p, tls w !! t = Some p ->
    exists n, heap w !! p = Some n /\ thread n = t.
Proof.
  unfold slots_ok. rewrite forallb_forall. intros H t p Htp.
  specialize (H (t, p)). rewrite <- list_elem_of_In, elem_of_map_to_list in H.
  specialize (H Htp). cbn in H.
  destruct (heap w !! p) as [n|]; [|done].
  exists n. split; [done|]. by apply Z.eqb_eq.
Qed.

Lemma emit_ok (e : Event) (w : World) : emit e w = Ok tt (with_events [e] w).
Proof. reflexivity. Qed.

Lemma with_events_nil (w : World) : with_events [] w = w.
Proof. unfold with_events. rewrite app_nil_r. by destruct w. Qed.

Lemma with_events_app (a b : list Event) (w : World) :
  with_events b (with_events a w) = with_events (a ++ b) w.
Proof. unfold with_events. cbn. rewrite app_assoc. by destruct w. Qed.

Lemma is_assertion_app (a b : list Event) :
  Forall is_assertion a -> Forall is_assertion b -> Forall is_assertion (a ++ b).
Proof. intros. by apply Forall_app. Qed.

Lemma primitive_calls_assertions (events : list Event) :
  Forall is_assertion events -> primitive_calls events = [].
Proof.
  induction 1 as [|e events [line ->] _ IH]; [done|].
  unfold primitive_calls in *. rewrite filter_cons. cbn.
  case_decide; [discriminate|]. exact IH.
Qed.

(** ** The lookup of the code is the lookup of the spec *)

Section Lookup.

Context (vm : Runtime).


Lemma nonTlsSearch_from_ok (nodes : list NodeId) (t : jthread) (w : World) :
  Forall (fun p => is_Some (heap w !! p)) nodes ->
  nonTlsSearch_from nodes t w = Ok (scan_from (heap w) nodes t) w.
Proof.
  induction 1 as [|p nodes [n Hn] _ IH]; [done|].
  cbn [nonTlsSearch_from scan_from].
  rewrite (bind_ok _ _ _ _ _ (read_node_ok _ _ _ Hn)), Hn.
  by destruct (isSameObject (thread n) t).
Qed.

Lemma lists_allocated (w : World) (l : ThreadList) :
  lists_ok w = true ->
  Forall (fun p => is_Some (heap w !! p)) (list_nodes l w).
Proof.
  intros Hw. apply Forall_forall. intros p Hp.
  destruct (lists_ok_spec w Hw l p Hp) as (n & Hn & _). by exists n.
Qed.

Lemma nonTlsSearch_ok (l : ThreadList) (t : jthread) (w : World) :
  lists_ok w = true -> nonTlsSearch l t w = Ok (scan w l t) w.
Proof.
  intros Hw. unfold nonTlsSearch, get_world. unfold bind.
  by apply nonTlsSearch_from_ok, lists_allocated.
Qed.

(** The assertion of [findThread] on a running list leaves at most an
    assertion event. *)
Lemma assert_not_on_ok (line : nat) (l : ThreadList) (t : jthread) (w : World) :
  lists_ok w = true ->
  exists events,
    assert_not_on line l t w = Ok tt (with_events events w) /\
    Forall is_assertion events.
Proof.
  intros Hw. unfold assert_not_on, get_world. unfold bind at 1.
  destruct (assertOn (gdata w)) eqn:Ha.
  - rewrite (bind_ok _ _ _ _ _ (nonTlsSearch_ok l t w Hw)).
    unfold JDI_ASSERT, get_world, bind. rewrite Ha.
    destruct (scan w l t) as [p|].
    + exists [EvAssertionFailed line]. split; [done|].
      repeat constructor. by exists line.
    + exists []. by rewrite with_events_nil.
  - exists []. by rewrite with_events_nil.
Qed.

Lemma scan_with_events (events : list Event) (w : World) (l : ThreadList)
    (t : jthread) :
  scan (with_events events w) l t = scan w l t.
Proof. by destruct l. Qed.

Lemma lists_ok_with_events (events : list Event) (w : World) :
  lists_ok (with_events events w) = lists_ok w.
Proof. reflexivity. Qed.

(** [findThread] returns what the lookup of the spec returns, given a
    runtime that answers the read of the slot with success or with
    [THREAD_NOT_ALIVE]; it changes nothing and leaves at most assertion
    events. *)
Lemma findThread_lookup (lst : option ThreadList) (t : jthread) (w : World) :
  lists_ok w = true ->
  slots_ok w = true ->
  is_NONE (rt_GetThreadLocalStorage vm (trace w) t)
  || is_THREAD_NOT_ALIVE (rt_GetThreadLocalStorage vm (trace w) t) = true ->
  exists events,
    findThread vm lst t w
    = Ok (lookup (rt_GetThreadLocalStorage vm (trace w) t) w lst t)
         (with_events events w) /\
    Forall is_assertion events.
Proof.
  intros Hw Hs He.
  assert (Hget : getThreadLocalStorage vm t w
                 = Ok (slot (rt_GetThreadLocalStorage vm (trace w) t) w t) w).
  { unfold getThreadLocalStorage, get_world, bind, slot.
    destruct (rt_GetThreadLocalStorage vm (trace w) t); try done. }
  assert (Hscan : forall l p, scan w l t = Some p -> is_Some (heap w !! p)).
  { intros l p. unfold scan. generalize (list_nodes l w).
    induction l0 as [|q nodes IH]; [done|]. cbn.
    destruct (heap w !! q) as [n|] eqn:Hq; [|done].
    destruct (isSameObject (thread n) t); [|done].
    intros [= <-]. by exists n. }
  unfold findThread, lookup. rewrite (bind_ok _ _ _ _ _ Hget).
  set (e := rt_GetThreadLocalStorage vm (trace w) t) in *.
  match goal with
  | |- exists events, bind ?S ?K w = Ok (match ?F with _ => _ end) _ /\ _ =>
      assert (Hsearch : exists found events,
                 S w = Ok found (with_events events w) /\ found = F /\
                 (forall p, found = Some p -> is_Some (heap w !! p)) /\
                 Forall is_assertion events);
      [| assert (Hfilter : forall found events,
                   (forall p, found = Some p -> is_Some (heap w !! p)) ->
                   K found (with_events events w)
                   = Ok match found, lst with
                        | Some p, Some l =>
                            match heap w !! p with
                            | Some n => if is_on n l then Some p else None
                            | None => None
                            end
                        | _, _ => found
                        end (with_events events w)) ]
  end.
  - (* the search *)
    destruct (slot e w t) as [p|] eqn:Hslot.
    { exists (Some p), []. rewrite with_events_nil. repeat split; try done.
      intros q [= <-]. unfold slot in Hslot. destruct (is_NONE e); [|done].
      destruct (slots_ok_spec w Hs t p Hslot) as (n & Hn & _). by exists n. }
    set (in_other := if any_or lst otherThreads then scan w otherThreads t else None).
    assert (Hother : (if any_or lst otherThreads
                      then nonTlsSearch otherThreads t else ret None) w
                     = Ok in_other w).
    { unfold in_other. destruct (any_or lst otherThreads); [|done].
      by apply nonTlsSearch_ok. }
    assert (Hin : forall p, in_other = Some p -> is_Some (heap w !! p)).
    { intros p. unfold in_other. destruct (any_or lst otherThreads); [|done].
      apply Hscan. }
    rewrite (bind_ok _ _ _ _ _ Hother). unfold get_world at 1. unfold bind at 1.
    destruct (jvmtiCallBacksCleared (gdata w)) eqn:Hcleared; cbn [negb].
    + (* callbacks cleared: the running lists are scanned too *)
      destruct in_other as [p|].
      { exists (Some p), []. rewrite with_events_nil. by repeat split. }
      assert (Hrun : (if any_or lst runningThreads
                      then nonTlsSearch runningThreads t else ret None) w
                     = Ok (if any_or lst runningThreads
                           then scan w runningThreads t else None) w).
      { destruct (any_or lst runningThreads); [|done]. by apply nonTlsSearch_ok. }
      rewrite (bind_ok _ _ _ _ _ Hrun).
      destruct (if any_or lst runningThreads then scan w runningThreads t else None)
        as [p|] eqn:Hr.
      { exists (Some p), []. rewrite with_events_nil. repeat split; try done.
        intros q [= <-]. destruct (any_or lst runningThreads); [|done].
        by eapply Hscan. }
      exists (if any_or lst runningVThreads then scan w runningVThreads t else None), [].
      rewrite with_events_nil. repeat split; try done.
      * destruct (any_or lst runningVThreads); [|done]. by apply nonTlsSearch_ok.
      * intros q. destruct (any_or lst runningVThreads); [|done]. apply Hscan.
    + (* normal operation: the two assertions, then the node of [other] *)
      destruct (assert_not_on_ok 267 runningThreads t w Hw) as (ev1 & H1 & Hev1).
      destruct (assert_not_on_ok 268 runningVThreads t (with_events ev1 w) Hw)
        as (ev2 & H2 & Hev2).
      exists in_other, (ev1 ++ ev2).
      rewrite (bind_ok _ _ _ _ _ H1), (bind_ok _ _ _ _ _ H2), with_events_app.
      repeat split; try done. by apply is_assertion_app.
  - (* only a node on the requested list counts *)
    intros [p|] events Hp; [|by destruct lst]. destruct lst as [l|]; [|done].
    destruct (Hp p eq_refl) as [n Hn].
    erewrite bind_ok; [|by apply read_node_ok].
    rewrite Hn. unfold is_on. by destruct (not_on n l).
  - destruct Hsearch as (found & events & Hsearch & -> & Halloc & Hev).
    exists events. split; [|done].
    rewrite (bind_ok _ _ _ _ _ Hsearch). by apply Hfilter.
Qed.

End Lookup.

(** ** Partial correctness *)

Lemma wp_ok {A : Type} (m : M A) (Q : A -> World -> Prop) (w w' : World) (a : A) :
  wp m Q w -> m w = Ok a w' -> Q a w'.
Proof. unfold wp. intros H Hm. by rewrite Hm in H. Qed.

Lemma wp_bind {A B : Type} (m : M A) (f : A -> M B) (Q : B -> World -> Prop)
    (w : World) :
  wp m (fun a w' => wp (f a) Q w') w -> wp (bind m f) Q w.
Proof. unfold wp, bind. by destruct (m w). Qed.

Lemma wp_ret {A : Type} (a : A) (Q : A -> World -> Prop) (w : World) :
  Q a w -> wp (ret a) Q w.
Proof. done. Qed.

Lemma wp_mono {A : Type} (m : M A) (Q Q' : A -> World -> Prop) (w : World) :
  wp m Q w -> (forall a w', Q a w' -> Q' a w') -> wp m Q' w.
Proof. unfold wp. destruct (m w); auto. Qed.

Lemma wp_exit {A : Type} (e : jvmtiError) (line : nat)
    (Q : A -> World -> Prop) (w : World) :
  wp (EXIT_ERROR e line) Q w.
Proof. done. Qed.

Lemma wp_get_world (Q : World -> World -> Prop) (w : World) :
  Q w w -> wp get_world Q w.
Proof. done. Qed.

Lemma wp_modify_world (f : World -> World) (Q : unit -> World -> Prop) (w : World) :
  Q tt (f w) -> wp (modify_world f) Q w.
Proof. done. Qed.

Lemma wp_emit (e : Event) (Q : unit -> World -> Prop) (w : World) :
  Q tt (with_events [e] w) -> wp (emit e) Q w.
Proof. done. Qed.

Lemma wp_read_node (p : NodeId) (Q : ThreadNode -> World -> Prop) (w : World) :
  (forall n, heap w !! p = Some n -> Q n w) -> wp (read_node p) Q w.
Proof. unfold wp, read_node. destruct (heap w !! p); auto. Qed.

Lemma wp_modify_node (p : NodeId) (f : ThreadNode -> ThreadNode)
    (Q : unit -> World -> Prop) (w : World) :
  (forall n, heap w !! p = Some n -> Q tt (set_heap (<[p := f n]> (heap w)) w)) ->
  wp (modify_node p f) Q w.
Proof.
  intros H. unfold modify_node. apply wp_bind, wp_read_node. intros n Hn.
  apply wp_modify_world. by apply H.
Qed.

Lemma wp_JDI_ASSERT (line : nat) (b : bool) (Q : unit -> World -> Prop)
    (w : World) :
  (forall events, Forall is_assertion events -> Q tt (with_events events w)) ->
  wp (JDI_ASSERT line b) Q w.
Proof.
  intros H. unfold JDI_ASSERT. apply wp_bind, wp_get_world.
  destruct (assertOn (gdata w) && negb b).
  - apply wp_emit, H. repeat constructor. by exists line.
  - apply wp_ret. rewrite <- (with_events_nil w). apply H. constructor.
Qed.

Lemma only_assertions_refl (w : World) : only_assertions w w.
Proof. exists []. split; [by rewrite with_events_nil|constructor]. Qed.

Lemma only_assertions_trans (w1 w2 w3 : World) :
  only_assertions w1 w2 -> only_assertions w2 w3 -> only_assertions w1 w3.
Proof.
  intros (e1 & -> & H1) (e2 & -> & H2). exists (e1 ++ e2).
  split; [by rewrite with_events_app|by apply Forall_app].
Qed.

Lemma only_assertions_step (w : World) (events : list Event) :
  Forall is_assertion events -> only_assertions w (with_events events w).
Proof. intros H. by exists events. Qed.

Section Frames.

Context (vm : Runtime).

Lemma wp_nonTlsSearch_from (nodes : list NodeId) (t : jthread) (w : World) :
  wp (nonTlsSearch_from nodes t)
     (fun r w' => w' = w /\ forall p, r = Some p -> is_Some (heap w !! p)) w.
Proof.
  induction nodes as [|q nodes IH]; [by apply wp_ret|].
  cbn [nonTlsSearch_from]. apply wp_bind, wp_read_node. intros n Hn.
  destruct (isSameObject (thread n) t); [|done].
  apply wp_ret. split; [done|]. intros p [= <-]. by exists n.
Qed.

Lemma wp_nonTlsSearch (l : ThreadList) (t : jthread) (w : World) :
  wp (nonTlsSearch l t)
     (fun r w' => w' = w /\ forall p, r = Some p -> is_Some (heap w !! p)) w.
Proof.
  unfold nonTlsSearch. apply wp_bind, wp_get_world, wp_nonTlsSearch_from.
Qed.

Lemma wp_assert_not_on (line : nat) (l : ThreadList) (t : jthread) (w : World) :
  wp (assert_not_on line l t) (fun _ w' => only_assertions w w') w.
Proof.
  unfold assert_not_on. apply wp_bind, wp_get_world.
  destruct (assertOn (gdata w)); [|apply wp_ret, only_assertions_refl].
  apply wp_bind. eapply wp_mono; [apply wp_nonTlsSearch|].
  intros r w' [-> _]. apply wp_JDI_ASSERT. intros events Hev.
  by apply only_assertions_step.
Qed.

Lemma wp_getThreadLocalStorage (t : jthread) (w : World) :
  wp (getThreadLocalStorage vm t) (fun _ w' => w' = w) w.
Proof.
  unfold getThreadLocalStorage. apply wp_bind, wp_get_world.
  destruct (is_THREAD_NOT_ALIVE _); [done|]. by destruct (negb _).
Qed.

(** [findThread] changes nothing; when a list was requested, the node it
    returns is allocated and on that list. *)
Lemma wp_findThread (lst : option ThreadList) (t : jthread) (w : World) :
  wp (findThread vm lst t)
     (fun r w' => only_assertions w w' /\
        forall p l, r = Some p -> lst = Some l ->
          exists n, heap w !! p = Some n /\ is_on n l = true) w.
Proof.
  unfold findThread.
  apply wp_bind. eapply wp_mono; [apply wp_getThreadLocalStorage|].
  intros slot ? ->.
  apply wp_bind.
  apply wp_mono with (Q := fun _ w1 => only_assertions w w1).
  - (* the search *)
    destruct slot as [p|]; [apply wp_ret, only_assertions_refl|].
    apply wp_bind with (Q := fun _ w' => only_assertions w w').
    apply wp_mono with (Q := fun _ w' => w' = w).
    { destruct (any_or lst otherThreads); [|done].
      eapply wp_mono; [apply wp_nonTlsSearch|]. by intros ? ? [-> _]. }
    intros in_other ? ->.
    apply wp_bind, wp_get_world.
    destruct (negb (jvmtiCallBacksCleared (gdata w))).
    + apply wp_bind. eapply wp_mono; [apply wp_assert_not_on|].
      intros [] w1 Hw1. apply wp_bind. eapply wp_mono; [apply wp_assert_not_on|].
      intros [] w2 Hw2. apply wp_ret. by eapply only_assertions_trans.
    + destruct in_other as [p|]; [apply wp_ret, only_assertions_refl|].
      apply wp_bind.
      apply wp_mono with (Q := fun _ w' => w' = w).
      { destruct (any_or lst runningThreads); [|done].
        eapply wp_mono; [apply wp_nonTlsSearch|]. by intros ? ? [-> _]. }
      intros [p|] ? ->; [apply wp_ret, only_assertions_refl|].
      destruct (any_or lst runningVThreads); [|apply wp_ret, only_assertions_refl].
      eapply wp_mono; [apply wp_nonTlsSearch|].
      intros ? ? [-> _]. apply only_assertions_refl.
  - (* only a node on the requested list counts *)
    intros [p|] w1 Hw1; [|by destruct lst; apply wp_ret].
    destruct lst as [l|]; [|by apply wp_ret].
    apply wp_bind, wp_read_node. intros n Hn.
    assert (Hn' : heap w !! p = Some n).
    { destruct Hw1 as (events & Heq & _). by rewrite Heq in Hn. }
    destruct (not_on n l) eqn:Hon; apply wp_ret; (split; [done|]); [done|].
    intros ? ? [= <-] [= <-]. exists n. split; [done|].
    unfold is_on. by rewrite Hon.
Qed.

End Frames.

(** ** Worlds of the same shape *)

Lemma node_sim_refl (o : option ThreadNode) : node_sim o o.
Proof. by destruct o. Qed.

Lemma node_sim_trans (a b c : option ThreadNode) :
  node_sim a b -> node_sim b c -> node_sim a c.
Proof.
  destruct a, b, c; cbn; try done. intros [H1 H2] [H3 H4]. split; congruence.
Qed.

Lemma same_shape_refl (w : World) : same_shape w w.
Proof.
  split; [done|]. split; [done|]. split; [done|].
  intros q. apply node_sim_refl.
Qed.

Lemma same_shape_trans (w1 w2 w3 : World) :
  same_shape w1 w2 -> same_shape w2 w3 -> same_shape w1 w3.
Proof.
  intros (Hg & Ht & Hl & Hn) (Hg' & Ht' & Hl' & Hn').
  split; [congruence|]. split; [congruence|].
  split; [intros l; by rewrite Hl', Hl|].
  intros q. by eapply node_sim_trans.
Qed.

Lemma same_shape_events (w : World) (events : list Event) :
  same_shape w (with_events events w).
Proof.
  split; [done|]. split; [done|]. split; [by intros []|].
  intros q. apply node_sim_refl.
Qed.

(** Rewriting a node without touching its thread or its list keeps the
    shape. *)
Lemma same_shape_update (w : World) (p : NodeId) (n n' : ThreadNode) :
  heap w !! p = Some n ->
  thread n' = thread n ->
  node_list n' = node_list n ->
  same_shape w (set_heap (<[p := n']> (heap w)) w).
Proof.
  intros Hn Ht Hl. split; [done|]. split; [done|]. split; [by intros []|].
  intros q. cbn. destruct (decide (p = q)) as [->|Hne].
  - rewrite lookup_insert_eq, Hn. done.
  - rewrite lookup_insert_ne by done. apply node_sim_refl.
Qed.

Lemma forallb_pointwise {A : Type} (f g : A -> bool) (xs : list A) :
  (forall x, f x = g x) -> forallb f xs = forallb g xs.
Proof.
  intros H. induction xs as [|x xs IH]; [done|]. cbn. by rewrite H, IH.
Qed.

Lemma on_list_shape (w w' : World) (l : ThreadList) (q : NodeId) :
  same_shape w w' -> on_list w' l q = on_list w l q.
Proof.
  intros (_ & _ & _ & Hn). specialize (Hn q). unfold on_list, is_on, not_on.
  destruct (heap w !! q) as [n|], (heap w' !! q) as [n'|]; cbn in Hn; try done.
  destruct Hn as [_ ->]. done.
Qed.

Lemma lists_ok_shape (w w' : World) :
  same_shape w w' -> lists_ok w' = lists_ok w.
Proof.
  intros H. pose proof H as (_ & _ & Hl & _). unfold lists_ok.
  cbn [forallb]. rewrite !Hl.
  f_equal; [|f_equal; [|f_equal]];
    apply forallb_pointwise; intros q; by apply on_list_shape.
Qed.

Lemma slots_ok_shape (w w' : World) :
  same_shape w w' -> slots_ok w' = slots_ok w.
Proof.
  intros (_ & Ht & _ & Hn). unfold slots_ok. rewrite Ht.
  apply forallb_pointwise. intros [t q]. specialize (Hn q).
  destruct (heap w !! q) as [n|], (heap w' !! q) as [n'|]; cbn in Hn; try done.
  destruct Hn as [-> _]. done.
Qed.

Lemma scan_from_shape (h h' : gmap NodeId ThreadNode) (nodes : list NodeId)
    (t : jthread) :
  (forall q, node_sim (h !! q) (h' !! q)) ->
  scan_from h' nodes t = scan_from h nodes t.
Proof.
  intros Hn. induction nodes as [|q nodes IH]; [done|]. cbn.
  specialize (Hn q).
  destruct (h !! q) as [n|], (h' !! q) as [n'|]; cbn in Hn; try done.
  destruct Hn as [-> _]. by rewrite IH.
Qed.

Lemma lookup_shape (e : jvmtiError) (w w' : World) (lst : option ThreadList)
    (t : jthread) :
  same_shape w w' -> lookup e w' lst t = lookup e w lst t.
Proof.
  intros (Hg & Ht & Hl & Hn). unfold lookup, slot, scan.
  rewrite Hg, Ht, !Hl, !(scan_from_shape (heap w) (heap w')) by done.
  match goal with
  | |- match ?F with _ => _ end = _ => destruct F as [q|]; [|done]
  end.
  destruct lst as [l|]; [|done]. specialize (Hn q). unfold is_on, not_on.
  destruct (heap w !! q) as [n|], (heap w' !! q) as [n'|]; cbn in Hn; try done.
  destruct Hn as [_ ->]. done.
Qed.
Section NodeOperations.

Context (vm : Runtime).

(** C1.  The per-thread suspend of a node that is not a debug thread and
    whose [suspendCount], a [jint], is below the largest [jint].  With
    [suspendOnStart] already set the call makes no runtime call, adds one
    to [suspendCount] and returns success.  Otherwise, with [suspendCount]
    at 0, [SuspendThread] is called once: success sets [toBeResumed] to
    true, [THREAD_NOT_ALIVE] becomes success with [suspendOnStart] set to
    true, any other error is returned with the node as it was.  With a
    nonzero count no primitive is called.  After every successful outcome
    [suspendCount] is the old count plus one; after a failure it is the old
    count.  Nothing but this node and the trace changes. *)
Theorem suspendThreadByNode_cases (w : World) (node : NodeId) (n : ThreadNode) :
  heap w !! node = Some n ->
  isDebugThread n = false ->
  jint_min <= suspendCount n < jint_max ->
  exists (error : jvmtiError) (n' : ThreadNode) (events : list Event),
    suspendThreadByNode vm node w = Ok error (node_update node n' events w) /\
    (suspendOnStart n = true ->
       error = JVMTI_ERROR_NONE /\ events = [] /\
       n' = set_suspendCount (suspendCount n + 1) n /\
       suspendOnStart n' = true /\ toBeResumed n' = toBeResumed n) /\
    (suspendOnStart n = false -> suspendCount n = 0 ->
       primitive_calls events = [EvSuspendThread (thread n)] /\
       match rt_SuspendThread vm (trace w) (thread n) with
       | JVMTI_ERROR_NONE =>
           error = JVMTI_ERROR_NONE /\
           n' = set_suspendCount 1 (set_toBeResumed true n) /\
           toBeResumed n' = true /\ suspendOnStart n' = false /\
           suspendCount n' = 1
       | JVMTI_ERROR_THREAD_NOT_ALIVE =>
           error = JVMTI_ERROR_NONE /\
           n' = set_suspendCount 1 (set_suspendOnStart true n) /\
           suspendOnStart n' = true /\ toBeResumed n' = toBeResumed n /\
           suspendCount n' = 1
       | r => error = r /\ n' = n
       end) /\
    (suspendOnStart n = false -> suspendCount n <> 0 ->
       error = JVMTI_ERROR_NONE /\ primitive_calls events = [] /\
       n' = set_suspendCount (suspendCount n + 1) n /\
       suspendOnStart n' = false /\ toBeResumed n' = toBeResumed n) /\
    (error = JVMTI_ERROR_NONE -> suspendCount n' = suspendCount n + 1) /\
    (error <> JVMTI_ERROR_NONE -> suspendCount n' = suspendCount n).
Proof.
  intros Hn Hdbg Hrange. unfold suspendThreadByNode.
  pose proof (jint_inc_no_overflow (suspendCount n) Hrange) as Hinc.
  destruct (suspendOnStart n) eqn:Hsos.
  - exists JVMTI_ERROR_NONE, (set_suspendCount (suspendCount n + 1) n), [].
    split; [mrun; rewrite ?Hinc; mdone|]. repeat split; done.
  - destruct (suspendCount n =? 0) eqn:Hc.
    + pose proof Hc as Hc'. apply Z.eqb_eq in Hc'.
      assert (Hone : jint_inc 0 = 1) by reflexivity.
      destruct (assertOn (gdata w)) eqn:Hassert;
        destruct (rt_SuspendThread vm (trace w) (thread n)) eqn:Hr;
        do 3 eexists; (split; [mrun; rewrite ?Hc', ?Hone; mdone|]);
        (repeat split; try done; try congruence; try lia);
        cbn [suspendCount set_toBeResumed set_suspendOnStart set_suspendCount];
        rewrite Hc'; reflexivity.
    + assert (suspendCount n <> 0) by (by apply Z.eqb_neq).
      exists JVMTI_ERROR_NONE, (set_suspendCount (suspendCount n + 1) n).
      eexists; (split; [mrun; rewrite ?Hinc; mdone|]);
        (repeat split; try done; try congruence).
Qed.

(** C7.  The deferred suspend of a node whose [suspendCount] is a [jint].
    A debug thread is skipped as a whole.  For any other node
    [suspendOnStart] is false afterwards whatever happens; [SuspendThread]
    is called exactly when [suspendCount > 0]; its status is the status
    returned; when it fails [suspendCount] is the old count minus one, the
    increment of the original request taken back, and [toBeResumed] is as
    before; when it succeeds [toBeResumed] is true and the count stays.
    No code path sets [suspendOnStart] on a debug thread; for nodes that
    respect this, [suspendOnStart] is false after every deferred suspend. *)
Theorem deferredSuspendThreadByNode_cases (w : World) (node : NodeId)
    (n : ThreadNode) :
  heap w !! node = Some n ->
  suspendCount n <= jint_max ->
  exists (error : jvmtiError) (n' : ThreadNode) (events : list Event),
    deferredSuspendThreadByNode vm node w = Ok error (node_update node n' events w) /\
    (isDebugThread n = true ->
       error = JVMTI_ERROR_NONE /\ n' = n /\ events = []) /\
    (isDebugThread n = false ->
       suspendOnStart n' = false /\
       (suspendCount n <= 0 ->
          error = JVMTI_ERROR_NONE /\ primitive_calls events = [] /\
          n' = set_suspendOnStart false n /\
          suspendCount n' = suspendCount n) /\
       (0 < suspendCount n ->
          primitive_calls events = [EvSuspendThread (thread n)] /\
          error = rt_SuspendThread vm (trace w) (thread n) /\
          (error = JVMTI_ERROR_NONE ->
             n' = set_suspendOnStart false (set_toBeResumed true n) /\
             toBeResumed n' = true /\
             suspendCount n' = suspendCount n) /\
          (error <> JVMTI_ERROR_NONE ->
             n' = set_suspendOnStart false
                    (set_suspendCount (suspendCount n - 1) n) /\
             toBeResumed n' = toBeResumed n /\
             suspendCount n' = suspendCount n - 1))) /\
    ((isDebugThread n = true -> suspendOnStart n = false) ->
       suspendOnStart n' = false).
Proof.
  intros Hn Hrange. unfold deferredSuspendThreadByNode.
  destruct (isDebugThread n) eqn:Hdbg.
  - exists JVMTI_ERROR_NONE, n, []. split; [mrun; mdone|].
    split; [done|]. split; [intros; discriminate|]. intros Hs. by apply Hs.
  - destruct (0 <? suspendCount n) eqn:Hc.
    + assert (Hpos : 0 < suspendCount n) by (by apply Z.ltb_lt).
      assert (Hdec : jint_dec (suspendCount n) = suspendCount n - 1).
      { apply jint_dec_no_overflow. unfold jint_min. lia. }
      destruct (assertOn (gdata w)) eqn:Hassert;
        destruct (rt_SuspendThread vm (trace w) (thread n)) eqn:Hr;
        do 3 eexists; (split; [mrun; rewrite ?Hdec; mdone|]);
        (split; [intros; discriminate|]); (split; [|done]); intros _;
        (repeat split; try done; try lia; try congruence).
    + assert (suspendCount n <= 0) by (by apply Z.ltb_ge).
      do 3 eexists; (split; [mrun; mdone|]);
        (split; [intros; discriminate|]); (split; [|done]); intros _;
        (repeat split; try done; try lia; try congruence).
Qed.

End NodeOperations.

Section PopFrames.

Context (vm : Runtime).
Context (popOneFrame : jthread -> M jvmtiError).
Context (invoker_isEnabled : list Event -> jthread -> bool).

(** C9.  When the pop count [fnum + 1], computed as a [jint], is below 1
    (as for [fnum = -1]), [threadControl_popFrames] returns
    [AGENT_ERROR_NO_MORE_FRAMES] straight after [initLocks]: the only thing
    it may have done is to create the two pop-frame monitors on first use.
    No monitor is entered and no lock taken, single-step is not enabled, no
    suspend, resume or other runtime primitive is called, and no node, list
    or thread-local slot changes. *)
Theorem popFrames_no_more_frames (t : jthread) (fnum : Z) (w : World) :
  jint_wrap (fnum + 1) < 1 ->
  threadControl_popFrames vm popOneFrame invoker_isEnabled t fnum w
  = Ok AGENT_ERROR_NO_MORE_FRAMES (after_initLocks w) /\
  heap (after_initLocks w) = heap w /\
  tls (after_initLocks w) = tls w /\
  (forall l, list_nodes l (after_initLocks w) = list_nodes l w) /\
  exists events,
    trace (after_initLocks w) = trace w ++ events /\
    Forall (fun e => exists m, e = EvMonitorCreate m) events.
Proof.
  intros Hpop. apply Z.ltb_lt in Hpop.
  unfold threadControl_popFrames, initLocks, after_initLocks.
  destruct (popFrameLocks w) eqn:Hlocks.
  - split; [mrun; reflexivity|].
    repeat split; try done.
    exists []. rewrite app_nil_r. split; [done|constructor].
  - split; [mrun; rewrite <- app_assoc; by destruct w|].
    repeat split; try (by destruct w); try (by intros []; destruct w).
    eexists. split; [by destruct w|].
    repeat constructor; eexists; reflexivity.
Qed.

End PopFrames.

(** ** The sweep of [otherThreads] *)

Lemma no_primitive_same (w w' : World) : trace w' = trace w -> no_primitive w w'.
Proof. intros H. exists []. by rewrite app_nil_r. Qed.

Lemma no_primitive_refl (w : World) : no_primitive w w.
Proof. by apply no_primitive_same. Qed.

Lemma no_primitive_trans (w1 w2 w3 : World) :
  no_primitive w1 w2 -> no_primitive w2 w3 -> no_primitive w1 w3.
Proof.
  intros (e1 & H1 & P1) (e2 & H2 & P2). exists (e1 ++ e2).
  rewrite H2, H1, app_assoc, primitive_calls_app, P1, P2. done.
Qed.

(** Rules for computations that return. *)
Lemma returns_bind {A B : Type} (m : M A) (f : A -> M B) (Q : B -> World -> Prop)
    (w : World) :
  returns m (fun a w' => returns (f a) Q w') w -> returns (bind m f) Q w.
Proof.
  intros (a & w1 & Hm & b & w2 & Hf & HQ). exists b, w2.
  by rewrite (bind_ok _ _ _ _ _ Hm).
Qed.

Lemma returns_ret {A : Type} (a : A) (Q : A -> World -> Prop) (w : World) :
  Q a w -> returns (ret a) Q w.
Proof. intros HQ. by exists a, w. Qed.

Lemma returns_skip (Q : unit -> World -> Prop) (w : World) :
  Q tt w -> returns skip Q w.
Proof. apply returns_ret. Qed.

Lemma returns_get_world (Q : World -> World -> Prop) (w : World) :
  Q w w -> returns get_world Q w.
Proof. intros HQ. by exists w, w. Qed.

Lemma returns_modify_world (f : World -> World) (Q : unit -> World -> Prop)
    (w : World) :
  Q tt (f w) -> returns (modify_world f) Q w.
Proof. intros HQ. by exists tt, (f w). Qed.

Lemma returns_emit (e : Event) (Q : unit -> World -> Prop) (w : World) :
  Q tt (set_trace (trace w ++ [e]) w) -> returns (emit e) Q w.
Proof. apply returns_modify_world. Qed.

Lemma returns_read_node (p : NodeId) (n : ThreadNode)
    (Q : ThreadNode -> World -> Prop) (w : World) :
  heap w !! p = Some n -> Q n w -> returns (read_node p) Q w.
Proof. intros Hn HQ. exists n, w. split; [by apply read_node_ok|done]. Qed.

Lemma returns_modify_node (p : NodeId) (n : ThreadNode)
    (f : ThreadNode -> ThreadNode) (Q : unit -> World -> Prop) (w : World) :
  heap w !! p = Some n ->
  Q tt (set_heap (<[p := f n]> (heap w)) w) ->
  returns (modify_node p f) Q w.
Proof. intros Hn HQ. eexists _, _. split; [by apply modify_node_ok|done]. Qed.

Lemma returns_mono {A : Type} (m : M A) (Q Q' : A -> World -> Prop) (w : World) :
  returns m Q w -> (forall a w', Q a w' -> Q' a w') -> returns m Q' w.
Proof. intros (a & w' & Hm & HQ) H. exists a, w'. auto. Qed.

Lemma clearing_refl (p : NodeId) (n : ThreadNode) (w : World) :
  heap w !! p = Some n -> clearing p w w.
Proof. intros Hn. split; [done|]. split; [by eexists|apply no_primitive_refl]. Qed.

Lemma clearing_trans (p : NodeId) (w1 w2 w3 : World) :
  clearing p w1 w2 -> clearing p w2 w3 -> clearing p w1 w3.
Proof.
  intros (H1 & _ & P1) (H2 & S2 & P2). split; [by rewrite H2|].
  split; [done|]. by apply (no_primitive_trans w1 w2 w3).
Qed.

Lemma clearing_node (p : NodeId) (n : ThreadNode) (w : World) :
  clearing p w (set_heap (<[p := n]> (heap w)) w).
Proof.
  split; [cbn; apply delete_insert_eq|].
  split; [cbn; rewrite lookup_insert_eq; by eexists|by apply no_primitive_same].
Qed.

Lemma clearing_event (p : NodeId) (n : ThreadNode) (e : Event) (w : World) :
  heap w !! p = Some n ->
  is_suspend_resume_primitive e = false ->
  clearing p w (set_trace (trace w ++ [e]) w).
Proof.
  intros Hn He. split; [done|]. split; [by eexists|].
  exists [e]. split; [done|]. unfold primitive_calls. cbn.
  rewrite decide_False; [done|]. by rewrite He.
Qed.

Section Sweep.

Context (vm : Runtime).


(** Clearing steps in sequence. *)
Lemma returns_clearing_seq {A B : Type} (m : M A) (f : A -> M B) (p : NodeId)
    (w : World) :
  returns m (fun _ w1 => clearing p w w1) w ->
  (forall a w1, clearing p w w1 ->
                returns (f a) (fun _ w2 => clearing p w1 w2) w1) ->
  returns (bind m f) (fun _ w2 => clearing p w w2) w.
Proof.
  intros Hm Hf. apply returns_bind. eapply returns_mono; [exact Hm|].
  intros a w1 H1. eapply returns_mono; [by apply Hf|].
  intros b w2 H2. by apply (clearing_trans p w w1 w2).
Qed.

Lemma modify_node_clearing (p : NodeId) (f : ThreadNode -> ThreadNode) (w : World) :
  is_Some (heap w !! p) ->
  returns (modify_node p f) (fun _ w' => clearing p w w') w.
Proof.
  intros [n Hn]. eapply returns_modify_node; [exact Hn|]. apply clearing_node.
Qed.

Lemma emit_clearing (p : NodeId) (e : Event) (w : World) :
  is_Some (heap w !! p) ->
  is_suspend_resume_primitive e = false ->
  returns (emit e) (fun _ w' => clearing p w w') w.
Proof.
  intros [n Hn] He. apply returns_emit. by apply (clearing_event p n).
Qed.

Lemma skip_clearing (p : NodeId) (w : World) :
  is_Some (heap w !! p) ->
  returns skip (fun _ w' => clearing p w w') w.
Proof. intros [n Hn]. apply returns_skip. by apply (clearing_refl p n). Qed.

Lemma stepControl_clearRequest_clearing (p : NodeId) (w : World) :
  is_Some (heap w !! p) ->
  returns (stepControl_clearRequest vm p) (fun _ w' => clearing p w w') w.
Proof.
  intros [n Hn]. unfold stepControl_clearRequest.
  apply returns_bind. eapply returns_read_node; [exact Hn|].
  apply returns_bind. apply returns_get_world.
  apply returns_clearing_seq.
  - apply emit_clearing; [by eexists|done].
  - intros _ w1 (_ & Hs & _). by apply modify_node_clearing.
Qed.

Lemma threadControl_removeDebugThread_clearing (p : NodeId) (t : jthread)
    (w : World) :
  is_Some (heap w !! p) ->
  returns (threadControl_removeDebugThread t) (fun _ w' => clearing p w w') w.
Proof.
  intros Hp. unfold threadControl_removeDebugThread, debugMonitorEnter,
    debugMonitorExit.
  apply returns_clearing_seq; [by apply emit_clearing|].
  intros _ w1 (_ & H1 & _). apply returns_bind, returns_get_world.
  apply returns_clearing_seq.
  - destruct (remove_first t (debugThreads w1)) as [ds|].
    + apply returns_bind, returns_modify_world, returns_ret.
      destruct H1 as [n Hn].
      split; [done|]. split; [by exists n|by apply no_primitive_same].
    + destruct H1 as [n Hn]. apply returns_ret. by apply (clearing_refl p n).
  - intros e w2 (_ & H2 & _).
    apply returns_clearing_seq; [by apply emit_clearing|].
    intros _ w3 (_ & [n Hn] & _). apply returns_ret. by apply (clearing_refl p n).
Qed.

Lemma setThreadLocalStorage_clearing (p : NodeId) (t : jthread) (w : World) :
  slot_clearable vm ->
  is_Some (heap w !! p) ->
  returns (setThreadLocalStorage vm t None) (fun _ w' => clearing p w w') w.
Proof.
  intros Hc Hp. unfold setThreadLocalStorage.
  apply returns_bind, returns_get_world.
  specialize (Hc (trace w) t).
  apply returns_clearing_seq; [by apply emit_clearing|].
  intros _ w1 (_ & H1 & _).
  apply returns_clearing_seq.
  - destruct (is_NONE _); [|by apply skip_clearing].
    apply returns_modify_world. destruct H1 as [n Hn].
    split; [done|]. split; [by exists n|by apply no_primitive_same].
  - intros _ w2 (_ & H2 & _).
    destruct (rt_SetThreadLocalStorage vm (trace w) t None); try done;
      cbn; by apply skip_clearing.
Qed.

(** [clearThread]: the node is freed, no other node changes and no suspend
    or resume primitive is called. *)
Lemma clearThread_frees (p : NodeId) (w : World) :
  slot_clearable vm ->
  is_Some (heap w !! p) ->
  returns (clearThread vm p)
    (fun _ w' => heap w' = delete p (heap w) /\ no_primitive w w') w.
Proof.
  intros Hc [n Hn]. unfold clearThread.
  apply returns_bind. eapply returns_read_node; [exact Hn|].
  assert (Hsteps : returns
            ((if negb (isSameObject (pendingStop n) NULL)
              then modify_node p (set_pendingStop NULL) else skip);;
             stepControl_clearRequest vm p;;
             (if isDebugThread n
              then threadControl_removeDebugThread (thread n);; skip
              else skip);;
             setThreadLocalStorage vm (thread n) None)
            (fun _ w' => clearing p w w') w).
  { apply returns_clearing_seq.
    { destruct (negb _); [apply modify_node_clearing|apply skip_clearing];
        by eexists. }
    intros _ w2 (_ & H2 & _). apply returns_clearing_seq.
    { by apply stepControl_clearRequest_clearing. }
    intros _ w3 (_ & H3 & _). apply returns_clearing_seq.
    { destruct (isDebugThread n); [|by apply skip_clearing].
      apply returns_clearing_seq.
      - by apply threadControl_removeDebugThread_clearing.
      - intros _ w4 (_ & H4 & _). by apply skip_clearing. }
    intros _ w4 (_ & H4 & _). by apply setThreadLocalStorage_clearing. }
  destruct Hsteps as (a & w5 & Hrun & Hh & _ & Hp).
  exists tt. eexists. split.
  - rewrite <- !bind_assoc in Hrun. rewrite <- !bind_assoc.
    rewrite (bind_ok _ _ _ _ _ Hrun). reflexivity.
  - split; [cbn; exact Hh|].
    destruct Hp as (evs & Ht & Hp). by exists evs.
Qed.



End Sweep.

(** ** Resuming at count zero *)


Lemma scan_from_thread (h : gmap NodeId ThreadNode) (nodes : list NodeId)
    (t : jthread) (p : NodeId) :
  scan_from h nodes t = Some p ->
  p ∈ nodes /\ exists n, h !! p = Some n /\ thread n = t.
Proof.
  induction nodes as [|q nodes IH]; [done|]. cbn.
  destruct (h !! q) as [n|] eqn:Hq; [|done].
  destruct (isSameObject (thread n) t) eqn:Hsame.
  - intros [= <-]. split; [left|]. exists n. split; [done|]. by apply Z.eqb_eq.
  - intros H. destruct (IH H) as [Hin Hn]. split; [by right|done].
Qed.

(** A node that the lookup finds is an allocated node of that thread. *)
Lemma lookup_thread (e : jvmtiError) (w : World) (lst : option ThreadList)
    (t : jthread) (p : NodeId) :
  slots_ok w = true ->
  lookup e w lst t = Some p ->
  exists n, heap w !! p = Some n /\ thread n = t.
Proof.
  intros Hs. unfold lookup.
  match goal with
  | |- match ?F with _ => _ end = _ -> _ =>
      assert (Hfound : forall q, F = Some q ->
                exists n, heap w !! q = Some n /\ thread n = t);
      [| generalize dependent F; intros found Hfound ]
  end.
  - intros q. destruct (slot e w t) as [p'|] eqn:Hslot.
    + intros [= <-]. unfold slot in Hslot. destruct (is_NONE e); [|done].
      by apply slots_ok_spec.
    + unfold scan.
      pose proof (scan_from_thread (heap w) (otherThreads_nodes w) t) as Ho.
      pose proof (scan_from_thread (heap w) (runningThreads_nodes w) t) as Hr.
      pose proof (scan_from_thread (heap w) (runningVThreads_nodes w) t) as Hv.
      cbn [list_nodes].
      destruct (negb (jvmtiCallBacksCleared (gdata w)));
        destruct (any_or lst otherThreads), (any_or lst runningThreads),
          (any_or lst runningVThreads);
        destruct (scan_from (heap w) (otherThreads_nodes w) t);
        destruct (scan_from (heap w) (runningThreads_nodes w) t);
        destruct (scan_from (heap w) (runningVThreads_nodes w) t);
        try done; intros [= <-];
        first [ by destruct (Ho _ eq_refl) | by destruct (Hr _ eq_refl)
              | by destruct (Hv _ eq_refl) ].
  - destruct found as [q|]; [|done]. destruct lst as [l|].
    + destruct (heap w !! q) as [n|] eqn:Hq; [|done].
      destruct (is_on n l); [|done]. intros [= <-]. by apply Hfound.
    + intros [= <-]. by apply Hfound.
Qed.

Lemma lookup_with_events (e : jvmtiError) (events : list Event) (w : World)
    (lst : option ThreadList) (t : jthread) :
  lookup e (with_events events w) lst t = lookup e w lst t.
Proof. reflexivity. Qed.

Lemma is_on_list (n : ThreadNode) (l : ThreadList) :
  is_on n l = true -> node_list n = Some l.
Proof.
  unfold is_on, not_on. destruct (node_list n) as [l'|]; [|done].
  by destruct l', l.
Qed.

Section Resume.

Context (vm : Runtime).




End Resume.

(** ** The suspend-count query *)


Section SuspendCount.

Context (vm : Runtime).

Lemma findRunningThread_lookup (t : jthread) (w : World) :
  lists_ok w = true ->
  slots_ok w = true ->
  is_NONE (rt_GetThreadLocalStorage vm (trace w) t)
  || is_THREAD_NOT_ALIVE (rt_GetThreadLocalStorage vm (trace w) t) = true ->
  exists events,
    findRunningThread vm t w
    = Ok (lookup (rt_GetThreadLocalStorage vm (trace w) t) w
            (Some (running_list vm t)) t)
         (with_events events w) /\
    Forall is_assertion events.
Proof.
  intros Hw Hs He. unfold findRunningThread, running_list, isVThread.
  destruct (rt_isVThread vm t); by apply findThread_lookup.
Qed.

(** The status that the query returns is the outer [error], which is
    [JVMTI_ERROR_NONE]; an error of the inner [GetThreadState] never reaches
    the caller as a status. *)
Lemma suspendCount_status (t : jthread) (w w' : World) (error : jvmtiError)
    (count : Z) :
  threadControl_suspendCount vm t w = Ok (error, count) w' ->
  error = JVMTI_ERROR_NONE.
Proof.
  unfold threadControl_suspendCount. intros H.
  repeat (apply bind_inv in H; destruct H as (? & ? & _ & H)).
  unfold ret in H. congruence.
Qed.

(** C6.  The suspend-count query, for a runtime whose answers about [t] are
    [e] for the read of the thread-local slot (success or
    [THREAD_NOT_ALIVE]) and [(se, state)] for [GetThreadState].  A tracked
    thread gets the [suspendCount] of its node.  An untracked platform
    thread gets 0.  An untracked virtual thread gets 0 when its state is 0
    and [suspendAllCount] otherwise, unless [GetThreadState] failed, which
    is fatal.  Whenever the query returns, its status is
    [JVMTI_ERROR_NONE].  The query changes nothing and calls no suspend or
    resume primitive. *)
Theorem suspendCount_query (t : jthread) (w : World) (e se : jvmtiError)
    (state : Z) :
  lists_ok w = true ->
  slots_ok w = true ->
  (forall tr, rt_GetThreadLocalStorage vm tr t = e) ->
  is_NONE e || is_THREAD_NOT_ALIVE e = true ->
  (forall tr, rt_GetThreadState vm tr t = (se, state)) ->
  (exists events,
     primitive_calls events = [] /\
     threadControl_suspendCount vm t w
     = match tracked vm e w t with
       | Some p =>
           Ok (JVMTI_ERROR_NONE,
               match heap w !! p with Some n => suspendCount n | None => 0 end)
              (with_events events w)
       | None =>
           if rt_isVThread vm t then
             if is_NONE se
             then Ok (JVMTI_ERROR_NONE,
                      if state =? 0 then 0 else suspendAllCount w)
                     (with_events events w)
             else Fatal (ExitError se 1355) (with_events events w)
           else Ok (JVMTI_ERROR_NONE, 0) (with_events events w)
       end) /\
  (forall p, tracked vm e w t = Some p ->
     exists n, heap w !! p = Some n /\ thread n = t) /\
  (forall error count w',
     threadControl_suspendCount vm t w = Ok (error, count) w' ->
     error = JVMTI_ERROR_NONE).
Proof.
  intros Hw Hs Hslot He Hstate.
  assert (Htracked : forall p, tracked vm e w t = Some p ->
            exists n, heap w !! p = Some n /\ thread n = t).
  { intros p. unfold tracked.
    destruct (lookup e w (Some (running_list vm t)) t) as [q|] eqn:Hl.
    - intros [= <-]. by eapply lookup_thread.
    - intros Hl'. by eapply lookup_thread. }
  split; [|split; [exact Htracked|intros ? ? ?; apply suspendCount_status]].
  set (w1 := with_events [EvMonitorEnter threadLock] w).
  destruct (findRunningThread_lookup t w1 Hw Hs) as (ev1 & Hfind1 & Hev1).
  { by rewrite Hslot. }
  rewrite Hslot in Hfind1. unfold w1 in Hfind1 at 2.
  rewrite lookup_with_events in Hfind1.
  destruct (findThread_lookup vm (Some otherThreads) t (with_events ev1 w1) Hw Hs)
    as (ev2 & Hfind2 & Hev2).
  { by rewrite Hslot. }
  rewrite Hslot in Hfind2. unfold w1 in Hfind2 at 2.
  rewrite !lookup_with_events in Hfind2.
  unfold threadControl_suspendCount.
  unfold debugMonitorEnter at 1, emit, modify_world. unfold bind at 1.
  fold (with_events [EvMonitorEnter threadLock] w). fold w1.
  rewrite (bind_ok _ _ _ _ _ Hfind1).
  pose proof Htracked as Ht. unfold tracked in Ht |- *.
  destruct (lookup e w (Some (running_list vm t)) t) as [p|] eqn:Hl1.
  - (* found among the running threads *)
    destruct (Ht p eq_refl) as (n & Hn & _).
    exists ([EvMonitorEnter threadLock] ++ ev1 ++ [EvMonitorExit threadLock]).
    split.
    { rewrite !primitive_calls_app, (primitive_calls_assertions _ Hev1). done. }
    unfold ret at 1. unfold bind at 1.
    unfold bind, read_node. change (heap (with_events ev1 w1)) with (heap w).
    rewrite Hn. unfold ret, debugMonitorExit, emit, modify_world.
    f_equal. unfold w1. rewrite !with_events_app.
    trace_eq.
  - rewrite (bind_ok _ _ _ _ _ Hfind2).
    destruct (lookup e w (Some otherThreads) t) as [p|] eqn:Hl2.
    + (* found on [other] *)
      destruct (Ht p eq_refl) as (n & Hn & _).
      exists ([EvMonitorEnter threadLock] ++ ev1 ++ ev2 ++ [EvMonitorExit threadLock]).
      split.
      { rewrite !primitive_calls_app, (primitive_calls_assertions _ Hev1),
          (primitive_calls_assertions _ Hev2). done. }
      unfold bind, read_node.
      change (heap (with_events ev2 (with_events ev1 w1))) with (heap w).
      rewrite Hn. unfold ret, debugMonitorExit, emit, modify_world.
      f_equal. unfold w1. rewrite !with_events_app.
      trace_eq.
    + (* not tracked *)
      unfold isVThread. destruct (rt_isVThread vm t).
      * unfold threadState, get_world. unfold bind at 1. unfold bind at 1.
        unfold bind at 1. unfold ret at 1. rewrite Hstate.
        destruct se;
          try (exists ([EvMonitorEnter threadLock] ++ ev1 ++ ev2);
               split;
               [ rewrite !primitive_calls_app, (primitive_calls_assertions _ Hev1),
                   (primitive_calls_assertions _ Hev2); done
               | unfold is_NONE, negb, EXIT_ERROR, bind; unfold w1;
                 by rewrite !with_events_app ]).
        exists ([EvMonitorEnter threadLock] ++ ev1 ++ ev2 ++ [EvMonitorExit threadLock]).
        split.
        { rewrite !primitive_calls_app, (primitive_calls_assertions _ Hev1),
            (primitive_calls_assertions _ Hev2). done. }
        unfold is_NONE, negb, skip, ret, debugMonitorExit, emit, modify_world,
          get_world, bind.
        destruct (state =? 0); f_equal; unfold w1; rewrite !with_events_app;
          trace_eq.
      * exists ([EvMonitorEnter threadLock] ++ ev1 ++ ev2 ++ [EvMonitorExit threadLock]).
        split.
        { rewrite !primitive_calls_app, (primitive_calls_assertions _ Hev1),
            (primitive_calls_assertions _ Hev2). done. }
        unfold ret, debugMonitorExit, emit, modify_world, bind.
        f_equal. unfold w1. rewrite !with_events_app.
        trace_eq.
Qed.

End SuspendCount.

(** ** The suspend count of a new node *)

Section Insert.

Context (vm : Runtime).

Lemma tracks_events (w0 w : World) (p : NodeId) (n : ThreadNode)
    (events : list Event) :
  tracks w0 p n w -> tracks w0 p n (with_events events w).
Proof. done. Qed.

Lemma tracks_modify (w0 w : World) (p : NodeId) (n : ThreadNode)
    (f : ThreadNode -> ThreadNode) :
  tracks w0 p n w ->
  wp (modify_node p f) (fun _ w' => tracks w0 p (f n) w') w.
Proof.
  intros (Hn & Hc & Hd). apply wp_modify_node. intros n' Hn'.
  assert (n' = n) as -> by congruence.
  split; [|done]. cbn. apply lookup_insert_eq.
Qed.

Lemma tracks_isDebugThread (w0 w : World) (p : NodeId) (n : ThreadNode)
    (t : jthread) :
  tracks w0 p n w ->
  wp (threadControl_isDebugThread t)
     (fun b w' => b = is_debug w0 t /\ tracks w0 p n w') w.
Proof.
  intros (Hn & Hc & Hd). unfold threadControl_isDebugThread, wp. cbn.
  unfold is_debug. by rewrite Hd.
Qed.

Lemma tracks_addNode (w0 w : World) (p : NodeId) (n : ThreadNode)
    (l : ThreadList) :
  tracks w0 p n w ->
  wp (addNode l p)
     (fun _ w' => tracks w0 p (set_node_list (Some l) (set_node_list None n)) w') w.
Proof.
  intros H. unfold addNode.
  apply wp_bind. eapply wp_mono; [by apply tracks_modify|].
  intros [] w1 H1. apply wp_bind, wp_modify_world.
  assert (H2 : tracks w0 p (set_node_list None n)
                 (set_list_nodes l (p :: list_nodes l w1) w1)) by (by destruct l).
  apply wp_bind. eapply wp_mono; [by apply tracks_modify|].
  intros [] w3 H3. by destruct (ThreadList_eqb l runningVThreads).
Qed.

Lemma tracks_setThreadLocalStorage (w0 w : World) (p : NodeId) (n : ThreadNode)
    (t : jthread) (node : option NodeId) :
  tracks w0 p n w ->
  wp (setThreadLocalStorage vm t node) (fun _ w' => tracks w0 p n w') w.
Proof.
  intros H. unfold setThreadLocalStorage, wp. cbn.
  destruct (is_NONE _), (is_THREAD_NOT_ALIVE _), (bool_decide _); by cbn.
Qed.

(** C4.  A node that [insertThread] creates while a VM-wide suspend is in
    force ([suspendAllCount > 0]) starts with [suspendCount] equal to
    [suspendAllCount], and so at least [suspendAllCount], unless it is
    created for a debug thread of the agent: the node of a debug thread
    (a platform thread on the debug-thread list) is marked [isDebugThread]
    and keeps [suspendCount] 0. *)
Theorem insertThread_initial_count (lst : ThreadList) (t : jthread)
    (w w' : World) (node : NodeId) :
  insertThread vm lst t w = Ok node w' ->
  heap w !! node = None ->
  0 < suspendAllCount w ->
  exists n, heap w' !! node = Some n /\
    if negb (ThreadList_eqb lst runningVThreads) && is_debug w t
    then isDebugThread n = true /\ suspendCount n = 0
    else isDebugThread n = false /\ suspendCount n = suspendAllCount w.
Proof.
  intros Hrun Hnew Hall. revert Hnew.
  apply (wp_ok _ (fun node w' => heap w !! node = None -> _) _ _ _) with (2 := Hrun).
  clear Hrun node w'. unfold insertThread.
  apply wp_bind. eapply wp_mono; [apply wp_findThread|].
  intros [p|] w1 [Hw1 Hfound].
  { apply wp_ret. intros Hp.
    destruct (Hfound p lst eq_refl eq_refl) as (n & Hn & _). congruence. }
  clear Hfound. unfold jvmtiAllocate.
  apply wp_bind, wp_bind, wp_get_world, wp_ret.
  destruct (rt_jvmtiAllocate vm (trace w1) AllocThreadNode); [|apply wp_exit].
  cbn [negb]. apply wp_bind, wp_get_world.
  set (node := fresh (dom (heap w1))).
  apply wp_bind, wp_modify_world.
  set (w2 := set_heap (<[node := zero_node]> (heap w1)) w1).
  assert (H2 : tracks w node zero_node w2).
  { destruct Hw1 as (events & -> & _). split; [apply lookup_insert_eq|done]. }
  clearbody w2 node. clear Hw1 w1.
  apply wp_bind, wp_get_world.
  destruct (rt_createEventBag vm (trace w2)) as [eventBag|];
    [|apply wp_bind; unfold jvmtiDeallocate; apply wp_modify_world, wp_exit].
  unfold saveGlobalRef. apply wp_bind, wp_bind, wp_get_world, wp_ret.
  destruct (rt_NewGlobalRef vm (trace w2) t).
  2: { apply wp_bind. eapply wp_mono; [by apply tracks_modify|].
       intros [] w3 H3. by cbn. }
  apply wp_bind. eapply wp_mono; [by apply tracks_modify|].
  intros [] w3 H3.
  destruct (isSameObject t NULL) eqn:Hnull;
    [apply wp_bind; unfold jvmtiDeallocate; apply wp_modify_world, wp_exit|].
  (* the branch on the kind of thread *)
  apply wp_bind.
  apply wp_mono with
    (Q := fun _ w' => exists n, tracks w node n w' /\
            if negb (ThreadList_eqb lst runningVThreads) && is_debug w t
            then isDebugThread n = true /\ suspendCount n = 0
            else isDebugThread n = false /\ suspendCount n = suspendAllCount w).
  - destruct (ThreadList_eqb lst runningVThreads); cbn [negb andb].
    + (* a virtual thread *)
      unfold threadState.
      apply wp_bind, wp_bind, wp_get_world, wp_ret.
      destruct (rt_GetThreadState vm (trace w3) t) as [error vthread_state].
      apply wp_bind.
      destruct (is_NONE error); [|apply wp_exit]. apply wp_ret.
      apply wp_bind, wp_get_world.
      assert (Hc3 : suspendAllCount w3 = suspendAllCount w) by apply H3.
      rewrite Hc3. apply Z.ltb_lt in Hall. rewrite Hall.
      apply wp_bind.
      apply wp_mono with
        (Q := fun _ w' => exists n, tracks w node n w' /\
                isDebugThread n = false /\ suspendCount n = suspendAllCount w).
      * apply wp_bind. eapply wp_mono; [by apply tracks_modify|].
        intros [] w4 H4. destruct (vthread_state =? 0).
        -- eapply wp_mono; [by apply tracks_modify|].
           intros [] w5 H5. eexists. split; [exact H5|done].
        -- apply wp_ret. eexists. split; [exact H4|done].
      * intros [] w4 (n4 & H4 & Hd4 & Hc4). apply wp_bind.
        destruct (negb (vthread_state =? 0)).
        -- eapply wp_mono; [by apply tracks_modify|].
           intros [] w5 H5. apply wp_ret. eexists. split; [exact H5|done].
        -- apply wp_ret, wp_ret. eexists. split; [exact H4|done].
    + (* a platform thread *)
      apply wp_bind. eapply wp_mono; [by apply tracks_isDebugThread|].
      intros dbg w4 [-> H4]. apply wp_bind.
      destruct (is_debug w t).
      * eapply wp_mono; [by apply tracks_modify|].
        intros [] w5 H5. apply wp_ret. eexists. split; [exact H5|done].
      * apply wp_bind, wp_get_world.
        assert (Hc4 : suspendAllCount w4 = suspendAllCount w) by apply H4.
        rewrite Hc4. apply Z.ltb_lt in Hall. rewrite Hall.
        apply wp_bind. eapply wp_mono; [by apply tracks_modify|].
        intros [] w5 H5. eapply wp_mono; [by apply tracks_modify|].
        intros [] w6 H6. apply wp_ret. eexists. split; [exact H6|done].
  - (* the common tail keeps the count and the debug mark *)
    intros lst' w4 (n4 & H4 & Hpost).
    do 4 (apply wp_bind; eapply wp_mono; [by apply tracks_modify|];
          intros [] ? ?).
    apply wp_bind. eapply wp_mono; [by apply tracks_addNode|].
    intros [] w9 H9. apply wp_bind.
    apply wp_mono with
      (Q := fun _ w' => tracks w node
              (set_node_list (Some lst')
                 (set_node_list None
                    (set_eventBag eventBag
                       (set_instructionStepMode JVMTI_DISABLE
                          (set_is_vthread (ThreadList_eqb lst runningVThreads)
                             (set_current_ei EI_none n4)))))) w').
    + destruct (negb (ThreadList_eqb lst' otherThreads)); [|by apply wp_ret].
      apply wp_bind, wp_read_node. intros n9 Hn9.
      by apply tracks_setThreadLocalStorage.
    + intros [] w10 H10. apply wp_ret. intros _.
      eexists. split; [apply H10|]. exact Hpost.
Qed.

End Insert.

(** ** Co-located events *)

Lemma modify_cleInfo_ok (w : World) (p : NodeId) (n : ThreadNode)
    (f : CoLocatedEventInfo -> CoLocatedEventInfo) :
  heap w !! p = Some n ->
  modify_cleInfo p f w
  = Ok tt (set_heap (<[p := set_cleInfo (f (cleInfo n)) n]> (heap w)) w).
Proof.
  intros Hn. unfold modify_cleInfo.
  rewrite (bind_ok _ _ _ _ _ (read_node_ok _ _ _ Hn)).
  by apply modify_node_ok.
Qed.


Section CoLocatedEvents.

Context (vm : Runtime).

(** The running node of [t], if the lookup finds one. *)
Lemma running_node (t : jthread) (w : World) (e : jvmtiError) :
  lists_ok w = true ->
  slots_ok w = true ->
  (forall tr, rt_GetThreadLocalStorage vm tr t = e) ->
  is_NONE e || is_THREAD_NOT_ALIVE e = true ->
  exists events,
    findRunningThread vm t (with_events [EvMonitorEnter threadLock] w)
    = Ok (lookup e w (Some (running_list vm t)) t)
         (with_events (EvMonitorEnter threadLock :: events) w) /\
    Forall is_assertion events.
Proof.
  intros Hw Hs Hslot He.
  destruct (findRunningThread_lookup vm t
              (with_events [EvMonitorEnter threadLock] w) Hw Hs)
    as (events & Hfind & Hev).
  { by rewrite Hslot. }
  exists events. split; [|done].
  rewrite Hfind, Hslot, lookup_with_events, with_events_app. done.
Qed.

(** [threadControl_cmpCLEInfo] compares with the record of the running
    node of [t], and answers [false] when there is none. *)
Lemma cmpCLEInfo_reads (t : jthread) (w : World) (e : jvmtiError)
    (clazz : jclass) (method : jmethodID) (location : jlocation) :
  lists_ok w = true ->
  slots_ok w = true ->
  (forall tr, rt_GetThreadLocalStorage vm tr t = e) ->
  is_NONE e || is_THREAD_NOT_ALIVE e = true ->
  exists events,
    threadControl_cmpCLEInfo vm t clazz method location w
    = Ok match lookup e w (Some (running_list vm t)) t with
         | Some p =>
             match heap w !! p with
             | Some n => cle_matches (cleInfo n) clazz method location
             | None => false
             end
         | None => false
         end (with_events events w) /\
    primitive_calls events = [].
Proof.
  intros Hw Hs Hslot He.
  destruct (running_node t w e Hw Hs Hslot He) as (events & Hfind & Hev).
  exists (EvMonitorEnter threadLock :: events ++ [EvMonitorExit threadLock]).
  split.
  2: { change (EvMonitorEnter threadLock :: events ++ [EvMonitorExit threadLock])
         with ([EvMonitorEnter threadLock] ++ events ++ [EvMonitorExit threadLock]).
       by rewrite !primitive_calls_app, (primitive_calls_assertions _ Hev). }
  unfold threadControl_cmpCLEInfo.
  unfold debugMonitorEnter at 1, emit, modify_world. unfold bind at 1.
  fold (with_events [EvMonitorEnter threadLock] w).
  rewrite (bind_ok _ _ _ _ _ Hfind).
  destruct (lookup e w (Some (running_list vm t)) t) as [p|] eqn:Hl.
  - destruct (lookup_thread _ _ _ _ _ Hs Hl) as (n & Hn & _).
    unfold bind, read_node.
    change (heap (with_events (EvMonitorEnter threadLock :: events) w))
      with (heap w).
    rewrite Hn. unfold ret, debugMonitorExit, emit, modify_world, cle_matches.
    f_equal. trace_eq.
  - unfold bind, ret, debugMonitorExit, emit, modify_world.
    f_equal. trace_eq.
Qed.

(** C8.  [threadControl_cmpCLEInfo] against the most recent
    [threadControl_saveCLEInfo] and [threadControl_clearCLEInfo] on the same
    thread.  When [t] has no tracked running node the comparison is false.
    When it has one: straight after a save of [(ei, clazz', method',
    location')] the comparison with [(clazz, method, location)] is true
    exactly when [ei] is not the zero index, the methods and the locations
    are equal and the class reference that the save stored is the same
    object as [clazz] (the stored reference is [clazz'], or [NULL] when no
    global reference could be made); straight after a clear the comparison
    is false.  A comparison itself changes no node, so these answers stand
    until the next save or clear. *)
Theorem cmpCLEInfo_last_save (t : jthread) (w : World) (e : jvmtiError) :
  lists_ok w = true ->
  slots_ok w = true ->
  (forall tr, rt_GetThreadLocalStorage vm tr t = e) ->
  is_NONE e || is_THREAD_NOT_ALIVE e = true ->
  (* no tracked running node *)
  (lookup e w (Some (running_list vm t)) t = None ->
   forall clazz method location, exists events,
     threadControl_cmpCLEInfo vm t clazz method location w
     = Ok false (with_events events w)) /\
  (* after a save *)
  (forall p ei clazz' method' location',
     lookup e w (Some (running_list vm t)) t = Some p ->
     exists w1 stored,
       threadControl_saveCLEInfo vm t ei clazz' method' location' w = Ok tt w1 /\
       (stored = clazz' \/ stored = NULL) /\
       ((forall tr, rt_NewGlobalRef vm tr clazz' = true) -> stored = clazz') /\
       forall clazz method location, exists b events,
         threadControl_cmpCLEInfo vm t clazz method location w1
         = Ok b (with_events events w1) /\
         (b = true <->
          ei <> EI_none /\ method' = method /\ location' = location /\
          stored = clazz)) /\
  (* after a clear *)
  (forall p,
     lookup e w (Some (running_list vm t)) t = Some p ->
     exists w1,
       threadControl_clearCLEInfo vm t w = Ok tt w1 /\
       forall clazz method location, exists events,
         threadControl_cmpCLEInfo vm t clazz method location w1
         = Ok false (with_events events w1)).
Proof.
  intros Hw Hs Hslot He. split; [|split].
  - intros Hl clazz method location.
    destruct (cmpCLEInfo_reads t w e clazz method location Hw Hs Hslot He)
      as (events & Hcmp & _).
    exists events. by rewrite Hcmp, Hl.
  - intros p ei clazz' method' location' Hl.
    destruct (lookup_thread _ _ _ _ _ Hs Hl) as (n & Hn & _).
    destruct (running_node t w e Hw Hs Hslot He) as (events & Hfind & Hev).
    set (tr := trace w ++ EvMonitorEnter threadLock :: events).
    set (stored := if rt_NewGlobalRef vm tr clazz' then clazz' else NULL).
    set (info := {| cle_ei := ei; cle_clazz := stored; cle_method := method';
                    cle_location := location' |}).
    set (w1 := with_events (EvMonitorEnter threadLock :: events
                            ++ [EvMonitorExit threadLock])
                 (set_heap (<[p := set_cleInfo info n]> (heap w)) w)).
    assert (Hsave : threadControl_saveCLEInfo vm t ei clazz' method' location' w
                    = Ok tt w1).
    { unfold threadControl_saveCLEInfo.
      unfold debugMonitorEnter at 1, emit, modify_world. unfold bind at 1.
      fold (with_events [EvMonitorEnter threadLock] w).
      rewrite (bind_ok _ _ _ _ _ Hfind), Hl.
      rewrite !bind_assoc.
      erewrite bind_ok by (apply modify_cleInfo_ok; exact Hn).
      unfold saveGlobalRef, get_world. rewrite !bind_assoc.
      unfold bind at 1. unfold ret at 1. unfold bind at 1.
      do 3 (rewrite ?bind_assoc;
            erewrite bind_ok by (apply modify_cleInfo_ok; cbn; apply lookup_insert_eq)).
      unfold debugMonitorExit, emit, modify_world.
      f_equal. unfold w1. world_norm. }
    assert (Hshape : same_shape w w1).
    { eapply same_shape_trans; [|apply same_shape_events].
      by eapply same_shape_update. }
    exists w1, stored. split; [exact Hsave|].
    split; [unfold stored; destruct (rt_NewGlobalRef vm tr clazz'); auto|].
    split; [intros Href; unfold stored; by rewrite Href|].
    intros clazz method location.
    destruct (cmpCLEInfo_reads t w1 e clazz method location) as (ev & Hcmp & _);
      [by rewrite (lists_ok_shape w w1)|by rewrite (slots_ok_shape w w1)|done|done|].
    rewrite (lookup_shape e w w1) in Hcmp by done. rewrite Hl in Hcmp.
    assert (Hn1 : heap w1 !! p = Some (set_cleInfo info n)).
    { unfold w1. cbn. apply lookup_insert_eq. }
    rewrite Hn1 in Hcmp. eexists. exists ev. split; [exact Hcmp|].
    unfold cle_matches, isSameObject. cbn.
    rewrite !andb_true_iff, !Z.eqb_eq, negb_true_iff.
    destruct ei; cbn; intuition congruence.
  - intros p Hl.
    destruct (lookup_thread _ _ _ _ _ Hs Hl) as (n & Hn & _).
    destruct (running_node t w e Hw Hs Hslot He) as (events & Hfind & Hev).
    set (info := set_cle_ei EI_none (cleInfo n)).
    set (info' := if negb (isSameObject (cle_clazz (cleInfo n)) NULL)
                  then set_cle_clazz NULL info else info).
    set (w1 := with_events (EvMonitorEnter threadLock :: events
                            ++ [EvMonitorExit threadLock])
                 (set_heap (<[p := set_cleInfo info' n]> (heap w)) w)).
    assert (Hclear : threadControl_clearCLEInfo vm t w = Ok tt w1).
    { unfold threadControl_clearCLEInfo.
      unfold debugMonitorEnter at 1, emit, modify_world. unfold bind at 1.
      fold (with_events [EvMonitorEnter threadLock] w).
      rewrite (bind_ok _ _ _ _ _ Hfind), Hl.
      rewrite !bind_assoc.
      erewrite bind_ok by (apply modify_cleInfo_ok; exact Hn).
      rewrite ?bind_assoc.
      erewrite bind_ok by (apply read_node_ok; cbn; apply lookup_insert_eq).
      change (cle_clazz (cleInfo (set_cleInfo (set_cle_ei EI_none (cleInfo n)) n)))
        with (cle_clazz (cleInfo n)).
      unfold w1, info'.
      destruct (negb (isSameObject (cle_clazz (cleInfo n)) NULL)).
      - erewrite bind_ok by (apply modify_cleInfo_ok; cbn; apply lookup_insert_eq).
        unfold debugMonitorExit, emit, modify_world.
        f_equal. world_norm.
      - unfold skip, ret, debugMonitorExit, emit, modify_world, bind.
        f_equal. world_norm. }
    assert (Hshape : same_shape w w1).
    { eapply same_shape_trans; [|apply same_shape_events].
      by eapply same_shape_update. }
    exists w1. split; [exact Hclear|].
    intros clazz method location.
    destruct (cmpCLEInfo_reads t w1 e clazz method location) as (ev & Hcmp & _);
      [by rewrite (lists_ok_shape w w1)|by rewrite (slots_ok_shape w w1)|done|done|].
    rewrite (lookup_shape e w w1) in Hcmp by done. rewrite Hl in Hcmp.
    assert (Hn1 : heap w1 !! p = Some (set_cleInfo info' n)).
    { unfold w1. cbn. apply lookup_insert_eq. }
    rewrite Hn1 in Hcmp. exists ev. rewrite Hcmp. f_equal.
    unfold info', info. by destruct (negb _).
Qed.

End CoLocatedEvents.

(** ** The list resume *)

Lemma jint_inc_count (c : Z) (k : nat) :
  jint_min <= c -> c + Z.of_nat k < jint_max ->
  jint_inc (c + Z.of_nat k) = c + Z.of_nat (S k).
Proof. intros Hc Hk. rewrite jint_inc_no_overflow; lia. Qed.

Lemma filter_agree {A : Type} (P Q : A -> Prop)
    `{!forall x, Decision (P x)} `{!forall x, Decision (Q x)} (xs : list A) :
  (forall x, x ∈ xs -> P x <-> Q x) -> filter P xs = filter Q xs.
Proof.
  induction xs as [|x xs IH]; intros Hxs; [done|].
  rewrite !filter_cons.
  assert (Hx : P x <-> Q x) by (apply Hxs; left).
  rewrite IH by (intros y Hy; apply Hxs; by right).
  destruct (decide (P x)), (decide (Q x)); tauto.
Qed.

Lemma map_agree {A B : Type} (f g : A -> B) (xs : list A) :
  (forall x, x ∈ xs -> f x = g x) -> map f xs = map g xs.
Proof.
  intros H. apply map_ext_in. intros x Hx. apply H. by apply list_elem_of_In.
Qed.

(** Writing [ts] one after the other fills a zeroed array that has room. *)
Lemma store_threads (pre ts : list jthread) (k : nat) :
  (length ts <= k)%nat ->
  foldl (fun a t => store_thread t a) (pre ++ replicate k NULL, length pre) ts
  = (pre ++ ts ++ replicate (k - length ts) NULL, (length pre + length ts)%nat).
Proof.
  revert pre k. induction ts as [|t ts IH]; intros pre k Hk.
  - cbn. by rewrite Nat.sub_0_r, Nat.add_0_r.
  - destruct k as [|k]; [cbn in Hk; lia|].
    cbn [foldl length]. unfold store_thread at 2. cbn [fst snd].
    replace (<[length pre := t]> (pre ++ replicate (S k) NULL))
      with ((pre ++ [t]) ++ replicate k NULL).
    2:{ rewrite <- app_assoc. cbn [replicate app].
        rewrite insert_app_r_alt by lia. by rewrite Nat.sub_diag. }
    replace (S (length pre)) with (length (pre ++ [t]))
      by (rewrite length_app; cbn; lia).
    rewrite IH by (cbn in Hk; lia).
    rewrite <- app_assoc, length_app. cbn [app length]. f_equal. lia.
Qed.

Lemma store_threads_all (ts : list jthread) (k : nat) :
  length ts = k ->
  foldl (fun a t => store_thread t a) (replicate k NULL, 0%nat) ts = (ts, k).
Proof.
  intros <-. pose proof (store_threads [] ts (length ts) (le_n _)) as H.
  rewrite Nat.sub_diag in H. cbn in H. rewrite app_nil_r in H. exact H.
Qed.

Lemma hard_resume_app (w : World) (a b : list NodeId) :
  hard_resume w (a ++ b) = hard_resume w a ++ hard_resume w b.
Proof. apply filter_app. Qed.

Lemma hard_resume_elem (w : World) (nodes : list NodeId) (p : NodeId) :
  p ∈ hard_resume w nodes <-> is_hard (node_at w p) = true /\ p ∈ nodes.
Proof. unfold hard_resume. by rewrite list_elem_of_filter. Qed.

Lemma hard_resume_cons (w : World) (p : NodeId) (nodes : list NodeId) :
  hard_resume w (p :: nodes)
  = if is_hard (node_at w p) then p :: hard_resume w nodes else hard_resume w nodes.
Proof.
  unfold hard_resume. rewrite filter_cons.
  destruct (is_hard (node_at w p)) eqn:Hh.
  - by rewrite decide_True.
  - by rewrite decide_False by (by rewrite not_true_iff_false).
Qed.

(** Under the flag invariant the accounting pass leaves a node that needs
    a hard resume as it is. *)
Lemma accounted_hard (n : ThreadNode) :
  is_hard n = true ->
  negb (toBeResumed n && suspendOnStart n) = true ->
  accounted n = n /\ suspendOnStart n = false.
Proof.
  unfold is_hard, accounted.
  destruct (isDebugThread n), (toBeResumed n), (suspendOnStart n),
    (Z.eqb_spec (suspendCount n) 1) as [Hc|Hc]; cbn; try done.
  all: destruct (Z.ltb_spec 1 (suspendCount n)); [lia|done].
Qed.

Lemma JDI_ASSERT_holds (line : nat) (w : World) : JDI_ASSERT line true w = Ok tt w.
Proof.
  unfold JDI_ASSERT, bind, get_world. cbn [negb]. by rewrite andb_false_r.
Qed.

(** The counting visitor: one more for a node that needs a hard resume. *)
Lemma resumeCountHelper_ok (w : World) (p : NodeId) (n : ThreadNode) (c : Z) :
  heap w !! p = Some n ->
  negb (toBeResumed n && suspendOnStart n) = true ->
  resumeCountHelper p c w
  = Ok (JVMTI_ERROR_NONE, if is_hard n then jint_inc c else c) w.
Proof.
  intros Hn Hf. unfold resumeCountHelper, is_hard.
  rewrite (bind_ok _ _ _ _ _ (read_node_ok _ _ _ Hn)).
  destruct (isDebugThread n); [done|]. cbn [negb andb].
  destruct ((suspendCount n =? 1) && toBeResumed n) eqn:Hh; [|done].
  apply andb_true_iff in Hh as [_ Hr]. rewrite Hr in Hf.
  destruct (suspendOnStart n); [done|]. cbn [negb].
  by rewrite (bind_ok _ _ _ _ _ (JDI_ASSERT_holds _ _)).
Qed.

Lemma enumerate_count (nodes : list NodeId) (c : Z) (w : World) :
  Forall (fun p => is_Some (heap w !! p)) nodes ->
  Forall (fun p => negb (toBeResumed (node_at w p) && suspendOnStart (node_at w p))
                   = true) nodes ->
  jint_min <= c -> c + Z.of_nat (length nodes) < jint_max ->
  enumerate_from nodes resumeCountHelper c w
  = Ok (JVMTI_ERROR_NONE, c + Z.of_nat (length (hard_resume w nodes))) w.
Proof.
  revert c. induction nodes as [|p nodes IH]; intros c Ha Hf Hc Hk.
  - cbn. unfold ret. by rewrite Z.add_0_r.
  - apply Forall_cons in Ha as [[n Hn] Ha]. apply Forall_cons in Hf as [Hp Hf].
    assert (Hat : node_at w p = n) by (unfold node_at; by rewrite Hn).
    rewrite Hat in Hp. cbn [enumerate_from length] in *.
    rewrite (bind_ok _ _ _ _ _ (resumeCountHelper_ok _ _ _ c Hn Hp)).
    cbn [is_NONE]. rewrite hard_resume_cons, Hat.
    destruct (is_hard n) eqn:Hh.
    + rewrite IH; try done.
      * rewrite jint_inc_no_overflow by lia. cbn [length]. do 2 f_equal. lia.
      * rewrite jint_inc_no_overflow by lia. lia.
      * rewrite jint_inc_no_overflow by lia. lia.
    + rewrite IH; try done. lia.
Qed.

Lemma set_heap_same (w : World) (p : NodeId) (n : ThreadNode) :
  heap w !! p = Some n -> set_heap (<[p := n]> (heap w)) w = w.
Proof. intros Hn. rewrite insert_id by done. by destruct w. Qed.

Lemma decr_suspendCount_ok (w : World) (p : NodeId) (n : ThreadNode) :
  heap w !! p = Some n ->
  decr_suspendCount p w
  = Ok tt (set_heap (<[p := set_suspendCount (jint_dec (suspendCount n)) n]> (heap w)) w).
Proof.
  intros Hn. unfold decr_suspendCount.
  rewrite (bind_ok _ _ _ _ _ (read_node_ok _ _ _ Hn)).
  by apply modify_node_ok.
Qed.

(** The copying visitor with an array to fill: the accounting on the node,
    and the thread of a node that needs a hard resume written to the
    array. *)
Lemma resumeCopyHelper_ok (w : World) (p : NodeId) (n : ThreadNode) (arr : ListPtr) :
  heap w !! p = Some n ->
  negb (toBeResumed n && suspendOnStart n) = true ->
  resumeCopyHelper p (Some arr) w
  = Ok (JVMTI_ERROR_NONE,
        Some (if is_hard n then store_thread (thread n) arr else arr))
       (set_heap (<[p := accounted n]> (heap w)) w).
Proof.
  intros Hn Hf. unfold resumeCopyHelper, is_hard, accounted.
  rewrite (bind_ok _ _ _ _ _ (read_node_ok _ _ _ Hn)).
  destruct (isDebugThread n); cbn [negb andb].
  { by rewrite set_heap_same. }
  destruct (Z.ltb_spec 1 (suspendCount n)) as [Hlt|Hle].
  { rewrite (bind_ok _ _ _ _ _ (decr_suspendCount_ok _ _ _ Hn)).
    destruct (Z.eqb_spec (suspendCount n) 1); [lia|done]. }
  destruct (Z.eqb_spec (suspendCount n) 1) as [Hc|Hc]; cbn [andb].
  2:{ by rewrite set_heap_same. }
  destruct (suspendOnStart n), (toBeResumed n); cbn in Hf; try done; cbn [negb].
  - rewrite (bind_ok _ _ _ _ _ (JDI_ASSERT_holds _ _)).
    by rewrite (bind_ok _ _ _ _ _ (decr_suspendCount_ok _ _ _ Hn)).
  - rewrite (bind_ok _ _ _ _ _ (JDI_ASSERT_holds _ _)).
    by rewrite set_heap_same.
  - by rewrite set_heap_same.
Qed.



Lemma set_heap_twice (w : World) (h h' : gmap NodeId ThreadNode) :
  set_heap h' (set_heap h w) = set_heap h' w.
Proof. reflexivity. Qed.

(** The copying pass over a list that holds each node once: every node gets
    its accounting, and the threads of the nodes that need a hard resume
    are written to the array in list order. *)
Lemma enumerate_copy (nodes : list NodeId) (arr : ListPtr) (w : World) :
  NoDup nodes ->
  Forall (fun p => is_Some (heap w !! p)) nodes ->
  Forall (fun p => negb (toBeResumed (node_at w p) && suspendOnStart (node_at w p))
                   = true) nodes ->
  exists h',
    enumerate_from nodes resumeCopyHelper (Some arr) w
    = Ok (JVMTI_ERROR_NONE,
          Some (foldl (fun a t => store_thread t a) arr
                      (threads_of w (hard_resume w nodes))))
         (set_heap h' w) /\
    (forall p, p ∈ nodes -> h' !! p = Some (accounted (node_at w p))) /\
    (forall p, p ∉ nodes -> h' !! p = heap w !! p).
Proof.
  revert arr w. induction nodes as [|p nodes IH]; intros arr w Hd Ha Hf.
  - exists (heap w). split; [cbn; unfold ret; by destruct w|].
    split; [intros p Hp; by apply elem_of_nil in Hp|done].
  - apply NoDup_cons in Hd as [Hp Hd].
    apply Forall_cons in Ha as [[n Hn] Ha]. apply Forall_cons in Hf as [Hfp Hf].
    pose proof (node_at_Some _ _ _ Hn) as Hat. rewrite Hat in Hfp.
    cbn [enumerate_from].
    rewrite (bind_ok _ _ _ _ _ (resumeCopyHelper_ok _ _ _ arr Hn Hfp)).
    cbn [is_NONE].
    set (w1 := set_heap (<[p := accounted n]> (heap w)) w).
    assert (Hsame : forall q, q ∈ nodes -> node_at w1 q = node_at w q).
    { intros q Hq. apply node_at_insert_ne. intros ->. done. }
    destruct (IH (if is_hard n then store_thread (thread n) arr else arr) w1 Hd)
      as (h' & Hrun & Hin & Hout).
    { eapply Forall_impl; [exact Ha|]. intros q Hq. cbn.
      destruct (decide (p = q)) as [->|Hne];
        [by rewrite lookup_insert_eq | by rewrite lookup_insert_ne]. }
    { apply Forall_forall. intros q Hq. rewrite Hsame by done.
      by apply (proj1 (Forall_forall _ _) Hf). }
    exists h'. split; [|split].
    + rewrite Hrun. replace (set_heap h' w1) with (set_heap h' w) by reflexivity.
      do 3 f_equal.
      assert (Hh : hard_resume w1 nodes = hard_resume w nodes).
      { apply filter_agree. intros q Hq. by rewrite Hsame. }
      rewrite Hh, hard_resume_cons, Hat.
      assert (Ht : threads_of w1 (hard_resume w nodes)
                   = threads_of w (hard_resume w nodes)).
      { apply map_agree. intros q Hq. rewrite Hsame; [done|].
        by apply hard_resume_elem in Hq as [_ Hq]. }
      rewrite Ht. destruct (is_hard n); [|done].
      cbn [threads_of map foldl]. by rewrite Hat.
    + intros q Hq. apply elem_of_cons in Hq as [->|Hq].
      * rewrite Hout by done. cbn. rewrite lookup_insert_eq. by rewrite Hat.
      * rewrite Hin by done. by rewrite Hsame.
    + intros q Hq. apply not_elem_of_cons in Hq as [Hne Hq].
      rewrite Hout by done. cbn. by rewrite lookup_insert_ne.
Qed.

Section ResumeList.

Context (vm : Runtime).

(** A lookup that the thread-local slot answers. *)
Lemma findRunningThread_slot (t : jthread) (p : NodeId) (n : ThreadNode) (w : World) :
  rt_GetThreadLocalStorage vm (trace w) t = JVMTI_ERROR_NONE ->
  tls w !! t = Some p ->
  heap w !! p = Some n ->
  is_on n (running_list vm t) = true ->
  findRunningThread vm t w = Ok (Some p) w.
Proof.
  intros He Ht Hn Hon.
  assert (Hget : getThreadLocalStorage vm t w = Ok (Some p) w).
  { unfold getThreadLocalStorage, bind, get_world. rewrite He. cbn. by rewrite Ht. }
  unfold is_on in Hon. apply negb_true_iff in Hon.
  unfold findRunningThread, running_list, isVThread, findThread in *.
  destruct (rt_isVThread vm t);
    rewrite (bind_ok _ _ _ _ _ Hget);
    (erewrite bind_ok by reflexivity); cbv beta iota;
    rewrite (bind_ok _ _ _ _ _ (read_node_ok _ _ _ Hn)), Hon; done.
Qed.

Lemma hard_resume_steps {A : Type} (rest : M A) (w : World) (p : NodeId)
    (n : ThreadNode) :
  heap w !! p = Some n ->
  (decr_suspendCount p;;
   modify_node p (set_toBeResumed false);;
   incr_frameGeneration p;;
   rest) w
  = rest (set_heap (<[p := hard_resumed n]> (heap w)) w).
Proof.
  intros Hn. rewrite (bind_ok _ _ _ _ _ (decr_suspendCount_ok _ _ _ Hn)).
  erewrite bind_ok by (apply modify_node_ok; cbn; apply lookup_insert_eq).
  unfold incr_frameGeneration. rewrite bind_assoc.
  erewrite bind_ok by (apply read_node_ok; cbn; apply lookup_insert_eq).
  erewrite bind_ok by (apply modify_node_ok; cbn; apply lookup_insert_eq).
  cbn [heap set_heap]. rewrite !insert_insert_eq. reflexivity.
Qed.

(** The loop after [ResumeThreadList], over the threads of distinct running
    nodes: each node is found through the slot of its thread and is
    accounted as resumed. *)
Lemma commonResumeList_loop_ok (ps : list NodeId) (w : World) :
  NoDup ps ->
  (forall tr t, rt_GetThreadLocalStorage vm tr t = JVMTI_ERROR_NONE) ->
  (forall p, p ∈ ps ->
     exists n, heap w !! p = Some n /\ tls w !! thread n = Some p /\
               is_on n (running_list vm (thread n)) = true) ->
  exists h',
    commonResumeList_loop vm (threads_of w ps) w = Ok tt (set_heap h' w) /\
    (forall p, p ∈ ps -> h' !! p = Some (hard_resumed (node_at w p))) /\
    (forall p, p ∉ ps -> h' !! p = heap w !! p).
Proof.
  intros Hd He. revert w. induction Hd as [|p ps Hp Hd IH]; intros w Hps.
  - exists (heap w). split; [cbn; unfold skip, ret; by destruct w|].
    split; [intros p Hp; by apply elem_of_nil in Hp|done].
  - destruct (Hps p) as (n & Hn & Ht & Hon); [left|].
    pose proof (node_at_Some _ _ _ Hn) as Hat.
    cbn [threads_of map commonResumeList_loop]. fold (threads_of w ps).
    rewrite Hat.
    rewrite (bind_ok _ _ _ _ _ (findRunningThread_slot _ _ _ _ (He _ _) Ht Hn Hon)).
    cbv beta iota. rewrite (hard_resume_steps _ _ _ _ Hn).
    set (w1 := set_heap (<[p := hard_resumed n]> (heap w)) w).
    assert (Hsame : forall q, q ∈ ps -> node_at w1 q = node_at w q).
    { intros q Hq. apply node_at_insert_ne. intros ->. done. }
    destruct (IH w1) as (h' & Hrun & Hin & Hout).
    { intros q Hq. destruct (Hps q) as (m & Hm & Htm & Hom); [by right|].
      exists m. split; [|done]. cbn. rewrite lookup_insert_ne; [done|].
      intros ->. done. }
    exists h'. split; [|split].
    + replace (threads_of w ps) with (threads_of w1 ps)
        by (apply map_agree; intros q Hq; by rewrite Hsame).
      exact Hrun.
    + intros q Hq. apply elem_of_cons in Hq as [->|Hq].
      * rewrite Hout by done. cbn. rewrite lookup_insert_eq. by rewrite Hat.
      * rewrite Hin by done. by rewrite Hsame.
    + intros q Hq. apply not_elem_of_cons in Hq as [Hne Hq].
      rewrite Hout by done. cbn. by rewrite lookup_insert_ne.
Qed.

Lemma enumerateOverThreadList_eq {A : Type} (l : ThreadList)
    (f : NodeId -> A -> M (jvmtiError * A)) (a : A) (w : World) :
  enumerateOverThreadList l f a w = enumerate_from (list_nodes l w) f a w.
Proof. reflexivity. Qed.

Lemma running_ok_spec (w : World) :
  lists_ok w = true ->
  running_ok vm w = true ->
  NoDup (running_nodes w) /\
  forall p, p ∈ running_nodes w ->
    exists n, heap w !! p = Some n /\ tls w !! thread n = Some p /\
              is_on n (running_list vm (thread n)) = true.
Proof.
  intros Hl. unfold running_ok. rewrite !andb_true_iff, !forallb_forall.
  intros [[Hd Hr] Hv]. apply bool_decide_eq_true in Hd. split; [done|].
  intros p Hp. unfold running_nodes in Hp. apply elem_of_app in Hp as [Hp|Hp].
  - destruct (lists_ok_spec w Hl runningThreads p Hp) as (n & Hn & Hon).
    specialize (Hr p). rewrite <- list_elem_of_In in Hr. specialize (Hr Hp).
    rewrite Hn in Hr. apply andb_true_iff in Hr as [Ht Hk].
    apply bool_decide_eq_true in Ht. apply negb_true_iff in Hk.
    exists n. unfold running_list. by rewrite Hk.
  - destruct (lists_ok_spec w Hl runningVThreads p Hp) as (n & Hn & Hon).
    specialize (Hv p). rewrite <- list_elem_of_In in Hv. specialize (Hv Hp).
    rewrite Hn in Hv. apply andb_true_iff in Hv as [Ht Hk].
    apply bool_decide_eq_true in Ht.
    exists n. unfold running_list. by rewrite Hk.
Qed.

Lemma flags_ok_spec (w : World) :
  flags_ok w = true ->
  Forall (fun p => negb (toBeResumed (node_at w p) && suspendOnStart (node_at w p))
                   = true) (running_nodes w).
Proof.
  unfold flags_ok. rewrite forallb_forall. intros H.
  apply Forall_forall. intros p Hp. apply H. by apply list_elem_of_In.
Qed.

Lemma newArray_ok {A : Type} (k : AllocKind) (len : Z) (zero : A) (w : World) :
  rt_jvmtiAllocate vm (trace w) k = true ->
  newArray vm k len zero w = Ok (Some (replicate (Z.to_nat len) zero)) w.
Proof.
  intros H. unfold newArray, jvmtiAllocate, bind, get_world, ret. by rewrite H.
Qed.

Lemma threads_of_app (w : World) (a b : list NodeId) :
  threads_of w (a ++ b) = threads_of w a ++ threads_of w b.
Proof. apply map_app. Qed.

(** C10.  [commonResumeList] on a well-formed world in which at least one
    running node needs a hard resume (it is not a debug thread, has
    [suspendCount] 1 and [toBeResumed]).  The threads of these nodes, in
    list order, are handed to [ResumeThreadList] in one call, and whatever
    that call answers, for the list as a whole and in its array of
    per-thread results, every one of these nodes ends with [suspendCount]
    decremented (to 0), [toBeResumed] cleared and [frameGeneration]
    incremented; the other fields of the node are as before.  Only the
    error of the call as a whole reaches the caller.  The other running
    nodes get the accounting of the copy pass and no node off the running
    lists changes. *)
Theorem commonResumeList_ignores_results (w : World) :
  lists_ok w = true ->
  running_ok vm w = true ->
  flags_ok w = true ->
  (forall tr t, rt_GetThreadLocalStorage vm tr t = JVMTI_ERROR_NONE) ->
  (forall tr k, rt_jvmtiAllocate vm tr k = true) ->
  Z.of_nat (length (running_nodes w)) < jint_max ->
  hard_resume w (running_nodes w) <> [] ->
  let hard := hard_resume w (running_nodes w) in
  let request := threads_of w hard in
  exists w',
    commonResumeList vm w
    = Ok (fst (rt_ResumeThreadList vm (trace w) request)) w' /\
    trace w' = trace w ++ [EvResumeThreadList request; EvMonitorNotifyAll threadLock] /\
    (forall p, p ∈ hard ->
       heap w' !! p = Some (hard_resumed (node_at w p)) /\
       suspendCount (hard_resumed (node_at w p)) = 0 /\
       toBeResumed (hard_resumed (node_at w p)) = false /\
       frameGeneration (hard_resumed (node_at w p))
       = jlong_inc (frameGeneration (node_at w p))) /\
    (forall p, p ∈ running_nodes w -> p ∉ hard ->
       heap w' !! p = Some (accounted (node_at w p))) /\
    (forall p, p ∉ running_nodes w -> heap w' !! p = heap w !! p).
Proof.
  intros Hl Hr Hf He Halloc Hlen Hne hard request.
  destruct (running_ok_spec w Hl Hr) as [Hd Hnodes].
  pose proof (flags_ok_spec w Hf) as Hflags.
  assert (Hall : Forall (fun p => is_Some (heap w !! p)) (running_nodes w)).
  { apply Forall_forall. intros p Hp. destruct (Hnodes p Hp) as (n & -> & _). by eexists. }
  assert (Hdh : NoDup hard) by (by apply NoDup_filter).
  unfold running_nodes in *.
  apply NoDup_app in Hd as (Hd1 & Hd12 & Hd2).
  apply Forall_app in Hall as [Hall1 Hall2].
  pose proof Hflags as Hflags0.
  apply Forall_app in Hflags as [Hfl1 Hfl2].
  rewrite length_app in Hlen.
  (* the counting passes *)
  unfold commonResumeList.
  erewrite bind_ok.
  2:{ rewrite enumerateOverThreadList_eq.
      apply enumerate_count;
        [exact Hall1 | exact Hfl1 | unfold jint_min; lia | cbn [list_nodes]; lia]. }
  cbv beta iota.
  erewrite bind_ok.
  2:{ rewrite enumerateOverThreadList_eq.
      pose proof (length_filter (fun p => is_hard (node_at w p) = true)
                    (runningThreads_nodes w)) as Hk.
      apply enumerate_count;
        [exact Hall2 | exact Hfl2 | unfold jint_min; lia
        | unfold hard_resume; cbn [list_nodes]; lia]. }
  cbv beta iota. cbn [list_nodes].
  assert (Hcnt : 0 + Z.of_nat (length (hard_resume w (runningThreads_nodes w)))
                 + Z.of_nat (length (hard_resume w (runningVThreads_nodes w)))
                 = Z.of_nat (length hard)).
  { unfold hard. rewrite hard_resume_app, length_app. lia. }
  rewrite Hcnt. clear Hcnt.
  destruct (Z.eqb_spec (Z.of_nat (length hard)) 0) as [Hz|_].
  { exfalso. apply Hne, nil_length_inv. fold hard. lia. }
  erewrite bind_ok by (apply newArray_ok, Halloc). cbv beta iota.
  erewrite bind_ok by (apply newArray_ok, Halloc). cbv beta iota.
  rewrite Nat2Z.id.
  (* the copy passes *)
  destruct (enumerate_copy (runningThreads_nodes w)
              (replicate (length hard) NULL, 0%nat) w Hd1 Hall1 Hfl1)
    as (h1 & Hrun1 & Hin1 & Hout1).
  erewrite bind_ok by (rewrite enumerateOverThreadList_eq; exact Hrun1).
  cbv beta iota.
  set (w1 := set_heap h1 w).
  assert (Hsame1 : forall q, q ∈ runningVThreads_nodes w -> node_at w1 q = node_at w q).
  { intros q Hq. unfold node_at. cbn. rewrite Hout1; [done|].
    intros Hq'. by apply (Hd12 q). }
  destruct (enumerate_copy (runningVThreads_nodes w)
              (foldl (fun a t => store_thread t a)
                 (replicate (length hard) NULL, 0%nat)
                 (threads_of w (hard_resume w (runningThreads_nodes w))))
              w1 Hd2)
    as (h2 & Hrun2 & Hin2 & Hout2).
  { apply Forall_forall. intros q Hq. cbn. rewrite Hout1.
    - by apply (proj1 (Forall_forall _ _) Hall2).
    - intros Hq'. by apply (Hd12 q). }
  { apply Forall_forall. intros q Hq. rewrite Hsame1 by done.
    by apply (proj1 (Forall_forall _ _) Hfl2). }
  assert (Hh : hard_resume w1 (runningVThreads_nodes w)
               = hard_resume w (runningVThreads_nodes w)).
  { apply filter_agree. intros q Hq. by rewrite Hsame1. }
  assert (Ht : threads_of w1 (hard_resume w (runningVThreads_nodes w))
               = threads_of w (hard_resume w (runningVThreads_nodes w))).
  { apply map_agree. intros q Hq. rewrite Hsame1; [done|].
    by apply hard_resume_elem in Hq as [_ Hq]. }
  rewrite Hh, Ht, <- foldl_app, <- threads_of_app, <- hard_resume_app in Hrun2.
  fold hard in Hrun2. fold request in Hrun2.
  assert (Hreq : length request = length hard) by apply length_map.
  rewrite (store_threads_all request (length hard) Hreq) in Hrun2.
  erewrite bind_ok by (rewrite enumerateOverThreadList_eq; exact Hrun2).
  cbv beta iota. cbn [fst].
  assert (Hin : forall p, p ∈ runningThreads_nodes w ++ runningVThreads_nodes w ->
                          h2 !! p = Some (accounted (node_at w p))).
  { intros p Hp. destruct (decide (p ∈ runningVThreads_nodes w)) as [Hv|Hv].
    - rewrite Hin2 by done. by rewrite Hsame1.
    - rewrite Hout2 by done. apply elem_of_app in Hp as [Hp|Hp]; [|done].
      cbn. by apply Hin1. }
  assert (Hout : forall p, p ∉ runningThreads_nodes w ++ runningVThreads_nodes w ->
                           h2 !! p = heap w !! p).
  { intros p Hp. apply not_elem_of_app in Hp as [Hp1 Hp2].
    rewrite Hout2 by done. cbn. by apply Hout1. }
  assert (Hkeep : forall p, p ∈ hard ->
            h2 !! p = heap w !! p /\ is_Some (heap w !! p)).
  { intros p Hp. apply hard_resume_elem in Hp as [Hh' Hp].
    destruct (Hnodes p Hp) as (n & Hn & _).
    pose proof (proj1 (Forall_forall _ _) Hflags0 p Hp) as Hfp. cbv beta in Hfp.
    rewrite Hin by done. rewrite (node_at_Some _ _ _ Hn) in *.
    destruct (accounted_hard n Hh' Hfp) as [-> _]. by rewrite Hn. }
  (* the call and the loop after it *)
  set (w3 := set_trace (trace w ++ [EvResumeThreadList request]) (set_heap h2 w)).
  assert (Hcall : JVMTI_ResumeThreadList vm request (set_heap h2 w1)
                  = Ok (rt_ResumeThreadList vm (trace w) request) w3)
    by reflexivity.
  rewrite (bind_ok _ _ _ _ _ Hcall).
  destruct (rt_ResumeThreadList vm (trace w) request) as [error results].
  cbv beta iota. cbn [fst].
  assert (Hsame3 : forall p, p ∈ hard -> node_at w3 p = node_at w p).
  { intros p Hp. unfold node_at. cbn. by rewrite (proj1 (Hkeep p Hp)). }
  destruct (commonResumeList_loop_ok hard w3 Hdh He) as (h3 & Hrun3 & Hin3 & Hout3).
  { intros p Hp. pose proof Hp as Hp'. apply hard_resume_elem in Hp' as [_ Hp'].
    destruct (Hnodes p Hp') as (n & Hn & Htls & Hon).
    exists n. split; [|done]. cbn. by rewrite (proj1 (Hkeep p Hp)). }
  replace (threads_of w3 hard) with request in Hrun3
    by (apply map_agree; intros q Hq; by rewrite Hsame3).
  erewrite bind_ok by exact Hrun3.
  eexists. split; [reflexivity|]. split; [|split; [|split]].
  - cbn. by rewrite <- app_assoc.
  - intros p Hp. cbn [heap set_heap set_trace]. rewrite Hin3, Hsame3 by done.
    split; [done|].
    apply hard_resume_elem in Hp as [Hh' _]. unfold is_hard in Hh'.
    apply andb_true_iff in Hh' as [Hh' _]. apply andb_true_iff in Hh' as [_ Hc].
    apply Z.eqb_eq in Hc. cbn. rewrite Hc. done.
  - intros p Hp Hnh. cbn [heap set_heap set_trace]. rewrite Hout3 by done.
    cbn. by apply Hin.
  - intros p Hp. cbn [heap set_heap set_trace]. rewrite Hout3.
    + cbn. by apply Hout.
    + intros Hh'. apply Hp. by apply hard_resume_elem in Hh' as [_ Hh'].
Qed.

End ResumeList.

(** ** Scenarios *)

(** C3, as amended.  Scenario 3 of the spec: v1 and v2 are tracked virtual
    threads, the VM was suspended and v1 once more, so that v1 has count 2
    and v2 count 1.  [threadControl_resumeAll] then calls
    [ResumeAllVirtualThreads] with an exclusion list that holds both v2 and
    v1, every tracked virtual thread with [suspendCount > 0], and
    [commonResumeList] after it takes v1 down to count 1 with no primitive
    resume ([toBeResumed] stays set) and v2 down to 0 through the batch
    primitive [ResumeThreadList], which v2 is handed to together with the
    two platform threads. *)
Theorem resumeAll_exclusion_scenario :
  bookkeeping exclusion_world runningVThreads v1 = Some (2, true, false, 0) /\
  bookkeeping exclusion_world runningVThreads v2 = Some (1, true, false, 0) /\
  suspendAllCount exclusion_world = 1 /\
  exists w',
    threadControl_resumeAll rt_two_threads exclusion_world
    = Ok JVMTI_ERROR_NONE w' /\
    calls_since (length (trace exclusion_world)) w'
    = [EvResumeAllVirtualThreads [v2; v1]; EvResumeThreadList [2; 1; v2]] /\
    bookkeeping w' runningVThreads v1 = Some (1, true, false, 0) /\
    bookkeeping w' runningVThreads v2 = Some (0, false, false, 1) /\
    suspendAllCount w' = 0.
Proof.
  split; [vm_compute; reflexivity|].
  split; [vm_compute; reflexivity|].
  split; [vm_compute; reflexivity|].
  eexists. split; [vm_compute; reflexivity|].
  split; [vm_compute; reflexivity|].
  split; [vm_compute; reflexivity|].
  split; vm_compute; reflexivity.
Qed.

(** C3 as the claim words it fails: in the same scenario v2 is on the
    exclusion list of [ResumeAllVirtualThreads], which is not [[v1]]. *)
Lemma resumeAll_exclusion_counterexample :
  exists w' except,
    threadControl_resumeAll rt_two_threads exclusion_world
    = Ok JVMTI_ERROR_NONE w' /\
    In (EvResumeAllVirtualThreads except)
       (calls_since (length (trace exclusion_world)) w') /\
    In v2 except /\
    except <> [v1].
Proof.
  eexists. exists [v2; v1].
  split; [vm_compute; reflexivity|].
  split; [vm_compute; left; reflexivity|].
  split; [left; reflexivity|].
  discriminate.
Qed.

(** C2 fails on the code.  After the race of [start_race] (a suspend of the
    unstarted virtual thread 101, its start event, then a VM-wide suspend
    before the deferred suspend has run) the node of thread 101 has both
    [toBeResumed] and [suspendOnStart] set: [incrementSuspendCountHelper]
    sets [toBeResumed] on every tracked virtual thread without looking at
    [suspendOnStart].  The world is otherwise well formed, no assertion has
    failed so far, and the next resumes trip the assertion of the code
    itself at line 877, "We should never see both toBeResumed and
    suspendOnStart set true". *)
Theorem suspendAll_breaks_flag_invariant :
  bookkeeping hooked_world runningVThreads 101 = None /\
  start_race hooked_world = Ok JVMTI_ERROR_NONE start_race_world /\
  bookkeeping start_race_world runningVThreads 101 = Some (2, true, true, 0) /\
  lists_ok start_race_world = true /\
  slots_ok start_race_world = true /\
  failed_assertions (trace start_race_world) = [] /\
  exists w',
    after_start_race start_race_world = Ok JVMTI_ERROR_NONE w' /\
    failed_assertions (trace w') = [EvAssertionFailed 877].
Proof.
  split; [vm_compute; reflexivity|].
  split; [vm_compute; reflexivity|].
  split; [vm_compute; reflexivity|].
  split; [vm_compute; reflexivity|].
  split; [vm_compute; reflexivity|].
  split; [vm_compute; reflexivity|].
  eexists. split; vm_compute; reflexivity.
Qed.

(** ** The debug-thread list *)

Lemma remove_first_spec (t : jthread) (ds : list jthread) :
  match remove_first t ds with
  | Some ds' => exists l1 l2, ds = l1 ++ t :: l2 /\ (t ∉ l1) /\ ds' = l1 ++ l2
  | None => t ∉ ds
  end.
Proof.
  induction ds as [|d ds IH]; cbn [remove_first].
  - apply not_elem_of_nil.
  - unfold isSameObject. destruct (Z.eqb_spec t d) as [->|Hne].
    + exists [], ds. split; [done|]. split; [apply not_elem_of_nil|done].
    + destruct (remove_first t ds) as [ds'|].
      * destruct IH as (l1 & l2 & -> & Hl1 & ->).
        exists (d :: l1), l2. split; [done|]. split; [|done].
        apply not_elem_of_cons. done.
      * apply not_elem_of_cons. done.
Qed.

Lemma remove_first_last (t : jthread) (ds : list jthread) :
  t ∉ ds -> remove_first t (ds ++ [t]) = Some ds.
Proof.
  induction ds as [|d ds IH]; intros Hno; cbn.
  - unfold isSameObject. by rewrite Z.eqb_refl.
  - apply not_elem_of_cons in Hno as [Hne Hno]. unfold isSameObject.
    destruct (Z.eqb_spec t d); [done|]. by rewrite IH.
Qed.

Lemma is_debug_elem (w : World) (t : jthread) :
  is_debug w t = true <-> t ∈ debugThreads w.
Proof.
  unfold is_debug. rewrite existsb_exists. split.
  - intros (d & Hd & Heq). apply Z.eqb_eq in Heq as ->. by apply list_elem_of_In.
  - intros Ht. exists t. split; [by apply list_elem_of_In|apply Z.eqb_refl].
Qed.

Lemma primitive_calls_none (events : list Event) :
  Forall (fun e => is_suspend_resume_primitive e = false) events ->
  primitive_calls events = [].
Proof.
  induction 1 as [|e events He _ IH]; [done|].
  unfold primitive_calls in *. rewrite filter_cons, IH.
  rewrite decide_False; [done|]. congruence.
Qed.

Section DebugThreads.

Context (vm : Runtime).
Context (get : list Event -> jvmtiError * list Criu.jvmtiExtensionFunctionInfo).
Context (ADD REMOVE : String.string).

(** The build without CRIU support, run. *)
Lemma addDebugThread_run (t : jthread) (w : World) :
  threadControl_addDebugThread vm t w
  = if (MAX_DEBUG_THREADS <=? length (debugThreads w))%nat
    then Ok AGENT_ERROR_OUT_OF_MEMORY
           (with_events [EvMonitorEnter threadLock; EvMonitorExit threadLock] w)
    else if rt_NewGlobalRef vm (trace w ++ [EvMonitorEnter threadLock]) t
            && negb (isSameObject t NULL)
    then Ok JVMTI_ERROR_NONE
           (with_events [EvMonitorEnter threadLock; EvMonitorExit threadLock]
              (set_debugThreads (debugThreads w ++ [t]) w))
    else Ok AGENT_ERROR_OUT_OF_MEMORY
           (with_events [EvMonitorEnter threadLock; EvMonitorExit threadLock] w).
Proof.
  unfold threadControl_addDebugThread, saveGlobalRef.
  unfold debugMonitorEnter, debugMonitorExit, emit, modify_world, get_world,
    bind, ret. cbn [debugThreads set_trace trace].
  destruct (MAX_DEBUG_THREADS <=? length (debugThreads w))%nat.
  - unfold with_events; destruct w; cbn; by rewrite <- ?app_assoc.
  - cbn [debugThreads set_trace trace].
    destruct (rt_NewGlobalRef vm (trace w ++ [EvMonitorEnter threadLock]) t);
      cbn [andb]; [|unfold with_events; destruct w; cbn; by rewrite <- ?app_assoc].
    destruct (isSameObject t NULL); cbn [negb];
      unfold with_events; destruct w; cbn; by rewrite <- ?app_assoc.
Qed.

Lemma removeDebugThread_run (t : jthread) (w : World) :
  threadControl_removeDebugThread t w
  = match remove_first t (debugThreads w) with
    | Some ds =>
        Ok JVMTI_ERROR_NONE
          (with_events [EvMonitorEnter threadLock; EvMonitorExit threadLock]
             (set_debugThreads ds w))
    | None =>
        Ok AGENT_ERROR_INVALID_THREAD
          (with_events [EvMonitorEnter threadLock; EvMonitorExit threadLock] w)
    end.
Proof.
  unfold threadControl_removeDebugThread.
  unfold debugMonitorEnter, debugMonitorExit, emit, modify_world, get_world,
    bind, ret. cbn [debugThreads set_trace trace].
  destruct (remove_first t (debugThreads w));
    unfold with_events; destruct w; cbn; by rewrite <- ?app_assoc.
Qed.

(** The cached pointer, or the lookup. *)
Lemma cached_run (func : option Criu.jvmtiExtensionFunction)
    (name : String.string) (w : World) :
  Criu.cached get func name w
  = Ok (resolved get name func (trace w)) (with_events (lookup_calls func) w).
Proof.
  destruct func as [f|]; cbn [Criu.cached resolved lookup_calls].
  - by rewrite with_events_nil.
  - unfold Criu.find_ext_function, emit, modify_world, get_world, bind, ret.
    destruct (get (trace w)) as [err extList]. cbn [fst snd].
    by destruct (is_NONE err).
Qed.

(** The call through the pointer that [cached] gave. *)
Lemma call_run (func : option Criu.jvmtiExtensionFunction) (e : Event)
    (t : jthread) (w : World) :
  Criu.call_extension func e t w
  = match func with
    | Some f => Ok (f (trace w) t) (with_events [e] w)
    | None => Fatal NullDereference w
    end.
Proof. by destruct func. Qed.

(** The build with CRIU support, run. *)
Lemma Criu_addDebugThread_run (func : option Criu.jvmtiExtensionFunction)
    (t : jthread) (w : World) :
  Criu.threadControl_addDebugThread vm get ADD func t w
  = if (MAX_DEBUG_THREADS <=? length (debugThreads w))%nat
    then Ok (AGENT_ERROR_OUT_OF_MEMORY, func)
           (with_events [EvMonitorEnter threadLock; EvMonitorExit threadLock] w)
    else if rt_NewGlobalRef vm (trace w ++ [EvMonitorEnter threadLock]) t
            && negb (isSameObject t NULL)
    then match resolved get ADD func (trace w ++ [EvMonitorEnter threadLock]) with
         | Some f =>
             Ok (f (trace w ++ EvMonitorEnter threadLock :: lookup_calls func) t,
                 Some f)
               (with_events
                  (EvMonitorEnter threadLock :: lookup_calls func
                   ++ [EvAddDebugThreadToCheckpointState t;
                       EvMonitorExit threadLock])
                  (set_debugThreads (debugThreads w ++ [t]) w))
         | None =>
             Fatal NullDereference
               (with_events (EvMonitorEnter threadLock :: lookup_calls func)
                  (set_debugThreads (debugThreads w ++ [t]) w))
         end
    else Ok (AGENT_ERROR_OUT_OF_MEMORY, func)
           (with_events [EvMonitorEnter threadLock; EvMonitorExit threadLock] w).
Proof.
  unfold Criu.threadControl_addDebugThread, Criu.cached, Criu.call_extension,
    Criu.find_ext_function, saveGlobalRef, debugMonitorEnter, debugMonitorExit,
    emit, modify_world, get_world, bind, ret, resolved, lookup_calls.
  cbn [debugThreads trace set_trace set_debugThreads].
  destruct (MAX_DEBUG_THREADS <=? length (debugThreads w))%nat.
  { unfold with_events. destruct w; cbn; by rewrite <- ?app_assoc. }
  cbn [debugThreads trace set_trace set_debugThreads].
  destruct (rt_NewGlobalRef vm (trace w ++ [EvMonitorEnter threadLock]) t);
    cbn [andb].
  2: { unfold isSameObject, NULL. cbn [Z.eqb].
       unfold with_events. destruct w; cbn; by rewrite <- ?app_assoc. }
  destruct (isSameObject t NULL); cbn [negb].
  { unfold with_events. destruct w; cbn; by rewrite <- ?app_assoc. }
  cbn [debugThreads trace set_trace set_debugThreads].
  destruct func as [f|].
  - cbn [debugThreads trace set_trace set_debugThreads app].
    unfold with_events. destruct w; cbn; by rewrite <- ?app_assoc.
  - cbn [debugThreads trace set_trace set_debugThreads app].
    destruct (get (trace w ++ [EvMonitorEnter threadLock])) as [err extList].
    cbn [fst snd]. destruct (is_NONE err).
    + destruct (Criu.find_ext_from extList ADD) as [f|];
        cbn [debugThreads trace set_trace set_debugThreads app];
        unfold with_events; destruct w; cbn; by rewrite <- ?app_assoc.
    + unfold with_events. destruct w; cbn; by rewrite <- ?app_assoc.
Qed.

Lemma Criu_removeDebugThread_run (func : option Criu.jvmtiExtensionFunction)
    (t : jthread) (w : World) :
  Criu.threadControl_removeDebugThread get REMOVE func t w
  = match remove_first t (debugThreads w) with
    | Some ds =>
        match resolved get REMOVE func (trace w ++ [EvMonitorEnter threadLock]) with
        | Some f =>
            Ok (f (trace w ++ EvMonitorEnter threadLock :: lookup_calls func) t,
                Some f)
              (with_events
                 (EvMonitorEnter threadLock :: lookup_calls func
                  ++ [EvRemoveDebugThreadFromCheckpointState t;
                      EvMonitorExit threadLock])
                 (set_debugThreads ds w))
        | None =>
            Fatal NullDereference
              (with_events (EvMonitorEnter threadLock :: lookup_calls func)
                 (set_debugThreads ds w))
        end
    | None =>
        Ok (AGENT_ERROR_INVALID_THREAD, func)
          (with_events [EvMonitorEnter threadLock; EvMonitorExit threadLock] w)
    end.
Proof.
  unfold Criu.threadControl_removeDebugThread, Criu.cached, Criu.call_extension,
    Criu.find_ext_function, debugMonitorEnter, debugMonitorExit,
    emit, modify_world, get_world, bind, ret, resolved, lookup_calls.
  cbn [debugThreads trace set_trace set_debugThreads].
  destruct (remove_first t (debugThreads w)) as [ds|].
  2: { unfold with_events. destruct w; cbn; by rewrite <- ?app_assoc. }
  cbn [debugThreads trace set_trace set_debugThreads].
  destruct func as [f|].
  - cbn [debugThreads trace set_trace set_debugThreads app].
    unfold with_events. destruct w; cbn; by rewrite <- ?app_assoc.
  - cbn [debugThreads trace set_trace set_debugThreads app].
    destruct (get (trace w ++ [EvMonitorEnter threadLock])) as [err extList].
    cbn [fst snd]. destruct (is_NONE err).
    + destruct (Criu.find_ext_from extList REMOVE) as [f|];
        cbn [debugThreads trace set_trace set_debugThreads app];
        unfold with_events; destruct w; cbn; by rewrite <- ?app_assoc.
    + unfold with_events. destruct w; cbn; by rewrite <- ?app_assoc.
Qed.

(** X1.  [threadControl_addDebugThread], in both builds.  The list of debug
    threads never grows past [MAX_DEBUG_THREADS]; with ten threads
    registered the call answers [AGENT_ERROR_OUT_OF_MEMORY] and changes
    nothing but the trace.  Built without CRIU support the call always
    returns: whenever it answers an error the list is as before, and when
    it answers [JVMTI_ERROR_NONE] the thread has been appended.  Built
    with CRIU support, when there is room: if no global reference can be
    made the answer is [AGENT_ERROR_OUT_OF_MEMORY] and the list is as
    before; otherwise the thread is appended and the extension function is
    then called through its pointer, cached or looked up by name: the
    answer is the status of that function, whatever it is, and when there
    is no such function the call goes through the null pointer with the
    thread already appended.  No suspend or resume primitive is called. *)
Theorem addDebugThread_bounded (t : jthread)
    (func : option Criu.jvmtiExtensionFunction) (w : World) :
  (length (debugThreads w) <= MAX_DEBUG_THREADS)%nat ->
  (exists error ds,
     threadControl_addDebugThread vm t w
     = Ok error
          (with_events [EvMonitorEnter threadLock; EvMonitorExit threadLock]
             (set_debugThreads ds w)) /\
     (length ds <= MAX_DEBUG_THREADS)%nat /\
     (length (debugThreads w) = MAX_DEBUG_THREADS ->
      error = AGENT_ERROR_OUT_OF_MEMORY) /\
     (error <> JVMTI_ERROR_NONE -> ds = debugThreads w) /\
     (error = JVMTI_ERROR_NONE ->
      ds = debugThreads w ++ [t] /\
      forall t', is_debug (set_debugThreads ds w) t'
                 = is_debug w t' || isSameObject t' t)) /\
  (let run := Criu.threadControl_addDebugThread vm get ADD func t in
   (length (debugThreads (world_after run w)) <= MAX_DEBUG_THREADS)%nat /\
   primitive_calls (trace (world_after run w)) = primitive_calls (trace w) /\
   (length (debugThreads w) = MAX_DEBUG_THREADS ->
    run w = Ok (AGENT_ERROR_OUT_OF_MEMORY, func)
              (with_events [EvMonitorEnter threadLock; EvMonitorExit threadLock] w)) /\
   ((length (debugThreads w) < MAX_DEBUG_THREADS)%nat ->
    rt_NewGlobalRef vm (trace w ++ [EvMonitorEnter threadLock]) t = false
    \/ t = NULL ->
    run w = Ok (AGENT_ERROR_OUT_OF_MEMORY, func)
              (with_events [EvMonitorEnter threadLock; EvMonitorExit threadLock] w)) /\
   ((length (debugThreads w) < MAX_DEBUG_THREADS)%nat ->
    rt_NewGlobalRef vm (trace w ++ [EvMonitorEnter threadLock]) t = true ->
    t <> NULL ->
    match resolved get ADD func (trace w ++ [EvMonitorEnter threadLock]) with
    | Some f =>
        run w
        = Ok (f (trace w ++ EvMonitorEnter threadLock :: lookup_calls func) t,
              Some f)
             (with_events
                (EvMonitorEnter threadLock :: lookup_calls func
                 ++ [EvAddDebugThreadToCheckpointState t;
                     EvMonitorExit threadLock])
                (set_debugThreads (debugThreads w ++ [t]) w))
    | None =>
        run w
        = Fatal NullDereference
            (with_events (EvMonitorEnter threadLock :: lookup_calls func)
               (set_debugThreads (debugThreads w ++ [t]) w))
    end)).
Proof.
  intros Hlen. split.
  - rewrite addDebugThread_run.
    destruct (Nat.leb_spec MAX_DEBUG_THREADS (length (debugThreads w))) as [Hfull|Hroom].
    { exists AGENT_ERROR_OUT_OF_MEMORY, (debugThreads w).
      split; [by destruct w|]. repeat split; first [done|lia]. }
    destruct (rt_NewGlobalRef vm _ t && negb (isSameObject t NULL)).
    + exists JVMTI_ERROR_NONE, (debugThreads w ++ [t]).
      split; [done|]. split; [rewrite length_app; cbn; lia|].
      split; [lia|]. split; [done|]. intros _. split; [done|].
      intros t'. unfold is_debug. cbn [debugThreads set_debugThreads].
      rewrite existsb_app. cbn. by rewrite orb_false_r.
    + exists AGENT_ERROR_OUT_OF_MEMORY, (debugThreads w).
      split; [by destruct w|]. repeat split; first [done|lia].
  - cbv zeta. unfold world_after. rewrite Criu_addDebugThread_run.
    assert (Hquiet : forall events ds,
              Forall (fun e => is_suspend_resume_primitive e = false) events ->
              primitive_calls (trace (with_events events (set_debugThreads ds w)))
              = primitive_calls (trace w)).
    { intros events ds Hev. cbn. unfold primitive_calls. rewrite filter_app.
      fold (primitive_calls events). rewrite (primitive_calls_none events Hev).
      by rewrite app_nil_r. }
    assert (Hquiet' : forall events,
              Forall (fun e => is_suspend_resume_primitive e = false) events ->
              primitive_calls (trace (with_events events w))
              = primitive_calls (trace w)).
    { intros events Hev. apply (Hquiet events (debugThreads w) Hev). }
    destruct (Nat.leb_spec MAX_DEBUG_THREADS (length (debugThreads w))) as [Hfull|Hroom].
    { split; [done|]. split; [apply Hquiet'; by repeat constructor|].
      split; [done|]. split; intros; lia. }
    unfold isSameObject.
    destruct (rt_NewGlobalRef vm _ t) eqn:Href, (Z.eqb_spec t NULL) as [Hnull|Hnull];
      cbn [andb negb].
    1, 3, 4: split; [done|]; (split; [apply Hquiet'; by repeat constructor|]);
      (split; [lia|]); (split; [done|]); intros _ ? ?; congruence.
    destruct (resolved get ADD func (trace w ++ [EvMonitorEnter threadLock]))
      as [f|].
    + split; [cbn; rewrite length_app; cbn; lia|].
      split; [apply Hquiet; destruct func; by repeat constructor|].
      split; [lia|]. split; [intros _ [?|?]; congruence|]. done.
    + split; [cbn; rewrite length_app; cbn; lia|].
      split; [apply Hquiet; destruct func; by repeat constructor|].
      split; [lia|]. split; [intros _ [?|?]; congruence|]. done.
Qed.

(** X2.  [threadControl_removeDebugThread], in both builds.  For a thread
    that is not on the list it answers [AGENT_ERROR_INVALID_THREAD] and the
    list stays as it is.  For a thread on the list it takes out the first
    entry of that thread: the entries before and after it keep their
    order.  Built without CRIU support it then answers [JVMTI_ERROR_NONE].
    Built with CRIU support it then calls the extension function through
    its pointer, cached or looked up by name, and answers the status of
    that function; when there is no such function the call goes through
    the null pointer with the entry already taken out.  Nothing but the
    list and the trace changes. *)
Theorem removeDebugThread_first (t : jthread)
    (func : option Criu.jvmtiExtensionFunction) (w : World) :
  (is_debug w t = false ->
   threadControl_removeDebugThread t w
   = Ok AGENT_ERROR_INVALID_THREAD
        (with_events [EvMonitorEnter threadLock; EvMonitorExit threadLock] w) /\
   Criu.threadControl_removeDebugThread get REMOVE func t w
   = Ok (AGENT_ERROR_INVALID_THREAD, func)
        (with_events [EvMonitorEnter threadLock; EvMonitorExit threadLock] w)) /\
  (is_debug w t = true ->
   exists before after,
     debugThreads w = before ++ t :: after /\
     (t ∉ before) /\
     threadControl_removeDebugThread t w
     = Ok JVMTI_ERROR_NONE
          (with_events [EvMonitorEnter threadLock; EvMonitorExit threadLock]
             (set_debugThreads (before ++ after) w)) /\
     match resolved get REMOVE func (trace w ++ [EvMonitorEnter threadLock]) with
     | Some f =>
         Criu.threadControl_removeDebugThread get REMOVE func t w
         = Ok (f (trace w ++ EvMonitorEnter threadLock :: lookup_calls func) t,
               Some f)
              (with_events
                 (EvMonitorEnter threadLock :: lookup_calls func
                  ++ [EvRemoveDebugThreadFromCheckpointState t;
                      EvMonitorExit threadLock])
                 (set_debugThreads (before ++ after) w))
     | None =>
         Criu.threadControl_removeDebugThread get REMOVE func t w
         = Fatal NullDereference
             (with_events (EvMonitorEnter threadLock :: lookup_calls func)
                (set_debugThreads (before ++ after) w))
     end).
Proof.
  rewrite removeDebugThread_run, Criu_removeDebugThread_run.
  pose proof (remove_first_spec t (debugThreads w)) as Hspec.
  destruct (remove_first t (debugThreads w)) as [ds|].
  - destruct Hspec as (l1 & l2 & Hds & Hl1 & ->). split.
    + intros Hno. assert (Hin : t ∈ debugThreads w).
      { rewrite Hds. apply elem_of_app. right. left. }
      apply is_debug_elem in Hin. congruence.
    + intros _. exists l1, l2. split; [done|]. split; [done|]. split; [done|].
      by destruct (resolved get REMOVE func _).
  - split; [done|]. intros Hyes. by apply is_debug_elem in Hyes.
Qed.

(** X3.  Registering a thread that was not a debug thread and removing it
    again gives back the list of debug threads as it was; in between the
    thread is a debug thread, afterwards it is not.  Built without CRIU
    support both calls answer [JVMTI_ERROR_NONE] and leave the lock events
    only.  Built with CRIU support, when the two extension functions are
    there, each call answers what its extension function answers, and the
    list goes through the same steps even when the extension refuses the
    thread. *)
Theorem addDebugThread_removeDebugThread (t : jthread) (w : World) :
  (length (debugThreads w) < MAX_DEBUG_THREADS)%nat ->
  is_debug w t = false ->
  t <> NULL ->
  (forall tr, rt_NewGlobalRef vm tr t = true) ->
  (exists w1 w2,
     threadControl_addDebugThread vm t w = Ok JVMTI_ERROR_NONE w1 /\
     is_debug w1 t = true /\
     threadControl_removeDebugThread t w1 = Ok JVMTI_ERROR_NONE w2 /\
     debugThreads w2 = debugThreads w /\
     is_debug w2 t = false /\
     w2 = with_events [EvMonitorEnter threadLock; EvMonitorExit threadLock;
                       EvMonitorEnter threadLock; EvMonitorExit threadLock] w) /\
  (forall func_add func_remove f_add f_remove,
     (forall tr, resolved get ADD func_add tr = Some f_add) ->
     (forall tr, resolved get REMOVE func_remove tr = Some f_remove) ->
     exists w1 w2 events,
       Criu.threadControl_addDebugThread vm get ADD func_add t w
       = Ok (f_add (trace w ++ EvMonitorEnter threadLock :: lookup_calls func_add) t,
             Some f_add) w1 /\
       is_debug w1 t = true /\
       Criu.threadControl_removeDebugThread get REMOVE func_remove t w1
       = Ok (f_remove (trace w1 ++ EvMonitorEnter threadLock
                                   :: lookup_calls func_remove) t,
             Some f_remove) w2 /\
       debugThreads w2 = debugThreads w /\
       is_debug w2 t = false /\
       w2 = with_events events w /\
       filter (fun e => negb (is_monitor e)) events
       = lookup_calls func_add ++ [EvAddDebugThreadToCheckpointState t]
         ++ lookup_calls func_remove ++ [EvRemoveDebugThreadFromCheckpointState t]).
Proof.
  intros Hroom Hno Hnull Href.
  assert (Hfull : (MAX_DEBUG_THREADS <=? length (debugThreads w))%nat = false)
    by (apply Nat.leb_gt; lia).
  assert (Hnull' : isSameObject t NULL = false) by (by apply Z.eqb_neq).
  assert (Hrem : remove_first t (debugThreads w ++ [t]) = Some (debugThreads w)).
  { apply remove_first_last. rewrite <- is_debug_elem. by rewrite Hno. }
  assert (Hin : forall events,
            is_debug (with_events events
                        (set_debugThreads (debugThreads w ++ [t]) w)) t = true).
  { intros events. apply is_debug_elem. cbn. apply elem_of_app. right. left. }
  split.
  - eexists _, _.
    split; [rewrite addDebugThread_run, Hfull, Href, Hnull'; reflexivity|].
    split; [apply Hin|].
    split.
    { rewrite removeDebugThread_run.
      cbn [debugThreads with_events set_trace set_debugThreads].
      rewrite Hrem. reflexivity. }
    split; [reflexivity|]. split; [exact Hno|].
    unfold with_events; destruct w; cbn; by rewrite <- ?app_assoc.
  - intros func_add func_remove f_add f_remove Hadd Hremove.
    eexists _, _, _.
    split; [rewrite Criu_addDebugThread_run, Hfull, Href, Hnull', Hadd; reflexivity|].
    split; [apply Hin|].
    split.
    { rewrite Criu_removeDebugThread_run.
      cbn [debugThreads with_events set_trace set_debugThreads].
      rewrite Hrem, Hremove. reflexivity. }
    split; [reflexivity|]. split; [exact Hno|].
    split.
    { unfold with_events; destruct w; cbn. rewrite <- ?app_assoc. reflexivity. }
    destruct func_add, func_remove; reflexivity.
Qed.

End DebugThreads.

(** ** What the lookup finds *)

Section Find.

Context (vm : Runtime).

(** X4.  [findThread] on a well-formed thread table.  It returns, and
    changes nothing (it may only record failed assertions).  A node it
    returns is an allocated node of the thread asked for and, when a list
    was given, a node of that list.  The thread-local slot decides: when it
    holds a node, that node is the answer if it is on the list asked for
    (or no list was given) and the answer is null otherwise, without any
    scan.  With an empty slot, a thread that has a node on [otherThreads]
    is found there when that list, or no list, was given. *)
Theorem findThread_finds (lst : option ThreadList) (t : jthread) (w : World) :
  lists_ok w = true ->
  slots_ok w = true ->
  is_NONE (rt_GetThreadLocalStorage vm (trace w) t)
  || is_THREAD_NOT_ALIVE (rt_GetThreadLocalStorage vm (trace w) t) = true ->
  exists found events,
    findThread vm lst t w = Ok found (with_events events w) /\
    Forall is_assertion events /\
    (forall p, found = Some p ->
       exists n, heap w !! p = Some n /\ thread n = t /\
                 forall l, lst = Some l -> node_list n = Some l) /\
    (forall p n,
       slot (rt_GetThreadLocalStorage vm (trace w) t) w t = Some p ->
       heap w !! p = Some n ->
       found = match lst with
               | Some l => if is_on n l then Some p else None
               | None => Some p
               end) /\
    (forall p,
       slot (rt_GetThreadLocalStorage vm (trace w) t) w t = None ->
       any_or lst otherThreads = true ->
       scan w otherThreads t = Some p ->
       found = Some p).
Proof.
  intros Hw Hs He.
  destruct (findThread_lookup vm lst t w Hw Hs He) as (events & Hrun & Hev).
  set (e := rt_GetThreadLocalStorage vm (trace w) t) in *.
  exists (lookup e w lst t), events. split; [exact Hrun|]. split; [exact Hev|].
  split; [|split].
  - intros p Hp. destruct (lookup_thread e w lst t p Hs Hp) as (n & Hn & Ht).
    exists n. split; [done|]. split; [done|]. intros l ->.
    unfold lookup in Hp.
    match type of Hp with
    | match ?F with _ => _ end = _ => destruct F as [q|]; [|done]
    end.
    destruct (heap w !! q) as [m|] eqn:Hq; [|done].
    destruct (is_on m l) eqn:Hon; [|done].
    injection Hp as ->. rewrite Hn in Hq. injection Hq as <-.
    by apply is_on_list.
  - intros p n Hslot Hn. unfold lookup. rewrite Hslot.
    destruct lst as [l|]; [|done]. by rewrite Hn.
  - intros p Hslot Hany Hscan. unfold lookup. rewrite Hslot, Hany, Hscan.
    assert (Hraw : (if negb (jvmtiCallBacksCleared (gdata w))
                    then Some p else Some p) = Some p)
      by (by destruct (negb _)).
    rewrite Hraw. destruct lst as [l|]; [|done].
    destruct l; try done.
    destruct (scan_from_thread _ _ _ _ Hscan) as [Hin _].
    destruct (lists_ok_spec w Hw otherThreads p Hin) as (n & Hn & Hon).
    by rewrite Hn, Hon.
Qed.

End Find.

(** ** The thread lists and the counter of virtual threads *)

Lemma remove_id_length (p : NodeId) (nodes : list NodeId) :
  NoDup nodes -> (p ∈ nodes) ->
  S (length (remove_id p nodes)) = length nodes.
Proof.
  unfold remove_id. induction 1 as [|q nodes Hq Hd IH]; intros Hp.
  - by apply elem_of_nil in Hp.
  - rewrite filter_cons. destruct (decide (q <> p)) as [Hne|Heq].
    + cbn. f_equal. apply IH. apply elem_of_cons in Hp as [->|Hp]; done.
    + assert (q = p) as -> by (destruct (decide (q = p)); done).
      cbn. f_equal. clear IH Hp Hd.
      induction nodes as [|r nodes IH]; [done|].
      apply not_elem_of_cons in Hq as [Hr Hq].
      rewrite filter_cons, decide_True by done. cbn. f_equal. by apply IH.
Qed.

Lemma remove_id_absent (p : NodeId) (nodes : list NodeId) :
  p ∉ remove_id p nodes.
Proof. unfold remove_id. rewrite list_elem_of_filter. tauto. Qed.

(** [removeNode] on a node that is on list [l]. *)
Lemma removeNode_on (p : NodeId) (n : ThreadNode) (l : ThreadList) (w : World) :
  heap w !! p = Some n ->
  node_list n = Some l ->
  exists w',
    removeNode p w = Ok tt w' /\
    heap w' = <[p := set_node_list None n]> (heap w) /\
    (forall l', list_nodes l' w'
                = if ThreadList_eqb l' l then remove_id p (list_nodes l' w)
                  else list_nodes l' w) /\
    numRunningVThreads w'
    = (if ThreadList_eqb l runningVThreads then jint_dec (numRunningVThreads w)
       else numRunningVThreads w) /\
    suspendAllCount w' = suspendAllCount w /\
    tls w' = tls w /\ trace w' = trace w /\
    deferredEventModes w' = deferredEventModes w /\ gdata w' = gdata w.
Proof.
  intros Hn Hl. unfold removeNode.
  rewrite (bind_ok _ _ _ _ _ (read_node_ok _ _ _ Hn)), Hl.
  unfold modify_world at 1. unfold bind at 1.
  erewrite bind_ok by (apply modify_node_ok; destruct l; cbn; exact Hn).
  destruct l; cbn [ThreadList_eqb];
    (eexists; split; [reflexivity|]);
    (split; [reflexivity|]);
    (split; [by intros []|]); done.
Qed.

(** [addNode] puts a node at the head of a list. *)
Lemma addNode_on (lst : ThreadList) (p : NodeId) (n : ThreadNode) (w : World) :
  heap w !! p = Some n ->
  exists w',
    addNode lst p w = Ok tt w' /\
    heap w' = <[p := set_node_list (Some lst) n]> (heap w) /\
    (forall l, list_nodes l w'
               = if ThreadList_eqb l lst then p :: list_nodes l w
                 else list_nodes l w) /\
    numRunningVThreads w'
    = (if ThreadList_eqb lst runningVThreads then jint_inc (numRunningVThreads w)
       else numRunningVThreads w) /\
    suspendAllCount w' = suspendAllCount w /\
    tls w' = tls w /\ trace w' = trace w /\
    deferredEventModes w' = deferredEventModes w /\ gdata w' = gdata w.
Proof.
  intros Hn. unfold addNode.
  erewrite bind_ok by (apply modify_node_ok; exact Hn).
  unfold modify_world at 1. unfold bind at 1.
  erewrite bind_ok by (apply modify_node_ok; cbn; apply lookup_insert_eq).
  destruct lst; cbn [ThreadList_eqb];
    (eexists; split; [reflexivity|]);
    (split; [cbn; rewrite !insert_insert_eq; by destruct n|]);
    (split; [by intros []|]); done.
Qed.

Lemma remove_id_other (p q : NodeId) (nodes : list NodeId) :
  q ∈ remove_id p nodes <-> q <> p /\ q ∈ nodes.
Proof. unfold remove_id. by rewrite list_elem_of_filter. Qed.

Lemma remove_id_off (p : NodeId) (nodes : list NodeId) :
  p ∉ nodes -> remove_id p nodes = nodes.
Proof.
  intros Hp. unfold remove_id. induction nodes as [|q nodes IH]; [done|].
  apply not_elem_of_cons in Hp as [Hne Hp].
  rewrite filter_cons, decide_True by done. f_equal. by apply IH.
Qed.

Lemma is_on_set (n : ThreadNode) (l l' : ThreadList) :
  node_list n = Some l -> is_on n l' = true -> l' = l.
Proof.
  intros Hl Hon. unfold is_on, not_on in Hon. rewrite Hl in Hon.
  by destruct l, l'.
Qed.

Lemma is_on_named (n : ThreadNode) (l : ThreadList) :
  node_list n = Some l -> is_on n l = true.
Proof. intros Hl. unfold is_on, not_on. rewrite Hl. by destruct l. Qed.

(** [lists_ok] from its meaning. *)
Lemma lists_ok_intro (w : World) :
  (forall l p, p ∈ list_nodes l w ->
     exists n, heap w !! p = Some n /\ is_on n l = true) ->
  lists_ok w = true.
Proof.
  intros H. unfold lists_ok. cbn [forallb]. rewrite !andb_true_iff.
  assert (Hl : forall l, forallb (on_list w l) (list_nodes l w) = true).
  { intros l. apply forallb_forall. intros p Hp%list_elem_of_In.
    destruct (H l p Hp) as (n & Hn & Hon). unfold on_list. by rewrite Hn. }
  repeat split; try done; apply Hl.
Qed.

(** On a well-formed table a node whose [list] field is null is on no
    list, and a node is on no list but the one its [list] field names. *)
Lemma unlisted (w : World) (p : NodeId) (n : ThreadNode) (l : ThreadList) :
  lists_ok w = true -> heap w !! p = Some n -> node_list n = None ->
  p ∉ list_nodes l w.
Proof.
  intros Hw Hn Hl Hp. destruct (lists_ok_spec w Hw l p Hp) as (n' & Hn' & Hon).
  assert (n' = n) as -> by congruence.
  unfold is_on, not_on in Hon. by rewrite Hl in Hon.
Qed.

Lemma listed_once (w : World) (p : NodeId) (n : ThreadNode) (l l' : ThreadList) :
  lists_ok w = true -> heap w !! p = Some n -> node_list n = Some l ->
  p ∈ list_nodes l' w -> l' = l.
Proof.
  intros Hw Hn Hl Hp. destruct (lists_ok_spec w Hw l' p Hp) as (n' & Hn' & Hon).
  assert (n' = n) as -> by congruence. by apply (is_on_set n).
Qed.

(** X5.  [addNode] and [removeNode] on a well-formed table: every listed
    node names its list in its [list] field ([lists_ok]) and no list holds
    a node twice ([linked]).  [addNode], given a node that is on no list
    ([list] null), puts it at the head of the list and makes its [list]
    field name the list.  [removeNode], given a node that is on the list
    its [list] field names, takes it off that list, which gets one
    shorter, and clears the field; on a node that is on no list it
    dereferences the null list pointer.  Both leave the other lists and
    nodes alone and the table well formed, and when [numRunningVThreads]
    is the length of [runningVThreads] before, it is so afterwards. *)
Theorem addNode_removeNode_count (lst : ThreadList) (p : NodeId) (n : ThreadNode)
    (w : World) :
  lists_ok w = true ->
  linked w ->
  heap w !! p = Some n ->
  Z.of_nat (length (runningVThreads_nodes w)) < jint_max ->
  (node_list n = None ->
     (exists w',
        addNode lst p w = Ok tt w' /\
        list_nodes lst w' = p :: list_nodes lst w /\
        (forall l, l <> lst -> list_nodes l w' = list_nodes l w) /\
        heap w' = <[p := set_node_list (Some lst) n]> (heap w) /\
        lists_ok w' = true /\ linked w' /\
        (count_ok w = true -> count_ok w' = true)) /\
     removeNode p w = Fatal NullDereference w) /\
  (forall l, node_list n = Some l -> p ∈ list_nodes l w ->
     exists w',
       removeNode p w = Ok tt w' /\
       list_nodes l w' = remove_id p (list_nodes l w) /\
       S (length (list_nodes l w')) = length (list_nodes l w) /\
       (forall l', p ∉ list_nodes l' w') /\
       (forall l', l' <> l -> list_nodes l' w' = list_nodes l' w) /\
       heap w' = <[p := set_node_list None n]> (heap w) /\
       lists_ok w' = true /\ linked w' /\
       (count_ok w = true -> count_ok w' = true)).
Proof.
  intros Hw Hlinked Hn Hlen. split.
  - intros Hnone. split.
    + assert (Hrun : addNode lst p w
                     = Ok tt (counted_world lst jint_inc
                                (set_heap (<[p := set_node_list (Some lst) n]> (heap w))
                                   (set_list_nodes lst (p :: list_nodes lst w) w)))).
      { unfold addNode. pose (lst0 := lst).
        erewrite bind_ok by (apply modify_node_ok; exact Hn).
        unfold modify_world at 1. unfold bind at 1.
        erewrite bind_ok by (apply modify_node_ok; cbn; apply lookup_insert_eq).
        destruct lst; cbn [ThreadList_eqb]; unfold counted_world, skip, ret,
          modify_world; cbn [ThreadList_eqb];
          cbn [heap set_heap set_list_nodes list_nodes numRunningVThreads
               set_numRunningVThreads];
          rewrite insert_insert_eq;
          replace (set_node_list (Some _) (set_node_list None n))
            with (set_node_list (Some lst0) n) by (by destruct n);
          reflexivity. }
      eexists. split; [exact Hrun|].
      assert (Hlists : forall l,
                list_nodes l (counted_world lst jint_inc
                                (set_heap (<[p := set_node_list (Some lst) n]> (heap w))
                                   (set_list_nodes lst (p :: list_nodes lst w) w)))
                = if ThreadList_eqb l lst then p :: list_nodes l w
                  else list_nodes l w).
      { intros l. by destruct l, lst. }
      assert (Hheap : heap (counted_world lst jint_inc
                              (set_heap (<[p := set_node_list (Some lst) n]> (heap w))
                                 (set_list_nodes lst (p :: list_nodes lst w) w)))
                      = <[p := set_node_list (Some lst) n]> (heap w)).
      { by destruct lst. }
      split; [rewrite Hlists; by destruct lst|].
      split; [intros l Hne; rewrite Hlists; by destruct l, lst|].
      split; [exact Hheap|].
      split; [|split].
      * apply lists_ok_intro. intros l q Hq. rewrite Hlists in Hq. rewrite Hheap.
        destruct (decide (q = p)) as [->|Hne].
        -- rewrite lookup_insert_eq. eexists. split; [done|].
           destruct (ThreadList_eqb l lst) eqn:E.
           ++ assert (l = lst) as -> by (by destruct l, lst).
              by apply is_on_named.
           ++ by apply (unlisted w p n l Hw Hn Hnone) in Hq.
        -- rewrite lookup_insert_ne by done.
           apply (lists_ok_spec w Hw l).
           destruct (ThreadList_eqb l lst); [|done].
           by apply elem_of_cons in Hq as [?|?].
      * intros l. rewrite Hlists. destruct (ThreadList_eqb l lst); [|apply Hlinked].
        apply NoDup_cons. split; [|apply Hlinked].
        by apply (unlisted w p n l Hw Hn Hnone).
      * unfold count_ok. intros Hc. apply Z.eqb_eq in Hc. apply Z.eqb_eq.
        destruct lst; cbn in *; try done.
        rewrite Hc, jint_inc_no_overflow by (unfold jint_min; lia). lia.
    + unfold removeNode.
      by rewrite (bind_ok _ _ _ _ _ (read_node_ok _ _ _ Hn)), Hnone.
  - intros l Hl Hp.
    assert (Hrun : removeNode p w
                   = Ok tt (counted_world l jint_dec
                              (set_heap (<[p := set_node_list None n]> (heap w))
                                 (set_list_nodes l (remove_id p (list_nodes l w)) w)))).
    { unfold removeNode.
      rewrite (bind_ok _ _ _ _ _ (read_node_ok _ _ _ Hn)), Hl.
      unfold modify_world at 1. unfold bind at 1.
      erewrite bind_ok by (apply modify_node_ok; destruct l; cbn; exact Hn).
      destruct l; cbn [ThreadList_eqb]; unfold counted_world, skip, ret,
        modify_world; cbn [ThreadList_eqb]; reflexivity. }
    eexists. split; [exact Hrun|].
    assert (Hlists : forall l',
              list_nodes l' (counted_world l jint_dec
                               (set_heap (<[p := set_node_list None n]> (heap w))
                                  (set_list_nodes l (remove_id p (list_nodes l w)) w)))
              = if ThreadList_eqb l' l then remove_id p (list_nodes l' w)
                else list_nodes l' w).
    { intros l'. by destruct l', l. }
    assert (Hheap : heap (counted_world l jint_dec
                            (set_heap (<[p := set_node_list None n]> (heap w))
                               (set_list_nodes l (remove_id p (list_nodes l w)) w)))
                    = <[p := set_node_list None n]> (heap w)).
    { by destruct l. }
    assert (Hshort : S (length (remove_id p (list_nodes l w)))
                     = length (list_nodes l w)).
    { apply remove_id_length; [apply Hlinked|exact Hp]. }
    split; [rewrite Hlists; by destruct l|].
    split; [rewrite Hlists; by destruct l|].
    split.
    { intros l'. rewrite Hlists. destruct (ThreadList_eqb l' l) eqn:E.
      - apply remove_id_absent.
      - intros Hp'. assert (l' = l) by (by apply (listed_once w p n)).
        subst l'. by destruct l. }
    split; [intros l' Hne; rewrite Hlists; by destruct l', l|].
    split; [exact Hheap|].
    split; [|split].
    + apply lists_ok_intro. intros l' q Hq. rewrite Hlists in Hq. rewrite Hheap.
      assert (Hq' : q <> p /\ q ∈ list_nodes l' w).
      { destruct (ThreadList_eqb l' l) eqn:E.
        - by apply remove_id_other.
        - split; [|done]. intros ->.
          assert (l' = l) by (by apply (listed_once w p n)).
          subst l'. by destruct l. }
      destruct Hq' as [Hne Hq']. rewrite lookup_insert_ne by done.
      by apply (lists_ok_spec w Hw l').
    + intros l'. rewrite Hlists. destruct (ThreadList_eqb l' l); [|apply Hlinked].
      apply NoDup_filter, Hlinked.
    + unfold count_ok. intros Hc. apply Z.eqb_eq in Hc. apply Z.eqb_eq.
      destruct l; cbn in *; try done.
      rewrite Hc, jint_dec_no_overflow by (unfold jint_min; lia).
      unfold remove_id in Hshort. lia.
Qed.

Lemma count_nodes_length (nodes : list NodeId) (c : Z) :
  jint_min <= c -> c + Z.of_nat (length nodes) <= jint_max ->
  count_nodes nodes c = c + Z.of_nat (length nodes).
Proof.
  revert c. induction nodes as [|p nodes IH]; intros c Hc Hlen; cbn [count_nodes length] in *.
  - lia.
  - rewrite IH; rewrite jint_inc_no_overflow; lia.
Qed.

Lemma fill_vthreads_ok (nodes : list NodeId) (arr : ListPtr) (w : World) :
  Forall (fun p => is_Some (heap w !! p)) nodes ->
  fill_vthreads nodes arr w
  = Ok (foldl (fun a t => store_thread t a) arr (threads_of w nodes)) w.
Proof.
  revert arr. induction nodes as [|p nodes IH]; intros arr Hall; [done|].
  apply Forall_cons in Hall as [[n Hn] Hall]. cbn [fill_vthreads].
  rewrite (bind_ok _ _ _ _ _ (read_node_ok _ _ _ Hn)), IH by done.
  cbn [threads_of map foldl]. by rewrite (node_at_Some _ _ _ Hn).
Qed.

Section AllVThreads.

Context (vm : Runtime).

(** X6.  [threadControl_allVThreads] on a thread table whose counter of
    virtual threads is in step with [runningVThreads].  The count stored is
    the number of nodes on the list; when the array can be allocated it
    holds the threads of these nodes, in list order and nothing else; when
    it cannot, the null pointer is returned and the count is stored all the
    same.  The check of the counter passes, and nothing changes. *)
Theorem allVThreads_tracked (w : World) :
  lists_ok w = true ->
  count_ok w = true ->
  Z.of_nat (length (runningVThreads_nodes w)) <= jint_max ->
  threadControl_allVThreads vm w
  = Ok (if rt_jvmtiAllocate vm (trace w ++ [EvMonitorEnter threadLock])
             (AllocThreadArray (Z.of_nat (length (runningVThreads_nodes w))))
        then Some (threads_of w (runningVThreads_nodes w))
        else None,
        Z.of_nat (length (runningVThreads_nodes w)))
       (with_events [EvMonitorEnter threadLock; EvMonitorExit threadLock] w).
Proof.
  intros Hw Hc Hlen. unfold count_ok in Hc. apply Z.eqb_eq in Hc.
  pose proof (lists_allocated w runningVThreads Hw) as Hall. cbn in Hall.
  unfold threadControl_allVThreads, jvmtiAllocate.
  unfold debugMonitorEnter, emit, modify_world, get_world.
  unfold bind at 1. unfold bind at 1.
  cbn [numRunningVThreads runningVThreads_nodes gdata set_trace trace].
  rewrite Hc, count_nodes_length by (unfold jint_min; lia).
  rewrite Z.add_0_l, Z.eqb_refl, Nat2Z.id.
  assert (Hassert : forall w0 : World,
            (if assertOn (gdata w) then JDI_ASSERT 2622 true else skip) w0 = Ok tt w0).
  { intros w0. destruct (assertOn (gdata w)); [apply JDI_ASSERT_holds|done]. }
  rewrite (bind_ok _ _ _ _ _ (Hassert _)).
  unfold bind at 1. unfold bind at 1. unfold ret at 1.
  cbn [set_trace trace].
  destruct (rt_jvmtiAllocate vm _ _).
  - erewrite bind_ok.
    2:{ erewrite bind_ok by (apply fill_vthreads_ok; exact Hall). reflexivity. }
    unfold debugMonitorExit, emit, modify_world, bind, ret.
    rewrite store_threads_all by apply length_map.
    unfold with_events. cbn. by rewrite <- app_assoc.
  - unfold bind at 1, ret at 1.
    unfold debugMonitorExit, emit, modify_world, bind, ret.
    unfold with_events. cbn. by rewrite <- app_assoc.
Qed.

End AllVThreads.

(** ** The lists and the chains of pointers *)

Lemma remove_id_delete (nodes : list NodeId) (i : nat) (p : NodeId) :
  NoDup nodes -> nodes !! i = Some p -> remove_id p nodes = delete i nodes.
Proof.
  intros Hd. revert i. induction Hd as [|x nodes Hx Hd IH]; intros i Hi; [done|].
  unfold remove_id in *. rewrite filter_cons. destruct i as [|i]; cbn in Hi.
  - injection Hi as ->. rewrite decide_False by (by intros H).
    by apply remove_id_off.
  - assert (x <> p).
    { intros ->. apply Hx. by apply (list_elem_of_lookup_2 _ i). }
    rewrite decide_True by done. cbn. f_equal. by apply IH.
Qed.

(** A chain passes each node once: a node has one [prev]. *)
Lemma chain_NoDup (s : Links.Store) (l : ThreadList) (nodes : list NodeId) :
  chain s l nodes -> NoDup nodes.
Proof.
  intros [_ Hc]. apply NoDup_alt. intros i. induction i as [|i IH]; intros j x Hi Hj.
  - destruct j as [|j]; [done|].
    pose proof (Hc _ _ Hi) as H0. pose proof (Hc _ _ Hj) as H1.
    rewrite H0 in H1. injection H1 as _ Hp. cbn in Hp.
    assert (Hlt : is_Some (nodes !! j)).
    { apply lookup_lt_is_Some. apply lookup_lt_Some in Hj. lia. }
    destruct Hlt as [y Hy]. by rewrite Hy in Hp.
  - pose proof (Hc _ _ Hi) as H0. pose proof (Hc _ _ Hj) as H1.
    rewrite H0 in H1. injection H1 as _ Hp. cbn in Hp.
    assert (Hlt : is_Some (nodes !! i)).
    { apply lookup_lt_is_Some. apply lookup_lt_Some in Hi. lia. }
    destruct Hlt as [y Hy]. rewrite Hy in Hp.
    destruct j as [|j]; [done|]. cbn in Hp. f_equal. by apply (IH j y).
Qed.

(** The nodes of a chain name its list. *)
Lemma chain_owner (s : Links.Store) (l : ThreadList) (nodes : list NodeId)
    (p : NodeId) (c : Links.Node) :
  chain s l nodes -> p ∈ nodes -> Links.nodes s !! p = Some c ->
  Links.owner c = Some l.
Proof.
  intros [_ Hc] Hp Hn. apply list_elem_of_lookup in Hp as [i Hi].
  rewrite (Hc _ _ Hi) in Hn. by injection Hn as <-.
Qed.

(** What [Links.addNode] leaves, node by node. *)
Lemma Links_addNode_spec (s : Links.Store) (lst : ThreadList) (p : NodeId)
    (c : Links.Node) :
  Links.nodes s !! p = Some c ->
  (forall f, Links.first s lst = Some f -> f <> p /\ is_Some (Links.nodes s !! f)) ->
  exists s',
    Links.addNode lst p s = Some s' /\
    Links.nodes s' !! p
    = Some {| Links.next := Links.first s lst; Links.prev := None;
              Links.owner := Some lst |} /\
    (forall f cf, Links.first s lst = Some f -> Links.nodes s !! f = Some cf ->
       Links.nodes s' !! f = Some (Links.set_prev (Some p) cf)) /\
    (forall q, q <> p -> Links.first s lst <> Some q ->
       Links.nodes s' !! q = Links.nodes s !! q) /\
    (forall l', Links.first s' l'
                = if ThreadList_eqb l' lst then Some p else Links.first s l') /\
    Links.numRunningVThreads s'
    = counted lst jint_inc (Links.numRunningVThreads s).
Proof.
  intros Hp Hhead. unfold Links.addNode, Links.write.
  rewrite Hp. cbn. rewrite lookup_insert_eq. cbn. rewrite lookup_insert_eq. cbn.
  rewrite !insert_insert_eq.
  destruct (Links.first s lst) as [f|] eqn:Hf.
  - destruct (Hhead f eq_refl) as [Hne [cf Hcf]].
    cbn. rewrite lookup_insert_ne by done. rewrite Hcf. cbn.
    rewrite lookup_insert_ne by done. rewrite lookup_insert_eq. cbn.
    rewrite lookup_insert_eq. cbn.
    eexists. split; [reflexivity|].
    split; [destruct lst; cbn; by rewrite lookup_insert_eq, Hf|].
    split.
    { intros f' cf' Hf' Hcf'. injection Hf' as <-.
      assert (cf' = cf) as -> by congruence.
      destruct lst; cbn; rewrite !lookup_insert_ne by done;
        by rewrite lookup_insert_eq. }
    split.
    { intros q Hq Hq'. assert (f <> q) by congruence.
      destruct lst; cbn; by rewrite !lookup_insert_ne by done. }
    split; [intros l'; by destruct lst, l'|].
    by destruct lst.
  - cbn. rewrite lookup_insert_eq. cbn.
    eexists. split; [reflexivity|].
    split; [destruct lst; cbn; by rewrite !insert_insert_eq, lookup_insert_eq|].
    split; [done|].
    split.
    { intros q Hq _. destruct lst; cbn; by rewrite !lookup_insert_ne by done. }
    split; [intros l'; by destruct lst, l'|].
    by destruct lst.
Qed.

(** What [Links.removeNode] leaves, node by node. *)
Lemma Links_removeNode_spec (s : Links.Store) (p : NodeId) (c : Links.Node)
    (l : ThreadList) :
  Links.nodes s !! p = Some c ->
  Links.owner c = Some l ->
  (forall q, Links.prev c = Some q -> q <> p /\ is_Some (Links.nodes s !! q)) ->
  (forall r, Links.next c = Some r -> r <> p /\ is_Some (Links.nodes s !! r)) ->
  (forall q r, Links.prev c = Some q -> Links.next c = Some r -> q <> r) ->
  exists s',
    Links.removeNode p s = Some s' /\
    Links.nodes s' !! p
    = Some {| Links.next := None; Links.prev := None; Links.owner := None |} /\
    (forall q cq, Links.prev c = Some q -> Links.nodes s !! q = Some cq ->
       Links.nodes s' !! q = Some (Links.set_next (Links.next c) cq)) /\
    (forall r cr, Links.next c = Some r -> Links.nodes s !! r = Some cr ->
       Links.nodes s' !! r = Some (Links.set_prev (Links.prev c) cr)) /\
    (forall x, x <> p -> Links.prev c <> Some x -> Links.next c <> Some x ->
       Links.nodes s' !! x = Links.nodes s !! x) /\
    (forall l', Links.first s' l'
                = match Links.prev c with
                  | None => if ThreadList_eqb l' l then Links.next c
                            else Links.first s l'
                  | Some _ => Links.first s l'
                  end) /\
    Links.numRunningVThreads s'
    = counted l jint_dec (Links.numRunningVThreads s).
Proof.
  intros Hp Hl Hprev Hnext Hdiff. unfold Links.removeNode, Links.write.
  rewrite Hp. cbn. rewrite Hl.
  destruct (Links.prev c) as [q|] eqn:Hq, (Links.next c) as [r|] eqn:Hr.
  - destruct (Hprev q eq_refl) as [Hqp [cq Hcq]].
    destruct (Hnext r eq_refl) as [Hrp [cr Hcr]].
    pose proof (Hdiff q r eq_refl eq_refl) as Hqr.
    rewrite Hcq. cbn. rewrite lookup_insert_ne by done. rewrite Hcr. cbn.
    rewrite !lookup_insert_ne by done. rewrite Hp. cbn.
    rewrite lookup_insert_eq. cbn. rewrite lookup_insert_eq. cbn.
    eexists. split; [reflexivity|].
    split; [destruct l; cbn; by rewrite lookup_insert_eq|].
    split.
    { intros q' cq' Hq' Hcq'. injection Hq' as <-.
      assert (cq' = cq) as -> by congruence.
      destruct l; cbn; rewrite !lookup_insert_ne by done;
        by rewrite lookup_insert_eq. }
    split.
    { intros r' cr' Hr' Hcr'. injection Hr' as <-.
      assert (cr' = cr) as -> by congruence.
      destruct l; cbn; rewrite !lookup_insert_ne by done;
        by rewrite lookup_insert_eq. }
    split.
    { intros x Hx Hx1 Hx2. assert (q <> x) by congruence.
      assert (r <> x) by congruence.
      destruct l; cbn; by rewrite !lookup_insert_ne by done. }
    split; [intros l'; by destruct l|]. by destruct l.
  - destruct (Hprev q eq_refl) as [Hqp [cq Hcq]].
    rewrite Hcq. cbn. rewrite !lookup_insert_ne by done. rewrite Hp. cbn.
    rewrite lookup_insert_eq. cbn. rewrite lookup_insert_eq. cbn.
    eexists. split; [reflexivity|].
    split; [destruct l; cbn; by rewrite lookup_insert_eq|].
    split.
    { intros q' cq' Hq' Hcq'. injection Hq' as <-.
      assert (cq' = cq) as -> by congruence.
      destruct l; cbn; rewrite !lookup_insert_ne by done;
        by rewrite lookup_insert_eq. }
    split; [done|].
    split.
    { intros x Hx Hx1 _. assert (q <> x) by congruence.
      destruct l; cbn; by rewrite !lookup_insert_ne by done. }
    split; [intros l'; by destruct l|]. by destruct l.
  - destruct (Hnext r eq_refl) as [Hrp [cr Hcr]].
    cbn. rewrite Hcr. cbn. rewrite !lookup_insert_ne by done. rewrite Hp. cbn.
    rewrite lookup_insert_eq. cbn. rewrite lookup_insert_eq. cbn.
    eexists. split; [reflexivity|].
    split; [destruct l; cbn; by rewrite lookup_insert_eq|].
    split; [done|].
    split.
    { intros r' cr' Hr' Hcr'. injection Hr' as <-.
      assert (cr' = cr) as -> by congruence.
      destruct l; cbn; rewrite !lookup_insert_ne by done;
        by rewrite lookup_insert_eq. }
    split.
    { intros x Hx _ Hx2. assert (r <> x) by congruence.
      destruct l; cbn; by rewrite !lookup_insert_ne by done. }
    split; [intros l'; by destruct l, l'|]. by destruct l.
  - cbn. rewrite Hp. cbn. rewrite lookup_insert_eq. cbn.
    rewrite lookup_insert_eq. cbn.
    eexists. split; [reflexivity|].
    split; [destruct l; cbn; by rewrite lookup_insert_eq|].
    split; [done|]. split; [done|].
    split.
    { intros x Hx _ _. destruct l; cbn; by rewrite !lookup_insert_ne by done. }
    split; [intros l'; by destruct l, l'|]. by destruct l.
Qed.

(** On a node that names no list and has no [prev], [Links.removeNode]
    writes through the null list pointer. *)
Lemma Links_removeNode_null (s : Links.Store) (p : NodeId) (c : Links.Node) :
  Links.nodes s !! p = Some c ->
  Links.owner c = None -> Links.next c = None -> Links.prev c = None ->
  Links.removeNode p s = None.
Proof.
  intros Hp Hl Hn Hv. unfold Links.removeNode. rewrite Hp. cbn.
  by rewrite Hl, Hn, Hv.
Qed.

Lemma represents_node (s : Links.Store) (w : World) (p : NodeId) (n : ThreadNode) :
  represents s w -> heap w !! p = Some n ->
  exists c, Links.nodes s !! p = Some c /\ Links.owner c = node_list n.
Proof.
  intros (_ & Hown & _) Hn. specialize (Hown p). rewrite Hn in Hown. cbn in Hown.
  destruct (Links.nodes s !! p) as [c|]; [|done].
  exists c. split; [done|]. cbn in Hown. congruence.
Qed.

Lemma chain_at (s : Links.Store) (l : ThreadList) (nodes : list NodeId)
    (i : nat) (p : NodeId) :
  chain s l nodes -> nodes !! i = Some p ->
  Links.nodes s !! p
  = Some {| Links.next := nodes !! S i; Links.prev := before nodes i;
            Links.owner := Some l |}.
Proof. intros [_ Hc]. apply Hc. Qed.

(** The nodes of two chains of one store that share a node are chains of
    the same list. *)
Lemma chain_same (s : Links.Store) (l l' : ThreadList) (nodes nodes' : list NodeId)
    (p : NodeId) :
  chain s l nodes -> chain s l' nodes' -> p ∈ nodes -> p ∈ nodes' -> l = l'.
Proof.
  intros Hc Hc' Hp Hp'.
  apply list_elem_of_lookup in Hp as [i Hi]. apply list_elem_of_lookup in Hp' as [j Hj].
  pose proof (chain_at _ _ _ _ _ Hc Hi) as H1.
  pose proof (chain_at _ _ _ _ _ Hc' Hj) as H2.
  rewrite H1 in H2. by injection H2.
Qed.

(** [Links.addNode] on the chains of a world. *)
Lemma Links_addNode_refines (s : Links.Store) (w w' : World) (lst : ThreadList)
    (p : NodeId) (n : ThreadNode) :
  represents s w ->
  heap w !! p = Some n ->
  node_list n = None ->
  heap w' = <[p := set_node_list (Some lst) n]> (heap w) ->
  (forall l, list_nodes l w'
             = if ThreadList_eqb l lst then p :: list_nodes l w else list_nodes l w) ->
  numRunningVThreads w' = counted lst jint_inc (numRunningVThreads w) ->
  exists s', Links.addNode lst p s = Some s' /\ represents s' w'.
Proof.
  intros Hrep Hn Hnone Hheap Hlists Hcount.
  destruct (represents_node s w p n Hrep Hn) as (c & Hc & Hown).
  rewrite Hnone in Hown.
  destruct Hrep as (Hchains & Howner & Hnull & Hnum).
  assert (Hoff : forall l, p ∉ list_nodes l w).
  { intros l Hp. pose proof (chain_owner _ _ _ _ _ (Hchains l) Hp Hc). congruence. }
  set (L := list_nodes lst w).
  assert (Hfirst : Links.first s lst = L !! 0%nat) by apply (Hchains lst).
  destruct (Links_addNode_spec s lst p c Hc)
    as (s' & Hrun & Hp' & Hhead & Hrest & Hfirst' & Hnum').
  { intros f Hf. rewrite Hfirst in Hf.
    split.
    - intros ->. by apply (Hoff lst), (list_elem_of_lookup_2 _ 0%nat).
    - rewrite (chain_at _ _ _ _ _ (Hchains lst) Hf). by eexists. }
  exists s'. split; [exact Hrun|].
  assert (Hd : NoDup L) by apply (chain_NoDup _ _ _ (Hchains lst)).
  split; [|split; [|split]].
  - intros l. rewrite Hlists. destruct (ThreadList_eqb l lst) eqn:E.
    + assert (l = lst) as -> by (by destruct l, lst). fold L.
      split.
      { rewrite Hfirst'. by destruct lst. }
      intros i x Hi. destruct i as [|i]; cbn in Hi.
      { injection Hi as <-. rewrite Hp', Hfirst. reflexivity. }
      assert (Hx : x <> p).
      { intros ->. by apply (Hoff lst), (list_elem_of_lookup_2 _ i). }
      pose proof (chain_at _ _ _ _ _ (Hchains lst) Hi) as Hcx.
      destruct i as [|i].
      * assert (Hf : Links.first s lst = Some x) by (by rewrite Hfirst).
        rewrite (Hhead _ _ Hf Hcx). reflexivity.
      * rewrite (Hrest x Hx), Hcx; [reflexivity|].
        rewrite Hfirst. intros H0.
        pose proof (NoDup_lookup _ _ _ _ Hd H0 Hi). done.
    + split.
      { rewrite Hfirst', E. apply (Hchains l). }
      intros i x Hi.
      assert (Hx : x <> p).
      { intros ->. by apply (Hoff l), (list_elem_of_lookup_2 _ i). }
      rewrite (Hrest x Hx); [by apply (chain_at _ _ _ _ _ (Hchains l))|].
      rewrite Hfirst. intros H0.
      assert (l = lst); [|subst l; by destruct lst].
      apply (chain_same s l lst _ _ x (Hchains l) (Hchains lst));
        [by apply (list_elem_of_lookup_2 _ i)|by apply (list_elem_of_lookup_2 _ 0%nat)].
  - intros q. rewrite Hheap. destruct (decide (q = p)) as [->|Hq].
    { by rewrite Hp', lookup_insert_eq. }
    rewrite lookup_insert_ne by done.
    destruct (decide (Links.first s lst = Some q)) as [Hf|Hf].
    + assert (Hq0 : L !! 0%nat = Some q) by (by rewrite <- Hfirst).
      pose proof (chain_at _ _ _ _ _ (Hchains lst) Hq0) as Hcq.
      rewrite (Hhead _ _ Hf Hcq). rewrite <- Howner, Hcq. reflexivity.
    + rewrite (Hrest q Hq Hf). apply Howner.
  - intros q cq Hq Hnil. destruct (decide (q = p)) as [->|Hqp].
    { rewrite Hp' in Hq. injection Hq as <-. done. }
    destruct (decide (Links.first s lst = Some q)) as [Hf|Hf].
    + assert (Hq0 : L !! 0%nat = Some q) by (by rewrite <- Hfirst).
      pose proof (chain_at _ _ _ _ _ (Hchains lst) Hq0) as Hcq.
      rewrite (Hhead _ _ Hf Hcq) in Hq. injection Hq as <-. done.
    + rewrite (Hrest q Hqp Hf) in Hq. by apply (Hnull q).
  - by rewrite Hnum', Hcount, Hnum.
Qed.

Lemma before_delete_lt (nodes : list NodeId) (i j : nat) :
  (j <= i)%nat -> before (delete i nodes) j = before nodes j.
Proof.
  intros Hj. destruct j as [|j]; [done|]. cbn.
  apply list_lookup_delete_lt. lia.
Qed.

Lemma before_delete_gt (nodes : list NodeId) (i j : nat) :
  (i < j)%nat -> before (delete i nodes) j = nodes !! j.
Proof.
  intros Hj. destruct j as [|j]; [lia|]. cbn.
  apply list_lookup_delete_ge. lia.
Qed.

Lemma before_Some (nodes : list NodeId) (i : nat) (q : NodeId) :
  before nodes i = Some q -> exists j, i = S j /\ nodes !! j = Some q.
Proof. destruct i as [|j]; [done|]. intros H. by exists j. Qed.

(** [Links.removeNode] on the chains of a world. *)
Lemma Links_removeNode_refines (s : Links.Store) (w w' : World) (l : ThreadList)
    (p : NodeId) (n : ThreadNode) :
  represents s w ->
  heap w !! p = Some n ->
  node_list n = Some l ->
  p ∈ list_nodes l w ->
  heap w' = <[p := set_node_list None n]> (heap w) ->
  (forall l', list_nodes l' w'
              = if ThreadList_eqb l' l then remove_id p (list_nodes l' w)
                else list_nodes l' w) ->
  numRunningVThreads w' = counted l jint_dec (numRunningVThreads w) ->
  exists s', Links.removeNode p s = Some s' /\ represents s' w'.
Proof.
  intros Hrep Hn Hl Hin Hheap Hlists Hcount.
  destruct Hrep as (Hchains & Howner & Hnull & Hnum).
  set (L := list_nodes l w) in *.
  apply list_elem_of_lookup in Hin as [i Hi].
  pose proof (chain_at _ _ _ _ _ (Hchains l) Hi) as Hc.
  assert (Hd : NoDup L) by apply (chain_NoDup _ _ _ (Hchains l)).
  assert (Hprev : forall q, before L i = Some q ->
            q <> p /\ exists j, i = S j /\ L !! j = Some q).
  { intros q Hq. destruct (before_Some _ _ _ Hq) as (j & -> & Hj).
    split; [|by exists j]. intros ->.
    pose proof (NoDup_lookup _ _ _ _ Hd Hi Hj). lia. }
  assert (Hnext : forall r, L !! S i = Some r -> r <> p).
  { intros r Hr ->. pose proof (NoDup_lookup _ _ _ _ Hd Hi Hr). lia. }
  destruct (Links_removeNode_spec s p _ l Hc eq_refl)
    as (s' & Hrun & Hp' & Hq' & Hr' & Hrest & Hfirst' & Hnum').
  { cbn. intros q Hq. destruct (Hprev q Hq) as (Hne & j & -> & Hj).
    split; [done|]. rewrite (chain_at _ _ _ _ _ (Hchains l) Hj). by eexists. }
  { cbn. intros r Hr. split; [by apply Hnext|].
    rewrite (chain_at _ _ _ _ _ (Hchains l) Hr). by eexists. }
  { cbn. intros q r Hq Hr ->. destruct (Hprev r Hq) as (_ & j & -> & Hj).
    pose proof (NoDup_lookup _ _ _ _ Hd Hj Hr). lia. }
  cbn [Links.prev Links.next] in Hq', Hr', Hrest, Hfirst'.
  fold L in Hq', Hr', Hrest, Hfirst', Hc.
  exists s'. split; [exact Hrun|].
  assert (Hother : forall l' x, l' <> l -> x ∈ list_nodes l' w ->
            Links.nodes s' !! x = Links.nodes s !! x).
  { intros l' x Hl' Hx.
    assert (Hnot : forall y, y ∈ L -> x <> y).
    { intros y Hy ->. apply Hl'.
      by apply (chain_same s l' l _ _ y (Hchains l') (Hchains l)). }
    apply Hrest.
    - apply Hnot. by apply (list_elem_of_lookup_2 _ i).
    - intros Hq. destruct (Hprev x Hq) as (_ & j & _ & Hj).
      exact (Hnot x (list_elem_of_lookup_2 _ _ _ Hj) eq_refl).
    - intros Hr. exact (Hnot x (list_elem_of_lookup_2 _ _ _ Hr) eq_refl). }
  split; [|split; [|split]].
  - intros l'. rewrite Hlists. destruct (ThreadList_eqb l' l) eqn:E.
    + assert (l' = l) as -> by (by destruct l', l). fold L.
      rewrite (remove_id_delete L i p Hd Hi).
      split.
      { rewrite Hfirst'. destruct i as [|i]; cbn [before].
        - rewrite E. by rewrite list_lookup_delete_ge by lia.
        - assert (Hlt : is_Some (L !! i)).
          { apply lookup_lt_is_Some. apply lookup_lt_Some in Hi. lia. }
          destruct Hlt as [q Hq]. rewrite Hq.
          rewrite list_lookup_delete_lt by lia. apply (Hchains l). }
      intros j x Hj. destruct (decide (j < i)%nat) as [Hlt|Hge].
      * rewrite list_lookup_delete_lt in Hj by done.
        pose proof (chain_at _ _ _ _ _ (Hchains l) Hj) as Hcx.
        assert (Hxp : x <> p).
        { intros ->. pose proof (NoDup_lookup _ _ _ _ Hd Hi Hj). lia. }
        rewrite (before_delete_lt L i j) by lia.
        destruct (decide (S j = i)) as [<-|Hne].
        -- rewrite (Hq' x _ Hj Hcx). cbn.
           by rewrite (list_lookup_delete_ge L (S j) (S j)) by lia.
        -- rewrite Hrest, Hcx.
           ++ by rewrite list_lookup_delete_lt by lia.
           ++ done.
           ++ intros Hq. destruct (Hprev x Hq) as (_ & k & -> & Hk).
              pose proof (NoDup_lookup _ _ _ _ Hd Hj Hk). lia.
           ++ intros Hr. pose proof (NoDup_lookup _ _ _ _ Hd Hj Hr). lia.
      * rewrite list_lookup_delete_ge in Hj by lia.
        pose proof (chain_at _ _ _ _ _ (Hchains l) Hj) as Hcx.
        assert (Hxp : x <> p).
        { intros ->. pose proof (NoDup_lookup _ _ _ _ Hd Hi Hj). lia. }
        rewrite (list_lookup_delete_ge L i (S j)) by lia.
        destruct (decide (j = i)) as [->|Hne].
        -- rewrite (Hr' x _ Hj Hcx). cbn.
           by rewrite (before_delete_lt L i i) by lia.
        -- rewrite Hrest, Hcx.
           ++ by rewrite (before_delete_gt L i j) by lia.
           ++ done.
           ++ intros Hq. destruct (Hprev x Hq) as (_ & k & -> & Hk).
              pose proof (NoDup_lookup _ _ _ _ Hd Hj Hk). lia.
           ++ intros Hr. pose proof (NoDup_lookup _ _ _ _ Hd Hj Hr). lia.
    + assert (Hl' : l' <> l) by (intros ->; by destruct l).
      split.
      { rewrite Hfirst', E. destruct (before L i); apply (Hchains l'). }
      intros j x Hj. rewrite (Hother l' x Hl').
      * by apply (chain_at _ _ _ _ _ (Hchains l')).
      * by apply (list_elem_of_lookup_2 _ j).
  - intros x. rewrite Hheap. destruct (decide (x = p)) as [->|Hx].
    { by rewrite Hp', lookup_insert_eq. }
    rewrite lookup_insert_ne by done. rewrite <- Howner.
    destruct (decide (before L i = Some x)) as [Hq|Hq].
    { destruct (Hprev x Hq) as (_ & j & _ & Hj).
      pose proof (chain_at _ _ _ _ _ (Hchains l) Hj) as Hcx.
      by rewrite (Hq' x _ Hq Hcx), Hcx. }
    destruct (decide (L !! S i = Some x)) as [Hr|Hr].
    { pose proof (chain_at _ _ _ _ _ (Hchains l) Hr) as Hcx.
      by rewrite (Hr' x _ Hr Hcx), Hcx. }
    by rewrite Hrest.
  - intros x cx Hx Hnil. destruct (decide (x = p)) as [->|Hxp].
    { rewrite Hp' in Hx. by injection Hx as <-. }
    destruct (decide (before L i = Some x)) as [Hq|Hq].
    { destruct (Hprev x Hq) as (_ & j & _ & Hj).
      pose proof (chain_at _ _ _ _ _ (Hchains l) Hj) as Hcx.
      rewrite (Hq' x _ Hq Hcx) in Hx. injection Hx as <-. done. }
    destruct (decide (L !! S i = Some x)) as [Hr|Hr].
    { pose proof (chain_at _ _ _ _ _ (Hchains l) Hr) as Hcx.
      rewrite (Hr' x _ Hr Hcx) in Hx. injection Hx as <-. done. }
    rewrite Hrest in Hx by done. by apply (Hnull x).
  - by rewrite Hnum', Hcount, Hnum.
Qed.

(** A world that a store of chains describes is well formed. *)
Lemma represents_well_formed (s : Links.Store) (w : World) :
  represents s w -> lists_ok w = true /\ linked w.
Proof.
  intros (Hchains & Howner & _). split.
  - apply lists_ok_intro. intros l p Hp.
    apply list_elem_of_lookup in Hp as [i Hi].
    pose proof (chain_at _ _ _ _ _ (Hchains l) Hi) as Hc.
    specialize (Howner p). rewrite Hc in Howner. cbn in Howner.
    destruct (heap w !! p) as [n|]; [|done].
    exists n. split; [done|]. apply is_on_named. cbn in Howner. congruence.
  - intros l. apply (chain_NoDup s l), Hchains.
Qed.

(** X25.  The lists of the embedding against the pointers of the C code.
    Take a store of [next], [prev], [list] and [first] pointers whose
    chains are the lists of a world.  That world is well formed.  For a
    node that is on no list, [addNode] on the pointers (line 336) and
    [addNode] on the lists both succeed and the new store is again what the
    new world describes, with the node first on its list; [removeNode] on
    the pointers (line 309) writes through the null list pointer, and
    [removeNode] on the lists stops likewise.  For a node that is linked on
    the list its [list] field names, [removeNode] on the pointers and on
    the lists both succeed and the new store is again what the new world
    describes, with the node gone from its list. *)
Theorem Links_refine (s : Links.Store) (w : World) (p : NodeId) (n : ThreadNode) :
  represents s w ->
  heap w !! p = Some n ->
  (lists_ok w = true /\ linked w) /\
  (node_list n = None ->
     (forall lst, exists s' w',
        Links.addNode lst p s = Some s' /\
        addNode lst p w = Ok tt w' /\
        represents s' w' /\
        list_nodes lst w' = p :: list_nodes lst w /\
        Links.first s' lst = Some p) /\
     Links.removeNode p s = None /\
     removeNode p w = Fatal NullDereference w) /\
  (forall l, node_list n = Some l -> p ∈ list_nodes l w ->
     exists s' w',
       Links.removeNode p s = Some s' /\
       removeNode p w = Ok tt w' /\
       represents s' w' /\
       list_nodes l w' = remove_id p (list_nodes l w) /\
       Links.first s' l = list_nodes l w' !! 0%nat /\
       p ∉ list_nodes l w').
Proof.
  intros Hrep Hn. split; [by apply (represents_well_formed s)|]. split.
  - intros Hnone. split; [|split].
    + intros lst.
      destruct (addNode_on lst p n w Hn)
        as (w' & Hrun & Hheap & Hlists & Hcount & _).
      destruct (Links_addNode_refines s w w' lst p n Hrep Hn Hnone Hheap Hlists Hcount)
        as (s' & Hrun' & Hrep').
      exists s', w'. split; [exact Hrun'|]. split; [exact Hrun|].
      split; [exact Hrep'|].
      assert (Hl : list_nodes lst w' = p :: list_nodes lst w).
      { rewrite Hlists. by destruct lst. }
      split; [exact Hl|].
      destruct Hrep' as (Hchains & _). rewrite (proj1 (Hchains lst)), Hl. done.
    + destruct (represents_node s w p n Hrep Hn) as (c & Hc & Hown).
      rewrite Hnone in Hown.
      destruct Hrep as (_ & _ & Hnull & _).
      destruct (Hnull p c Hc Hown) as [Hnx Hpv].
      by apply (Links_removeNode_null s p c).
    + unfold removeNode.
      by rewrite (bind_ok _ _ _ _ _ (read_node_ok _ _ _ Hn)), Hnone.
  - intros l Hl Hin.
    destruct (removeNode_on p n l w Hn Hl)
      as (w' & Hrun & Hheap & Hlists & Hcount & _).
    destruct (Links_removeNode_refines s w w' l p n Hrep Hn Hl Hin Hheap Hlists Hcount)
      as (s' & Hrun' & Hrep').
    exists s', w'. split; [exact Hrun'|]. split; [exact Hrun|].
    split; [exact Hrep'|].
    assert (Hl' : list_nodes l w' = remove_id p (list_nodes l w)).
    { rewrite Hlists. by destruct l. }
    split; [exact Hl'|].
    split; [destruct Hrep' as (Hchains & _); apply (Hchains l)|].
    rewrite Hl'. apply remove_id_absent.
Qed.

(** ** Event modes *)

Lemma set_deferredEventModes_same (w : World) :
  set_deferredEventModes (deferredEventModes w) w = w.
Proof. by destruct w. Qed.

Section EventModes.

Context (vm : Runtime).

Lemma threadSetEventNotificationMode_ok (node : NodeId) (n : ThreadNode)
    (mode : jvmtiEventMode) (ei : EventIndex) (t : jthread) (w : World) :
  heap w !! node = Some n ->
  threadSetEventNotificationMode vm node mode ei t w
  = Ok (rt_SetEventNotificationMode vm (trace w) mode ei t)
       (set_trace (trace w ++ [EvSetEventNotificationMode mode ei t])
          (set_heap (<[node := if is_SINGLE_STEP ei
                               then set_instructionStepMode mode n else n]>
                       (heap w)) w)).
Proof.
  intros Hn. unfold threadSetEventNotificationMode, JVMTI_SetEventNotificationMode.
  destruct (is_SINGLE_STEP ei).
  - erewrite bind_ok by (by apply modify_node_ok). reflexivity.
  - unfold skip, ret, bind, get_world, emit, modify_world.
    cbn [trace set_trace]. by rewrite set_heap_same.
Qed.

Lemma processDeferredEventModes_from_ok (t : jthread) (node : NodeId)
    (rest kept : list DeferredEventMode) (n : ThreadNode) (w : World) :
  modes_accepted vm t ->
  heap w !! node = Some n ->
  deferredEventModes w = kept ++ rest ->
  processDeferredEventModes_from vm kept rest t node w
  = Ok tt (set_trace (trace w ++ mode_calls (modes_of t rest))
             (set_heap (<[node := apply_modes (modes_of t rest) n]> (heap w))
                (set_deferredEventModes (kept ++ modes_kept t rest) w))).
Proof.
  intros Hacc. revert kept n w.
  induction rest as [|d rest IH]; intros kept n w Hn Hd.
  - unfold skip, ret. f_equal. destruct w. cbn in *. rewrite !app_nil_r in *.
    subst. by rewrite insert_id.
  - cbn [processDeferredEventModes_from]. unfold isSameObject.
    unfold modes_of, modes_kept. rewrite !filter_cons.
    fold (modes_of t rest). fold (modes_kept t rest).
    destruct (Z.eqb_spec t (dem_thread d)) as [Heq|Hne].
    + rewrite decide_True by done. rewrite decide_False by (intros H; by apply H).
      rewrite (bind_ok _ _ _ _ _ (threadSetEventNotificationMode_ok _ _ _ _ _ _ Hn)).
      rewrite <- Heq, Hacc. cbn [is_NONE negb].
      unfold skip at 1. unfold bind at 1, ret at 1.
      unfold modify_world at 1. unfold bind at 1.
      erewrite IH; [| cbn; apply lookup_insert_eq | reflexivity].
      cbn [mode_calls map apply_modes foldl]. rewrite <- Heq.
      f_equal. cbn. rewrite insert_insert_eq, <- app_assoc. reflexivity.
    + rewrite decide_False by done. rewrite decide_True by done.
      erewrite IH; [| exact Hn | by rewrite <- app_assoc].
      by rewrite <- app_assoc.
Qed.

(** X7.  [processDeferredEventModes] at the start of thread [t], when the
    runtime accepts the mode changes: every deferred entry of [t] is
    applied with one call of [SetEventNotificationMode], in the order in
    which the entries were queued, and is taken off the queue; the entries
    of other threads stay, in their order.  The node records the mode of
    the last single-step entry applied.  Nothing else changes. *)
Theorem processDeferredEventModes_drains (t : jthread) (node : NodeId)
    (n : ThreadNode) (w : World) :
  modes_accepted vm t ->
  heap w !! node = Some n ->
  processDeferredEventModes vm t node w
  = Ok tt (set_trace (trace w ++ mode_calls (modes_of t (deferredEventModes w)))
             (set_heap (<[node := apply_modes (modes_of t (deferredEventModes w)) n]>
                          (heap w))
                (set_deferredEventModes (modes_kept t (deferredEventModes w)) w))).
Proof.
  intros Hacc Hn. unfold processDeferredEventModes, get_world. unfold bind.
  by rewrite (processDeferredEventModes_from_ok t node _ [] n w Hacc Hn).
Qed.

(** A change of event mode for a started running thread is made at
    once. *)
Lemma setEventMode_started (mode : jvmtiEventMode) (ei : EventIndex)
    (t : jthread) (w : World) (e : jvmtiError) (p : NodeId) (n : ThreadNode) :
  lists_ok w = true ->
  slots_ok w = true ->
  (forall tr, rt_GetThreadLocalStorage vm tr t = e) ->
  is_NONE e || is_THREAD_NOT_ALIVE e = true ->
  t <> NULL ->
  started_node vm e w t = Some p ->
  heap w !! p = Some n ->
  exists events,
    Forall is_assertion events /\
    threadControl_setEventMode vm mode ei t w
    = Ok (rt_SetEventNotificationMode vm
            (trace w ++ EvMonitorEnter threadLock :: events) mode ei t)
         (with_events (EvMonitorEnter threadLock :: events
                       ++ [EvSetEventNotificationMode mode ei t;
                           EvMonitorExit threadLock])
            (set_heap (<[p := if is_SINGLE_STEP ei
                              then set_instructionStepMode mode n else n]>
                         (heap w)) w)).
Proof.
  intros Hw Hs Hslot He Hnull Hstart Hn.
  destruct (running_node vm t w e Hw Hs Hslot He) as (events & Hfind & Hev).
  exists events. split; [done|].
  unfold threadControl_setEventMode, isSameObject, NULL in *.
  destruct (Z.eqb_spec t 0) as [|_]; [done|].
  unfold debugMonitorEnter at 1, emit, modify_world. unfold bind at 1.
  fold (with_events [EvMonitorEnter threadLock] w).
  rewrite (bind_ok _ _ _ _ _ Hfind).
  unfold started_node in Hstart.
  destruct (lookup e w (Some (running_list vm t)) t) as [q|] eqn:Hl; [|done].
  destruct (isStarted (node_at w q)) eqn:Hstarted; [|done].
  injection Hstart as ->. rewrite (node_at_Some _ _ _ Hn) in Hstarted.
  rewrite bind_assoc.
  erewrite bind_ok by (apply read_node_ok; exact Hn).
  rewrite Hstarted. cbn [negb].
  erewrite bind_ok by (apply threadSetEventNotificationMode_ok; exact Hn).
  unfold debugMonitorExit, emit, modify_world, bind, ret.
  cbn [trace with_events set_trace]. f_equal.
  unfold with_events; destruct w; cbn; by rewrite <- ?app_assoc.
Qed.

(** X8.  [threadControl_setEventMode].  For the null thread the mode is set
    globally with one call of [SetEventNotificationMode], whose status is
    returned.  For a thread that has no running node, or whose running node
    is not marked as started, no call is made: an entry is appended to the
    queue of deferred modes and [JVMTI_ERROR_NONE] returned, or
    [AGENT_ERROR_OUT_OF_MEMORY] with the queue untouched when the entry
    cannot be allocated; the entry names the thread by a global reference,
    and names no thread when that reference cannot be made.  For a started
    running thread the call is made at once and its status returned, and
    the node records the mode when the event is the single step. *)
Theorem setEventMode_cases (mode : jvmtiEventMode) (ei : EventIndex)
    (t : jthread) (w : World) (e : jvmtiError) :
  lists_ok w = true ->
  slots_ok w = true ->
  (forall tr, rt_GetThreadLocalStorage vm tr t = e) ->
  is_NONE e || is_THREAD_NOT_ALIVE e = true ->
  (t = NULL ->
   threadControl_setEventMode vm mode ei t w
   = Ok (rt_SetEventNotificationMode vm (trace w) mode ei NULL)
        (with_events [EvSetEventNotificationMode mode ei NULL] w)) /\
  (t <> NULL -> started_node vm e w t = None ->
   exists events,
     Forall is_assertion events /\
     let tr := trace w ++ EvMonitorEnter threadLock :: events in
     threadControl_setEventMode vm mode ei t w
     = if rt_jvmtiAllocate vm tr AllocDeferredEventMode
       then Ok JVMTI_ERROR_NONE
              (with_events (EvMonitorEnter threadLock :: events
                            ++ [EvMonitorExit threadLock])
                 (set_deferredEventModes
                    (deferredEventModes w
                     ++ [{| dem_ei := ei; dem_mode := mode;
                            dem_thread := if rt_NewGlobalRef vm tr t
                                          then t else NULL |}]) w))
       else Ok AGENT_ERROR_OUT_OF_MEMORY
              (with_events (EvMonitorEnter threadLock :: events
                            ++ [EvMonitorExit threadLock]) w)) /\
  (t <> NULL ->
   forall p n, started_node vm e w t = Some p -> heap w !! p = Some n ->
   exists events,
     Forall is_assertion events /\
     threadControl_setEventMode vm mode ei t w
     = Ok (rt_SetEventNotificationMode vm
             (trace w ++ EvMonitorEnter threadLock :: events) mode ei t)
          (with_events (EvMonitorEnter threadLock :: events
                        ++ [EvSetEventNotificationMode mode ei t;
                            EvMonitorExit threadLock])
             (set_heap (<[p := if is_SINGLE_STEP ei
                               then set_instructionStepMode mode n else n]>
                          (heap w)) w))).
Proof.
  intros Hw Hs Hslot He. split; [|split].
  - intros ->. unfold threadControl_setEventMode. cbn [isSameObject NULL Z.eqb].
    reflexivity.
  - intros Hnull Hnone.
    destruct (running_node vm t w e Hw Hs Hslot He) as (events & Hfind & Hev).
    exists events. split; [done|]. cbv zeta.
    unfold threadControl_setEventMode, isSameObject, NULL in *.
    destruct (Z.eqb_spec t 0) as [|_]; [done|].
    unfold debugMonitorEnter at 1, emit, modify_world. unfold bind at 1.
    fold (with_events [EvMonitorEnter threadLock] w).
    rewrite (bind_ok _ _ _ _ _ Hfind).
    assert (Hadd : forall w0, trace w0 = trace w ++ EvMonitorEnter threadLock :: events ->
              bind (addDeferredEventMode vm mode ei t)
                   (fun error => debugMonitorExit threadLock;; ret error) w0
              = if rt_jvmtiAllocate vm (trace w0) AllocDeferredEventMode
                then Ok JVMTI_ERROR_NONE
                       (with_events [EvMonitorExit threadLock]
                          (set_deferredEventModes
                             (deferredEventModes w0
                              ++ [{| dem_ei := ei; dem_mode := mode;
                                     dem_thread := if rt_NewGlobalRef vm (trace w0) t
                                                   then t else 0 |}]) w0))
                else Ok AGENT_ERROR_OUT_OF_MEMORY
                       (with_events [EvMonitorExit threadLock] w0)).
    { intros w0 _. unfold addDeferredEventMode, jvmtiAllocate, saveGlobalRef, NULL.
      unfold get_world, bind, ret.
      by destruct (rt_jvmtiAllocate vm (trace w0) AllocDeferredEventMode). }
    unfold started_node in Hnone.
    destruct (lookup e w (Some (running_list vm t)) t) as [p|] eqn:Hl.
    + destruct (lookup_thread _ _ _ _ _ Hs Hl) as (n & Hn & _).
      rewrite (node_at_Some _ _ _ Hn) in Hnone.
      destruct (isStarted n) eqn:Hstarted; [done|].
      rewrite bind_assoc.
      erewrite bind_ok by (apply read_node_ok; exact Hn).
      rewrite Hstarted. cbn [negb]. rewrite Hadd by (cbn; reflexivity). cbn [trace with_events set_trace].
      destruct (rt_jvmtiAllocate _ _ _); f_equal; unfold with_events; destruct w; cbn;
        by rewrite <- ?app_assoc.
    + rewrite Hadd by (cbn; reflexivity). cbn [trace with_events set_trace].
      destruct (rt_jvmtiAllocate _ _ _); f_equal; unfold with_events; destruct w; cbn;
        by rewrite <- ?app_assoc.
  - intros Hnull p n Hstart Hn. by apply (setEventMode_started mode ei t w e p n).
Qed.

(** [threadControl_getInstructionStepMode] reads the mode recorded in the
    running node of [t], and answers [JVMTI_DISABLE] when there is none. *)
Lemma getInstructionStepMode_reads (t : jthread) (w : World) (e : jvmtiError) :
  lists_ok w = true ->
  slots_ok w = true ->
  (forall tr, rt_GetThreadLocalStorage vm tr t = e) ->
  is_NONE e || is_THREAD_NOT_ALIVE e = true ->
  exists events,
    threadControl_getInstructionStepMode vm t w
    = Ok match lookup e w (Some (running_list vm t)) t with
         | Some p => instructionStepMode (node_at w p)
         | None => JVMTI_DISABLE
         end (with_events events w) /\
    primitive_calls events = [].
Proof.
  intros Hw Hs Hslot He.
  destruct (running_node vm t w e Hw Hs Hslot He) as (events & Hfind & Hev).
  exists (EvMonitorEnter threadLock :: events ++ [EvMonitorExit threadLock]).
  split.
  2: { change (EvMonitorEnter threadLock :: events ++ [EvMonitorExit threadLock])
         with ([EvMonitorEnter threadLock] ++ events ++ [EvMonitorExit threadLock]).
       by rewrite !primitive_calls_app, (primitive_calls_assertions _ Hev). }
  unfold threadControl_getInstructionStepMode.
  unfold debugMonitorEnter at 1, emit, modify_world. unfold bind at 1.
  fold (with_events [EvMonitorEnter threadLock] w).
  rewrite (bind_ok _ _ _ _ _ Hfind).
  destruct (lookup e w (Some (running_list vm t)) t) as [p|] eqn:Hl.
  - destruct (lookup_thread _ _ _ _ _ Hs Hl) as (n & Hn & _).
    rewrite bind_assoc.
    erewrite bind_ok by (apply read_node_ok; exact Hn).
    rewrite (node_at_Some _ _ _ Hn).
    unfold bind, ret, debugMonitorExit, emit, modify_world. f_equal. trace_eq.
  - unfold bind, ret, debugMonitorExit, emit, modify_world. f_equal. trace_eq.
Qed.

(** X9.  The single-step mode set through [threadControl_setEventMode] on
    a started running thread is the mode that
    [threadControl_getInstructionStepMode] reads back; setting the mode of
    any other event leaves that answer as it was.  Whether the runtime
    accepted the change makes no difference to what is recorded.  For a
    thread without a running node the answer is [JVMTI_DISABLE]. *)
Theorem instructionStepMode_round_trip (mode : jvmtiEventMode) (ei : EventIndex)
    (t : jthread) (w : World) (e : jvmtiError) :
  lists_ok w = true ->
  slots_ok w = true ->
  (forall tr, rt_GetThreadLocalStorage vm tr t = e) ->
  is_NONE e || is_THREAD_NOT_ALIVE e = true ->
  t <> NULL ->
  (forall p n, started_node vm e w t = Some p -> heap w !! p = Some n ->
     exists status w1 events,
       threadControl_setEventMode vm mode ei t w = Ok status w1 /\
       threadControl_getInstructionStepMode vm t w1
       = Ok (if is_SINGLE_STEP ei then mode else instructionStepMode n)
            (with_events events w1) /\
       primitive_calls events = []) /\
  (lookup e w (Some (running_list vm t)) t = None ->
   exists events,
     threadControl_getInstructionStepMode vm t w
     = Ok JVMTI_DISABLE (with_events events w) /\
     primitive_calls events = []).
Proof.
  intros Hw Hs Hslot He Hnull. split.
  - intros p n Hstart Hn.
    destruct (setEventMode_started mode ei t w e p n Hw Hs Hslot He Hnull Hstart Hn)
      as (events & Hev & Hrun).
    match type of Hrun with _ = Ok ?S ?W1 => set (status := S) in *; set (w1 := W1) in * end.
    assert (Hshape : same_shape w w1).
    { eapply same_shape_trans; [|apply same_shape_events].
      apply (same_shape_update w p n); [done| |]; by destruct (is_SINGLE_STEP ei). }
    destruct (getInstructionStepMode_reads t w1 e) as (events1 & Hget & Hp);
      [by rewrite (lists_ok_shape w w1) | by rewrite (slots_ok_shape w w1)
      | done | done |].
    exists status, w1, events1. split; [exact Hrun|]. split; [|done].
    rewrite Hget, (lookup_shape e w w1) by done.
    unfold started_node in Hstart.
    destruct (lookup e w (Some (running_list vm t)) t) as [q|]; [|done].
    destruct (isStarted (node_at w q)); [|done]. injection Hstart as ->.
    f_equal. unfold node_at, w1. cbn. rewrite lookup_insert_eq. cbn.
    by destruct (is_SINGLE_STEP ei).
  - intros Hl.
    destruct (getInstructionStepMode_reads t w e Hw Hs Hslot He) as (events & Hget & Hp).
    exists events. by rewrite Hget, Hl.
Qed.

End EventModes.

(** ** Resuming one node *)

Lemma incr_frameGeneration_ok (w : World) (p : NodeId) (n : ThreadNode) :
  heap w !! p = Some n ->
  incr_frameGeneration p w
  = Ok tt (set_heap (<[p := set_frameGeneration (jlong_inc (frameGeneration n)) n]>
                       (heap w)) w).
Proof.
  intros Hn. unfold incr_frameGeneration.
  rewrite (bind_ok _ _ _ _ _ (read_node_ok _ _ _ Hn)).
  by apply modify_node_ok.
Qed.

Lemma incr_suspendCount_ok (w : World) (p : NodeId) (n : ThreadNode) :
  heap w !! p = Some n ->
  incr_suspendCount p w
  = Ok tt (set_heap (<[p := set_suspendCount (jint_inc (suspendCount n)) n]> (heap w)) w).
Proof.
  intros Hn. unfold incr_suspendCount.
  rewrite (bind_ok _ _ _ _ _ (read_node_ok _ _ _ Hn)).
  by apply modify_node_ok.
Qed.

Lemma JDI_ASSERT_ok (line : nat) (b : bool) (w : World) :
  JDI_ASSERT line b w
  = Ok tt (with_events (if assertOn (gdata w) && negb b
                        then [EvAssertionFailed line] else []) w).
Proof.
  unfold JDI_ASSERT, get_world, bind.
  destruct (assertOn (gdata w) && negb b); [done|].
  by rewrite with_events_nil.
Qed.

Section ResumeNode.

Context (vm : Runtime).

(** X10.  The per-thread resume of a node.  A debug thread and a node with
    no suspend outstanding are left alone.  Otherwise the count goes down
    by one.  If that leaves a suspend outstanding, or the node was never
    suspended by the runtime ([toBeResumed] false), no primitive is called.
    If it brings the count to 0 on a node with [toBeResumed],
    [ResumeThread] is called once, [frameGeneration] goes up by one and
    [toBeResumed] is cleared, whatever the call answers; the answer is
    returned, except that [THREAD_NOT_ALIVE] on a thread that never started
    counts as success. *)
Theorem resumeThreadByNode_cases (w : World) (node : NodeId) (n : ThreadNode) :
  heap w !! node = Some n ->
  exists (error : jvmtiError) (n' : ThreadNode) (events : list Event),
    resumeThreadByNode vm node w = Ok error (node_update node n' events w) /\
    (isDebugThread n = true \/ suspendCount n <= 0 ->
       error = JVMTI_ERROR_NONE /\ n' = n /\ events = []) /\
    (isDebugThread n = false -> 0 < suspendCount n ->
       ((jint_dec (suspendCount n) =? 0) && toBeResumed n = false ->
          error = JVMTI_ERROR_NONE /\ primitive_calls events = [] /\
          n' = set_suspendCount (jint_dec (suspendCount n)) n) /\
       ((jint_dec (suspendCount n) =? 0) && toBeResumed n = true ->
          primitive_calls events = [EvResumeThread (thread n)] /\
          n' = set_toBeResumed false
                 (set_frameGeneration (jlong_inc (frameGeneration n))
                    (set_suspendCount (jint_dec (suspendCount n)) n)) /\
          let r := rt_ResumeThread vm
                     (trace w ++ EvMonitorNotifyAll threadLock
                        :: (if assertOn (gdata w) && suspendOnStart n
                            then [EvAssertionFailed 877] else []))
                     (thread n) in
          error = if is_THREAD_NOT_ALIVE r && negb (isStarted n)
                  then JVMTI_ERROR_NONE else r)).
Proof.
  intros Hn. unfold resumeThreadByNode.
  destruct (isDebugThread n) eqn:Hdbg.
  { exists JVMTI_ERROR_NONE, n, []. split; [mrun; mdone|].
    split; [done|]. intros; discriminate. }
  destruct (0 <? suspendCount n) eqn:Hc.
  2:{ exists JVMTI_ERROR_NONE, n, [].
      split; [mrun; mdone|]. apply Z.ltb_ge in Hc. split; [done|]. intros _ ?. lia. }
  pose proof (proj1 (Z.ltb_lt _ _) Hc) as Hpos.
  rewrite (bind_ok _ _ _ _ _ (read_node_ok _ _ _ Hn)), Hdbg, Hc.
  rewrite (bind_ok _ _ _ _ _ (decr_suspendCount_ok _ _ _ Hn)).
  unfold debugMonitorNotifyAll, emit, modify_world. unfold bind at 1.
  erewrite bind_ok by (apply read_node_ok; cbn; apply lookup_insert_eq).
  cbn [suspendCount toBeResumed set_suspendCount].
  destruct ((jint_dec (suspendCount n) =? 0) && toBeResumed n) eqn:Hlast.
  - cbn [suspendOnStart thread isStarted set_suspendCount trace set_heap].
    rewrite (bind_ok _ _ _ _ _ (JDI_ASSERT_ok _ _ _)).
    cbn [gdata set_trace set_heap]. rewrite negb_involutive.
    set (failed := if assertOn (gdata w) && suspendOnStart n
                   then [EvAssertionFailed 877] else []).
    unfold JVMTI_ResumeThread, get_world, emit, modify_world.
    unfold bind at 1. unfold bind at 1. unfold bind at 1. unfold ret at 1.
    cbn [trace with_events set_trace].
    erewrite bind_ok by (apply incr_frameGeneration_ok; cbn; apply lookup_insert_eq).
    erewrite bind_ok by (apply modify_node_ok; cbn; apply lookup_insert_eq).
    rewrite <- !app_assoc. cbn [app].
    set (r := rt_ResumeThread vm (trace w ++ EvMonitorNotifyAll threadLock :: failed)
                (thread n)).
    exists (if is_THREAD_NOT_ALIVE r && negb (isStarted n)
            then JVMTI_ERROR_NONE else r),
      (set_toBeResumed false
         (set_frameGeneration (jlong_inc (frameGeneration n))
            (set_suspendCount (jint_dec (suspendCount n)) n))),
      (EvMonitorNotifyAll threadLock :: failed ++ [EvResumeThread (thread n)]).
    split.
    { destruct (is_THREAD_NOT_ALIVE r && negb (isStarted n)); unfold ret;
        f_equal; unfold node_update; destruct w; cbn;
        rewrite !insert_insert_eq, <- ?app_assoc; reflexivity. }
    split; [intros [?|?]; [done|lia]|]. intros _ _.
    split; [done|]. intros _.
    split; [|done].
    change (EvMonitorNotifyAll threadLock :: failed ++ [EvResumeThread (thread n)])
      with ([EvMonitorNotifyAll threadLock] ++ failed ++ [EvResumeThread (thread n)]).
    rewrite !primitive_calls_app. unfold failed.
    by destruct (assertOn (gdata w) && suspendOnStart n).
  - exists JVMTI_ERROR_NONE, (set_suspendCount (jint_dec (suspendCount n)) n),
      [EvMonitorNotifyAll threadLock].
    split; [unfold ret; f_equal; unfold node_update; by destruct w|].
    split; [intros [?|?]; [done|lia]|]. intros _ _.
    split; [done|]. intros ?; discriminate.
Qed.

End ResumeNode.

(** ** Nested suspends of one node *)

Lemma node_update_twice (node : NodeId) (n1 n2 : ThreadNode)
    (ev1 ev2 : list Event) (w : World) :
  node_update node n2 ev2 (node_update node n1 ev1 w)
  = node_update node n2 (ev1 ++ ev2) w.
Proof.
  unfold node_update. destruct w. cbn. by rewrite insert_insert_eq, app_assoc.
Qed.

Lemma rewrites_bind {A B : Type} (m : M A) (f : A -> M B) (node : NodeId)
    (n1 n2 : ThreadNode) (c1 c2 : list Event) (w : World) :
  rewrites m node n1 c1 w ->
  (forall a events, rewrites (f a) node n2 c2 (node_update node n1 events w)) ->
  rewrites (bind m f) node n2 (c1 ++ c2) w.
Proof.
  intros (a & ev1 & Hm & Hc1) Hf.
  destruct (Hf a ev1) as (b & ev2 & Hrun & Hc2).
  exists b, (ev1 ++ ev2). rewrite (bind_ok _ _ _ _ _ Hm), Hrun.
  by rewrite node_update_twice, primitive_calls_app, Hc1, Hc2.
Qed.

Lemma node_update_same (node : NodeId) (n : ThreadNode) (w : World) :
  heap w !! node = Some n -> node_update node n [] w = w.
Proof.
  intros Hn. unfold node_update. rewrite insert_id, app_nil_r by done.
  by destruct w.
Qed.

Lemma node_update_lookup (node : NodeId) (n : ThreadNode) (events : list Event)
    (w : World) :
  heap (node_update node n events w) !! node = Some n.
Proof. cbn. apply lookup_insert_eq. Qed.

Lemma rewrites_skip (node : NodeId) (n : ThreadNode) (w : World) :
  heap w !! node = Some n -> rewrites skip node n [] w.
Proof.
  intros Hn. exists tt, []. split; [|done]. by rewrite node_update_same.
Qed.

Section Nesting.

Context (vm : Runtime).

Lemma suspendThreadByNode_first (node : NodeId) (n : ThreadNode) (w : World) :
  heap w !! node = Some n ->
  unsuspended n = true ->
  rt_SuspendThread vm (trace w) (thread n) = JVMTI_ERROR_NONE ->
  rewrites (suspendThreadByNode vm node) node (held 1 n)
    [EvSuspendThread (thread n)] w.
Proof.
  intros Hn Hu Hr. unfold unsuspended in Hu.
  apply andb_true_iff in Hu as [Hu Htbr]. apply andb_true_iff in Hu as [Hu Hsos].
  apply andb_true_iff in Hu as [Hdbg Hc].
  apply negb_true_iff in Htbr, Hsos, Hdbg. pose proof Hc as Hc'.
  apply Z.eqb_eq in Hc'.
  unfold rewrites, suspendThreadByNode.
  destruct (assertOn (gdata w)) eqn:Hassert.
  all: eexists JVMTI_ERROR_NONE, _; split;
    [ mrun; f_equal; unfold node_update, held; destruct w; cbn in *;
      rewrite ?insert_insert_eq, <- ?app_assoc; cbn [app]; rewrite Hc'; reflexivity
    | reflexivity ].
Qed.

Lemma suspendThreadByNode_nested (node : NodeId) (n : ThreadNode) (c : Z)
    (w : World) :
  heap w !! node = Some (held c n) ->
  unsuspended n = true ->
  1 <= c < jint_max ->
  rewrites (suspendThreadByNode vm node) node (held (c + 1) n) [] w.
Proof.
  intros Hn Hu Hc. unfold unsuspended in Hu.
  apply andb_true_iff in Hu as [Hu Htbr]. apply andb_true_iff in Hu as [Hu Hsos].
  apply andb_true_iff in Hu as [Hdbg _].
  apply negb_true_iff in Htbr, Hsos, Hdbg.
  assert (Hnz : (c =? 0) = false) by (apply Z.eqb_neq; lia).
  assert (Hinc : jint_inc c = c + 1)
    by (apply jint_inc_no_overflow; unfold jint_min; lia).
  unfold rewrites, suspendThreadByNode.
  rewrite (bind_ok _ _ _ _ _ (read_node_ok _ _ _ Hn)).
  cbn [held isDebugThread suspendOnStart suspendCount set_suspendCount
       set_toBeResumed]. rewrite Hdbg, Hsos, Hnz.
  unfold ret at 1. unfold bind at 1. cbn [is_NONE].
  rewrite (bind_ok _ _ _ _ _ (incr_suspendCount_ok _ _ _ Hn)).
  exists JVMTI_ERROR_NONE, [EvMonitorNotifyAll threadLock]. split; [|done].
  unfold debugMonitorNotifyAll, emit, modify_world, bind, ret. f_equal.
  cbn [held suspendCount set_suspendCount set_toBeResumed]. rewrite Hinc.
  unfold node_update, held. by destruct w.
Qed.

Lemma resumeThreadByNode_nested (node : NodeId) (n : ThreadNode) (c : Z)
    (w : World) :
  heap w !! node = Some (held (c + 1) n) ->
  unsuspended n = true ->
  1 <= c < jint_max ->
  rewrites (resumeThreadByNode vm node) node (held c n) [] w.
Proof.
  intros Hn Hu Hc. unfold unsuspended in Hu.
  apply andb_true_iff in Hu as [Hu Htbr]. apply andb_true_iff in Hu as [Hu Hsos].
  apply andb_true_iff in Hu as [Hdbg _].
  apply negb_true_iff in Htbr, Hsos, Hdbg.
  assert (Hpos : (0 <? c + 1) = true) by (apply Z.ltb_lt; lia).
  assert (Hdec : jint_dec (c + 1) = c).
  { rewrite jint_dec_no_overflow by (unfold jint_min, jint_max in *; lia). lia. }
  assert (Hnz : (c =? 0) = false) by (apply Z.eqb_neq; lia).
  unfold rewrites, resumeThreadByNode.
  rewrite (bind_ok _ _ _ _ _ (read_node_ok _ _ _ Hn)).
  cbn [held isDebugThread suspendCount set_suspendCount set_toBeResumed].
  rewrite Hdbg, Hpos.
  rewrite (bind_ok _ _ _ _ _ (decr_suspendCount_ok _ _ _ Hn)).
  unfold debugMonitorNotifyAll, emit, modify_world. unfold bind at 1.
  erewrite bind_ok by (apply read_node_ok; cbn; apply lookup_insert_eq).
  cbn [held suspendCount toBeResumed set_suspendCount set_toBeResumed].
  rewrite Hdec, Hnz. cbn [andb].
  exists JVMTI_ERROR_NONE, [EvMonitorNotifyAll threadLock]. split; [|done].
  unfold ret. f_equal; unfold node_update, held; by destruct w.
Qed.

Lemma resumeThreadByNode_last (node : NodeId) (n : ThreadNode) (w : World) :
  heap w !! node = Some (held 1 n) ->
  unsuspended n = true ->
  rewrites (resumeThreadByNode vm node) node
    (set_frameGeneration (jlong_inc (frameGeneration n)) n)
    [EvResumeThread (thread n)] w.
Proof.
  intros Hn Hu. unfold unsuspended in Hu.
  apply andb_true_iff in Hu as [Hu Htbr]. apply andb_true_iff in Hu as [Hu Hsos].
  apply andb_true_iff in Hu as [Hdbg Hz].
  apply negb_true_iff in Htbr, Hsos, Hdbg. apply Z.eqb_eq in Hz.
  unfold rewrites, resumeThreadByNode.
  rewrite (bind_ok _ _ _ _ _ (read_node_ok _ _ _ Hn)).
  cbn [held isDebugThread suspendCount set_suspendCount set_toBeResumed].
  rewrite Hdbg. cbn [Z.ltb Z.compare].
  rewrite (bind_ok _ _ _ _ _ (decr_suspendCount_ok _ _ _ Hn)).
  unfold debugMonitorNotifyAll, emit, modify_world. unfold bind at 1.
  erewrite bind_ok by (apply read_node_ok; cbn; apply lookup_insert_eq).
  cbn [held suspendCount toBeResumed suspendOnStart thread isStarted
       set_suspendCount set_toBeResumed].
  change (jint_dec 1) with 0. cbn [Z.eqb andb].
  rewrite (bind_ok _ _ _ _ _ (JDI_ASSERT_ok _ _ _)), Hsos. cbn [negb].
  rewrite andb_false_r, with_events_nil.
  unfold JVMTI_ResumeThread, get_world, emit, modify_world.
  unfold bind at 1. unfold bind at 1. unfold bind at 1. unfold ret at 1.
  erewrite bind_ok by (apply incr_frameGeneration_ok; cbn; apply lookup_insert_eq).
  erewrite bind_ok by (apply modify_node_ok; cbn; apply lookup_insert_eq).
  assert (Hnode : set_toBeResumed false
                    (set_frameGeneration (jlong_inc (frameGeneration n))
                       (set_suspendCount 0 (held 1 n)))
                  = set_frameGeneration (jlong_inc (frameGeneration n)) n).
  { unfold held. destruct n. cbn in *. by subst. }
  cbn [heap trace set_heap set_trace].
  rewrite !insert_insert_eq, Hnode, <- !app_assoc. cbn [app].
  destruct (_ && _);
    eexists _, [EvMonitorNotifyAll threadLock; EvResumeThread (thread n)];
    (split; [|done]); unfold ret; f_equal; unfold node_update; by destruct w.
Qed.

Lemma times_suspend_nested (j : nat) (node : NodeId) (n : ThreadNode) (c : Z)
    (w : World) :
  heap w !! node = Some (held c n) ->
  unsuspended n = true ->
  1 <= c -> c + Z.of_nat j <= jint_max ->
  rewrites (times j (suspendThreadByNode vm node)) node
    (held (c + Z.of_nat j) n) [] w.
Proof.
  revert c w. induction j as [|j IH]; intros c w Hn Hu Hc Hmax.
  - cbn [times]. rewrite Z.add_0_r. by apply rewrites_skip.
  - cbn [times].
    apply (rewrites_bind _ _ node (held (c + 1) n)
             (held (c + Z.of_nat (S j)) n) [] []).
    + apply suspendThreadByNode_nested; [done|done|lia].
    + intros _ events.
      replace (c + Z.of_nat (S j)) with ((c + 1) + Z.of_nat j) by lia.
      apply IH; [apply node_update_lookup|done|lia|lia].
Qed.

Lemma times_resume_all (j : nat) (node : NodeId) (n : ThreadNode) (w : World) :
  heap w !! node = Some (held (1 + Z.of_nat j) n) ->
  unsuspended n = true ->
  1 + Z.of_nat j <= jint_max ->
  rewrites (times (S j) (resumeThreadByNode vm node)) node
    (set_frameGeneration (jlong_inc (frameGeneration n)) n)
    [EvResumeThread (thread n)] w.
Proof.
  revert w. induction j as [|j IH]; intros w Hn Hu Hmax.
  - cbn [times].
    apply (rewrites_bind _ _ node (set_frameGeneration (jlong_inc (frameGeneration n)) n)
             (set_frameGeneration (jlong_inc (frameGeneration n)) n) [EvResumeThread (thread n)] []).
    + by apply resumeThreadByNode_last.
    + intros _ events. apply rewrites_skip, node_update_lookup.
  - change (times (S (S j)) (resumeThreadByNode vm node))
      with (resumeThreadByNode vm node;; times (S j) (resumeThreadByNode vm node)).
    apply (rewrites_bind _ _ node (held (1 + Z.of_nat j) n)
             (set_frameGeneration (jlong_inc (frameGeneration n)) n) []
             [EvResumeThread (thread n)]).
    + apply resumeThreadByNode_nested; [|done|lia].
      rewrite Hn. f_equal. f_equal. lia.
    + intros _ events. apply IH; [apply node_update_lookup|done|lia].
Qed.

(** X11.  Nested suspends of one thread reach the runtime once.  On a node
    that nobody has suspended, [k] per-thread suspends in a row call
    [SuspendThread] once and bring [suspendCount] to [k]; the [k] resumes
    that follow call [ResumeThread] once, with the last of them, and leave
    the node as it was before, but for [frameGeneration], which has gone up
    by one. *)
Theorem nested_suspends_one_primitive (k : nat) (node : NodeId) (n : ThreadNode)
    (w : World) :
  heap w !! node = Some n ->
  unsuspended n = true ->
  (1 <= k)%nat ->
  Z.of_nat k <= jint_max ->
  (forall tr, rt_SuspendThread vm tr (thread n) = JVMTI_ERROR_NONE) ->
  rewrites (times k (suspendThreadByNode vm node)) node
    (held (Z.of_nat k) n) [EvSuspendThread (thread n)] w /\
  rewrites (times k (suspendThreadByNode vm node);;
            times k (resumeThreadByNode vm node)) node
    (set_frameGeneration (jlong_inc (frameGeneration n)) n)
    [EvSuspendThread (thread n); EvResumeThread (thread n)] w.
Proof.
  intros Hn Hu Hk Hmax Hsusp. destruct k as [|j]; [lia|].
  assert (Hup : rewrites (times (S j) (suspendThreadByNode vm node)) node
                  (held (Z.of_nat (S j)) n) [EvSuspendThread (thread n)] w).
  { cbn [times].
    apply (rewrites_bind _ _ node (held 1 n) (held (Z.of_nat (S j)) n)
               [EvSuspendThread (thread n)] []).
    - by apply suspendThreadByNode_first.
    - intros _ events.
      replace (Z.of_nat (S j)) with (1 + Z.of_nat j) by lia.
      apply times_suspend_nested; [apply node_update_lookup|done|lia|lia]. }
  split; [exact Hup|].
  apply (rewrites_bind _ _ node (held (Z.of_nat (S j)) n)
           (set_frameGeneration (jlong_inc (frameGeneration n)) n)
           [EvSuspendThread (thread n)] [EvResumeThread (thread n)]);
    [exact Hup|].
  intros _ events. apply times_resume_all; [|done|lia].
  rewrite node_update_lookup. f_equal. f_equal. lia.
Qed.

End Nesting.

(** ** Interrupts and stops held while an event is handled *)

Lemma with_events_heap (events : list Event) (w : World) :
  heap (with_events events w) = heap w.
Proof. reflexivity. Qed.

Lemma with_events_tls (events : list Event) (w : World) :
  tls (with_events events w) = tls w.
Proof. reflexivity. Qed.

Section Pending.

Context (vm : Runtime).
Context (rt_InterruptThread : list Event -> jthread -> jvmtiError).
Context (rt_StopThread : list Event -> jthread -> jobject -> jvmtiError).

(** A lookup that the thread-local slot answers. *)
Lemma findThread_slot (lst : option ThreadList) (t : jthread) (p : NodeId)
    (n : ThreadNode) (w : World) :
  rt_GetThreadLocalStorage vm (trace w) t = JVMTI_ERROR_NONE ->
  tls w !! t = Some p ->
  heap w !! p = Some n ->
  findThread vm lst t w
  = Ok (match lst with
        | Some l => if is_on n l then Some p else None
        | None => Some p
        end) w.
Proof.
  intros He Ht Hn.
  assert (Hget : getThreadLocalStorage vm t w = Ok (Some p) w).
  { unfold getThreadLocalStorage, bind, get_world. rewrite He. cbn. by rewrite Ht. }
  unfold findThread. rewrite (bind_ok _ _ _ _ _ Hget).
  erewrite bind_ok by reflexivity. cbv beta iota.
  destruct lst as [l|]; [|done].
  rewrite (bind_ok _ _ _ _ _ (read_node_ok _ _ _ Hn)).
  unfold is_on. by destruct (not_on n l).
Qed.

(** [threadControl_interrupt] on a thread whose slot holds a node. *)
Lemma threadControl_interrupt_ok (t : jthread) (node : NodeId)
    (n : ThreadNode) (w : World) :
  slot_read vm t ->
  tls w !! t = Some node ->
  heap w !! node = Some n ->
  threadControl_interrupt vm rt_InterruptThread t w
  = if is_on n runningThreads && HANDLING_EVENT n
    then Ok JVMTI_ERROR_NONE
           (node_update node (set_pendingInterrupt true n)
              [EvMonitorEnter threadLock; EvMonitorExit threadLock] w)
    else Ok (rt_InterruptThread (trace w ++ [EvMonitorEnter threadLock]) t)
           (with_events [EvMonitorEnter threadLock; EvInterruptThread t;
                         EvMonitorExit threadLock] w).
Proof.
  intros Hslot Ht Hn.
  unfold threadControl_interrupt, debugMonitorEnter, debugMonitorExit.
  rewrite (bind_ok _ _ _ _ _ (emit_ok _ _)).
  rewrite (bind_ok _ _ _ _ _
             (findThread_slot (Some runningThreads) t node n
                (with_events [EvMonitorEnter threadLock] w) (Hslot _) Ht Hn)).
  destruct (is_on n runningThreads) eqn:Hon; cbn [andb].
  - rewrite bind_assoc.
    erewrite bind_ok by (apply read_node_ok; exact Hn).
    destruct (HANDLING_EVENT n) eqn:Hh; cbn [negb].
    + rewrite bind_assoc.
      erewrite bind_ok by (apply modify_node_ok; exact Hn).
      unfold bind, ret, emit, modify_world. f_equal.
      destruct w. world_norm.
    + unfold JVMTI_InterruptThread, bind, ret, emit, modify_world, get_world.
      f_equal. destruct w. trace_eq.
  - unfold JVMTI_InterruptThread, bind, ret, emit, modify_world, get_world.
    f_equal. destruct w. trace_eq.
Qed.

(** X12.  An interrupt is held back while its thread handles an event.
    For a thread whose slot holds a node: if the node is on
    [runningThreads] and is handling an event, [threadControl_interrupt]
    calls nothing, sets [pendingInterrupt] and answers success.  If the
    node is not handling an event, or is on another list (as the node of a
    virtual thread always is), [InterruptThread] is called at once, its
    answer is returned and no node changes. *)
Theorem interrupt_held_while_handling (t : jthread) (node : NodeId)
    (n : ThreadNode) (w : World) :
  slot_read vm t ->
  tls w !! t = Some node ->
  heap w !! node = Some n ->
  (is_on n runningThreads = true -> HANDLING_EVENT n = true ->
   threadControl_interrupt vm rt_InterruptThread t w
   = Ok JVMTI_ERROR_NONE
       (node_update node (set_pendingInterrupt true n)
          [EvMonitorEnter threadLock; EvMonitorExit threadLock] w)) /\
  (HANDLING_EVENT n = false \/ node_list n <> Some runningThreads ->
   threadControl_interrupt vm rt_InterruptThread t w
   = Ok (rt_InterruptThread (trace w ++ [EvMonitorEnter threadLock]) t)
       (with_events [EvMonitorEnter threadLock; EvInterruptThread t;
                     EvMonitorExit threadLock] w)).
Proof.
  intros Hslot Ht Hn.
  rewrite (threadControl_interrupt_ok t node n w Hslot Ht Hn). split.
  - by intros -> ->.
  - intros [Hh|Hl].
    + rewrite Hh. by rewrite andb_false_r.
    + destruct (is_on n runningThreads) eqn:Hon; [|done].
      by apply is_on_list in Hon.
Qed.

(** What [doPendingTasks] delivers and clears. *)
Lemma doPendingTasks_ok (node : NodeId) (n : ThreadNode) (w : World) :
  heap w !! node = Some n ->
  doPendingTasks node w
  = Ok tt (node_update node (set_pendingStop NULL (set_pendingInterrupt false n))
             (pending_tasks n) w).
Proof.
  intros Hn. unfold doPendingTasks, pending_tasks.
  rewrite (bind_ok _ _ _ _ _ (read_node_ok _ _ _ Hn)).
  destruct (pendingInterrupt n) eqn:Hi;
    destruct (isSameObject (pendingStop n) NULL) eqn:Hs; cbn [negb app].
  - rewrite !bind_assoc. rewrite (bind_ok _ _ _ _ _ (emit_ok _ _)).
    erewrite bind_ok by (apply modify_node_ok; exact Hn).
    unfold skip, ret. f_equal. apply Z.eqb_eq in Hs.
    unfold node_update, with_events. cbn [heap trace set_heap set_trace].
    destruct w; cbn in *. f_equal. f_equal.
    destruct n; cbn in *. by subst.
  - rewrite !bind_assoc. rewrite (bind_ok _ _ _ _ _ (emit_ok _ _)).
    erewrite bind_ok by (apply modify_node_ok; exact Hn).
    rewrite (bind_ok _ _ _ _ _ (emit_ok _ _)).
    erewrite modify_node_ok
      by (cbn [heap set_heap with_events set_trace]; apply lookup_insert_eq).
    f_equal. unfold node_update, with_events. cbn [heap trace set_heap set_trace].
    destruct w; cbn. rewrite insert_insert_eq, <- app_assoc. done.
  - unfold skip. erewrite bind_ok by reflexivity. unfold ret. f_equal.
    apply Z.eqb_eq in Hs.
    assert (Hsame : set_pendingStop NULL (set_pendingInterrupt false n) = n)
      by (destruct n; cbn in *; by subst).
    rewrite Hsame. by rewrite node_update_same.
  - unfold skip at 1. erewrite bind_ok by reflexivity.
    rewrite (bind_ok _ _ _ _ _ (emit_ok _ _)).
    erewrite modify_node_ok by exact Hn.
    f_equal. unfold node_update, with_events. cbn [heap trace set_heap set_trace].
    destruct w; cbn in *. f_equal. f_equal.
    destruct n; cbn in *. by subst.
Qed.

(** The exit of an event handler other than that of [THREAD_END]. *)
Lemma onEventHandlerExit_ok (ei : EventIndex) (t : jthread) (eventBag : bag)
    (node : NodeId) (n : ThreadNode) (w : World) :
  slot_read vm t ->
  tls w !! t = Some node ->
  heap w !! node = Some n ->
  is_on n (running_list vm t) = true ->
  is_THREAD_END ei = false ->
  threadControl_onEventHandlerExit vm ei t eventBag w
  = Ok tt (node_update node (left_handler eventBag n)
             ([EvMonitorEnter threadLock] ++ pending_tasks n
              ++ [EvMonitorExit threadLock]) w).
Proof.
  intros Hslot Ht Hn Hon Hend.
  unfold threadControl_onEventHandlerExit, debugMonitorEnter, debugMonitorExit.
  rewrite Hend. unfold skip at 1. erewrite bind_ok by reflexivity.
  rewrite (bind_ok _ _ _ _ _ (emit_ok _ _)).
  erewrite bind_ok
    by (apply (findRunningThread_slot vm t node n); [apply Hslot|exact Ht|exact Hn|exact Hon]).
  cbv beta iota. rewrite !bind_assoc.
  erewrite bind_ok by (apply doPendingTasks_ok; exact Hn).
  rewrite !bind_assoc.
  erewrite bind_ok
    by (apply modify_node_ok; cbn [heap node_update set_heap set_trace with_events];
        apply lookup_insert_eq).
  erewrite bind_ok
    by (apply modify_node_ok; cbn [heap node_update set_heap set_trace with_events];
        apply lookup_insert_eq).
  rewrite (bind_ok _ _ _ _ _ (emit_ok _ _)).
  unfold skip, ret. f_equal. unfold left_handler, node_update, with_events.
  cbn [heap trace set_heap set_trace]. destruct w; cbn.
  rewrite !insert_insert_eq, <- !app_assoc. done.
Qed.

(** X13.  Leaving an event handler delivers what was held back.  When the
    handler of an event other than [THREAD_END] exits on a thread whose slot
    holds its running node, [threadControl_onEventHandlerExit] calls
    [InterruptThread] if an interrupt is pending, then [StopThread] with the
    pending throwable if there is one, and nothing else but the monitor;
    the node is left with both cleared, with the new event bag and with no
    event in hand. *)
Theorem onEventHandlerExit_delivers (ei : EventIndex) (t : jthread)
    (eventBag : bag) (node : NodeId) (n : ThreadNode) (w : World) :
  slot_read vm t ->
  tls w !! t = Some node ->
  heap w !! node = Some n ->
  is_on n (running_list vm t) = true ->
  is_THREAD_END ei = false ->
  exists n',
    threadControl_onEventHandlerExit vm ei t eventBag w
    = Ok tt (node_update node n'
               ([EvMonitorEnter threadLock] ++ pending_tasks n
                ++ [EvMonitorExit threadLock]) w) /\
    n' = left_handler eventBag n /\
    pendingInterrupt n' = false /\ pendingStop n' = NULL /\
    HANDLING_EVENT n' = false /\
    pending_tasks n' = [].
Proof.
  intros Hslot Ht Hn Hon Hend. exists (left_handler eventBag n).
  split; [by apply onEventHandlerExit_ok|]. by destruct n.
Qed.

(** X14.  A stop asked for while the thread handles an event reaches the
    runtime when the handler exits.  On a platform thread that is handling
    an event, with no stop pending yet, [threadControl_stop] answers success
    and calls nothing; the exit of the handler then calls [StopThread] once,
    with the throwable that was given, after the interrupt that the node
    held, and leaves the node with nothing pending. *)
Theorem stop_delivered_at_exit (ei : EventIndex) (t : jthread) (throwable : jobject)
    (eventBag : bag) (node : NodeId) (n : ThreadNode) (w : World) :
  slot_read vm t ->
  (forall tr, rt_NewGlobalRef vm tr throwable = true) ->
  tls w !! t = Some node ->
  heap w !! node = Some n ->
  rt_isVThread vm t = false ->
  is_on n runningThreads = true ->
  HANDLING_EVENT n = true ->
  pendingStop n = NULL ->
  throwable <> NULL ->
  is_THREAD_END ei = false ->
  threadControl_stop vm rt_StopThread t throwable w
  = Ok JVMTI_ERROR_NONE
      (node_update node (set_pendingStop throwable n)
         [EvMonitorEnter threadLock; EvMonitorExit threadLock] w) /\
  (threadControl_stop vm rt_StopThread t throwable;;
   threadControl_onEventHandlerExit vm ei t eventBag) w
  = Ok tt
      (node_update node (left_handler eventBag n)
         ([EvMonitorEnter threadLock; EvMonitorExit threadLock;
           EvMonitorEnter threadLock]
          ++ (if pendingInterrupt n then [EvInterruptThread (thread n)] else [])
          ++ [EvStopThread (thread n) throwable; EvMonitorExit threadLock]) w).
Proof.
  intros Hslot Hnew Ht Hn Hv Hon Hh Hnull Hthr Hend.
  assert (Hstop : threadControl_stop vm rt_StopThread t throwable w
                  = Ok JVMTI_ERROR_NONE
                      (node_update node (set_pendingStop throwable n)
                         [EvMonitorEnter threadLock; EvMonitorExit threadLock] w)).
  { unfold threadControl_stop, debugMonitorEnter, debugMonitorExit.
    rewrite (bind_ok _ _ _ _ _ (emit_ok _ _)).
    rewrite (bind_ok _ _ _ _ _
               (findThread_slot (Some runningThreads) t node n
                  (with_events [EvMonitorEnter threadLock] w) (Hslot _) Ht Hn)).
    rewrite Hon. rewrite bind_assoc.
    erewrite bind_ok by (apply read_node_ok; exact Hn).
    rewrite Hh. cbn [negb]. rewrite !bind_assoc.
    unfold saveGlobalRef at 1. rewrite bind_assoc.
    unfold get_world at 1. unfold bind at 1. unfold ret at 1. unfold bind at 1.
    rewrite Hnew. rewrite bind_assoc.
    erewrite bind_ok by (apply modify_node_ok; exact Hn).
    unfold bind, ret, emit, modify_world. f_equal. destruct w. world_norm. }
  split; [exact Hstop|].
  rewrite (bind_ok _ _ _ _ _ Hstop).
  erewrite onEventHandlerExit_ok;
    [| exact Hslot | exact Ht
     | cbn [heap node_update set_heap set_trace]; apply lookup_insert_eq
     | unfold running_list; rewrite Hv; exact Hon | exact Hend].
  assert (Hnode : left_handler eventBag (set_pendingStop throwable n)
                  = left_handler eventBag n) by (by destruct n).
  assert (Htasks : pending_tasks (set_pendingStop throwable n)
                   = (if pendingInterrupt n then [EvInterruptThread (thread n)]
                      else [])
                     ++ [EvStopThread (thread n) throwable]).
  { unfold pending_tasks.
    replace (pendingStop (set_pendingStop throwable n)) with throwable
      by (by destruct n).
    replace (pendingInterrupt (set_pendingStop throwable n))
      with (pendingInterrupt n) by (by destruct n).
    replace (thread (set_pendingStop throwable n)) with (thread n)
      by (by destruct n).
    unfold isSameObject. by rewrite (proj2 (Z.eqb_neq throwable NULL) Hthr). }
  rewrite Hnode, Htasks, node_update_twice.
  f_equal. f_equal. rewrite <- !app_assoc. done.
Qed.

End Pending.

(** ** The end of a thread *)

Lemma tidying_refl (t : jthread) (w : World) : tidying t w w.
Proof.
  repeat split; try done; [by left|]. exists []. by rewrite app_nil_r.
Qed.

Lemma tidying_trans (t : jthread) (w1 w2 w3 : World) :
  tidying t w1 w2 -> tidying t w2 w3 -> tidying t w1 w3.
Proof.
  intros (Hl & Hc & Hs & Ht & e1 & Htr & He1) (Hl' & Hc' & Hs' & Ht' & e2 & Htr' & He2).
  split; [intros l; by rewrite Hl', Hl|]. split; [congruence|].
  split; [congruence|]. split.
  - destruct Ht as [Ht|Ht], Ht' as [Ht'|Ht']; rewrite Ht', Ht;
      [by left|by right|by right|right].
    by rewrite delete_delete_eq.
  - exists (e1 ++ e2). split; [by rewrite Htr', Htr, app_assoc|].
    by apply Forall_app.
Qed.

Lemma tidying_heap (t : jthread) (h : gmap NodeId ThreadNode) (w : World) :
  tidying t w (set_heap h w).
Proof.
  split; [by intros []|]. repeat split; try done; [by left|].
  exists []. by rewrite app_nil_r.
Qed.

Lemma tidying_event (t : jthread) (e : Event) (w : World) :
  acts_on_thread e = false -> tidying t w (with_events [e] w).
Proof.
  intros He. split; [by intros []|]. repeat split; try done; [by left|].
  exists [e]. split; [done|]. by repeat constructor.
Qed.

Lemma wp_tidying_seq {A B : Type} (m : M A) (f : A -> M B) (t : jthread)
    (w : World) :
  wp m (fun _ w1 => tidying t w w1) w ->
  (forall a w1, wp (f a) (fun _ w2 => tidying t w1 w2) w1) ->
  wp (bind m f) (fun _ w2 => tidying t w w2) w.
Proof.
  intros Hm Hf. apply wp_bind. eapply wp_mono; [exact Hm|].
  intros a w1 H1. eapply wp_mono; [apply Hf|].
  intros b w2 H2. by apply (tidying_trans t w w1 w2).
Qed.

Lemma wp_modify_node_tidying (t : jthread) (p : NodeId)
    (f : ThreadNode -> ThreadNode) (w : World) :
  wp (modify_node p f) (fun _ w' => tidying t w w') w.
Proof. apply wp_modify_node. intros n _. apply tidying_heap. Qed.

Lemma wp_emit_tidying (t : jthread) (e : Event) (w : World) :
  acts_on_thread e = false ->
  wp (emit e) (fun _ w' => tidying t w w') w.
Proof. intros He. by apply wp_emit, tidying_event. Qed.

(** A computation that returns does so with every property of its partial
    correctness. *)
Lemma returns_wp {A : Type} (m : M A) (Q Q' : A -> World -> Prop) (w : World) :
  returns m Q w -> wp m Q' w -> returns m (fun a w' => Q a w' /\ Q' a w') w.
Proof.
  intros (a & w' & Hm & HQ) Hwp. exists a, w'. split; [done|].
  split; [done|]. by apply (wp_ok m Q' w w' a).
Qed.

Section ThreadEnd.

Context (vm : Runtime).

Lemma wp_clearThread_tidying (p : NodeId) (n : ThreadNode) (w : World) :
  heap w !! p = Some n ->
  wp (clearThread vm p) (fun _ w' => tidying (thread n) w w') w.
Proof.
  intros Hn. unfold clearThread. apply wp_bind, wp_read_node.
  intros n' Hn'. rewrite Hn in Hn'. injection Hn' as <-.
  apply wp_tidying_seq.
  { destruct (negb _); [apply wp_modify_node_tidying|apply wp_ret, tidying_refl]. }
  intros _ w1. apply wp_tidying_seq.
  { unfold stepControl_clearRequest. apply wp_bind, wp_read_node. intros n1 _.
    apply wp_bind, wp_get_world. apply wp_tidying_seq.
    - by apply wp_emit_tidying.
    - intros _ w2. apply wp_modify_node_tidying. }
  intros _ w2. apply wp_tidying_seq.
  { destruct (isDebugThread n); [|apply wp_ret, tidying_refl].
    apply wp_tidying_seq; [|intros; apply wp_ret, tidying_refl].
    unfold threadControl_removeDebugThread, debugMonitorEnter, debugMonitorExit.
    apply wp_tidying_seq; [by apply wp_emit_tidying|].
    intros _ w3. apply wp_bind, wp_get_world. apply wp_tidying_seq.
    - destruct (remove_first _ _) as [ds|]; [|apply wp_ret, tidying_refl].
      apply wp_bind, wp_modify_world, wp_ret.
      split; [by intros []|]. repeat split; try done; [by left|].
      exists []. by rewrite app_nil_r.
    - intros e w4. apply wp_tidying_seq; [by apply wp_emit_tidying|].
      intros; apply wp_ret, tidying_refl. }
  intros _ w3. apply wp_tidying_seq.
  { unfold setThreadLocalStorage. apply wp_bind, wp_get_world.
    apply wp_tidying_seq; [by apply wp_emit_tidying|].
    intros _ w4. apply wp_tidying_seq.
    - destruct (is_NONE _); [|apply wp_ret, tidying_refl].
      apply wp_modify_world.
      split; [by intros []|]. repeat split; try done; [by right|].
      exists []. by rewrite app_nil_r.
    - intros _ w5. destruct (_ && _); [apply wp_ret, tidying_refl|].
      destruct (negb _); [apply wp_exit|apply wp_ret, tidying_refl]. }
  intros _ w4. unfold jvmtiDeallocate. apply wp_modify_world, tidying_heap.
Qed.

(** Retiring the node of a thread that is not a debug thread leaves the
    list of debug threads alone. *)
Lemma wp_keeps_debugThreads {A B : Type} (m : M A) (f : A -> M B) (w : World) :
  wp m (fun _ w1 => debugThreads w1 = debugThreads w) w ->
  (forall a w1, wp (f a) (fun _ w2 => debugThreads w2 = debugThreads w1) w1) ->
  wp (bind m f) (fun _ w2 => debugThreads w2 = debugThreads w) w.
Proof.
  intros Hm Hf. apply wp_bind. eapply wp_mono; [exact Hm|].
  intros a w1 H1. eapply wp_mono; [apply Hf|].
  intros b w2 H2. cbn in *. congruence.
Qed.

Lemma wp_clearThread_debugThreads (p : NodeId) (n : ThreadNode) (w : World) :
  heap w !! p = Some n ->
  isDebugThread n = false ->
  wp (clearThread vm p) (fun _ w' => debugThreads w' = debugThreads w) w.
Proof.
  intros Hn Hdbg. unfold clearThread. apply wp_bind, wp_read_node.
  intros n' Hn'. rewrite Hn in Hn'. injection Hn' as <-. rewrite Hdbg.
  apply wp_keeps_debugThreads.
  { destruct (negb _); [by apply wp_modify_node|by apply wp_ret]. }
  intros _ w1. apply wp_keeps_debugThreads.
  { unfold stepControl_clearRequest. apply wp_bind, wp_read_node. intros n1 _.
    apply wp_bind, wp_get_world. apply wp_keeps_debugThreads.
    - by apply wp_emit.
    - intros _ w2. by apply wp_modify_node. }
  intros _ w2. apply wp_keeps_debugThreads; [by apply wp_ret|].
  intros _ w3. apply wp_keeps_debugThreads.
  { unfold setThreadLocalStorage. apply wp_bind, wp_get_world.
    apply wp_keeps_debugThreads; [by apply wp_emit|].
    intros _ w4. apply wp_keeps_debugThreads.
    - destruct (is_NONE _); [by apply wp_modify_world|by apply wp_ret].
    - intros _ w5. destruct (_ && _); [by apply wp_ret|].
      destruct (negb _); [apply wp_exit|by apply wp_ret]. }
  intros _ w4. unfold jvmtiDeallocate. by apply wp_modify_world.
Qed.

Lemma removeThread_keeps_debugThreads (p : NodeId) (n : ThreadNode) (w w' : World) :
  heap w !! p = Some n ->
  isDebugThread n = false ->
  removeThread vm p w = Ok tt w' ->
  debugThreads w' = debugThreads w.
Proof.
  intros Hn Hdbg. apply (wp_ok (removeThread vm p)
                          (fun _ w' => debugThreads w' = debugThreads w)).
  unfold removeThread. apply wp_bind.
  apply wp_mono with
    (Q := fun _ w1 => debugThreads w1 = debugThreads w /\
                      exists n1, heap w1 !! p = Some n1 /\ isDebugThread n1 = false).
  - unfold removeNode. apply wp_bind, wp_read_node.
    intros n0 Hn0. rewrite Hn in Hn0. injection Hn0 as <-.
    destruct (node_list n) as [l|]; [|done].
    apply wp_bind, wp_modify_world. apply wp_bind, wp_modify_node.
    intros n1 Hn1.
    assert (n1 = n) as ->.
    { destruct l; cbn in Hn1; congruence. }
    destruct (ThreadList_eqb l runningVThreads);
      [apply wp_modify_world|apply wp_ret];
      (split; [by destruct l|]);
      exists (set_node_list None n);
      (split; [destruct l; cbn; apply lookup_insert_eq|by destruct n]).
  - intros _ w1 (Hd1 & n1 & Hn1 & Hdbg1).
    eapply wp_mono; [apply (wp_clearThread_debugThreads p n1 w1 Hn1 Hdbg1)|].
    intros u w2 Hd2. congruence.
Qed.

(** [removeThread] on a node that is on list [l]. *)
Lemma removeThread_retires (p : NodeId) (n : ThreadNode) (l : ThreadList)
    (w : World) :
  slot_clearable vm ->
  heap w !! p = Some n ->
  node_list n = Some l ->
  exists w',
    removeThread vm p w = Ok tt w' /\
    heap w' = delete p (heap w) /\
    (forall l', list_nodes l' w'
                = if ThreadList_eqb l' l then remove_id p (list_nodes l' w)
                  else list_nodes l' w) /\
    numRunningVThreads w'
    = (if ThreadList_eqb l runningVThreads then jint_dec (numRunningVThreads w)
       else numRunningVThreads w) /\
    suspendAllCount w' = suspendAllCount w /\
    (tls w' = tls w \/ tls w' = delete (thread n) (tls w)) /\
    exists events, trace w' = trace w ++ events /\
                   Forall (fun e => acts_on_thread e = false) events.
Proof.
  intros Hc Hn Hl.
  destruct (removeNode_on p n l w Hn Hl)
    as (w1 & Hrun1 & Hheap1 & Hlists1 & Hcount1 & Hall1 & Htls1 & Htrace1 & _).
  assert (Hn1 : heap w1 !! p = Some (set_node_list None n))
    by (by rewrite Hheap1, lookup_insert_eq).
  destruct (returns_wp _ _ _ w1
              (clearThread_frees vm p w1 Hc (ex_intro _ _ Hn1))
              (wp_clearThread_tidying p _ w1 Hn1))
    as ([] & w2 & Hrun2 & (Hheap2 & _) & Hl2 & Hc2 & Hs2 & Ht2 & events & Htr2 & Hev2).
  exists w2. unfold removeThread. rewrite (bind_ok _ _ _ _ _ Hrun1).
  split; [exact Hrun2|]. split; [by rewrite Hheap2, Hheap1, delete_insert_eq|].
  split; [intros l'; by rewrite Hl2, Hlists1|].
  split; [by rewrite Hc2|]. split; [congruence|].
  split; [by rewrite Htls1 in Ht2|].
  exists events. by rewrite Htr2, Htrace1.
Qed.

(** X15.  The exit of the [THREAD_END] handler retires the node of the
    thread.  On a well-formed table ([lists_ok], no list holding a node
    twice), when the slot of the thread holds its running node, the node is
    on the running list of the thread's kind and is not the node of a
    debug thread, [threadControl_onEventHandlerExit] returns with the node
    freed and off its list, which is one shorter ([numRunningVThreads] one
    lower for a virtual thread), every other node and list as before; it
    calls no suspend, resume, interrupt or stop, so an interrupt or stop
    that the node still held is dropped.  (For a debug thread the exit
    also takes the thread off the list of debug threads, and does so
    differently in the two builds.) *)
Theorem thread_end_exit_retires (t : jthread) (eventBag : bag) (node : NodeId)
    (n : ThreadNode) (w : World) :
  slot_read vm t ->
  slot_clearable vm ->
  lists_ok w = true ->
  linked w ->
  tls w !! t = Some node ->
  heap w !! node = Some n ->
  is_on n (running_list vm t) = true ->
  node ∈ list_nodes (running_list vm t) w ->
  isDebugThread n = false ->
  exists w',
    threadControl_onEventHandlerExit vm EI_THREAD_END t eventBag w = Ok tt w' /\
    debugThreads w' = debugThreads w /\
    heap w' = delete node (heap w) /\
    (forall l, list_nodes l w'
               = if ThreadList_eqb l (running_list vm t)
                 then remove_id node (list_nodes l w)
                 else list_nodes l w) /\
    S (length (list_nodes (running_list vm t) w'))
    = length (list_nodes (running_list vm t) w) /\
    (forall l, node ∉ list_nodes l w') /\
    numRunningVThreads w'
    = (if rt_isVThread vm t then jint_dec (numRunningVThreads w)
       else numRunningVThreads w) /\
    suspendAllCount w' = suspendAllCount w /\
    (tls w' = tls w \/ tls w' = delete (thread n) (tls w)) /\
    exists events, trace w' = trace w ++ events /\
                   Forall (fun e => acts_on_thread e = false) events.
Proof.
  intros Hslot Hc Hw Hlinked Ht Hn Hon Hin Hdbg.
  assert (Hl : node_list n = Some (running_list vm t)) by (by apply is_on_list).
  unfold threadControl_onEventHandlerExit, debugMonitorEnter, debugMonitorExit,
    lock, unlock.
  cbn [is_THREAD_END].
  rewrite (bind_ok _ _ _ _ _ (emit_ok _ _)).
  rewrite (bind_ok _ _ _ _ _ (emit_ok _ _)).
  erewrite bind_ok
    by (apply (findRunningThread_slot vm t node n);
        [apply Hslot|exact Ht|exact Hn|exact Hon]).
  cbv beta iota.
  destruct (removeThread_retires node n (running_list vm t)
              (with_events [EvMonitorEnter threadLock]
                 (with_events [EvLock eventHandler] w)) Hc Hn Hl)
    as (w1 & Hrun & Hheap & Hlists & Hcount & Hall & Htls & events & Htr & Hev).
  rewrite (bind_ok _ _ _ _ _ Hrun).
  rewrite (bind_ok _ _ _ _ _ (emit_ok _ _)).
  pose proof (removeThread_keeps_debugThreads node n
                (with_events [EvMonitorEnter threadLock]
                   (with_events [EvLock eventHandler] w)) w1 Hn Hdbg Hrun) as Hkeep.
  assert (Hlists' : forall l, list_nodes l w1
                      = if ThreadList_eqb l (running_list vm t)
                        then remove_id node (list_nodes l w)
                        else list_nodes l w).
  { intros l. by rewrite Hlists; destruct l. }
  eexists. split; [reflexivity|]. cbn [heap tls trace with_events set_trace].
  split; [exact Hkeep|].
  split; [exact Hheap|]. split; [intros l; by rewrite <- Hlists'; destruct l|].
  split.
  { change (S (length (list_nodes (running_list vm t) w1))
            = length (list_nodes (running_list vm t) w)).
    rewrite Hlists'.
    replace (ThreadList_eqb (running_list vm t) (running_list vm t)) with true
      by (by destruct (running_list vm t)).
    apply remove_id_length; [apply Hlinked|exact Hin]. }
  split.
  { intros l.
    change (node ∉ list_nodes l w1). rewrite Hlists'.
    destruct (ThreadList_eqb l (running_list vm t)) eqn:E.
    - apply remove_id_absent.
    - intros Hp. assert (l = running_list vm t) by (by apply (listed_once w node n)).
      subst l. by destruct (running_list vm t). }
  split.
  { change (numRunningVThreads w1 = if rt_isVThread vm t
                                      then jint_dec (numRunningVThreads w)
                                      else numRunningVThreads w).
    rewrite Hcount. unfold running_list. by destruct (rt_isVThread vm t). }
  split; [exact Hall|]. split; [exact Htls|].
  exists ([EvLock eventHandler; EvMonitorEnter threadLock] ++ events
          ++ [EvMonitorExit threadLock; EvUnlock eventHandler]).
  split.
  - rewrite Htr. cbn [trace with_events set_trace].
    rewrite <- !app_assoc. done.
  - apply Forall_app. split; [by repeat constructor|].
    apply Forall_app. split; [exact Hev|by repeat constructor].
Qed.

End ThreadEnd.

(** ** Entering and leaving an event handler *)

Section Handler.

Context (vm : Runtime).
Context (popFrameCompleteEvent : jthread -> M unit).
Context (rt_InterruptThread : list Event -> jthread -> jvmtiError).

Lemma is_on_other (n : ThreadNode) (l l' : ThreadList) :
  is_on n l = true -> l' <> l -> is_on n l' = false.
Proof.
  intros Hon Hne. apply is_on_list in Hon. unfold is_on, not_on. rewrite Hon.
  destruct l, l'; done.
Qed.

Lemma getPopFrameThread_slot (t : jthread) (node : NodeId) (n : ThreadNode)
    (w : World) :
  slot_read vm t ->
  tls w !! t = Some node ->
  heap w !! node = Some n ->
  getPopFrameThread vm t w
  = Ok (popFrameThread n)
       (with_events [EvMonitorEnter threadLock; EvMonitorExit threadLock] w).
Proof.
  intros Hslot Ht Hn. unfold getPopFrameThread, debugMonitorEnter, debugMonitorExit.
  rewrite (bind_ok _ _ _ _ _ (emit_ok _ _)).
  rewrite (bind_ok _ _ _ _ _
             (findThread_slot vm None t node n
                (with_events [EvMonitorEnter threadLock] w) (Hslot _) Ht Hn)).
  rewrite bind_assoc.
  erewrite bind_ok by (apply read_node_ok; exact Hn).
  unfold bind, ret, emit, modify_world. f_equal. destruct w. trace_eq.
Qed.

(** The entry of the handler of an ordinary event on a thread whose slot
    holds its running node. *)
Lemma onEventHandlerEntry_ok (sessionID : Z) (evinfo : EventInfo)
    (currentException : jobject) (node : NodeId) (n : ThreadNode) (w : World) :
  slot_read vm (ev_thread evinfo) ->
  tls w !! ev_thread evinfo = Some node ->
  heap w !! node = Some n ->
  is_on n (event_list evinfo) = true ->
  popFrameThread n = false ->
  ordinary_event (ev_ei evinfo) = true ->
  threadControl_onEventHandlerEntry vm popFrameCompleteEvent sessionID evinfo
    currentException w
  = Ok (Some (eventBag n))
       (node_update node (set_current_ei (ev_ei evinfo) n)
          ([EvMonitorEnter threadLock; EvMonitorExit threadLock;
            EvMonitorEnter threadLock; EvMonitorExit threadLock]
           ++ start_suspension sessionID n) w).
Proof.
  intros Hslot Ht Hn Hon Hpop Hei.
  unfold ordinary_event in Hei. rewrite !andb_true_iff in Hei.
  destruct Hei as ((((Hz & Hts) & Hte) & Hvs) & Hve).
  apply negb_true_iff in Hts, Hte.
  unfold threadControl_onEventHandlerEntry, checkForPopFrameEvents.
  rewrite bind_assoc.
  rewrite (bind_ok _ _ _ _ _ (getPopFrameThread_slot _ node n w Hslot Ht Hn)).
  rewrite Hpop. unfold ret at 1. unfold bind at 1.
  unfold debugMonitorEnter, debugMonitorExit.
  rewrite (bind_ok _ _ _ _ _ (emit_ok _ _)).
  erewrite bind_ok
    by (apply (findThread_slot vm (Some otherThreads) _ node n);
        [apply Hslot|exact Ht|exact Hn]).
  rewrite (is_on_other n (event_list evinfo) otherThreads Hon)
    by (unfold event_list; by destruct (ev_is_vthread evinfo)).
  assert (Hins : forall w1, tls w1 = tls w -> heap w1 = heap w ->
                 (if ev_is_vthread evinfo
                  then insertThread vm runningVThreads (ev_thread evinfo)
                  else insertThread vm runningThreads (ev_thread evinfo)) w1
                 = Ok node w1).
  { intros w1 Ht1 Hn1. unfold event_list in Hon.
    destruct (ev_is_vthread evinfo); unfold insertThread;
      (erewrite bind_ok
         by (apply (findThread_slot vm _ _ node n);
             [apply Hslot|by rewrite Ht1|by rewrite Hn1]));
      by rewrite Hon. }
  cbv beta iota.
  erewrite bind_ok by (apply Hins; reflexivity).
  rewrite Hvs, Hve, Hts, Hte.
  rewrite (bind_ok _ _ _ _ _ (JDI_ASSERT_holds _ _)).
  rewrite (bind_ok _ _ _ _ _ (JDI_ASSERT_holds _ _)).
  unfold skip at 1. erewrite bind_ok by reflexivity.
  unfold skip at 1. erewrite bind_ok by reflexivity.
  erewrite bind_ok by (apply modify_node_ok; exact Hn).
  erewrite bind_ok
    by (apply read_node_ok; cbn [heap set_heap]; apply lookup_insert_eq).
  rewrite (bind_ok _ _ _ _ _ (emit_ok _ _)).
  replace (suspendOnStart (set_current_ei (ev_ei evinfo) n))
    with (suspendOnStart n) by (by destruct n).
  replace (thread (set_current_ei (ev_ei evinfo) n)) with (thread n)
    by (by destruct n).
  replace (eventBag (set_current_ei (ev_ei evinfo) n)) with (eventBag n)
    by (by destruct n).
  unfold start_suspension.
  destruct (suspendOnStart n); cbv beta iota; cbn [andb].
  - destruct (isSameObject (thread n) NULL); cbn [negb].
    + unfold skip, bind, ret. f_equal. destruct w. world_norm.
    + rewrite (bind_ok _ _ _ _ _ (emit_ok _ _)).
      unfold ret. f_equal. destruct w. world_norm.
  - change (isSameObject NULL NULL) with true. cbn [negb].
    unfold skip, bind, ret. f_equal. destruct w. world_norm.
Qed.

(** X16.  An ordinary event on a thread that is already known.  When the
    slot of the thread holds its running node and no frame of the thread is
    being popped, [threadControl_onEventHandlerEntry] creates no node and
    moves none: it records the event in [current_ei], so that the node
    counts as handling an event, and returns the event bag of the node.
    The event helper is asked to suspend the thread exactly when the node
    has [suspendOnStart]. *)
Theorem onEventHandlerEntry_known_thread (sessionID : Z) (evinfo : EventInfo)
    (currentException : jobject) (node : NodeId) (n : ThreadNode) (w : World) :
  slot_read vm (ev_thread evinfo) ->
  tls w !! ev_thread evinfo = Some node ->
  heap w !! node = Some n ->
  is_on n (event_list evinfo) = true ->
  popFrameThread n = false ->
  ordinary_event (ev_ei evinfo) = true ->
  exists n' events,
    threadControl_onEventHandlerEntry vm popFrameCompleteEvent sessionID evinfo
      currentException w
    = Ok (Some (eventBag n)) (node_update node n' events w) /\
    n' = set_current_ei (ev_ei evinfo) n /\
    HANDLING_EVENT n' = true /\
    filter (fun e => acts_on_thread e = true) events
    = if suspendOnStart n && negb (isSameObject (thread n) NULL)
      then [EvHelperSuspendThread sessionID (thread n)] else [].
Proof.
  intros Hslot Ht Hn Hon Hpop Hei. eexists _, _.
  split; [by apply onEventHandlerEntry_ok|]. split; [done|]. split.
  - unfold ordinary_event in Hei. rewrite !andb_true_iff in Hei.
    unfold HANDLING_EVENT. replace (current_ei (set_current_ei (ev_ei evinfo) n))
      with (ev_ei evinfo) by (by destruct n). tauto.
  - unfold start_suspension.
    by destruct (suspendOnStart n && negb (isSameObject (thread n) NULL)).
Qed.

(** X17.  An interrupt that arrives inside an event handler is delivered
    when the handler is left.  On a platform thread that is known, with
    nothing pending: after the entry of the handler of an ordinary event,
    [threadControl_interrupt] answers success without a call, and the exit
    of the handler calls [InterruptThread] once; the node ends as it began,
    but for the new event bag. *)
Theorem interrupt_in_handler_delivered_at_exit (sessionID : Z)
    (evinfo : EventInfo) (currentException : jobject) (eventBag : bag)
    (node : NodeId) (n : ThreadNode) (w : World) :
  slot_read vm (ev_thread evinfo) ->
  tls w !! ev_thread evinfo = Some node ->
  heap w !! node = Some n ->
  ev_is_vthread evinfo = false ->
  rt_isVThread vm (ev_thread evinfo) = false ->
  is_on n runningThreads = true ->
  popFrameThread n = false ->
  pendingInterrupt n = false ->
  pendingStop n = NULL ->
  ei_is_zero (current_ei n) = true ->
  ordinary_event (ev_ei evinfo) = true ->
  (threadControl_onEventHandlerEntry vm popFrameCompleteEvent sessionID evinfo
     currentException;;
   error ← threadControl_interrupt vm rt_InterruptThread (ev_thread evinfo);
   threadControl_onEventHandlerExit vm (ev_ei evinfo) (ev_thread evinfo) eventBag;;
   ret error) w
  = Ok JVMTI_ERROR_NONE
      (node_update node (set_eventBag eventBag n)
         ([EvMonitorEnter threadLock; EvMonitorExit threadLock;
           EvMonitorEnter threadLock; EvMonitorExit threadLock]
          ++ start_suspension sessionID n
          ++ [EvMonitorEnter threadLock; EvMonitorExit threadLock;
              EvMonitorEnter threadLock; EvInterruptThread (thread n);
              EvMonitorExit threadLock]) w).
Proof.
  intros Hslot Ht Hn Hev Hv Hon Hpop Hint Hstop Hidle Hei.
  assert (Hend : is_THREAD_END (ev_ei evinfo) = false).
  { unfold ordinary_event in Hei. rewrite !andb_true_iff in Hei.
    apply negb_true_iff. tauto. }
  assert (Hzero : ei_is_zero (ev_ei evinfo) = false).
  { unfold ordinary_event in Hei. rewrite !andb_true_iff in Hei.
    apply negb_true_iff. tauto. }
  erewrite bind_ok
    by (apply onEventHandlerEntry_ok; try done; unfold event_list; by rewrite Hev).
  set (n1 := set_current_ei (ev_ei evinfo) n).
  assert (Hn1 : forall events, heap (node_update node n1 events w) !! node = Some n1)
    by (intros; apply node_update_lookup).
  assert (Hon1 : is_on n1 runningThreads = true) by (by destruct n).
  assert (Hh1 : HANDLING_EVENT n1 = true).
  { unfold HANDLING_EVENT, n1.
    replace (current_ei (set_current_ei (ev_ei evinfo) n)) with (ev_ei evinfo)
      by (by destruct n). by rewrite Hzero. }
  match goal with
  | |- bind _ _ ?W = _ =>
      pose proof (threadControl_interrupt_ok vm rt_InterruptThread _ node n1 W
                    Hslot Ht (Hn1 _)) as Hi
  end.
  rewrite Hon1, Hh1 in Hi. cbn [andb] in Hi. rewrite (bind_ok _ _ _ _ _ Hi).
  set (n2 := set_pendingInterrupt true n1).
  erewrite bind_ok
    by (apply (onEventHandlerExit_ok vm _ _ _ node n2);
        [exact Hslot|exact Ht|apply node_update_lookup
        |unfold running_list; rewrite Hv; by destruct n|exact Hend]).
  unfold ret. f_equal. rewrite !node_update_twice.
  assert (Hnode : left_handler eventBag n2 = set_eventBag eventBag n).
  { assert (Hcur : current_ei n = EI_none)
      by (destruct (current_ei n); done).
    unfold left_handler, n2, n1. destruct n. cbn in *. by subst. }
  assert (Htasks : pending_tasks n2 = [EvInterruptThread (thread n)]).
  { unfold pending_tasks, n2, n1. destruct n. cbn in *. by subst. }
  rewrite Hnode, Htasks. f_equal.
Qed.

End Handler.

(** ** The first event of a thread *)

Lemma apply_modes_fields (ds : list DeferredEventMode) (n : ThreadNode) :
  thread (apply_modes ds n) = thread n /\
  suspendOnStart (apply_modes ds n) = suspendOnStart n /\
  eventBag (apply_modes ds n) = eventBag n /\
  node_list (apply_modes ds n) = node_list n /\
  isStarted (apply_modes ds n) = isStarted n /\
  suspendCount (apply_modes ds n) = suspendCount n.
Proof.
  revert n. unfold apply_modes.
  induction ds as [|d ds IH]; intros n; [done|]. cbn [foldl].
  destruct (IH (if is_SINGLE_STEP (dem_ei d)
                then set_instructionStepMode (dem_mode d) n else n))
    as (H1 & H2 & H3 & H4 & H5 & H6).
  rewrite H1, H2, H3, H4, H5, H6. by destruct (is_SINGLE_STEP _), n.
Qed.

Section Start.

Context (vm : Runtime).
Context (popFrameCompleteEvent : jthread -> M unit).

Lemma assert_not_on_off (line : nat) (l : ThreadList) (t : jthread) (w : World) :
  assertOn (gdata w) = false -> assert_not_on line l t w = Ok tt w.
Proof. intros Ha. unfold assert_not_on, get_world, bind. by rewrite Ha. Qed.

(** A lookup that the scan of [otherThreads] answers: the slot is empty,
    the callbacks are in place and assertions are off. *)
Lemma findThread_scan (lst : option ThreadList) (t : jthread) (p : NodeId)
    (w : World) :
  rt_GetThreadLocalStorage vm (trace w) t = JVMTI_ERROR_NONE ->
  tls w !! t = None ->
  lists_ok w = true ->
  assertOn (gdata w) = false ->
  jvmtiCallBacksCleared (gdata w) = false ->
  any_or lst otherThreads = true ->
  scan w otherThreads t = Some p ->
  findThread vm lst t w = Ok (Some p) w.
Proof.
  intros He Ht Hw Ha Hc Hany Hscan.
  assert (Hget : getThreadLocalStorage vm t w = Ok None w).
  { unfold getThreadLocalStorage, bind, get_world. rewrite He. cbn. by rewrite Ht. }
  unfold findThread. rewrite (bind_ok _ _ _ _ _ Hget). rewrite Hany.
  rewrite bind_assoc.
  rewrite (bind_ok _ _ _ _ _ (nonTlsSearch_ok otherThreads t w Hw)).
  rewrite Hscan. rewrite bind_assoc. unfold get_world at 1. unfold bind at 1.
  rewrite Hc. cbn [negb]. rewrite !bind_assoc.
  rewrite (bind_ok _ _ _ _ _ (assert_not_on_off _ _ _ _ Ha)).
  rewrite bind_assoc.
  rewrite (bind_ok _ _ _ _ _ (assert_not_on_off _ _ _ _ Ha)).
  unfold ret at 1. unfold bind at 1.
  destruct lst as [l|]; [|done].
  destruct (scan_from_thread _ _ _ _ Hscan) as [Hin _].
  destruct (lists_ok_spec w Hw otherThreads p Hin) as (n & Hn & Hon).
  rewrite (bind_ok _ _ _ _ _ (read_node_ok _ _ _ Hn)).
  destruct l; try done. unfold is_on in Hon. apply negb_true_iff in Hon.
  by rewrite Hon.
Qed.

Lemma getPopFrameThread_scan (t : jthread) (p : NodeId) (n : ThreadNode)
    (w : World) :
  rt_GetThreadLocalStorage vm (trace w ++ [EvMonitorEnter threadLock]) t
  = JVMTI_ERROR_NONE ->
  tls w !! t = None ->
  lists_ok w = true ->
  assertOn (gdata w) = false ->
  jvmtiCallBacksCleared (gdata w) = false ->
  scan w otherThreads t = Some p ->
  heap w !! p = Some n ->
  getPopFrameThread vm t w
  = Ok (popFrameThread n)
       (with_events [EvMonitorEnter threadLock; EvMonitorExit threadLock] w).
Proof.
  intros He Ht Hw Ha Hc Hscan Hn.
  unfold getPopFrameThread, debugMonitorEnter, debugMonitorExit.
  rewrite (bind_ok _ _ _ _ _ (emit_ok _ _)).
  erewrite bind_ok by (apply (findThread_scan None t p); done).
  cbv beta iota. rewrite bind_assoc.
  erewrite bind_ok by (apply read_node_ok; exact Hn).
  unfold bind, ret, emit, modify_world. f_equal. destruct w. trace_eq.
Qed.

Lemma setThreadLocalStorage_set (t : jthread) (p : NodeId) (w : World) :
  slot_settable vm t ->
  setThreadLocalStorage vm t (Some p) w
  = Ok tt (set_tls (<[t := p]> (tls w))
             (with_events [EvSetThreadLocalStorage t (Some p)] w)).
Proof.
  intros Hset. unfold setThreadLocalStorage, get_world. unfold bind at 1.
  rewrite Hset. rewrite (bind_ok _ _ _ _ _ (emit_ok _ _)).
  cbn [is_NONE is_THREAD_NOT_ALIVE andb negb]. reflexivity.
Qed.

(** [moveNode] from [otherThreads] to a running list, assertions off. *)
Lemma moveNode_off_other (dest : ThreadList) (p : NodeId) (n : ThreadNode)
    (w : World) :
  assertOn (gdata w) = false ->
  heap w !! p = Some n ->
  node_list n = Some otherThreads ->
  dest <> otherThreads ->
  exists w',
    moveNode vm otherThreads dest p w = Ok tt w' /\
    heap w' = <[p := set_node_list (Some dest) n]> (heap w) /\
    otherThreads_nodes w' = remove_id p (otherThreads_nodes w) /\
    list_nodes dest w' = p :: list_nodes dest w /\
    numRunningVThreads w'
    = (if ThreadList_eqb dest runningVThreads
       then jint_inc (numRunningVThreads w) else numRunningVThreads w) /\
    tls w' = tls w /\ trace w' = trace w /\
    deferredEventModes w' = deferredEventModes w /\
    gdata w' = gdata w.
Proof.
  intros Ha Hn Hl Hdest. unfold moveNode.
  destruct (removeNode_on p n otherThreads w Hn Hl)
    as (w1 & Hrun1 & Hheap1 & Hlists1 & Hcount1 & _ & Htls1 & Htrace1 & Hdem1 & Hg1).
  rewrite (bind_ok _ _ _ _ _ Hrun1).
  unfold get_world at 1. unfold bind at 1. rewrite Hg1, Ha.
  unfold skip at 1. unfold ret at 1. unfold bind at 1.
  destruct (addNode_on dest p (set_node_list None n) w1)
    as (w2 & Hrun2 & Hheap2 & Hlists2 & Hcount2 & _ & Htls2 & Htrace2 & Hdem2 & Hg2).
  { by rewrite Hheap1, lookup_insert_eq. }
  exists w2. split; [exact Hrun2|].
  split; [rewrite Hheap2, Hheap1, insert_insert_eq; by destruct n|].
  split.
  { change (list_nodes otherThreads w2 = remove_id p (list_nodes otherThreads w)).
    rewrite Hlists2, Hlists1. by destruct dest. }
  split; [rewrite Hlists2, Hlists1; by destruct dest|].
  split; [rewrite Hcount2, Hcount1; done|].
  repeat split; congruence.
Qed.

(** X18.  The [THREAD_START] event of a thread that is known but has not
    started.  With assertions off and the callbacks in place, when the
    slot of the thread is empty and its node waits on [otherThreads],
    [threadControl_onEventHandlerEntry] moves the node to the head of the
    running list of its kind, sets the slot, marks the node as started and
    as handling the event, applies the event modes that were deferred for
    the thread and takes them off the queue.  It returns the event bag of
    the node, and asks the event helper to suspend the thread exactly when
    the node has [suspendOnStart]. *)
Theorem thread_start_moves_node (sessionID : Z) (evinfo : EventInfo)
    (currentException : jobject) (p : NodeId) (n : ThreadNode) (w : World) :
  ev_ei evinfo = EI_THREAD_START ->
  slot_read vm (ev_thread evinfo) ->
  slot_settable vm (ev_thread evinfo) ->
  modes_accepted vm (ev_thread evinfo) ->
  assertOn (gdata w) = false ->
  jvmtiCallBacksCleared (gdata w) = false ->
  lists_ok w = true ->
  tls w !! ev_thread evinfo = None ->
  scan w otherThreads (ev_thread evinfo) = Some p ->
  heap w !! p = Some n ->
  popFrameThread n = false ->
  exists w',
    threadControl_onEventHandlerEntry vm popFrameCompleteEvent sessionID evinfo
      currentException w
    = Ok (Some (eventBag n)) w' /\
    heap w' = <[p := started_as (ev_thread evinfo) (deferredEventModes w) n]> (heap w) /\
    otherThreads_nodes w' = remove_id p (otherThreads_nodes w) /\
    list_nodes (start_list n) w' = p :: list_nodes (start_list n) w /\
    tls w' = <[ev_thread evinfo := p]> (tls w) /\
    deferredEventModes w'
    = modes_kept (ev_thread evinfo) (deferredEventModes w) /\
    trace w'
    = trace w
      ++ [EvMonitorEnter threadLock; EvMonitorExit threadLock;
          EvMonitorEnter threadLock;
          EvSetThreadLocalStorage (ev_thread evinfo) (Some p)]
      ++ mode_calls (modes_of (ev_thread evinfo) (deferredEventModes w))
      ++ [EvMonitorExit threadLock]
      ++ start_suspension sessionID n.
Proof.
  intros Hei Hslot Hset Hacc Ha Hc Hw Ht Hscan Hn Hpop.
  set (t := ev_thread evinfo) in *.
  destruct (scan_from_thread _ _ _ _ Hscan) as [Hin _].
  destruct (lists_ok_spec w Hw otherThreads p Hin) as (n0 & Hn0 & Hon).
  rewrite Hn in Hn0. injection Hn0 as <-.
  assert (Hl : node_list n = Some otherThreads) by (by apply is_on_list).
  unfold threadControl_onEventHandlerEntry, checkForPopFrameEvents.
  fold t. rewrite Hei. rewrite bind_assoc.
  rewrite (bind_ok _ _ _ _ _
             (getPopFrameThread_scan t p n w (Hslot _) Ht Hw Ha Hc Hscan Hn)).
  rewrite Hpop. unfold ret at 1. unfold bind at 1.
  unfold debugMonitorEnter, debugMonitorExit.
  rewrite (bind_ok _ _ _ _ _ (emit_ok _ _)).
  erewrite bind_ok by (apply (findThread_scan (Some otherThreads) t p); done).
  cbv beta iota. rewrite !bind_assoc.
  erewrite bind_ok by (apply read_node_ok; exact Hn).
  rewrite !bind_assoc.
  fold (start_list n).
  destruct (moveNode_off_other (start_list n) p n
              (with_events [EvMonitorEnter threadLock]
                 (with_events [EvMonitorEnter threadLock; EvMonitorExit threadLock] w))
              Ha Hn Hl)
    as (w1 & Hmove & Hheap1 & Hother1 & Hdest1 & _ & Htls1 & Htrace1 & Hdem1 & _).
  { unfold start_list. by destruct (is_vthread n). }
  rewrite (bind_ok _ _ _ _ _ Hmove). rewrite !bind_assoc.
  rewrite (bind_ok _ _ _ _ _ (setThreadLocalStorage_set t p w1 Hset)).
  unfold ret at 1. unfold bind at 1.
  rewrite (bind_ok _ _ _ _ _ (JDI_ASSERT_holds _ _)).
  rewrite (bind_ok _ _ _ _ _ (JDI_ASSERT_holds _ _)).
  cbn [is_THREAD_START is_THREAD_END]. rewrite !bind_assoc.
  set (n1 := set_node_list (Some (start_list n)) n) in *.
  assert (Hn1 : heap w1 !! p = Some n1) by (by rewrite Hheap1, lookup_insert_eq).
  erewrite bind_ok by (apply modify_node_ok; exact Hn1).
  assert (Hproc : forall (w2 : World) (m : ThreadNode),
            heap w2 !! p = Some m ->
            processDeferredEventModes vm t p w2
            = Ok tt (set_trace
                       (trace w2 ++ mode_calls (modes_of t (deferredEventModes w2)))
                       (set_heap
                          (<[p := apply_modes (modes_of t (deferredEventModes w2)) m]>
                             (heap w2))
                          (set_deferredEventModes
                             (modes_kept t (deferredEventModes w2)) w2)))).
  { intros w2 m Hm. unfold processDeferredEventModes, get_world. unfold bind.
    by rewrite (processDeferredEventModes_from_ok vm t p _ [] m w2 Hacc Hm). }
  erewrite bind_ok
    by (apply (Hproc _ (set_isStarted true n1));
        cbn [heap set_heap]; apply lookup_insert_eq).
  unfold skip at 1. unfold ret at 1. unfold bind at 1.
  cbn [deferredEventModes set_heap set_tls with_events set_trace].
  rewrite Hdem1. cbn [deferredEventModes with_events set_trace].
  set (n2 := apply_modes (modes_of t (deferredEventModes w)) (set_isStarted true n1)).
  erewrite bind_ok
    by (apply modify_node_ok; cbn [heap set_heap set_trace]; apply lookup_insert_eq).
  erewrite bind_ok
    by (apply read_node_ok; cbn [heap set_heap set_trace]; apply lookup_insert_eq).
  rewrite (bind_ok _ _ _ _ _ (emit_ok _ _)).
  destruct (apply_modes_fields (modes_of t (deferredEventModes w))
              (set_isStarted true n1)) as (Hf1 & Hf2 & Hf3 & _).
  fold n2 in Hf1, Hf2, Hf3.
  assert (Hs : suspendOnStart (set_current_ei EI_THREAD_START n2) = suspendOnStart n).
  { transitivity (suspendOnStart n2); [by destruct n2|].
    rewrite Hf2. unfold n1. by destruct n. }
  assert (Hth : thread (set_current_ei EI_THREAD_START n2) = thread n).
  { transitivity (thread n2); [by destruct n2|].
    rewrite Hf1. unfold n1. by destruct n. }
  assert (Hbag : eventBag (set_current_ei EI_THREAD_START n2) = eventBag n).
  { transitivity (eventBag n2); [by destruct n2|].
    rewrite Hf3. unfold n1. by destruct n. }
  rewrite Hs, Hth, Hbag.
  assert (Htail : forall w2 : World,
            exists w3,
              ((if negb (isSameObject (if suspendOnStart n then thread n else NULL) NULL)
                then emit (EvHelperSuspendThread sessionID
                             (if suspendOnStart n then thread n else NULL))
                else skip);;
               ret (Some (eventBag n))) w2 = Ok (Some (eventBag n)) w3 /\
              w3 = with_events (start_suspension sessionID n) w2).
  { intros w2. unfold start_suspension.
    destruct (suspendOnStart n); cbv beta iota; cbn [andb].
    - destruct (isSameObject (thread n) NULL); cbn [negb].
      + eexists. split; [reflexivity|]. by rewrite with_events_nil.
      + eexists. split; reflexivity.
    - change (isSameObject NULL NULL) with true. cbn [negb].
      eexists. split; [reflexivity|]. by rewrite with_events_nil. }
  match goal with
  | |- context [bind _ _ ?W2] => destruct (Htail W2) as (w3 & Hrun3 & Hw3)
  end.
  exists w3. split; [exact Hrun3|]. subst w3.
  cbn [heap tls trace deferredEventModes otherThreads_nodes list_nodes
       with_events set_trace set_heap set_tls set_deferredEventModes].
  rewrite !insert_insert_eq, Hheap1, insert_insert_eq.
  split; [done|]. split; [exact Hother1|].
  split.
  { unfold start_list in *. destruct (is_vthread n); exact Hdest1. }
  split; [by rewrite Htls1|]. split; [done|].
  rewrite Htrace1. cbn [trace with_events set_trace].
  rewrite <- !app_assoc. done.
Qed.

End Start.

(** ** The count of VM-wide suspends *)

Lemma keeps_count_refl (w : World) : keeps_count w w.
Proof. done. Qed.

Lemma keeps_count_trans (w1 w2 w3 : World) :
  keeps_count w1 w2 -> keeps_count w2 w3 -> keeps_count w1 w3.
Proof. unfold keeps_count. congruence. Qed.

Lemma wp_keeps_seq {A B : Type} (m : M A) (f : A -> M B) (w : World) :
  wp m (fun _ w1 => keeps_count w w1) w ->
  (forall a w1, wp (f a) (fun _ w2 => keeps_count w1 w2) w1) ->
  wp (bind m f) (fun _ w2 => keeps_count w w2) w.
Proof.
  intros Hm Hf. apply wp_bind. eapply wp_mono; [exact Hm|].
  intros a w1 H1. eapply wp_mono; [apply Hf|].
  intros b w2 H2. by apply (keeps_count_trans w w1 w2).
Qed.

(** After a step that keeps the count, the rest runs from a world with
    the same count. *)
Lemma wp_keeps_then {A B : Type} (m : M A) (f : A -> M B)
    (Q : B -> World -> Prop) (w : World) :
  wp m (fun _ w1 => keeps_count w w1) w ->
  (forall a w1, keeps_count w w1 -> wp (f a) Q w1) ->
  wp (bind m f) Q w.
Proof.
  intros Hm Hf. apply wp_bind. eapply wp_mono; [exact Hm|].
  intros a w1 H1. by apply Hf.
Qed.

Lemma wp_keeps_ret {A : Type} (a : A) (w : World) :
  wp (ret a) (fun _ w' => keeps_count w w') w.
Proof. done. Qed.

Lemma wp_keeps_emit (e : Event) (w : World) :
  wp (emit e) (fun _ w' => keeps_count w w') w.
Proof. done. Qed.

Lemma wp_keeps_get (w : World) :
  wp get_world (fun _ w' => keeps_count w w') w.
Proof. done. Qed.

Lemma wp_keeps_read (p : NodeId) (w : World) :
  wp (read_node p) (fun _ w' => keeps_count w w') w.
Proof. by apply wp_read_node. Qed.

Lemma wp_keeps_modify_node (p : NodeId) (f : ThreadNode -> ThreadNode) (w : World) :
  wp (modify_node p f) (fun _ w' => keeps_count w w') w.
Proof. by apply wp_modify_node. Qed.

Lemma wp_keeps_modify_world (f : World -> World) (w : World) :
  (forall w0, suspendAllCount (f w0) = suspendAllCount w0) ->
  wp (modify_world f) (fun _ w' => keeps_count w w') w.
Proof. intros Hf. apply wp_modify_world, Hf. Qed.

Lemma wp_keeps_assert (line : nat) (b : bool) (w : World) :
  wp (JDI_ASSERT line b) (fun _ w' => keeps_count w w') w.
Proof. by apply wp_JDI_ASSERT. Qed.

Lemma wp_keeps_fatal {A : Type} (x : Abort) (w : World) :
  wp (fun w0 => @Fatal A x w0) (fun _ w' => keeps_count w w') w.
Proof. done. Qed.

Lemma wp_keeps_enumerate_from {A : Type} (nodes : list NodeId)
    (function : NodeId -> A -> M (jvmtiError * A)) (arg : A) (w : World) :
  (forall node arg w0, wp (function node arg) (fun _ w' => keeps_count w0 w') w0) ->
  wp (enumerate_from nodes function arg) (fun _ w' => keeps_count w w') w.
Proof.
  intros Hf. revert arg w. induction nodes as [|node rest IH]; intros arg w.
  - apply wp_keeps_ret.
  - cbn [enumerate_from]. apply wp_keeps_seq; [apply Hf|].
    intros [error arg'] w1. destruct (is_NONE error); [apply IH|apply wp_keeps_ret].
Qed.

Lemma wp_keeps_enumerate {A : Type} (lst : ThreadList)
    (function : NodeId -> A -> M (jvmtiError * A)) (arg : A) (w : World) :
  (forall node arg w0, wp (function node arg) (fun _ w' => keeps_count w0 w') w0) ->
  wp (enumerateOverThreadList lst function arg) (fun _ w' => keeps_count w w') w.
Proof.
  intros Hf. unfold enumerateOverThreadList. apply wp_bind, wp_get_world.
  by apply wp_keeps_enumerate_from.
Qed.

Create HintDb keeps.

#[local] Hint Resolve wp_keeps_ret wp_keeps_emit wp_keeps_get wp_keeps_read
  wp_keeps_modify_node wp_keeps_assert wp_keeps_fatal : keeps.

Ltac head_of t :=
  lazymatch t with
  | ?f _ => head_of f
  | _ => t
  end.

(** One step of a proof that a computation keeps the count: sequencing,
    case analysis, the primitive steps, then the lemmas of the database. *)
Ltac wp_keeps :=
  intros; cbv beta;
  lazymatch goal with
  | |- wp (bind _ _) _ _ => apply wp_keeps_seq; [wp_keeps | intros; wp_keeps]
  | |- wp (enumerateOverThreadList _ _ _) _ _ =>
      apply wp_keeps_enumerate; intros; wp_keeps
  | |- wp (if ?c then _ else _) _ _ => destruct c; wp_keeps
  | |- wp (match ?x with _ => _ end) _ _ => destruct x; wp_keeps
  | |- wp (modify_world _) _ _ =>
      apply wp_keeps_modify_world; intros; first [reflexivity | by repeat case_match]
  | |- wp (EXIT_ERROR _ _) _ _ => apply wp_exit
  | |- wp skip _ _ => apply wp_keeps_ret
  | |- wp ?m _ _ =>
      first [ solve [eauto with keeps]
            | let h := head_of m in unfold h; wp_keeps ]
  end.

Section Count.

Context (vm : Runtime).

Lemma wp_keeps_findThread (lst : option ThreadList) (t : jthread) (w : World) :
  wp (findThread vm lst t) (fun _ w' => keeps_count w w') w.
Proof.
  eapply wp_mono; [apply wp_findThread|].
  intros r w' [(events & -> & _) _]. done.
Qed.

Lemma wp_keeps_findRunningThread (t : jthread) (w : World) :
  wp (findRunningThread vm t) (fun _ w' => keeps_count w w') w.
Proof.
  unfold findRunningThread. destruct (isVThread vm t); apply wp_keeps_findThread.
Qed.

#[local] Hint Resolve wp_keeps_findThread wp_keeps_findRunningThread : keeps.

Lemma wp_keeps_commonResumeList_loop (reqList : list jthread) (w : World) :
  wp (commonResumeList_loop vm reqList) (fun _ w' => keeps_count w w') w.
Proof.
  revert w. induction reqList as [|t rest IH]; intros w; cbn [commonResumeList_loop];
    wp_keeps.
Qed.

Lemma wp_keeps_removeResumed_from (nodes : list NodeId) (w : World) :
  wp (removeResumed_from vm nodes) (fun _ w' => keeps_count w w') w.
Proof.
  revert w. induction nodes as [|p rest IH]; intros w; cbn [removeResumed_from];
    wp_keeps.
Qed.

Lemma wp_keeps_removeVThreads_from (nodes : list NodeId) (w : World) :
  wp (removeVThreads_from vm nodes) (fun _ w' => keeps_count w w') w.
Proof.
  revert w. induction nodes as [|p rest IH]; intros w; cbn [removeVThreads_from];
    wp_keeps.
Qed.

Lemma wp_keeps_commonSuspendList_scan (initList : list jthread) (req : ListPtr)
    (w : World) :
  wp (commonSuspendList_scan vm initList req) (fun _ w' => keeps_count w w') w.
Proof.
  revert req w. induction initList as [|t rest IH]; intros req w;
    cbn [commonSuspendList_scan]; wp_keeps.
Qed.

Lemma wp_keeps_commonSuspendList_loop (reqList : list jthread)
    (results : list jvmtiError) (i : nat) (w : World) :
  wp (commonSuspendList_loop vm reqList results i) (fun _ w' => keeps_count w w') w.
Proof.
  revert i w. induction reqList as [|t rest IH]; intros i w;
    cbn [commonSuspendList_loop]; wp_keeps.
Qed.

#[local] Hint Resolve wp_keeps_commonResumeList_loop wp_keeps_removeResumed_from
  wp_keeps_removeVThreads_from wp_keeps_commonSuspendList_scan
  wp_keeps_commonSuspendList_loop : keeps.

(** A computation that keeps the count, run from a world whose count
    satisfies [P]. *)
Lemma wp_keeps_post {A : Type} (m : M A) (P : Z -> Prop) (w : World) :
  wp m (fun _ w' => keeps_count w w') w ->
  P (suspendAllCount w) ->
  wp m (fun _ w' => P (suspendAllCount w')) w.
Proof.
  intros Hm HP. eapply wp_mono; [exact Hm|]. intros a w' Hk. by rewrite Hk.
Qed.

Lemma wp_any {A : Type} (m : M A) (w : World) : wp m (fun _ _ => True) w.
Proof. unfold wp. by destruct (m w). Qed.

Lemma wp_suspendAll (w : World) :
  wp (threadControl_suspendAll vm)
     (fun e w' => suspendAllCount w'
                  = if is_NONE e then jint_inc (suspendAllCount w)
                    else suspendAllCount w) w.
Proof.
  unfold threadControl_suspendAll.
  apply wp_keeps_then; [wp_keeps|]. intros _ w1 H1.
  apply wp_keeps_then; [wp_keeps|]. intros w1' w2 H2.
  apply wp_keeps_then; [wp_keeps|]. intros _ w3 H3.
  apply wp_bind, wp_get_world.
  assert (Hc : suspendAllCount w3 = suspendAllCount w)
    by (unfold keeps_count in *; congruence).
  clear H1 H2 H3. apply wp_bind.
  apply wp_mono with
    (Q := fun e w' => suspendAllCount w'
                      = if is_NONE e then jint_inc (suspendAllCount w)
                        else suspendAllCount w).
  - destruct (rt_allThreads vm (trace w3)) as [threads|]; [|by apply wp_ret].
    apply wp_keeps_then; [wp_keeps|]. intros error w4 H4.
    destruct (is_NONE error) eqn:He; cbn [negb].
    + apply wp_keeps_then; [wp_keeps|]. intros [error' arg] w5 H5.
      assert (Hc5 : suspendAllCount w5 = suspendAllCount w)
        by (unfold keeps_count in *; congruence).
      destruct (is_NONE error') eqn:He'.
      * apply wp_bind. unfold commonRef_pinAll. apply wp_bind, wp_emit.
        apply wp_modify_world, wp_ret. cbn. by rewrite He', Hc5.
      * apply wp_bind, wp_ret, wp_ret. by rewrite He'.
    + apply wp_ret. rewrite He. unfold keeps_count in *. congruence.
  - intros e w4 H4. apply wp_bind.
    apply (wp_keeps_post _ (fun c => c = if is_NONE e then jint_inc (suspendAllCount w)
                                         else suspendAllCount w));
      [wp_keeps|exact H4].
Qed.

Lemma wp_resumeAll (w : World) :
  wp (threadControl_resumeAll vm)
     (fun _ w' => suspendAllCount w'
                  = if 0 <? suspendAllCount w then jint_dec (suspendAllCount w)
                    else suspendAllCount w) w.
Proof.
  unfold threadControl_resumeAll.
  apply wp_keeps_then; [wp_keeps|]. intros _ w1 H1.
  apply wp_keeps_then; [wp_keeps|]. intros _ w2 H2.
  apply wp_keeps_then; [wp_keeps|]. intros w2' w3 H3.
  apply wp_keeps_then; [wp_keeps|]. intros _ w4 H4.
  apply wp_keeps_then; [wp_keeps|]. intros error w5 H5.
  apply wp_keeps_then; [wp_keeps|]. intros w5' w6 H6.
  apply wp_keeps_then; [wp_keeps|]. intros error' w7 H7.
  apply wp_bind, wp_get_world.
  assert (Hc : suspendAllCount w7 = suspendAllCount w)
    by (unfold keeps_count in *; congruence).
  clear H1 H2 H3 H4 H5 H6 H7. rewrite Hc. apply wp_bind.
  apply wp_mono with
    (Q := fun _ w' => suspendAllCount w'
                      = if 0 <? suspendAllCount w then jint_dec (suspendAllCount w)
                        else suspendAllCount w).
  - destruct (0 <? suspendAllCount w).
    + unfold commonRef_unpinAll. apply wp_bind, wp_emit, wp_modify_world.
      cbn. by rewrite Hc.
    + by apply wp_ret.
  - intros _ w8 H8.
    apply (wp_keeps_post _ (fun c => c = if 0 <? suspendAllCount w
                                         then jint_dec (suspendAllCount w)
                                         else suspendAllCount w));
      [wp_keeps|exact H8].
Qed.

Lemma wp_reset (w : World) :
  wp (threadControl_reset vm) (fun _ w' => suspendAllCount w' = 0) w.
Proof.
  unfold threadControl_reset.
  do 9 (apply wp_bind; eapply wp_mono; [apply wp_any|]; intros ? ? _).
  apply wp_bind, wp_modify_world.
  apply (wp_keeps_post _ (fun c => c = 0)); [wp_keeps|reflexivity].
Qed.

(** X19.  The count of VM-wide suspends moves one step at a time and never
    below zero.  Whenever [threadControl_suspendAll] returns, it has raised
    [suspendAllCount] by one if it answers success and has left it alone if
    it answers an error; whenever [threadControl_resumeAll] returns, it has
    lowered a positive count by one and has left a count of zero at zero;
    whenever [threadControl_reset] returns, the count is zero. *)
Theorem suspendAllCount_steps (w : World) :
  (forall e w', threadControl_suspendAll vm w = Ok e w' ->
     suspendAllCount w'
     = if is_NONE e then jint_inc (suspendAllCount w) else suspendAllCount w) /\
  (forall e w', threadControl_resumeAll vm w = Ok e w' ->
     suspendAllCount w'
     = if 0 <? suspendAllCount w then jint_dec (suspendAllCount w)
       else suspendAllCount w) /\
  (forall w', threadControl_reset vm w = Ok tt w' -> suspendAllCount w' = 0) /\
  (0 <= suspendAllCount w < jint_max ->
   forall e w',
     threadControl_suspendAll vm w = Ok e w' \/
     threadControl_resumeAll vm w = Ok e w' ->
     0 <= suspendAllCount w' <= jint_max /\
     Z.abs (suspendAllCount w' - suspendAllCount w) <= 1).
Proof.
  assert (Hs := wp_suspendAll w). assert (Hr := wp_resumeAll w).
  assert (Hz := wp_reset w).
  split; [|split; [|split]].
  - intros e w' Hrun. exact (wp_ok _ _ _ _ _ Hs Hrun).
  - intros e w' Hrun. exact (wp_ok _ _ _ _ _ Hr Hrun).
  - intros w' Hrun. exact (wp_ok _ _ _ _ _ Hz Hrun).
  - intros Hc e w' [Hrun|Hrun].
    + rewrite (wp_ok _ _ _ _ _ Hs Hrun). destruct (is_NONE e); [|lia].
      rewrite jint_inc_no_overflow by (unfold jint_min; lia). lia.
    + rewrite (wp_ok _ _ _ _ _ Hr Hrun).
      destruct (Z.ltb_spec 0 (suspendAllCount w)); [|lia].
      rewrite jint_dec_no_overflow by (unfold jint_min; lia). lia.
Qed.

End Count.

(** ** A suspend before the thread starts *)

Lemma quiet_no_primitive (events : list Event) :
  Forall (fun e => acts_on_thread e = false) events ->
  primitive_calls events = [].
Proof.
  induction 1 as [|e events He _ IH]; [done|].
  unfold primitive_calls in *. rewrite filter_cons, IH.
  rewrite decide_False; [done|]. destruct e; cbn in *; congruence.
Qed.

Lemma quiet_filter (events : list Event) :
  Forall (fun e => acts_on_thread e = false) events ->
  filter (fun e => acts_on_thread e = true) events = [].
Proof.
  induction 1 as [|e events He _ IH]; [done|].
  rewrite filter_cons, IH. rewrite decide_False; [done|]. congruence.
Qed.

Section Early.

Context (vm : Runtime).

(** The slot of a thread that is not alive reads as empty. *)
Lemma getThreadLocalStorage_not_alive (t : jthread) (w : World) :
  rt_GetThreadLocalStorage vm (trace w) t = JVMTI_ERROR_THREAD_NOT_ALIVE ->
  getThreadLocalStorage vm t w = Ok None w.
Proof.
  intros He. unfold getThreadLocalStorage, bind, get_world. by rewrite He.
Qed.

Lemma getThreadLocalStorage_unset (t : jthread) (w : World) :
  rt_GetThreadLocalStorage vm (trace w) t = JVMTI_ERROR_NONE ->
  tls w !! t = None ->
  getThreadLocalStorage vm t w = Ok None w.
Proof.
  intros He Ht. unfold getThreadLocalStorage, bind, get_world. rewrite He. cbn.
  by rewrite Ht.
Qed.

(** A lookup that finds nothing: the slot reads as empty and [otherThreads]
    is empty, the callbacks are in place and assertions are off. *)
Lemma findThread_miss (lst : option ThreadList) (t : jthread) (w : World) :
  getThreadLocalStorage vm t w = Ok None w ->
  assertOn (gdata w) = false ->
  jvmtiCallBacksCleared (gdata w) = false ->
  otherThreads_nodes w = [] ->
  findThread vm lst t w = Ok None w.
Proof.
  intros Hget Ha Hc Hother.
  assert (Hsearch : (if any_or lst otherThreads then nonTlsSearch otherThreads t
                     else ret None) w = Ok None w).
  { destruct (any_or lst otherThreads); [|done].
    unfold nonTlsSearch, get_world, bind. cbn [list_nodes]. by rewrite Hother. }
  unfold findThread. rewrite (bind_ok _ _ _ _ _ Hget). cbv beta iota.
  rewrite !bind_assoc. rewrite (bind_ok _ _ _ _ _ Hsearch).
  rewrite !bind_assoc. unfold get_world at 1. unfold bind at 1. rewrite Hc. cbn [negb].
  rewrite !bind_assoc.
  rewrite (bind_ok _ _ _ _ _ (assert_not_on_off _ _ _ _ Ha)).
  rewrite bind_assoc.
  rewrite (bind_ok _ _ _ _ _ (assert_not_on_off _ _ _ _ Ha)).
  unfold ret at 1. unfold bind at 1. by destruct lst.
Qed.

Lemma findThread_none (lst : option ThreadList) (t : jthread) (w : World) :
  rt_GetThreadLocalStorage vm (trace w) t = JVMTI_ERROR_NONE ->
  tls w !! t = None ->
  assertOn (gdata w) = false ->
  jvmtiCallBacksCleared (gdata w) = false ->
  otherThreads_nodes w = [] ->
  findThread vm lst t w = Ok None w.
Proof.
  intros He Ht. apply findThread_miss. by apply getThreadLocalStorage_unset.
Qed.

(** A lookup that the head of [otherThreads] answers. *)
Lemma findThread_head (t : jthread) (p : NodeId) (n : ThreadNode)
    (rest : list NodeId) (w : World) :
  getThreadLocalStorage vm t w = Ok None w ->
  assertOn (gdata w) = false ->
  jvmtiCallBacksCleared (gdata w) = false ->
  otherThreads_nodes w = p :: rest ->
  heap w !! p = Some n ->
  thread n = t ->
  findThread vm None t w = Ok (Some p) w.
Proof.
  intros Hget Ha Hc Hother Hn Hthread.
  assert (Hsearch : nonTlsSearch otherThreads t w = Ok (Some p) w).
  { unfold nonTlsSearch, get_world. unfold bind at 1. cbn [list_nodes].
    rewrite Hother. cbn [nonTlsSearch_from].
    rewrite (bind_ok _ _ _ _ _ (read_node_ok _ _ _ Hn)).
    unfold isSameObject. by rewrite Hthread, Z.eqb_refl. }
  unfold findThread. rewrite (bind_ok _ _ _ _ _ Hget). cbv beta iota.
  cbn [any_or]. rewrite !bind_assoc. rewrite (bind_ok _ _ _ _ _ Hsearch).
  rewrite !bind_assoc. unfold get_world at 1. unfold bind at 1. rewrite Hc. cbn [negb].
  rewrite !bind_assoc.
  rewrite (bind_ok _ _ _ _ _ (assert_not_on_off _ _ _ _ Ha)).
  rewrite bind_assoc.
  rewrite (bind_ok _ _ _ _ _ (assert_not_on_off _ _ _ _ Ha)).
  reflexivity.
Qed.

(** [insertThread] makes a node on [otherThreads] for a platform thread
    that has none, while no VM-wide suspend is in force. *)
Lemma insertThread_other_new (t : jthread) (b : bag) (w : World) :
  getThreadLocalStorage vm t w = Ok None w ->
  assertOn (gdata w) = false ->
  jvmtiCallBacksCleared (gdata w) = false ->
  otherThreads_nodes w = [] ->
  node_available vm b ->
  rt_NewGlobalRef vm (trace w) t = true ->
  t <> NULL ->
  is_debug w t = false ->
  suspendAllCount w = 0 ->
  insertThread vm otherThreads t w
  = Ok (fresh (dom (heap w)))
       (with_events [EvMonitorEnter threadLock; EvMonitorExit threadLock]
          (set_list_nodes otherThreads [fresh (dom (heap w))]
             (set_heap (<[fresh (dom (heap w)) := new_node t b]> (heap w)) w))).
Proof.
  intros Hget Ha Hc Hother [Halloc Hbag] Href Hnull Hdbg Hall.
  unfold insertThread.
  rewrite (bind_ok _ _ _ _ _ (findThread_miss _ t w Hget Ha Hc Hother)).
  cbv beta iota.
  set (p := fresh (dom (heap w))).
  unfold jvmtiAllocate, saveGlobalRef, threadControl_isDebugThread, addNode,
    modify_node, read_node, debugMonitorEnter, debugMonitorExit, emit,
    modify_world, get_world, skip, ret, bind.
  cbn [trace heap gdata debugThreads suspendAllCount set_heap set_trace
       set_list_nodes].
  rewrite Halloc. cbn [negb]. rewrite Hbag.
  cbn [trace heap gdata debugThreads suspendAllCount set_heap set_trace
       set_list_nodes].
  rewrite Href. fold p.
  assert (Hnull' : isSameObject t NULL = false) by (by apply Z.eqb_neq).
  unfold is_debug in Hdbg.
  repeat (progress
            (cbv beta iota;
             cbn [trace heap gdata debugThreads suspendAllCount set_heap set_trace
                  set_list_nodes list_nodes otherThreads_nodes ThreadList_eqb negb
                  Z.ltb Z.compare];
             rewrite ?lookup_insert_eq, ?Hnull', ?Hdbg, ?Hall, ?insert_insert_eq)).
  f_equal. unfold with_events, new_node.
  cbn [heap trace set_heap set_trace set_list_nodes list_nodes otherThreads_nodes].
  rewrite Hother. destruct w; cbn. rewrite <- app_assoc. reflexivity.
Qed.

(** The suspend of a platform thread that has no node and is not alive. *)
Lemma suspendThread_early (t : jthread) (b : bag) (w : World) :
  not_alive vm t ->
  assertOn (gdata w) = false ->
  jvmtiCallBacksCleared (gdata w) = false ->
  otherThreads_nodes w = [] ->
  node_available vm b ->
  (forall tr, rt_NewGlobalRef vm tr t = true) ->
  rt_isVThread vm t = false ->
  t <> NULL ->
  is_debug w t = false ->
  suspendAllCount w = 0 ->
  threadControl_suspendThread vm t false w
  = Ok JVMTI_ERROR_NONE
       (with_events
          ([EvLock eventHandler; EvLock invoker; EvLock eventHelper;
            EvLock stepControl; EvLock commonRef; EvMonitorEnter threadLock;
            EvMonitorEnter threadLock; EvMonitorExit threadLock;
            EvSuspendThread t; EvMonitorNotifyAll threadLock;
            EvMonitorExit threadLock; EvUnlock commonRef; EvUnlock stepControl;
            EvUnlock eventHelper; EvUnlock invoker; EvUnlock eventHandler])
          (set_list_nodes otherThreads [fresh (dom (heap w))]
             (set_heap (<[fresh (dom (heap w)) := pending_node t b]> (heap w)) w))).
Proof.
  intros [Hslot Hsusp] Ha Hc Hother Hav Href Hv Hnull Hdbg Hall.
  unfold threadControl_suspendThread, preSuspend, getLocks, lock,
    debugMonitorEnter.
  repeat (rewrite ?bind_assoc; rewrite (bind_ok _ _ _ _ _ (emit_ok _ _))).
  unfold commonSuspend, findRunningThread, isVThread. rewrite Hv.
  rewrite !bind_assoc.
  erewrite bind_ok
    by (apply findThread_miss;
        first [apply getThreadLocalStorage_not_alive; apply Hslot | done]).
  cbv beta iota. rewrite !bind_assoc.
  erewrite bind_ok
    by (apply (insertThread_other_new t b);
        first [apply getThreadLocalStorage_not_alive; apply Hslot
              | apply Href | done]).
  set (p := fresh (dom (heap w))).
  unfold suspendThreadByNode, commonSuspendByNode, JVMTI_SuspendThread,
    incr_suspendCount, postSuspend, releaseLocks, unlock, debugMonitorExit,
    debugMonitorNotifyAll, JDI_ASSERT,
    modify_node, read_node, emit, modify_world, get_world, skip, ret, bind.
  repeat (progress
            (cbv beta iota;
             cbn [trace heap gdata set_heap set_trace set_list_nodes with_events
                  new_node isDebugThread suspendOnStart suspendCount thread
                  set_node_list set_eventBag set_thread zero_node
                  set_suspendOnStart set_suspendCount
                  is_NONE is_THREAD_NOT_ALIVE is_THREAD_SUSPENDED negb andb
                  Z.eqb];
             rewrite ?lookup_insert_eq, ?Hsusp, ?Ha, ?insert_insert_eq)).
  f_equal. unfold with_events, pending_node, new_node.
  cbn [heap trace set_heap set_trace set_list_nodes].
  destruct w; cbn. rewrite <- !app_assoc. reflexivity.
Qed.

(** The resume of the same thread, still not started: the node is swept. *)
Lemma resumeThread_early (t : jthread) (b : bag) (do_unblock : bool)
    (p : NodeId) (w : World) :
  not_alive vm t ->
  slot_clearable vm ->
  tls w !! t = None ->
  assertOn (gdata w) = false ->
  jvmtiCallBacksCleared (gdata w) = false ->
  otherThreads_nodes w = [p] ->
  heap w !! p = Some (pending_node t b) ->
  exists w' events,
    threadControl_resumeThread vm t do_unblock w = Ok JVMTI_ERROR_NONE w' /\
    heap w' = delete p (heap w) /\
    otherThreads_nodes w' = [] /\
    runningThreads_nodes w' = runningThreads_nodes w /\
    runningVThreads_nodes w' = runningVThreads_nodes w /\
    tls w' = tls w /\
    suspendAllCount w' = suspendAllCount w /\
    trace w' = trace w ++ events /\
    Forall (fun e => acts_on_thread e = false) events.
Proof.
  intros [Hslot _] Hclear Ht Ha Hc Hother Hn.
  unfold threadControl_resumeThread, lock, unlock, debugMonitorEnter,
    debugMonitorExit, unblockCommandLoop.
  repeat (rewrite ?bind_assoc; rewrite (bind_ok _ _ _ _ _ (emit_ok _ _))).
  unfold commonResume. rewrite ?bind_assoc.
  erewrite bind_ok
    by (apply (findThread_head t p (pending_node t b) []);
        first [apply getThreadLocalStorage_not_alive; apply Hslot | done]).
  cbv beta iota.
  set (w0 := with_events [EvMonitorEnter threadLock]
               (with_events [EvLock eventHandler] w)).
  assert (Hres : resumeThreadByNode vm p w0
                 = Ok JVMTI_ERROR_NONE
                      (node_update p (set_suspendCount 0 (pending_node t b))
                         [EvMonitorNotifyAll threadLock] w0)).
  { unfold resumeThreadByNode, decr_suspendCount, debugMonitorNotifyAll,
      modify_node, read_node, emit, modify_world, get_world, skip, ret, bind.
    assert (Hn0 : heap w0 !! p = Some (pending_node t b)) by exact Hn.
    rewrite Hn0.
    repeat (progress
              (cbv beta iota;
               cbn [trace heap gdata set_heap set_trace
                    pending_node new_node isDebugThread suspendOnStart suspendCount
                    toBeResumed thread
                    set_node_list set_eventBag set_thread zero_node
                    set_suspendOnStart set_suspendCount
                    negb andb Z.eqb Z.ltb Z.compare];
               rewrite ?lookup_insert_eq, ?Hn0)).
    reflexivity. }
  rewrite (bind_ok _ _ _ _ _ Hres).
  set (n0 := set_suspendCount 0 (pending_node t b)).
  set (w1 := node_update p n0 [EvMonitorNotifyAll threadLock] w0).
  assert (Hn1 : heap w1 !! p = Some n0) by apply node_update_lookup.
  destruct (removeThread_retires vm p n0 otherThreads w1 Hclear Hn1 eq_refl)
    as (w2 & Hrun & Hheap & Hlists & _ & Hall & Htls & events & Htr & Hev).
  assert (Hsweep : removeResumed vm otherThreads w1 = Ok tt w2).
  { unfold removeResumed, get_world. unfold bind at 1.
    replace (list_nodes otherThreads w1) with [p] by (symmetry; exact Hother).
    cbn [removeResumed_from].
    rewrite (bind_ok _ _ _ _ _ (read_node_ok _ _ _ Hn1)).
    change (suspendCount n0 =? 0) with true. cbv beta iota.
    by rewrite (bind_ok _ _ _ _ _ Hrun). }
  rewrite (bind_ok _ _ _ _ _ Hsweep).
  repeat (rewrite ?bind_assoc; rewrite (bind_ok _ _ _ _ _ (emit_ok _ _))).
  assert (Hrem : remove_id p [p] = []).
  { unfold remove_id. rewrite filter_cons, decide_False; [done|]. by intros H. }
  assert (Htls2 : tls w2 = tls w).
  { destruct Htls as [->| ->]; [done|].
    change (thread n0) with t. change (tls w1) with (tls w).
    by apply delete_id. }
  assert (Hfinal : forall w3 : World,
            exists w4 ev,
              ((if do_unblock then emit EvUnblockCommandLoop else skip);;
               ret JVMTI_ERROR_NONE) w3 = Ok JVMTI_ERROR_NONE w4 /\
              w4 = with_events ev w3 /\
              Forall (fun e => acts_on_thread e = false) ev).
  { intros w3. destruct do_unblock.
    - exists (with_events [EvUnblockCommandLoop] w3), [EvUnblockCommandLoop].
      repeat split. by repeat constructor.
    - exists w3, []. repeat split; [by rewrite with_events_nil|constructor]. }
  match goal with
  | |- context [bind _ _ ?W3] => destruct (Hfinal W3) as (w4 & ev & Hrun4 & -> & Hev4)
  end.
  eexists _, _. split; [exact Hrun4|].
  cbn [heap tls trace suspendAllCount otherThreads_nodes runningThreads_nodes
       runningVThreads_nodes with_events set_trace].
  split; [rewrite Hheap; apply delete_insert_eq|].
  split.
  { change (list_nodes otherThreads w2 = []).
    rewrite (Hlists otherThreads). cbn [ThreadList_eqb].
    replace (list_nodes otherThreads w1) with [p] by (symmetry; exact Hother).
    exact Hrem. }
  split; [exact (Hlists runningThreads)|].
  split; [exact (Hlists runningVThreads)|].
  split; [exact Htls2|]. split; [exact Hall|].
  split.
  - rewrite Htr. cbn [trace with_events set_trace node_update w1 w0].
    rewrite <- !app_assoc. reflexivity.
  - repeat (apply Forall_app; split); try exact Hev; try exact Hev4;
      by repeat constructor.
Qed.

(** X20.  Suspending and resuming a platform thread that has not started.
    The runtime reports the thread as not alive: reading its slot and
    suspending it both answer [THREAD_NOT_ALIVE].  The thread has no node
    and no slot (no VM-wide suspend in force, assertions off,
    [otherThreads] empty).  [threadControl_suspendThread] calls
    [SuspendThread] in vain and answers success: it leaves a new node on
    [otherThreads] with [suspendCount] 1 and [suspendOnStart].
    [threadControl_resumeThread] then finds that node by the scan of
    [otherThreads], answers success without calling the runtime to resume,
    and sweeps the node: heap, lists, slots and [suspendAllCount] are as
    they were before the suspend. *)
Theorem early_suspend_resume (t : jthread) (b : bag) (do_unblock : bool)
    (w : World) :
  not_alive vm t ->
  slot_clearable vm ->
  tls w !! t = None ->
  assertOn (gdata w) = false ->
  jvmtiCallBacksCleared (gdata w) = false ->
  otherThreads_nodes w = [] ->
  node_available vm b ->
  (forall tr, rt_NewGlobalRef vm tr t = true) ->
  rt_isVThread vm t = false ->
  t <> NULL ->
  is_debug w t = false ->
  suspendAllCount w = 0 ->
  exists w1 w2 events,
    threadControl_suspendThread vm t false w = Ok JVMTI_ERROR_NONE w1 /\
    heap w1 = <[fresh (dom (heap w)) := pending_node t b]> (heap w) /\
    otherThreads_nodes w1 = [fresh (dom (heap w))] /\
    threadControl_resumeThread vm t do_unblock w1 = Ok JVMTI_ERROR_NONE w2 /\
    heap w2 = heap w /\
    (forall l, list_nodes l w2 = list_nodes l w) /\
    tls w2 = tls w /\
    suspendAllCount w2 = suspendAllCount w /\
    trace w2 = trace w ++ events /\
    filter (fun e => acts_on_thread e = true) events = [EvSuspendThread t].
Proof.
  intros Hslot Hclear Ht Ha Hc Hother Hav Href Hv Hnull Hdbg Hall.
  pose proof (suspendThread_early t b w Hslot Ha Hc Hother Hav Href Hv Hnull
                Hdbg Hall) as Hrun1.
  set (p := fresh (dom (heap w))) in *.
  match type of Hrun1 with _ = Ok _ ?W1 => set (w1 := W1) in * end.
  assert (Hfresh : heap w !! p = None).
  { apply not_elem_of_dom. apply is_fresh. }
  destruct (resumeThread_early t b do_unblock p w1 Hslot Hclear Ht Ha Hc)
    as (w2 & events & Hrun2 & Hheap & Ho & Hr & Hvt & Htls & Hcount & Htr & Hev).
  { reflexivity. }
  { apply lookup_insert_eq. }
  exists w1, w2. eexists.
  split; [exact Hrun1|]. split; [reflexivity|]. split; [reflexivity|].
  split; [exact Hrun2|].
  split.
  { rewrite Hheap. cbn [heap w1 with_events set_trace set_list_nodes set_heap].
    rewrite delete_insert_eq. by apply delete_id. }
  split.
  { intros []; cbn [list_nodes]; [exact Hr | by rewrite Ho, Hother | exact Hvt]. }
  split; [exact Htls|]. split; [exact Hcount|].
  split.
  { rewrite Htr. cbn [trace w1 with_events set_trace set_list_nodes set_heap].
    rewrite <- app_assoc. reflexivity. }
  rewrite filter_app, (quiet_filter events Hev), app_nil_r. reflexivity.
Qed.

End Early.

(** ** The results of a list suspend *)

Lemma nodes_and_calls_heap (w w' : World) :
  w' = set_heap (heap w') w -> nodes_and_calls w w'.
Proof. intros H. unfold nodes_and_calls. rewrite H. by destruct w. Qed.

Lemma nodes_and_calls_events (events : list Event) (w : World) :
  nodes_and_calls w (with_events events w).
Proof. unfold nodes_and_calls. by destruct w. Qed.

Lemma nodes_and_calls_trans (w1 w2 w3 : World) :
  nodes_and_calls w1 w2 -> nodes_and_calls w2 w3 -> nodes_and_calls w1 w3.
Proof.
  unfold nodes_and_calls. intros H1 H2. rewrite H2.
  cbn [trace heap set_trace set_heap]. rewrite H1. by destruct w1.
Qed.

Section ListSuspend.

Context (vm : Runtime).

(** What the loop does with one result. *)
Lemma list_suspend_step (e : jvmtiError) (p : NodeId) (n : ThreadNode) (w : World) :
  heap w !! p = Some n ->
  (result ← (if is_NONE e then
               modify_node p (set_toBeResumed true);;
               ret e
             else if is_THREAD_SUSPENDED e then ret JVMTI_ERROR_NONE
             else if is_THREAD_NOT_ALIVE e then
               modify_node p (set_suspendOnStart true);;
               ret JVMTI_ERROR_NONE
             else ret e);
   if is_NONE result then incr_suspendCount p else skip) w
  = Ok tt (set_heap (<[p := after_list_suspend e n]> (heap w)) w).
Proof.
  intros Hn. unfold after_list_suspend, incr_suspendCount, modify_node, read_node,
    modify_world, skip, ret, bind.
  destruct (is_NONE e) eqn:He.
  - rewrite Hn, He. cbn [heap set_heap]. repeat (progress (cbv beta iota; cbn [heap set_heap]; rewrite ?lookup_insert_eq)).
    rewrite insert_insert_eq. reflexivity.
  - destruct (is_THREAD_SUSPENDED e) eqn:Hs.
    + repeat (progress (cbv beta iota; cbn [heap set_heap is_NONE]; rewrite ?Hn)).
      reflexivity.
    + destruct (is_THREAD_NOT_ALIVE e) eqn:Ha.
      * rewrite Hn.
        repeat (progress (cbv beta iota; cbn [heap set_heap is_NONE];
                          rewrite ?lookup_insert_eq)).
        rewrite insert_insert_eq. reflexivity.
      * rewrite He. by rewrite set_heap_same.
Qed.

Lemma commonSuspendList_loop_ok (reqList : list jthread)
    (results : list jvmtiError) (i : nat) (w : World) :
  (forall t, t ∈ reqList -> slot_read vm t) ->
  NoDup reqList ->
  slots_set w reqList ->
  exists w',
    commonSuspendList_loop vm reqList results i w = Ok tt w' /\
    w' = set_heap (heap w') w /\
    (forall k t p n, reqList !! k = Some t -> tls w !! t = Some p ->
       heap w !! p = Some n ->
       heap w' !! p = Some (after_list_suspend (result_at results (i + k)) n)) /\
    (forall q, (forall t, t ∈ reqList -> tls w !! t <> Some q) ->
       heap w' !! q = heap w !! q).
Proof.
  revert i w. induction reqList as [|t rest IH]; intros i w Hread Hdup [Hset Hinj].
  - exists w. split; [done|]. split; [by destruct w|]. split; [|done].
    intros k t p n Hk. by rewrite lookup_nil in Hk.
  - apply NoDup_cons in Hdup as [Hnotin Hdup].
    destruct (Hset t) as (p & Htp & n & Hn); [left|].
    cbn [commonSuspendList_loop].
    rewrite (bind_ok _ _ _ _ _
               (findThread_slot vm None t p n w (Hread t (list_elem_of_here _ _) _)
                  Htp Hn)).
    cbv beta iota.
    rewrite <- bind_assoc.
    rewrite (bind_ok _ _ _ _ _ (list_suspend_step (result_at results i) p n w Hn)).
    set (w1 := set_heap (<[p := after_list_suspend (result_at results i) n]> (heap w)) w).
    assert (Hother : forall t', t' ∈ rest -> tls w !! t' <> Some p).
    { intros t' Hin Ht'. assert (t' = t) as ->; [|done].
      apply (Hinj t' t p); [by right|left|done|done]. }
    destruct (IH (S i) w1) as (w' & Hrun & Hw' & Hnodes & Hrest).
    { intros t' Hin. apply Hread. by right. }
    { exact Hdup. }
    { split.
      - intros t' Hin. destruct (Hset t') as (p' & Htp' & Hp'); [by right|].
        exists p'. split; [exact Htp'|]. cbn [heap w1 set_heap].
        rewrite lookup_insert_ne; [done|]. intros <-. by apply (Hother t').
      - intros a a' q Ha Ha'. apply Hinj; by right. }
    exists w'. split; [exact Hrun|]. split; [by rewrite Hw'|]. split.
    + intros [|k] t' p' n' Hk Htp' Hn'.
      * injection Hk as <-. rewrite Htp in Htp'. injection Htp' as <-.
        rewrite Hn in Hn'. injection Hn' as <-.
        rewrite Hrest by (intros t' Hin; by apply Hother).
        rewrite Nat.add_0_r. apply lookup_insert_eq.
      * cbn in Hk. replace (i + S k)%nat with (S i + k)%nat by lia.
        apply (Hnodes k t' p' n' Hk Htp').
        cbn [heap w1 set_heap]. rewrite lookup_insert_ne; [done|].
        intros <-. apply (Hother t'); [|done]. by apply list_elem_of_lookup_2 in Hk.
    + intros q Hq. rewrite Hrest.
      * cbn [heap w1 set_heap]. rewrite lookup_insert_ne; [done|].
        intros <-. by apply (Hq t); [left|].
      * intros t' Hin. apply Hq. by right.
Qed.

Lemma slot_node_Some (w : World) (t : jthread) (p : NodeId) (n : ThreadNode) :
  tls w !! t = Some p -> heap w !! p = Some n -> slot_node w t = n.
Proof. intros Ht Hn. unfold slot_node. rewrite Ht. by apply node_at_Some. Qed.

(** One round of the first pass. *)
Lemma commonSuspendList_scan_step (t : jthread) (rest : list jthread)
    (req : ListPtr) (p : NodeId) (n : ThreadNode) (w : World) :
  slot_read vm t ->
  tls w !! t = Some p ->
  heap w !! p = Some n ->
  is_on n runningThreads = true ->
  commonSuspendList_scan vm (t :: rest) req w
  = commonSuspendList_scan vm rest
      (if to_request n then store_thread t req else req)
      (set_heap (<[p := scanned n]> (heap w)) w).
Proof.
  intros Hslot Ht Hn Hon. cbn [commonSuspendList_scan].
  rewrite (bind_ok _ _ _ _ _
             (findThread_slot vm (Some runningThreads) t p n w (Hslot _) Ht Hn)).
  rewrite Hon. unfold ret at 1. unfold bind at 1.
  rewrite (bind_ok _ _ _ _ _ (read_node_ok _ _ _ Hn)).
  unfold to_request, scanned.
  destruct (isDebugThread n); cbn [negb andb].
  { by rewrite set_heap_same. }
  destruct (suspendOnStart n || (0 <? suspendCount n)); cbn [negb andb].
  { by rewrite (bind_ok _ _ _ _ _ (incr_suspendCount_ok _ _ _ Hn)). }
  rewrite set_heap_same by done. by destruct (suspendCount n =? 0).
Qed.

Lemma commonSuspendList_scan_ok (initList : list jthread) (req : ListPtr)
    (w : World) :
  (forall t, t ∈ initList -> slot_read vm t) ->
  NoDup initList ->
  slots_set w initList ->
  (forall t, t ∈ initList -> is_on (slot_node w t) runningThreads = true) ->
  exists w',
    commonSuspendList_scan vm initList req w
    = Ok (foldl (fun a t => store_thread t a) req (requested w initList)) w' /\
    w' = set_heap (heap w') w /\
    (forall t p n, t ∈ initList -> tls w !! t = Some p -> heap w !! p = Some n ->
       heap w' !! p = Some (scanned n)) /\
    (forall q, (forall t, t ∈ initList -> tls w !! t <> Some q) ->
       heap w' !! q = heap w !! q).
Proof.
  revert req w. induction initList as [|t rest IH]; intros req w Hread Hdup [Hset Hinj] Hon.
  - exists w. split; [done|]. split; [by destruct w|]. split; [|done].
    intros t p n Hin. by apply elem_of_nil in Hin.
  - apply NoDup_cons in Hdup as [Hnotin Hdup].
    destruct (Hset t) as (p & Htp & n & Hn); [left|].
    assert (Hnode : slot_node w t = n) by (by apply (slot_node_Some w t p)).
    assert (Hon' : is_on n runningThreads = true)
      by (rewrite <- Hnode; apply Hon; left).
    rewrite (commonSuspendList_scan_step t rest req p n w
               (Hread t (list_elem_of_here _ _)) Htp Hn Hon').
    set (w1 := set_heap (<[p := scanned n]> (heap w)) w).
    assert (Hother : forall t', t' ∈ rest -> tls w !! t' <> Some p).
    { intros t' Hin Ht'. assert (t' = t) as ->; [|done].
      apply (Hinj t' t p); [by right|left|done|done]. }
    assert (Hsame : forall t', t' ∈ rest -> slot_node w1 t' = slot_node w t').
    { intros t' Hin. unfold slot_node. change (tls w1) with (tls w).
      destruct (tls w !! t') as [p'|] eqn:Ht'; [|done].
      apply node_at_insert_ne. intros <-. by apply (Hother t'). }
    destruct (IH (if to_request n then store_thread t req else req) w1)
      as (w' & Hrun & Hw' & Hnodes & Hrest).
    { intros t' Hin. apply Hread. by right. }
    { exact Hdup. }
    { split.
      - intros t' Hin. destruct (Hset t') as (p' & Htp' & Hp'); [by right|].
        exists p'. split; [exact Htp'|]. cbn [heap w1 set_heap].
        rewrite lookup_insert_ne; [done|]. intros <-. by apply (Hother t').
      - intros a a' q Ha Ha'. apply Hinj; by right. }
    { intros t' Hin. rewrite Hsame by done. apply Hon. by right. }
    exists w'. split.
    { rewrite Hrun. f_equal.
      assert (Hreq : requested w1 rest = requested w rest).
      { apply filter_agree. intros t' Hin. by rewrite Hsame. }
      rewrite Hreq. unfold requested at 2. rewrite filter_cons. rewrite Hnode.
      destruct (to_request n).
      - by rewrite decide_True.
      - by rewrite decide_False. }
    split; [by rewrite Hw'|]. split.
    + intros t' p' n' Hin Htp' Hn'. apply elem_of_cons in Hin as [->|Hin].
      * rewrite Htp in Htp'. injection Htp' as <-.
        rewrite Hn in Hn'. injection Hn' as <-.
        rewrite Hrest by (intros t' Hin; by apply Hother).
        apply lookup_insert_eq.
      * apply (Hnodes t' p' n' Hin Htp').
        cbn [heap w1 set_heap]. rewrite lookup_insert_ne; [done|].
        intros <-. by apply (Hother t').
    + intros q Hq. rewrite Hrest.
      * cbn [heap w1 set_heap]. rewrite lookup_insert_ne; [done|].
        intros <-. by apply (Hq t); [left|].
      * intros t' Hin. apply Hq. by right.
Qed.

Lemma to_request_scanned (n : ThreadNode) :
  to_request n = true -> scanned n = n.
Proof.
  unfold to_request, scanned.
  destruct (isDebugThread n); [done|].
  by destruct (suspendOnStart n || (0 <? suspendCount n)).
Qed.

Lemma requested_elem (w : World) (ts : list jthread) (t : jthread) :
  t ∈ requested w ts <-> to_request (slot_node w t) = true /\ t ∈ ts.
Proof. unfold requested. by rewrite list_elem_of_filter. Qed.

(** X21.  [commonSuspendList] on threads that are all known and running
    (distinct threads, each with its running node in its slot), when the
    arrays can be allocated.  Debug threads are skipped; a thread that is
    suspended already or waits for a deferred suspend only has its count
    raised.  The threads with count 0 are suspended with one call of
    [SuspendThreadList], in the order of the list, and no call is made
    when there is none; the status of that call is returned.  Each of
    these nodes is then updated by its own result: success sets
    [toBeResumed] and counts the suspend, [THREAD_SUSPENDED] counts it
    without [toBeResumed], [THREAD_NOT_ALIVE] sets [suspendOnStart] and
    counts it, any other error leaves the node as it was.  Nothing else
    changes. *)
Theorem commonSuspendList_one_call (initList : list jthread) (w : World) :
  (forall t, t ∈ initList -> slot_read vm t) ->
  NoDup initList ->
  slots_set w initList ->
  (forall t, t ∈ initList -> is_on (slot_node w t) runningThreads = true) ->
  arrays_available vm ->
  let req := requested w initList in
  let answer := rt_SuspendThreadList vm (trace w) req in
  exists w',
    commonSuspendList vm initList w
    = Ok (match req with [] => JVMTI_ERROR_NONE | _ => fst answer end) w' /\
    nodes_and_calls w w' /\
    trace w' = trace w
               ++ match req with [] => [] | _ => [EvSuspendThreadList req] end
               ++ [EvMonitorNotifyAll threadLock] /\
    (forall t p n, t ∈ initList -> tls w !! t = Some p -> heap w !! p = Some n ->
       to_request n = false -> heap w' !! p = Some (scanned n)) /\
    (forall k t p n, req !! k = Some t -> tls w !! t = Some p ->
       heap w !! p = Some n ->
       heap w' !! p = Some (after_list_suspend (result_at (snd answer) k) n)) /\
    (forall q, (forall t, t ∈ initList -> tls w !! t <> Some q) ->
       heap w' !! q = heap w !! q).
Proof.
  intros Hread Hdup Hset Hon Halloc req answer.
  assert (Hreqdef : req = requested w initList) by reflexivity.
  assert (Hansdef : answer = rt_SuspendThreadList vm (trace w) req) by reflexivity.
  clearbody answer. clearbody req.
  destruct (commonSuspendList_scan_ok initList
              (replicate (length initList) NULL, 0%nat) w Hread Hdup Hset Hon)
    as (w1 & Hscan & Hw1 & Hnodes1 & Hrest1).
  rewrite <- Hreqdef in Hscan.
  assert (Hlen : (length req <= length initList)%nat)
    by (rewrite Hreqdef; apply length_filter).
  pose proof (store_threads [] req (length initList) Hlen) as Hstore.
  cbn [app length Nat.add] in Hstore.
  assert (Hscan' : commonSuspendList_scan vm initList
                     (replicate (length initList) NULL, 0%nat) w
                   = Ok (req ++ replicate (length initList - length req) NULL,
                         length req) w1).
  { rewrite Hscan. f_equal. exact Hstore. }
  clear Hscan Hstore.
  assert (Htls1 : tls w1 = tls w) by (by rewrite Hw1).
  assert (Htrace1 : trace w1 = trace w) by (by rewrite Hw1).
  unfold commonSuspendList.
  rewrite (bind_ok _ _ _ _ _ (newArray_ok vm _ _ NULL w (Halloc _ _))).
  rewrite Nat2Z.id.
  rewrite (bind_ok _ _ _ _ _ Hscan'). cbv beta iota.
  destruct req as [|t0 req0] eqn:Hreq.
  - (* nothing to suspend *)
    cbn [length Nat.ltb Nat.leb].
    erewrite bind_ok by reflexivity.
    unfold debugMonitorNotifyAll.
    rewrite (bind_ok _ _ _ _ _ (emit_ok _ _)).
    eexists. split; [reflexivity|].
    split.
    { eapply nodes_and_calls_trans; [by apply nodes_and_calls_heap|].
      apply nodes_and_calls_events. }
    cbn [heap trace with_events set_trace]. rewrite Htrace1.
    split; [done|].
    split; [intros t p n Hin Htp Hn _; by apply (Hnodes1 t p n)|].
    split; [intros k t p n Hk; by rewrite lookup_nil in Hk|].
    exact Hrest1.
  - (* one call for the request list *)
    rewrite <- Hreq in *.
    assert (Hpos : (0 <? length req)%nat = true)
      by (rewrite Hreq; reflexivity).
    rewrite Hpos. rewrite ?bind_assoc.
    rewrite (bind_ok _ _ _ _ _
               (newArray_ok vm _ _ JVMTI_ERROR_NONE w1 (Halloc _ _))).
    cbv beta iota. rewrite ?bind_assoc.
    assert (Hcall : JVMTI_SuspendThreadList vm
                      (take (length req)
                         (req ++ replicate (length initList - length req) NULL)) w1
                    = Ok answer (with_events [EvSuspendThreadList req] w1)).
    { rewrite take_app_length. unfold JVMTI_SuspendThreadList, get_world, emit,
        modify_world, bind, ret, with_events. by rewrite Htrace1, <- Hansdef. }
    rewrite (bind_ok _ _ _ _ _ Hcall).
    destruct answer as [error results]. cbn [fst snd]. cbv beta iota.
    set (w2 := with_events [EvSuspendThreadList req] w1).
    assert (Hsub : forall t, t ∈ req -> t ∈ initList).
    { intros t Hin. rewrite Hreqdef in Hin.
      by apply requested_elem in Hin as [_ Hin]. }
    assert (Hheap2 : forall t p n, t ∈ initList -> tls w !! t = Some p ->
              heap w !! p = Some n -> heap w2 !! p = Some (scanned n))
      by exact Hnodes1.
    destruct (commonSuspendList_loop_ok req results 0 w2) as (w3 & Hloop & Hw3 & Hnodes3 & Hrest3).
    { intros t Hin. by apply Hread, Hsub. }
    { rewrite Hreqdef. by apply NoDup_filter. }
    { destruct Hset as [Hset Hinj]. split.
      - intros t Hin. destruct (Hset t (Hsub t Hin)) as (p & Htp & n & Hn).
        exists p. split; [by rewrite <- Htls1 in Htp|].
        exists (scanned n). by apply (Hheap2 t p n (Hsub t Hin)).
      - intros a a' q Ha Ha' Hq Hq'.
        apply (Hinj a a' q); [by apply Hsub|by apply Hsub| |];
          by rewrite <- Htls1. }
    rewrite ?bind_assoc. rewrite take_app_length.
    rewrite (bind_ok _ _ _ _ _ Hloop).
    erewrite bind_ok by reflexivity.
    unfold debugMonitorNotifyAll.
    rewrite (bind_ok _ _ _ _ _ (emit_ok _ _)).
    eexists. split; [rewrite Hreq; reflexivity|].
    split.
    { eapply nodes_and_calls_trans; [by apply nodes_and_calls_heap|].
      eapply nodes_and_calls_trans; [apply nodes_and_calls_events|].
      eapply nodes_and_calls_trans; [by apply nodes_and_calls_heap|].
      apply nodes_and_calls_events. }
    cbn [heap trace with_events set_trace].
    assert (Htrace3 : trace w3 = trace w ++ [EvSuspendThreadList req]).
    { rewrite Hw3. cbn [trace set_heap w2 with_events set_trace]. by rewrite Htrace1. }
    split; [rewrite Htrace3, Hreq, <- app_assoc; reflexivity|].
    destruct Hset as [Hset Hinj]. split; [|split].
    + intros t p n Hin Htp Hn Hno.
      rewrite Hrest3; [by apply (Hheap2 t p n)|].
      intros t' Hin' Htp'. change (tls w2) with (tls w1) in Htp'.
      rewrite Htls1 in Htp'.
      assert (t' = t) as -> by (apply (Hinj t' t p); auto).
      rewrite Hreqdef in Hin'. apply requested_elem in Hin' as [Hyes _].
      rewrite (slot_node_Some w t p n Htp Hn) in Hyes. congruence.
    + intros k t p n Hk Htp Hn.
      assert (Hin : t ∈ req) by (by apply list_elem_of_lookup_2 in Hk).
      pose proof Hin as Hyes. rewrite Hreqdef in Hyes.
      apply requested_elem in Hyes as [Hyes _].
      rewrite (slot_node_Some w t p n Htp Hn) in Hyes.
      assert (H3 : heap w3 !! p
                   = Some (after_list_suspend (result_at results (0 + k)) (scanned n))).
      { apply (Hnodes3 k t p (scanned n) Hk).
        - change (tls w2) with (tls w1). by rewrite Htls1.
        - by apply (Hheap2 t p n (Hsub t Hin)). }
      by rewrite (to_request_scanned n Hyes) in H3.
    + intros q Hq. rewrite Hrest3.
      * by apply Hrest1.
      * intros t Hin. change (tls w2) with (tls w1). rewrite Htls1.
        by apply Hq, Hsub.
Qed.

End ListSuspend.

(** ** The pop-frame flags and the status of a thread *)

Section Flags.

Context (vm : Runtime).
Context (map2jdwpThreadStatus map2jdwpSuspendStatus : Z -> Z).
Context (JDWP_THREAD_STATUS_RUNNING : Z).

(** A step that looks the thread up under the lock and finds the node in
    its slot. *)
Ltac slot_step Hslot Ht Hn :=
  unfold debugMonitorEnter, debugMonitorExit;
  rewrite ?bind_assoc;
  rewrite (bind_ok _ _ _ _ _ (emit_ok _ _));
  rewrite ?bind_assoc;
  erewrite bind_ok
    by (eapply (findThread_slot vm None); [apply Hslot | exact Ht | exact Hn]);
  cbv beta iota.

(** X22.  The three pop-frame flags of a thread.  For a thread whose slot
    holds a node, each flag reads back the value that was set and the
    other fields of the node stay, except that setting [popFrameEvent] also
    raises [frameGeneration] by one.  For a thread that has no node, every
    setter and the getters of [popFrameEvent] and [popFrameProceed] end in
    the fatal exit with [AGENT_ERROR_NULL_POINTER], while
    [getPopFrameThread] answers false. *)
Theorem popFrame_flags (t : jthread) (value : bool) (w : World) :
  slot_read vm t ->
  (forall p n, tls w !! t = Some p -> heap w !! p = Some n ->
     (setPopFrameEvent vm t value;; getPopFrameEvent vm t) w
     = Ok value
         (node_update p
            (set_frameGeneration (jlong_inc (frameGeneration n))
               (set_popFrameEvent value n))
            [EvMonitorEnter threadLock; EvMonitorExit threadLock;
             EvMonitorEnter threadLock; EvMonitorExit threadLock] w) /\
     (setPopFrameProceed vm t value;; getPopFrameProceed vm t) w
     = Ok value
         (node_update p (set_popFrameProceed value n)
            [EvMonitorEnter threadLock; EvMonitorExit threadLock;
             EvMonitorEnter threadLock; EvMonitorExit threadLock] w) /\
     (setPopFrameThread vm t value;; getPopFrameThread vm t) w
     = Ok value
         (node_update p (set_popFrameThread value n)
            [EvMonitorEnter threadLock; EvMonitorExit threadLock;
             EvMonitorEnter threadLock; EvMonitorExit threadLock] w)) /\
  (tls w !! t = None ->
   assertOn (gdata w) = false ->
   jvmtiCallBacksCleared (gdata w) = false ->
   otherThreads_nodes w = [] ->
   let w1 := with_events [EvMonitorEnter threadLock] w in
   setPopFrameEvent vm t value w
   = Fatal (ExitError AGENT_ERROR_NULL_POINTER 1851) w1 /\
   getPopFrameEvent vm t w = Fatal (ExitError AGENT_ERROR_NULL_POINTER 1832) w1 /\
   setPopFrameProceed vm t value w
   = Fatal (ExitError AGENT_ERROR_NULL_POINTER 1891) w1 /\
   getPopFrameProceed vm t w = Fatal (ExitError AGENT_ERROR_NULL_POINTER 1872) w1 /\
   setPopFrameThread vm t value w
   = Fatal (ExitError AGENT_ERROR_NULL_POINTER 1812) w1 /\
   getPopFrameThread vm t w
   = Ok false (with_events [EvMonitorEnter threadLock; EvMonitorExit threadLock] w)).
Proof.
  intros Hslot. split.
  - intros p n Ht Hn. split; [|split].
    + unfold setPopFrameEvent, getPopFrameEvent.
      slot_step Hslot Ht Hn. rewrite ?bind_assoc.
      erewrite bind_ok by (apply modify_node_ok; exact Hn).
      rewrite ?bind_assoc.
      erewrite bind_ok
        by (apply incr_frameGeneration_ok; cbn [heap set_heap]; apply lookup_insert_eq).
      rewrite ?bind_assoc. rewrite (bind_ok _ _ _ _ _ (emit_ok _ _)).
      rewrite ?bind_assoc. rewrite (bind_ok _ _ _ _ _ (emit_ok _ _)).
      rewrite ?bind_assoc.
      erewrite bind_ok by (eapply (findThread_slot vm None); [apply Hslot | exact Ht
                           | cbn [heap set_heap with_events set_trace];
                             apply lookup_insert_eq]).
      cbv beta iota. rewrite ?bind_assoc.
      erewrite bind_ok
        by (apply read_node_ok; cbn [heap set_heap with_events set_trace];
            apply lookup_insert_eq).
      unfold bind, ret, emit, modify_world. f_equal; try (by destruct n).
      unfold node_update, with_events. destruct w; cbn.
      rewrite !insert_insert_eq, <- !app_assoc. reflexivity.
    + unfold setPopFrameProceed, getPopFrameProceed.
      slot_step Hslot Ht Hn. rewrite ?bind_assoc.
      erewrite bind_ok by (apply modify_node_ok; exact Hn).
      rewrite ?bind_assoc. rewrite (bind_ok _ _ _ _ _ (emit_ok _ _)).
      rewrite ?bind_assoc. rewrite (bind_ok _ _ _ _ _ (emit_ok _ _)).
      rewrite ?bind_assoc.
      erewrite bind_ok by (eapply (findThread_slot vm None); [apply Hslot | exact Ht
                           | cbn [heap set_heap with_events set_trace];
                             apply lookup_insert_eq]).
      cbv beta iota. rewrite ?bind_assoc.
      erewrite bind_ok
        by (apply read_node_ok; cbn [heap set_heap with_events set_trace];
            apply lookup_insert_eq).
      unfold bind, ret, emit, modify_world. f_equal; try (by destruct n).
      unfold node_update, with_events. destruct w; cbn.
      rewrite <- !app_assoc. reflexivity.
    + unfold setPopFrameThread, getPopFrameThread.
      slot_step Hslot Ht Hn. rewrite ?bind_assoc.
      erewrite bind_ok by (apply modify_node_ok; exact Hn).
      rewrite ?bind_assoc. rewrite (bind_ok _ _ _ _ _ (emit_ok _ _)).
      rewrite ?bind_assoc. rewrite (bind_ok _ _ _ _ _ (emit_ok _ _)).
      rewrite ?bind_assoc.
      erewrite bind_ok by (eapply (findThread_slot vm None); [apply Hslot | exact Ht
                           | cbn [heap set_heap with_events set_trace];
                             apply lookup_insert_eq]).
      cbv beta iota. rewrite ?bind_assoc.
      erewrite bind_ok
        by (apply read_node_ok; cbn [heap set_heap with_events set_trace];
            apply lookup_insert_eq).
      unfold bind, ret, emit, modify_world. f_equal; try (by destruct n).
      unfold node_update, with_events. destruct w; cbn.
      rewrite <- !app_assoc. reflexivity.
  - intros Ht Ha Hc Hother w1.
    assert (Hfind : findThread vm None t w1 = Ok None w1)
      by (apply findThread_none; first [apply Hslot | done]).
    unfold setPopFrameEvent, getPopFrameEvent, setPopFrameProceed,
      getPopFrameProceed, setPopFrameThread, getPopFrameThread,
      debugMonitorEnter, debugMonitorExit.
    repeat split;
      rewrite ?bind_assoc, (bind_ok _ _ _ _ _ (emit_ok _ _));
      fold w1; rewrite (bind_ok _ _ _ _ _ Hfind); try reflexivity.
    unfold bind, ret, emit, modify_world. f_equal. unfold w1. destruct w. trace_eq.
Qed.

(** X23.  The status of an application thread.  When the runtime gives
    the state of the thread, [threadControl_applicationThreadStatus]
    reports the suspend flags of that state, and the status of that state
    unless the running node of the thread is handling an event: then it
    reports the thread as running.  When the runtime gives an error, the
    error is returned and no node is looked up. *)
Theorem applicationThreadStatus_in_handler (t : jthread) (p : NodeId)
    (n : ThreadNode) (w : World) :
  slot_read vm t ->
  tls w !! t = Some p ->
  heap w !! p = Some n ->
  let r := rt_GetThreadState vm (trace w ++ [EvMonitorEnter threadLock]) t in
  threadControl_applicationThreadStatus vm map2jdwpThreadStatus
    map2jdwpSuspendStatus JDWP_THREAD_STATUS_RUNNING t w
  = Ok (fst r,
        if is_NONE (fst r) && is_on n (running_list vm t) && HANDLING_EVENT n
        then JDWP_THREAD_STATUS_RUNNING
        else map2jdwpThreadStatus (snd r),
        map2jdwpSuspendStatus (snd r))
       (with_events [EvMonitorEnter threadLock; EvMonitorExit threadLock] w).
Proof.
  intros Hslot Ht Hn r.
  unfold threadControl_applicationThreadStatus, debugMonitorEnter, debugMonitorExit.
  rewrite (bind_ok _ _ _ _ _ (emit_ok _ _)).
  unfold threadState at 1. unfold get_world at 1. rewrite bind_assoc.
  unfold bind at 1. unfold ret at 1. unfold bind at 1.
  cbn [trace with_events set_trace]. fold r. destruct r as [error state].
  cbn [fst snd]. destruct (is_NONE error); cbn [andb].
  - unfold findRunningThread, running_list, isVThread.
    assert (Hfind : forall l w1, tls w1 = tls w -> heap w1 = heap w ->
              findThread vm (Some l) t w1
              = Ok (if is_on n l then Some p else None) w1).
    { intros l w1 Ht1 Hn1.
      apply (findThread_slot vm (Some l) t p n w1);
        [apply Hslot | by rewrite Ht1 | by rewrite Hn1]. }
    destruct (rt_isVThread vm t);
      rewrite bind_assoc;
      (erewrite bind_ok by (apply Hfind; reflexivity));
      (destruct (is_on n _); cbn [andb];
       [ rewrite bind_assoc;
         (erewrite bind_ok by (apply read_node_ok; exact Hn));
         destruct (HANDLING_EVENT n)
       | ]);
      unfold bind, ret, emit, modify_world; f_equal; destruct w; trace_eq.
  - unfold bind, ret, emit, modify_world. f_equal. destruct w. trace_eq.
Qed.

End Flags.

(** ** Start-up *)

Section Hook.

Context (vm : Runtime).

(** [insertThread] makes a node on [runningThreads] for a thread that has
    none, while no VM-wide suspend is in force. *)
Lemma insertThread_running_new (t : jthread) (b : bag) (w : World) :
  rt_GetThreadLocalStorage vm (trace w) t = JVMTI_ERROR_NONE ->
  tls w !! t = None ->
  assertOn (gdata w) = false ->
  jvmtiCallBacksCleared (gdata w) = false ->
  otherThreads_nodes w = [] ->
  node_available vm b ->
  rt_NewGlobalRef vm (trace w) t = true ->
  slot_settable vm t ->
  t <> NULL ->
  is_debug w t = false ->
  suspendAllCount w = 0 ->
  insertThread vm runningThreads t w
  = Ok (fresh (dom (heap w)))
       (set_tls (<[t := fresh (dom (heap w))]> (tls w))
          (with_events [EvMonitorEnter threadLock; EvMonitorExit threadLock;
                        EvSetThreadLocalStorage t (Some (fresh (dom (heap w))))]
             (set_list_nodes runningThreads
                (fresh (dom (heap w)) :: runningThreads_nodes w)
                (set_heap
                   (<[fresh (dom (heap w))
                      := set_node_list (Some runningThreads)
                           (set_eventBag b (set_thread t zero_node))]> (heap w))
                   w)))).
Proof.
  intros He Ht Ha Hc Hother [Halloc Hbag] Href Hset Hnull Hdbg Hall.
  unfold insertThread.
  rewrite (bind_ok _ _ _ _ _ (findThread_none vm _ t w He Ht Ha Hc Hother)).
  cbv beta iota.
  set (p := fresh (dom (heap w))).
  unfold jvmtiAllocate, saveGlobalRef, threadControl_isDebugThread, addNode,
    setThreadLocalStorage,
    modify_node, read_node, debugMonitorEnter, debugMonitorExit, emit,
    modify_world, get_world, skip, ret, bind.
  cbn [trace heap gdata debugThreads suspendAllCount set_heap set_trace
       set_list_nodes].
  rewrite Halloc. cbn [negb]. rewrite Hbag.
  cbn [trace heap gdata debugThreads suspendAllCount set_heap set_trace
       set_list_nodes].
  rewrite Href. fold p.
  assert (Hnull' : isSameObject t NULL = false) by (by apply Z.eqb_neq).
  unfold is_debug in Hdbg.
  repeat (progress
            (cbv beta iota;
             cbn [trace heap gdata tls debugThreads suspendAllCount set_heap
                  set_trace set_tls set_list_nodes list_nodes
                  runningThreads_nodes ThreadList_eqb negb andb
                  thread set_node_list set_eventBag set_thread
                  set_instructionStepMode set_is_vthread set_current_ei zero_node
                  is_NONE is_THREAD_NOT_ALIVE Z.ltb Z.compare];
             rewrite ?lookup_insert_eq, ?Hnull', ?Hdbg, ?Hall, ?insert_insert_eq,
               ?Hset)).
  f_equal. unfold with_events.
  cbn [heap trace tls set_heap set_trace set_tls set_list_nodes list_nodes
       runningThreads_nodes].
  destruct w; cbn. rewrite <- !app_assoc. reflexivity.
Qed.

(** One round of the loop of [threadControl_onHook]. *)
Lemma onHook_step (b : bag) (t : jthread) (stack : list jthread) (w : World) :
  hooked b stack w ->
  t ∉ stack ->
  assertOn (gdata w) = false ->
  jvmtiCallBacksCleared (gdata w) = false ->
  node_available vm b ->
  t <> NULL -> slot_read vm t -> slot_settable vm t ->
  (forall tr, rt_NewGlobalRef vm tr t = true) ->
  exists w',
    (node ← insertThread vm runningThreads t;
     modify_node node (set_isStarted true)) w = Ok tt w' /\
    hooked b (t :: stack) w' /\
    gdata w' = gdata w.
Proof.
  intros (Hother & Hv & Hall & Hdbg & Hnodes & Hslots) Hnot Ha Hc Hav Hnull Hread
    Hset Href.
  assert (Ht : tls w !! t = None).
  { destruct (tls w !! t) eqn:E; [|done]. destruct Hnot. apply Hslots. by rewrite E. }
  assert (Hd : is_debug w t = false) by (unfold is_debug; by rewrite Hdbg).
  set (p := fresh (dom (heap w))).
  assert (Hp : heap w !! p = None).
  { apply (not_elem_of_dom (D := gset NodeId)). apply is_fresh. }
  eexists. split; [|split].
  - rewrite (bind_ok _ _ _ _ _
               (insertThread_running_new t b w (Hread _) Ht Ha Hc Hother Hav
                  (Href _) Hset Hnull Hd Hall)).
    unfold modify_node, read_node, modify_world, bind.
    cbn [heap set_tls with_events set_trace set_list_nodes set_heap].
    rewrite lookup_insert_eq. reflexivity.
  - fold p. unfold hooked.
    cbn [heap tls otherThreads_nodes runningVThreads_nodes runningThreads_nodes
         suspendAllCount debugThreads set_tls with_events set_trace
         set_list_nodes set_heap list_nodes].
    repeat split; try done.
    + constructor.
      * rewrite insert_insert_eq, !lookup_insert_eq. done.
      * eapply Forall2_impl; [exact Hnodes|].
        intros q u [Hq Hu]. rewrite insert_insert_eq.
        rewrite !lookup_insert_ne; [done| |]; congruence.
    + intros u [q Hu]. destruct (decide (u = t)) as [->|Hne]; [left|right].
      apply Hslots. rewrite lookup_insert_ne in Hu by done. by rewrite Hu.
  - reflexivity.
Qed.

(** The loop of [threadControl_onHook] pushes one node for each thread. *)
Lemma onHook_loop_ok (b : bag) (ts stack : list jthread) (w : World) :
  hooked b stack w ->
  NoDup ts ->
  (forall t, t ∈ ts -> t ∉ stack) ->
  assertOn (gdata w) = false ->
  jvmtiCallBacksCleared (gdata w) = false ->
  node_available vm b ->
  (forall t, t ∈ ts ->
     t <> NULL /\ slot_read vm t /\ slot_settable vm t /\
     forall tr, rt_NewGlobalRef vm tr t = true) ->
  exists w',
    onHook_loop vm ts w = Ok tt w' /\
    hooked b (reverse ts ++ stack) w' /\
    gdata w' = gdata w.
Proof.
  revert stack w. induction ts as [|t ts IH]; intros stack w Hw Hnd Hnew Ha Hc Hav Hts.
  - exists w. split; [done|]. split; [exact Hw|done].
  - apply NoDup_cons in Hnd as [Hhead Hnd].
    destruct (Hts t) as (Hnull & Hread & Hset & Href); [left|].
    assert (Hfirst : t ∉ stack) by (apply Hnew; left).
    destruct (onHook_step b t stack w Hw Hfirst Ha Hc Hav Hnull Hread
                Hset Href) as (w1 & Hrun1 & Hw1 & Hg1).
    destruct (IH (t :: stack) w1 Hw1 Hnd) as (w2 & Hrun2 & Hw2 & Hg2).
    + intros u Hu [->|Hin]%elem_of_cons; [done|].
      apply (Hnew u); [by right|done].
    + by rewrite Hg1.
    + by rewrite Hg1.
    + done.
    + intros u Hu. apply Hts. by right.
    + exists w2. split; [|split].
      * cbn [onHook_loop].
        rewrite <- (bind_assoc _ _ _ w).
        rewrite (bind_ok _ _ _ _ _ Hrun1). exact Hrun2.
      * rewrite reverse_cons, <- app_assoc. exact Hw2.
      * by rewrite Hg2.
Qed.

(** A hooked table is well formed. *)
Lemma hooked_lists_ok (b : bag) (ts : list jthread) (w : World) :
  hooked b ts w -> lists_ok w = true /\ slots_ok w = true.
Proof.
  intros (Hother & Hv & _ & _ & Hnodes & Hslots). split.
  - unfold lists_ok. cbn [forallb list_nodes]. rewrite Hother, Hv.
    cbn [forallb]. rewrite !andb_true_r.
    apply forallb_forall. intros p Hp%list_elem_of_In.
    destruct (proj1 (list_elem_of_lookup _ _) Hp) as [i Hi].
    destruct (Forall2_lookup_l _ _ _ _ _ Hnodes Hi) as (t & _ & Hn & _).
    unfold on_list. by rewrite Hn.
  - unfold slots_ok. apply forallb_forall.
    intros [t p] Hin%list_elem_of_In%elem_of_map_to_list.
    assert (Ht : t ∈ ts) by (apply Hslots; by exists p).
    destruct (proj1 (list_elem_of_lookup _ _) Ht) as [i Hi].
    destruct (Forall2_lookup_r _ _ _ _ _ Hnodes Hi) as (q & _ & Hn & Hq).
    assert (Hpq : Some p = Some q) by (transitivity (tls w !! t); [symmetry; exact Hin | exact Hq]).
    injection Hpq as ->.
    rewrite Hn. apply Z.eqb_refl.
Qed.

(** X24.  Start-up: [threadControl_initialize] followed by
    [threadControl_onHook], run while no thread's slot is set and the VM
    lists the distinct threads [threads] as alive, ends normally with a
    table that tracks exactly these threads.  [runningThreads] holds one
    started node per thread, the last listed thread at its head, each with
    all counts at zero and its thread's slot pointing to it; the other two
    lists are empty, no other slot is set, and the table is well formed
    ([lists_ok], [slots_ok]). *)
Theorem startup_tracks_all_threads (b : bag) (threads : list jthread) (w : World) :
  hookable vm b threads ->
  NoDup threads ->
  tls w = ∅ ->
  assertOn (gdata w) = false ->
  jvmtiCallBacksCleared (gdata w) = false ->
  exists w',
    (threadControl_initialize;; threadControl_onHook vm) w = Ok tt w' /\
    hooked b (reverse threads) w' /\
    lists_ok w' = true /\ slots_ok w' = true /\
    gdata w' = gdata w.
Proof.
  intros (Hav & Hthreads & Hts) Hnd Htls Ha Hc.
  set (w0 := with_events [EvMonitorCreate threadLock; EvMonitorEnter threadLock]
               (set_debugThreads []
                  (set_list_nodes runningVThreads []
                     (set_list_nodes otherThreads []
                        (set_list_nodes runningThreads []
                           (set_suspendAllCount 0 w)))))).
  assert (H0 : hooked b [] w0).
  { unfold hooked, w0. cbn. repeat split; try done.
    intros t [p Hp]. rewrite Htls in Hp. by rewrite lookup_empty in Hp. }
  destruct (onHook_loop_ok b threads [] w0 H0 Hnd) as (w1 & Hrun & Hw1 & Hg);
    [by intros t _ Hin%elem_of_nil|exact Ha|exact Hc|exact Hav|exact Hts|].
  rewrite app_nil_r in Hw1.
  assert (Hw' : hooked b (reverse threads) (with_events [EvMonitorExit threadLock] w1))
    by exact Hw1.
  exists (with_events [EvMonitorExit threadLock] w1).
  split; [|split; [exact Hw'|]].
  - unfold threadControl_initialize, threadControl_onHook, debugMonitorEnter,
      debugMonitorExit, emit, modify_world, get_world, bind.
    cbn [trace set_trace]. rewrite Hthreads.
    match goal with
    | |- match onHook_loop _ _ ?x with _ => _ end = _ =>
        assert (Hw0 : x = w0)
          by (unfold w0, with_events; cbn; by rewrite <- app_assoc)
    end.
    rewrite Hw0, Hrun. reflexivity.
  - destruct (hooked_lists_ok b _ _ Hw') as [Hl Hs].
    repeat split; [exact Hl|exact Hs|exact Hg].
Qed.

End Hook.

(** * Instances *)

(** C1 at the idle node of thread 1: the first suspend calls
    [SuspendThread], succeeds, and leaves the count at 1 with [toBeResumed]
    set. *)
Lemma suspendThreadByNode_cases_witness :
  heap (one_node_world (idle_node 1)) !! 0%nat = Some (idle_node 1) /\
  isDebugThread (idle_node 1) = false /\
  jint_min <= suspendCount (idle_node 1) < jint_max /\
  exists n' events,
    suspendThreadByNode (rt_ok all_alive []) 0%nat (one_node_world (idle_node 1))
    = Ok JVMTI_ERROR_NONE
         (node_update 0%nat n' events (one_node_world (idle_node 1))) /\
    primitive_calls events = [EvSuspendThread 1] /\
    suspendCount n' = 1 /\ toBeResumed n' = true /\ suspendOnStart n' = false.
Proof.
  assert (H1 : heap (one_node_world (idle_node 1)) !! 0%nat = Some (idle_node 1))
    by reflexivity.
  assert (H2 : isDebugThread (idle_node 1) = false) by reflexivity.
  assert (H3 : jint_min <= suspendCount (idle_node 1) < jint_max)
    by (split; [discriminate|reflexivity]).
  repeat (split; [assumption|]).
  destruct (suspendThreadByNode_cases (rt_ok all_alive [])
              (one_node_world (idle_node 1)) 0%nat (idle_node 1) H1 H2 H3)
    as (error & n' & events & Hrun & _ & Hzero & _).
  destruct (Hzero eq_refl eq_refl) as (Hcalls & Herr & _ & Htbr & Hsos & Hcount).
  exists n', events. rewrite Herr in Hrun.
  split; [exact Hrun|]. split; [exact Hcalls|].
  split; [exact Hcount|]. split; [exact Htbr|exact Hsos].
Defined.

(** C7 at a node that waits for its deferred suspend with count 1, when
    [SuspendThread] fails: the error is returned, the count is back at 0
    and [suspendOnStart] is cleared. *)
Lemma deferredSuspendThreadByNode_cases_witness :
  heap (one_node_world deferred_node) !! 0%nat = Some deferred_node /\
  suspendCount deferred_node <= jint_max /\
  exists n' events,
    deferredSuspendThreadByNode rt_suspend_fails 0%nat (one_node_world deferred_node)
    = Ok (JVMTI_ERROR_other 113)
         (node_update 0%nat n' events (one_node_world deferred_node)) /\
    primitive_calls events = [EvSuspendThread 1] /\
    suspendCount n' = 0 /\ suspendOnStart n' = false /\ toBeResumed n' = false.
Proof.
  assert (H1 : heap (one_node_world deferred_node) !! 0%nat = Some deferred_node)
    by reflexivity.
  assert (H2 : suspendCount deferred_node <= jint_max) by discriminate.
  repeat (split; [assumption|]).
  destruct (deferredSuspendThreadByNode_cases rt_suspend_fails
              (one_node_world deferred_node) 0%nat deferred_node H1 H2)
    as (error & n' & events & Hrun & _ & Hplain & _).
  destruct (Hplain eq_refl) as (Hsos & _ & Hpos).
  destruct (Hpos eq_refl) as (Hcalls & Herr & _ & Hfail).
  change (error = JVMTI_ERROR_other 113) in Herr.
  assert (Hne : error <> JVMTI_ERROR_NONE) by (rewrite Herr; discriminate).
  destruct (Hfail Hne) as (_ & Htbr & Hcount).
  exists n', events. rewrite Herr in Hrun.
  split; [exact Hrun|]. split; [exact Hcalls|].
  split; [exact Hcount|]. split; [exact Hsos|exact Htbr].
Defined.

(** C9 at frame number -1, the case the spec names. *)
Lemma popFrames_no_more_frames_witness :
  jint_wrap (-1 + 1) < 1 /\
  threadControl_popFrames (rt_ok all_alive []) (fun _ => ret JVMTI_ERROR_NONE)
    (fun _ _ => false) 1 (-1) (one_node_world (idle_node 1))
  = Ok AGENT_ERROR_NO_MORE_FRAMES (after_initLocks (one_node_world (idle_node 1))).
Proof.
  split; [vm_compute; reflexivity|].
  apply (popFrames_no_more_frames (rt_ok all_alive []) (fun _ => ret JVMTI_ERROR_NONE)
           (fun _ _ => false) 1 (-1) (one_node_world (idle_node 1))).
  vm_compute; reflexivity.
Defined.


(** C6 in the world after start-up: thread 1 is tracked with count 0. *)
Lemma suspendCount_query_witness :
  lists_ok hooked_world = true /\
  slots_ok hooked_world = true /\
  (forall tr, rt_GetThreadLocalStorage rt_two_threads tr 1 = JVMTI_ERROR_NONE) /\
  is_NONE JVMTI_ERROR_NONE || is_THREAD_NOT_ALIVE JVMTI_ERROR_NONE = true /\
  (forall tr, rt_GetThreadState rt_two_threads tr 1 = (JVMTI_ERROR_NONE, 5)) /\
  exists events,
    threadControl_suspendCount rt_two_threads 1 hooked_world
    = Ok (JVMTI_ERROR_NONE, 0) (with_events events hooked_world).
Proof.
  assert (H1 : lists_ok hooked_world = true) by (vm_compute; reflexivity).
  assert (H2 : slots_ok hooked_world = true) by (vm_compute; reflexivity).
  assert (H3 : forall tr, rt_GetThreadLocalStorage rt_two_threads tr 1
                          = JVMTI_ERROR_NONE) by (intros tr; reflexivity).
  assert (H4 : is_NONE JVMTI_ERROR_NONE || is_THREAD_NOT_ALIVE JVMTI_ERROR_NONE
               = true) by reflexivity.
  assert (H5 : forall tr, rt_GetThreadState rt_two_threads tr 1
                          = (JVMTI_ERROR_NONE, 5)) by (intros tr; reflexivity).
  repeat (split; [assumption|]).
  destruct (suspendCount_query rt_two_threads 1 hooked_world JVMTI_ERROR_NONE
              JVMTI_ERROR_NONE 5 H1 H2 H3 H4 H5) as [(events & _ & H) _].
  exists events. rewrite H. reflexivity.
Defined.

(** C4 as the claim words it fails for a debug thread: with
    [suspendAllCount] at 1, the node that [insertThread] creates for the
    debug thread 7 has [suspendCount] 0. *)
Lemma insertThread_debug_thread_counterexample :
  exists node n,
    insertThread rt_two_threads otherThreads 7 suspended_world
    = Ok node debug_node_world /\
    heap suspended_world !! node = None /\
    heap debug_node_world !! node = Some n /\
    0 < suspendAllCount suspended_world /\
    ~ (suspendAllCount suspended_world <= suspendCount n).
Proof.
  exists 2%nat. eexists.
  split; [vm_compute; reflexivity|].
  split; [vm_compute; reflexivity|].
  split; [vm_compute; reflexivity|].
  split; [vm_compute; reflexivity|].
  vm_compute. intros H. apply H. reflexivity.
Qed.

(** C4 as amended, at the node created for the application thread 3. *)
Lemma insertThread_initial_count_witness :
  insertThread rt_two_threads otherThreads 3 suspended_world
  = Ok 2%nat new_node_world /\
  heap suspended_world !! 2%nat = None /\
  0 < suspendAllCount suspended_world /\
  exists n, heap new_node_world !! 2%nat = Some n /\
            suspendCount n = suspendAllCount suspended_world.
Proof.
  assert (H1 : insertThread rt_two_threads otherThreads 3 suspended_world
               = Ok 2%nat new_node_world) by (vm_compute; reflexivity).
  assert (H2 : heap suspended_world !! 2%nat = None) by (vm_compute; reflexivity).
  assert (H3 : 0 < suspendAllCount suspended_world) by (vm_compute; reflexivity).
  repeat (split; [assumption|]).
  destruct (insertThread_initial_count rt_two_threads otherThreads 3
              suspended_world new_node_world 2%nat H1 H2 H3) as (n & Hn & Hc).
  exists n. split; [assumption|].
  vm_compute in Hc. destruct Hc as [_ Hc]. vm_compute. exact Hc.
Defined.

(** C8 in the world after start-up: a breakpoint at method 60, location 0
    of class 50 is saved for thread 1 and then found again. *)
Lemma cmpCLEInfo_last_save_witness :
  lists_ok hooked_world = true /\
  slots_ok hooked_world = true /\
  (forall tr, rt_GetThreadLocalStorage rt_two_threads tr 1 = JVMTI_ERROR_NONE) /\
  is_NONE JVMTI_ERROR_NONE || is_THREAD_NOT_ALIVE JVMTI_ERROR_NONE = true /\
  exists w1 events,
    threadControl_saveCLEInfo rt_two_threads 1 EI_BREAKPOINT 50 60 0 hooked_world
    = Ok tt w1 /\
    threadControl_cmpCLEInfo rt_two_threads 1 50 60 0 w1
    = Ok true (with_events events w1).
Proof.
  assert (H1 : lists_ok hooked_world = true) by (vm_compute; reflexivity).
  assert (H2 : slots_ok hooked_world = true) by (vm_compute; reflexivity).
  assert (H3 : forall tr, rt_GetThreadLocalStorage rt_two_threads tr 1
                          = JVMTI_ERROR_NONE) by (intros tr; reflexivity).
  assert (H4 : is_NONE JVMTI_ERROR_NONE || is_THREAD_NOT_ALIVE JVMTI_ERROR_NONE
               = true) by reflexivity.
  repeat (split; [assumption|]).
  destruct (cmpCLEInfo_last_save rt_two_threads 1 hooked_world JVMTI_ERROR_NONE
              H1 H2 H3 H4) as (_ & Hsave & _).
  destruct (Hsave 0%nat EI_BREAKPOINT 50 60 0) as (w1 & stored & Hw1 & _ & Hst & Hcmp).
  { vm_compute; reflexivity. }
  destruct (Hcmp 50 60 0) as (b & events & Hb & Hiff).
  exists w1, events. split; [assumption|].
  rewrite Hb. f_equal. apply Hiff.
  split; [discriminate|]. split; [reflexivity|]. split; [reflexivity|].
  apply Hst. intros tr. reflexivity.
Defined.

(** C10 in the world of scenario 3, with a runtime whose [ResumeThreadList]
    reports error 13 for the list and for every thread on it: the error of
    the list is returned, and the node of the virtual thread 102 is
    accounted as resumed all the same. *)
Lemma commonResumeList_ignores_results_witness :
  lists_ok exclusion_world = true /\
  running_ok rt_resume_fails exclusion_world = true /\
  flags_ok exclusion_world = true /\
  hard_resume exclusion_world (running_nodes exclusion_world)
  = [1%nat; 0%nat; 3%nat] /\
  rt_ResumeThreadList rt_resume_fails (trace exclusion_world) [2; 1; v2]
  = (JVMTI_ERROR_other 13,
     [JVMTI_ERROR_other 13; JVMTI_ERROR_other 13; JVMTI_ERROR_other 13]) /\
  exists w' n,
    commonResumeList rt_resume_fails exclusion_world
    = Ok (JVMTI_ERROR_other 13) w' /\
    heap w' !! 3%nat = Some n /\
    thread n = v2 /\
    suspendCount n = 0 /\ toBeResumed n = false /\ frameGeneration n = 1.
Proof.
  assert (H1 : lists_ok exclusion_world = true) by (vm_compute; reflexivity).
  assert (H2 : running_ok rt_resume_fails exclusion_world = true)
    by (vm_compute; reflexivity).
  assert (H3 : flags_ok exclusion_world = true) by (vm_compute; reflexivity).
  assert (H4 : hard_resume exclusion_world (running_nodes exclusion_world)
               = [1%nat; 0%nat; 3%nat]) by (vm_compute; reflexivity).
  assert (H5 : rt_ResumeThreadList rt_resume_fails (trace exclusion_world)
                 [2; 1; v2]
               = (JVMTI_ERROR_other 13,
                  [JVMTI_ERROR_other 13; JVMTI_ERROR_other 13;
                   JVMTI_ERROR_other 13])) by reflexivity.
  repeat (split; [assumption|]).
  destruct (commonResumeList_ignores_results rt_resume_fails exclusion_world
              H1 H2 H3) as (w' & Hrun & _ & Hhard & _).
  { intros tr t. reflexivity. }
  { intros tr k. reflexivity. }
  { vm_compute. reflexivity. }
  { rewrite H4. discriminate. }
  destruct (Hhard 3%nat) as (Hn & _).
  { rewrite H4. right. right. left. }
  exists w', (hard_resumed (node_at exclusion_world 3%nat)).
  split; [rewrite Hrun; reflexivity|]. split; [exact Hn|].
  vm_compute. repeat split.
Defined.

(** X1 on the agent before any debug thread is registered.  Built without
    CRIU support the call answers success.  Built with it, and with an
    extension that refuses the thread, it answers the error of the
    extension, and thread 7 is on the list all the same; without the
    extension it calls through the null pointer, thread 7 being on the list
    already. *)
Lemma addDebugThread_bounded_witness :
  (length (debugThreads (initial_world gdata_vthreads)) <= MAX_DEBUG_THREADS)%nat /\
  (exists error ds,
     threadControl_addDebugThread rt_two_threads 7 (initial_world gdata_vthreads)
     = Ok error
          (with_events [EvMonitorEnter threadLock; EvMonitorExit threadLock]
             (set_debugThreads ds (initial_world gdata_vthreads))) /\
     (length ds <= MAX_DEBUG_THREADS)%nat) /\
  Criu.threadControl_addDebugThread rt_two_threads checkpoint_extension
    SampleNames.ADD_NAME None 7 (initial_world gdata_vthreads)
  = Ok (JVMTI_ERROR_other 99, Some ext_refuses)
       (with_events
          [EvMonitorEnter threadLock; EvGetExtensionFunctions;
           EvAddDebugThreadToCheckpointState 7; EvMonitorExit threadLock]
          (set_debugThreads [7] (initial_world gdata_vthreads))) /\
  Criu.threadControl_addDebugThread rt_two_threads no_extension
    SampleNames.ADD_NAME None 7 (initial_world gdata_vthreads)
  = Fatal NullDereference
      (with_events [EvMonitorEnter threadLock; EvGetExtensionFunctions]
         (set_debugThreads [7] (initial_world gdata_vthreads))).
Proof.
  assert (H : (length (debugThreads (initial_world gdata_vthreads))
               <= MAX_DEBUG_THREADS)%nat) by (vm_compute; lia).
  assert (Hroom : (length (debugThreads (initial_world gdata_vthreads))
                   < MAX_DEBUG_THREADS)%nat) by (vm_compute; lia).
  assert (Hnull : 7 <> NULL) by (unfold NULL; lia).
  split; [exact H|].
  destruct (addDebugThread_bounded rt_two_threads checkpoint_extension
              SampleNames.ADD_NAME 7 None (initial_world gdata_vthreads) H)
    as [(error & ds & Hrun & Hlen & _) Hcriu].
  split; [exists error, ds; split; assumption|].
  split.
  - cbv zeta in Hcriu. destruct Hcriu as (_ & _ & _ & _ & Hadd).
    exact (Hadd Hroom eq_refl Hnull).
  - destruct (addDebugThread_bounded rt_two_threads no_extension
                SampleNames.ADD_NAME 7 None (initial_world gdata_vthreads) H)
      as [_ Hnone].
    cbv zeta in Hnone. destruct Hnone as (_ & _ & _ & _ & Hadd).
    exact (Hadd Hroom eq_refl Hnull).
Defined.

(** X2 for thread 7, registered before thread 8: the entry of 7 goes, and
    the build with CRIU support answers what the extension answers. *)
Lemma removeDebugThread_first_witness :
  is_debug (set_debugThreads [7; 8] (initial_world gdata_vthreads)) 7 = true /\
  threadControl_removeDebugThread 7
    (set_debugThreads [7; 8] (initial_world gdata_vthreads))
  = Ok JVMTI_ERROR_NONE
       (with_events [EvMonitorEnter threadLock; EvMonitorExit threadLock]
          (set_debugThreads [8]
             (set_debugThreads [7; 8] (initial_world gdata_vthreads)))) /\
  Criu.threadControl_removeDebugThread checkpoint_extension
    SampleNames.REMOVE_NAME None 7
    (set_debugThreads [7; 8] (initial_world gdata_vthreads))
  = Ok (JVMTI_ERROR_NONE, Some ext_accepts)
       (with_events
          [EvMonitorEnter threadLock; EvGetExtensionFunctions;
           EvRemoveDebugThreadFromCheckpointState 7; EvMonitorExit threadLock]
          (set_debugThreads [8]
             (set_debugThreads [7; 8] (initial_world gdata_vthreads)))).
Proof.
  assert (H : is_debug (set_debugThreads [7; 8] (initial_world gdata_vthreads)) 7
              = true) by reflexivity.
  split; [exact H|].
  destruct (proj2 (removeDebugThread_first checkpoint_extension
                     SampleNames.REMOVE_NAME 7 None
                     (set_debugThreads [7; 8] (initial_world gdata_vthreads))) H)
    as (before & after & Hsplit & Hfirst & Hplain & Hcriu).
  assert (Hr : resolved checkpoint_extension SampleNames.REMOVE_NAME None
                 (trace (set_debugThreads [7; 8] (initial_world gdata_vthreads))
                  ++ [EvMonitorEnter threadLock]) = Some ext_accepts)
    by reflexivity.
  rewrite Hr in Hcriu.
  assert (Hb : before = []).
  { destruct before as [|d before]; [reflexivity|].
    injection Hsplit as Hd _. destruct Hfirst. rewrite <- Hd. left. }
  subst before. injection Hsplit as Hafter. subst after.
  split; [exact Hplain|exact Hcriu].
Defined.

(** X3 for thread 7 before any debug thread is registered, in both
    builds; the extension refuses the thread and the list still goes
    through the same steps. *)
Lemma addDebugThread_removeDebugThread_witness :
  (length (debugThreads (initial_world gdata_vthreads)) < MAX_DEBUG_THREADS)%nat /\
  is_debug (initial_world gdata_vthreads) 7 = false /\
  7 <> NULL /\
  (forall tr, rt_NewGlobalRef rt_two_threads tr 7 = true) /\
  (exists w1 w2,
     threadControl_addDebugThread rt_two_threads 7 (initial_world gdata_vthreads)
     = Ok JVMTI_ERROR_NONE w1 /\
     threadControl_removeDebugThread 7 w1 = Ok JVMTI_ERROR_NONE w2 /\
     debugThreads w2 = debugThreads (initial_world gdata_vthreads)) /\
  (exists w1 w2,
     Criu.threadControl_addDebugThread rt_two_threads checkpoint_extension
       SampleNames.ADD_NAME None 7 (initial_world gdata_vthreads)
     = Ok (JVMTI_ERROR_other 99, Some ext_refuses) w1 /\
     is_debug w1 7 = true /\
     Criu.threadControl_removeDebugThread checkpoint_extension
       SampleNames.REMOVE_NAME None 7 w1
     = Ok (JVMTI_ERROR_NONE, Some ext_accepts) w2 /\
     debugThreads w2 = debugThreads (initial_world gdata_vthreads)).
Proof.
  assert (H1 : (length (debugThreads (initial_world gdata_vthreads))
                < MAX_DEBUG_THREADS)%nat) by (vm_compute; lia).
  assert (H2 : is_debug (initial_world gdata_vthreads) 7 = false) by reflexivity.
  assert (H3 : 7 <> NULL) by (unfold NULL; lia).
  assert (H4 : forall tr, rt_NewGlobalRef rt_two_threads tr 7 = true)
    by (intros tr; reflexivity).
  repeat (split; [assumption|]).
  destruct (addDebugThread_removeDebugThread rt_two_threads checkpoint_extension
              SampleNames.ADD_NAME SampleNames.REMOVE_NAME 7
              (initial_world gdata_vthreads) H1 H2 H3 H4)
    as [(w1 & w2 & Ha & _ & Hr & Hd & _) Hcriu].
  split; [exists w1, w2; repeat split; assumption|].
  destruct (Hcriu None None ext_refuses ext_accepts
              (fun tr => eq_refl) (fun tr => eq_refl))
    as (v1 & v2 & events & Hadd & Hin & Hrem & Hlist & _).
  exists v1, v2. repeat split; assumption.
Defined.

(** X4 for thread 1 after start-up. *)
Lemma findThread_finds_witness :
  lists_ok hooked_world = true /\
  slots_ok hooked_world = true /\
  is_NONE (rt_GetThreadLocalStorage rt_two_threads (trace hooked_world) 1)
  || is_THREAD_NOT_ALIVE
       (rt_GetThreadLocalStorage rt_two_threads (trace hooked_world) 1) = true /\
  exists found events,
    findThread rt_two_threads (Some runningThreads) 1 hooked_world
    = Ok found (with_events events hooked_world) /\
    Forall is_assertion events.
Proof.
  assert (H1 : lists_ok hooked_world = true) by (vm_compute; reflexivity).
  assert (H2 : slots_ok hooked_world = true) by (vm_compute; reflexivity).
  assert (H3 : is_NONE (rt_GetThreadLocalStorage rt_two_threads (trace hooked_world) 1)
               || is_THREAD_NOT_ALIVE
                    (rt_GetThreadLocalStorage rt_two_threads (trace hooked_world) 1)
               = true) by reflexivity.
  repeat (split; [assumption|]).
  destruct (findThread_finds rt_two_threads (Some runningThreads) 1 hooked_world
              H1 H2 H3) as (found & events & Hrun & Hev & _).
  exists found, events. split; assumption.
Defined.

(** X5 for the node of thread 1, taken off [runningThreads]. *)
Lemma addNode_removeNode_count_witness :
  lists_ok (tracked_world runningThreads (idle_node 1)) = true /\
  linked (tracked_world runningThreads (idle_node 1)) /\
  heap (tracked_world runningThreads (idle_node 1)) !! 0%nat = Some (idle_node 1) /\
  Z.of_nat (length (runningVThreads_nodes (tracked_world runningThreads (idle_node 1))))
  < jint_max /\
  node_list (idle_node 1) = Some runningThreads /\
  0%nat ∈ list_nodes runningThreads (tracked_world runningThreads (idle_node 1)) /\
  exists w',
    removeNode 0%nat (tracked_world runningThreads (idle_node 1)) = Ok tt w' /\
    (forall l, 0%nat ∉ list_nodes l w') /\
    lists_ok w' = true.
Proof.
  assert (H1 : lists_ok (tracked_world runningThreads (idle_node 1)) = true)
    by reflexivity.
  assert (H2 : linked (tracked_world runningThreads (idle_node 1))).
  { intros []; cbn; [apply NoDup_singleton|apply NoDup_nil_2|apply NoDup_nil_2]. }
  assert (H3 : heap (tracked_world runningThreads (idle_node 1)) !! 0%nat
               = Some (idle_node 1)) by reflexivity.
  assert (H4 : Z.of_nat (length (runningVThreads_nodes
                                   (tracked_world runningThreads (idle_node 1))))
               < jint_max) by reflexivity.
  assert (H5 : node_list (idle_node 1) = Some runningThreads) by reflexivity.
  assert (H6 : 0%nat ∈ list_nodes runningThreads
                         (tracked_world runningThreads (idle_node 1)))
    by (apply list_elem_of_singleton; reflexivity).
  repeat (split; [assumption|]).
  destruct (proj2 (addNode_removeNode_count runningThreads 0%nat (idle_node 1)
                     (tracked_world runningThreads (idle_node 1)) H1 H2 H3 H4)
              runningThreads H5 H6)
    as (w' & Hrun & _ & _ & Hoff & _ & _ & Hok & _).
  exists w'. split; [exact Hrun|]. split; [exact Hoff|exact Hok].
Defined.

(** X6 in the world of the exclusion scenario, which tracks two virtual
    threads. *)
Lemma allVThreads_tracked_witness :
  lists_ok exclusion_world = true /\
  count_ok exclusion_world = true /\
  Z.of_nat (length (runningVThreads_nodes exclusion_world)) <= jint_max /\
  exists result,
    threadControl_allVThreads rt_two_threads exclusion_world
    = Ok (result, Z.of_nat (length (runningVThreads_nodes exclusion_world)))
         (with_events [EvMonitorEnter threadLock; EvMonitorExit threadLock]
            exclusion_world).
Proof.
  assert (H1 : lists_ok exclusion_world = true) by (vm_compute; reflexivity).
  assert (H2 : count_ok exclusion_world = true) by (vm_compute; reflexivity).
  assert (H3 : Z.of_nat (length (runningVThreads_nodes exclusion_world)) <= jint_max)
    by (vm_compute; discriminate).
  repeat (split; [assumption|]).
  eexists. exact (allVThreads_tracked rt_two_threads exclusion_world H1 H2 H3).
Defined.

(** X7 at the node of thread 1, for which one single-step mode is
    deferred. *)
Lemma processDeferredEventModes_drains_witness :
  modes_accepted rt_two_threads 1 /\
  heap waiting_world !! 0%nat = Some waiting_node /\
  exists w',
    processDeferredEventModes rt_two_threads 1 0%nat waiting_world = Ok tt w' /\
    deferredEventModes w' = modes_kept 1 (deferredEventModes waiting_world).
Proof.
  assert (H1 : modes_accepted rt_two_threads 1) by (intros tr mode ei; reflexivity).
  assert (H2 : heap waiting_world !! 0%nat = Some waiting_node) by reflexivity.
  repeat (split; [assumption|]).
  eexists. split.
  - exact (processDeferredEventModes_drains rt_two_threads 1 0%nat waiting_node
             waiting_world H1 H2).
  - reflexivity.
Defined.

(** X8 for thread 1 after start-up: the thread is running and started. *)
Lemma setEventMode_cases_witness :
  lists_ok hooked_world = true /\
  slots_ok hooked_world = true /\
  (forall tr, rt_GetThreadLocalStorage rt_two_threads tr 1 = JVMTI_ERROR_NONE) /\
  is_NONE JVMTI_ERROR_NONE || is_THREAD_NOT_ALIVE JVMTI_ERROR_NONE = true /\
  1 <> NULL /\
  started_node rt_two_threads JVMTI_ERROR_NONE hooked_world 1 = Some 0%nat /\
  heap hooked_world !! 0%nat = Some (node_at hooked_world 0%nat) /\
  exists status w',
    threadControl_setEventMode rt_two_threads JVMTI_ENABLE EI_SINGLE_STEP 1
      hooked_world
    = Ok status w'.
Proof.
  assert (H1 : lists_ok hooked_world = true) by (vm_compute; reflexivity).
  assert (H2 : slots_ok hooked_world = true) by (vm_compute; reflexivity).
  assert (H3 : forall tr, rt_GetThreadLocalStorage rt_two_threads tr 1
                          = JVMTI_ERROR_NONE) by (intros tr; reflexivity).
  assert (H4 : is_NONE JVMTI_ERROR_NONE || is_THREAD_NOT_ALIVE JVMTI_ERROR_NONE
               = true) by reflexivity.
  assert (H5 : 1 <> NULL) by (unfold NULL; lia).
  assert (H6 : started_node rt_two_threads JVMTI_ERROR_NONE hooked_world 1
               = Some 0%nat) by (vm_compute; reflexivity).
  assert (H7 : heap hooked_world !! 0%nat = Some (node_at hooked_world 0%nat))
    by (vm_compute; reflexivity).
  repeat (split; [assumption|]).
  destruct (setEventMode_cases rt_two_threads JVMTI_ENABLE EI_SINGLE_STEP 1
              hooked_world JVMTI_ERROR_NONE H1 H2 H3 H4) as (_ & _ & Hstarted).
  destruct (Hstarted H5 0%nat _ H6 H7) as (events & _ & Hrun).
  eexists _, _. exact Hrun.
Defined.

(** X9 for thread 1 after start-up. *)
Lemma instructionStepMode_round_trip_witness :
  lists_ok hooked_world = true /\
  slots_ok hooked_world = true /\
  (forall tr, rt_GetThreadLocalStorage rt_two_threads tr 1 = JVMTI_ERROR_NONE) /\
  is_NONE JVMTI_ERROR_NONE || is_THREAD_NOT_ALIVE JVMTI_ERROR_NONE = true /\
  1 <> NULL /\
  started_node rt_two_threads JVMTI_ERROR_NONE hooked_world 1 = Some 0%nat /\
  heap hooked_world !! 0%nat = Some (node_at hooked_world 0%nat) /\
  exists status w1 events,
    threadControl_setEventMode rt_two_threads JVMTI_ENABLE EI_SINGLE_STEP 1
      hooked_world
    = Ok status w1 /\
    threadControl_getInstructionStepMode rt_two_threads 1 w1
    = Ok JVMTI_ENABLE (with_events events w1).
Proof.
  assert (H1 : lists_ok hooked_world = true) by (vm_compute; reflexivity).
  assert (H2 : slots_ok hooked_world = true) by (vm_compute; reflexivity).
  assert (H3 : forall tr, rt_GetThreadLocalStorage rt_two_threads tr 1
                          = JVMTI_ERROR_NONE) by (intros tr; reflexivity).
  assert (H4 : is_NONE JVMTI_ERROR_NONE || is_THREAD_NOT_ALIVE JVMTI_ERROR_NONE
               = true) by reflexivity.
  assert (H5 : 1 <> NULL) by (unfold NULL; lia).
  assert (H6 : started_node rt_two_threads JVMTI_ERROR_NONE hooked_world 1
               = Some 0%nat) by (vm_compute; reflexivity).
  assert (H7 : heap hooked_world !! 0%nat = Some (node_at hooked_world 0%nat))
    by (vm_compute; reflexivity).
  repeat (split; [assumption|]).
  destruct (instructionStepMode_round_trip rt_two_threads JVMTI_ENABLE
              EI_SINGLE_STEP 1 hooked_world JVMTI_ERROR_NONE H1 H2 H3 H4 H5)
    as (Hset & _).
  destruct (Hset 0%nat _ H6 H7) as (status & w1 & events & Hrun & Hget & _).
  exists status, w1, events. split; assumption.
Defined.

(** X10 at the node of thread 1 with one suspend outstanding. *)
Lemma resumeThreadByNode_cases_witness :
  heap (one_node_world (held 1 (idle_node 1))) !! 0%nat
  = Some (held 1 (idle_node 1)) /\
  exists error n' events,
    resumeThreadByNode rt_two_threads 0%nat (one_node_world (held 1 (idle_node 1)))
    = Ok error
         (node_update 0%nat n' events (one_node_world (held 1 (idle_node 1)))) /\
    primitive_calls events = [EvResumeThread 1].
Proof.
  assert (H1 : heap (one_node_world (held 1 (idle_node 1))) !! 0%nat
               = Some (held 1 (idle_node 1))) by reflexivity.
  split; [exact H1|].
  destruct (resumeThreadByNode_cases rt_two_threads
              (one_node_world (held 1 (idle_node 1))) 0%nat _ H1)
    as (error & n' & events & Hrun & _ & Hpos).
  exists error, n', events. split; [exact Hrun|].
  destruct (Hpos eq_refl) as [_ Hlast]; [reflexivity|].
  exact (proj1 (Hlast eq_refl)).
Defined.

(** X11 with three nested suspends of thread 1. *)
Lemma nested_suspends_one_primitive_witness :
  heap (one_node_world (idle_node 1)) !! 0%nat = Some (idle_node 1) /\
  unsuspended (idle_node 1) = true /\
  (1 <= 3)%nat /\
  Z.of_nat 3 <= jint_max /\
  (forall tr, rt_SuspendThread rt_two_threads tr (thread (idle_node 1))
              = JVMTI_ERROR_NONE) /\
  rewrites (times 3 (suspendThreadByNode rt_two_threads 0%nat);;
            times 3 (resumeThreadByNode rt_two_threads 0%nat)) 0%nat
    (set_frameGeneration (jlong_inc (frameGeneration (idle_node 1))) (idle_node 1))
    [EvSuspendThread (thread (idle_node 1)); EvResumeThread (thread (idle_node 1))]
    (one_node_world (idle_node 1)).
Proof.
  assert (H1 : heap (one_node_world (idle_node 1)) !! 0%nat = Some (idle_node 1))
    by reflexivity.
  assert (H2 : unsuspended (idle_node 1) = true) by reflexivity.
  assert (H3 : (1 <= 3)%nat) by lia.
  assert (H4 : Z.of_nat 3 <= jint_max) by (vm_compute; discriminate).
  assert (H5 : forall tr, rt_SuspendThread rt_two_threads tr (thread (idle_node 1))
                          = JVMTI_ERROR_NONE) by (intros tr; reflexivity).
  repeat (split; [assumption|]).
  exact (proj2 (nested_suspends_one_primitive rt_two_threads 3 0%nat (idle_node 1)
                  (one_node_world (idle_node 1)) H1 H2 H3 H4 H5)).
Defined.

(** X12 for thread 1 while it handles a breakpoint. *)
Lemma interrupt_held_while_handling_witness :
  slot_read rt_two_threads 1 /\
  tls (tracked_world runningThreads in_breakpoint) !! 1 = Some 0%nat /\
  heap (tracked_world runningThreads in_breakpoint) !! 0%nat = Some in_breakpoint /\
  is_on in_breakpoint runningThreads = true /\
  HANDLING_EVENT in_breakpoint = true /\
  threadControl_interrupt rt_two_threads interrupt_ok 1
    (tracked_world runningThreads in_breakpoint)
  = Ok JVMTI_ERROR_NONE
      (node_update 0%nat (set_pendingInterrupt true in_breakpoint)
         [EvMonitorEnter threadLock; EvMonitorExit threadLock]
         (tracked_world runningThreads in_breakpoint)).
Proof.
  assert (H1 : slot_read rt_two_threads 1) by (intros tr; reflexivity).
  assert (H2 : tls (tracked_world runningThreads in_breakpoint) !! 1 = Some 0%nat)
    by reflexivity.
  assert (H3 : heap (tracked_world runningThreads in_breakpoint) !! 0%nat
               = Some in_breakpoint) by reflexivity.
  assert (H4 : is_on in_breakpoint runningThreads = true) by reflexivity.
  assert (H5 : HANDLING_EVENT in_breakpoint = true) by reflexivity.
  repeat (split; [assumption|]).
  exact (proj1 (interrupt_held_while_handling rt_two_threads interrupt_ok 1 0%nat
                  in_breakpoint (tracked_world runningThreads in_breakpoint)
                  H1 H2 H3) H4 H5).
Defined.

(** X13 for thread 1 leaving the handler of a breakpoint with an interrupt
    pending. *)
Lemma onEventHandlerExit_delivers_witness :
  slot_read rt_two_threads 1 /\
  tls (tracked_world runningThreads (set_pendingInterrupt true in_breakpoint)) !! 1
  = Some 0%nat /\
  heap (tracked_world runningThreads (set_pendingInterrupt true in_breakpoint))
    !! 0%nat
  = Some (set_pendingInterrupt true in_breakpoint) /\
  is_on (set_pendingInterrupt true in_breakpoint) (running_list rt_two_threads 1)
  = true /\
  is_THREAD_END EI_BREAKPOINT = false /\
  exists n',
    threadControl_onEventHandlerExit rt_two_threads EI_BREAKPOINT 1 2
      (tracked_world runningThreads (set_pendingInterrupt true in_breakpoint))
    = Ok tt
        (node_update 0%nat n'
           ([EvMonitorEnter threadLock]
            ++ pending_tasks (set_pendingInterrupt true in_breakpoint)
            ++ [EvMonitorExit threadLock])
           (tracked_world runningThreads (set_pendingInterrupt true in_breakpoint))) /\
    pendingInterrupt n' = false.
Proof.
  assert (H1 : slot_read rt_two_threads 1) by (intros tr; reflexivity).
  assert (H2 : tls (tracked_world runningThreads
                      (set_pendingInterrupt true in_breakpoint)) !! 1
               = Some 0%nat) by reflexivity.
  assert (H3 : heap (tracked_world runningThreads
                       (set_pendingInterrupt true in_breakpoint)) !! 0%nat
               = Some (set_pendingInterrupt true in_breakpoint)) by reflexivity.
  assert (H4 : is_on (set_pendingInterrupt true in_breakpoint)
                 (running_list rt_two_threads 1) = true) by reflexivity.
  assert (H5 : is_THREAD_END EI_BREAKPOINT = false) by reflexivity.
  repeat (split; [assumption|]).
  destruct (onEventHandlerExit_delivers rt_two_threads EI_BREAKPOINT 1 2 0%nat _
              _ H1 H2 H3 H4 H5) as (n' & Hrun & _ & Hi & _).
  exists n'. split; assumption.
Defined.

(** X14 for thread 1 while it handles a breakpoint, stopped with the
    throwable 9. *)
Lemma stop_delivered_at_exit_witness :
  slot_read rt_two_threads 1 /\
  (forall tr, rt_NewGlobalRef rt_two_threads tr 9 = true) /\
  tls (tracked_world runningThreads in_breakpoint) !! 1 = Some 0%nat /\
  heap (tracked_world runningThreads in_breakpoint) !! 0%nat = Some in_breakpoint /\
  rt_isVThread rt_two_threads 1 = false /\
  is_on in_breakpoint runningThreads = true /\
  HANDLING_EVENT in_breakpoint = true /\
  pendingStop in_breakpoint = NULL /\
  9 <> NULL /\
  is_THREAD_END EI_BREAKPOINT = false /\
  threadControl_stop rt_two_threads stop_ok 1 9
    (tracked_world runningThreads in_breakpoint)
  = Ok JVMTI_ERROR_NONE
      (node_update 0%nat (set_pendingStop 9 in_breakpoint)
         [EvMonitorEnter threadLock; EvMonitorExit threadLock]
         (tracked_world runningThreads in_breakpoint)).
Proof.
  assert (H1 : slot_read rt_two_threads 1) by (intros tr; reflexivity).
  assert (H2 : forall tr, rt_NewGlobalRef rt_two_threads tr 9 = true)
    by (intros tr; reflexivity).
  assert (H3 : tls (tracked_world runningThreads in_breakpoint) !! 1 = Some 0%nat)
    by reflexivity.
  assert (H4 : heap (tracked_world runningThreads in_breakpoint) !! 0%nat
               = Some in_breakpoint) by reflexivity.
  assert (H5 : rt_isVThread rt_two_threads 1 = false) by reflexivity.
  assert (H6 : is_on in_breakpoint runningThreads = true) by reflexivity.
  assert (H7 : HANDLING_EVENT in_breakpoint = true) by reflexivity.
  assert (H8 : pendingStop in_breakpoint = NULL) by reflexivity.
  assert (H9 : 9 <> NULL) by (unfold NULL; lia).
  assert (H10 : is_THREAD_END EI_BREAKPOINT = false) by reflexivity.
  repeat (split; [assumption|]).
  exact (proj1 (stop_delivered_at_exit rt_two_threads stop_ok EI_BREAKPOINT 1 9 2
                  0%nat in_breakpoint (tracked_world runningThreads in_breakpoint)
                  H1 H2 H3 H4 H5 H6 H7 H8 H9 H10)).
Defined.

(** X15 for thread 1 leaving the handler of its [THREAD_END] event. *)
Lemma thread_end_exit_retires_witness :
  slot_read rt_two_threads 1 /\
  slot_clearable rt_two_threads /\
  lists_ok (tracked_world runningThreads (idle_node 1)) = true /\
  linked (tracked_world runningThreads (idle_node 1)) /\
  tls (tracked_world runningThreads (idle_node 1)) !! 1 = Some 0%nat /\
  heap (tracked_world runningThreads (idle_node 1)) !! 0%nat = Some (idle_node 1) /\
  is_on (idle_node 1) (running_list rt_two_threads 1) = true /\
  0%nat ∈ list_nodes (running_list rt_two_threads 1)
            (tracked_world runningThreads (idle_node 1)) /\
  isDebugThread (idle_node 1) = false /\
  exists w',
    threadControl_onEventHandlerExit rt_two_threads EI_THREAD_END 1 2
      (tracked_world runningThreads (idle_node 1))
    = Ok tt w' /\
    heap w' = delete 0%nat (heap (tracked_world runningThreads (idle_node 1))) /\
    forall l, 0%nat ∉ list_nodes l w'.
Proof.
  assert (H1 : slot_read rt_two_threads 1) by (intros tr; reflexivity).
  assert (H2 : slot_clearable rt_two_threads) by (intros tr t; reflexivity).
  assert (H3 : lists_ok (tracked_world runningThreads (idle_node 1)) = true)
    by reflexivity.
  assert (H4 : linked (tracked_world runningThreads (idle_node 1))).
  { intros []; cbn; [apply NoDup_singleton|apply NoDup_nil_2|apply NoDup_nil_2]. }
  assert (H5 : tls (tracked_world runningThreads (idle_node 1)) !! 1 = Some 0%nat)
    by reflexivity.
  assert (H6 : heap (tracked_world runningThreads (idle_node 1)) !! 0%nat
               = Some (idle_node 1)) by reflexivity.
  assert (H7 : is_on (idle_node 1) (running_list rt_two_threads 1) = true)
    by reflexivity.
  assert (H8 : 0%nat ∈ list_nodes (running_list rt_two_threads 1)
                         (tracked_world runningThreads (idle_node 1)))
    by (apply list_elem_of_singleton; reflexivity).
  assert (H9 : isDebugThread (idle_node 1) = false) by reflexivity.
  repeat (split; [assumption|]).
  destruct (thread_end_exit_retires rt_two_threads 1 2 0%nat (idle_node 1)
              (tracked_world runningThreads (idle_node 1))
              H1 H2 H3 H4 H5 H6 H7 H8 H9)
    as (w' & Hrun & _ & Hheap & _ & _ & Hoff & _).
  exists w'. split; [exact Hrun|]. split; [exact Hheap|exact Hoff].
Defined.

(** X16 for a breakpoint on thread 1. *)
Lemma onEventHandlerEntry_known_thread_witness :
  slot_read rt_two_threads (ev_thread breakpoint_event) /\
  tls (tracked_world runningThreads (idle_node 1)) !! ev_thread breakpoint_event
  = Some 0%nat /\
  heap (tracked_world runningThreads (idle_node 1)) !! 0%nat = Some (idle_node 1) /\
  is_on (idle_node 1) (event_list breakpoint_event) = true /\
  popFrameThread (idle_node 1) = false /\
  ordinary_event (ev_ei breakpoint_event) = true /\
  exists n' events,
    threadControl_onEventHandlerEntry rt_two_threads (fun _ => skip) 1
      breakpoint_event NULL (tracked_world runningThreads (idle_node 1))
    = Ok (Some (eventBag (idle_node 1)))
         (node_update 0%nat n' events (tracked_world runningThreads (idle_node 1))) /\
    HANDLING_EVENT n' = true.
Proof.
  assert (H1 : slot_read rt_two_threads (ev_thread breakpoint_event))
    by (intros tr; reflexivity).
  assert (H2 : tls (tracked_world runningThreads (idle_node 1))
                 !! ev_thread breakpoint_event = Some 0%nat) by reflexivity.
  assert (H3 : heap (tracked_world runningThreads (idle_node 1)) !! 0%nat
               = Some (idle_node 1)) by reflexivity.
  assert (H4 : is_on (idle_node 1) (event_list breakpoint_event) = true)
    by reflexivity.
  assert (H5 : popFrameThread (idle_node 1) = false) by reflexivity.
  assert (H6 : ordinary_event (ev_ei breakpoint_event) = true) by reflexivity.
  repeat (split; [assumption|]).
  destruct (onEventHandlerEntry_known_thread rt_two_threads (fun _ => skip) 1
              breakpoint_event NULL 0%nat (idle_node 1)
              (tracked_world runningThreads (idle_node 1)) H1 H2 H3 H4 H5 H6)
    as (n' & events & Hrun & _ & Hh & _).
  exists n', events. split; assumption.
Defined.

(** X17 for an interrupt of thread 1 inside the handler of a breakpoint. *)
Lemma interrupt_in_handler_delivered_at_exit_witness :
  slot_read rt_two_threads (ev_thread breakpoint_event) /\
  tls (tracked_world runningThreads (idle_node 1)) !! ev_thread breakpoint_event
  = Some 0%nat /\
  heap (tracked_world runningThreads (idle_node 1)) !! 0%nat = Some (idle_node 1) /\
  ev_is_vthread breakpoint_event = false /\
  rt_isVThread rt_two_threads (ev_thread breakpoint_event) = false /\
  is_on (idle_node 1) runningThreads = true /\
  popFrameThread (idle_node 1) = false /\
  pendingInterrupt (idle_node 1) = false /\
  pendingStop (idle_node 1) = NULL /\
  ei_is_zero (current_ei (idle_node 1)) = true /\
  ordinary_event (ev_ei breakpoint_event) = true /\
  exists events,
    (threadControl_onEventHandlerEntry rt_two_threads (fun _ => skip) 1
       breakpoint_event NULL;;
     error ← threadControl_interrupt rt_two_threads interrupt_ok
               (ev_thread breakpoint_event);
     threadControl_onEventHandlerExit rt_two_threads (ev_ei breakpoint_event)
       (ev_thread breakpoint_event) 2;;
     ret error) (tracked_world runningThreads (idle_node 1))
    = Ok JVMTI_ERROR_NONE
        (node_update 0%nat (set_eventBag 2 (idle_node 1)) events
           (tracked_world runningThreads (idle_node 1))).
Proof.
  assert (H1 : slot_read rt_two_threads (ev_thread breakpoint_event))
    by (intros tr; reflexivity).
  assert (H2 : tls (tracked_world runningThreads (idle_node 1))
                 !! ev_thread breakpoint_event = Some 0%nat) by reflexivity.
  assert (H3 : heap (tracked_world runningThreads (idle_node 1)) !! 0%nat
               = Some (idle_node 1)) by reflexivity.
  assert (H4 : ev_is_vthread breakpoint_event = false) by reflexivity.
  assert (H5 : rt_isVThread rt_two_threads (ev_thread breakpoint_event) = false)
    by reflexivity.
  assert (H6 : is_on (idle_node 1) runningThreads = true) by reflexivity.
  assert (H7 : popFrameThread (idle_node 1) = false) by reflexivity.
  assert (H8 : pendingInterrupt (idle_node 1) = false) by reflexivity.
  assert (H9 : pendingStop (idle_node 1) = NULL) by reflexivity.
  assert (H10 : ei_is_zero (current_ei (idle_node 1)) = true) by reflexivity.
  assert (H11 : ordinary_event (ev_ei breakpoint_event) = true) by reflexivity.
  repeat (split; [assumption|]).
  eexists.
  exact (interrupt_in_handler_delivered_at_exit rt_two_threads (fun _ => skip)
           interrupt_ok 1 breakpoint_event NULL 2 0%nat (idle_node 1)
           (tracked_world runningThreads (idle_node 1))
           H1 H2 H3 H4 H5 H6 H7 H8 H9 H10 H11).
Defined.

(** X18 for the start of thread 1, which was suspended before it
    started. *)
Lemma thread_start_moves_node_witness :
  ev_ei start_event = EI_THREAD_START /\
  slot_read rt_two_threads (ev_thread start_event) /\
  slot_settable rt_two_threads (ev_thread start_event) /\
  modes_accepted rt_two_threads (ev_thread start_event) /\
  assertOn (gdata waiting_world) = false /\
  jvmtiCallBacksCleared (gdata waiting_world) = false /\
  lists_ok waiting_world = true /\
  tls waiting_world !! ev_thread start_event = None /\
  scan waiting_world otherThreads (ev_thread start_event) = Some 0%nat /\
  heap waiting_world !! 0%nat = Some waiting_node /\
  popFrameThread waiting_node = false /\
  exists w',
    threadControl_onEventHandlerEntry rt_two_threads (fun _ => skip) 1
      start_event NULL waiting_world
    = Ok (Some (eventBag waiting_node)) w' /\
    list_nodes (start_list waiting_node) w'
    = 0%nat :: list_nodes (start_list waiting_node) waiting_world /\
    tls w' = <[ev_thread start_event := 0%nat]> (tls waiting_world).
Proof.
  assert (H1 : ev_ei start_event = EI_THREAD_START) by reflexivity.
  assert (H2 : slot_read rt_two_threads (ev_thread start_event))
    by (intros tr; reflexivity).
  assert (H3 : slot_settable rt_two_threads (ev_thread start_event))
    by (intros tr p; reflexivity).
  assert (H4 : modes_accepted rt_two_threads (ev_thread start_event))
    by (intros tr mode ei; reflexivity).
  assert (H5 : assertOn (gdata waiting_world) = false) by reflexivity.
  assert (H6 : jvmtiCallBacksCleared (gdata waiting_world) = false) by reflexivity.
  assert (H7 : lists_ok waiting_world = true) by (vm_compute; reflexivity).
  assert (H8 : tls waiting_world !! ev_thread start_event = None) by reflexivity.
  assert (H9 : scan waiting_world otherThreads (ev_thread start_event) = Some 0%nat)
    by (vm_compute; reflexivity).
  assert (H10 : heap waiting_world !! 0%nat = Some waiting_node) by reflexivity.
  assert (H11 : popFrameThread waiting_node = false) by reflexivity.
  repeat (split; [assumption|]).
  destruct (thread_start_moves_node rt_two_threads (fun _ => skip) 1 start_event
              NULL 0%nat waiting_node waiting_world
              H1 H2 H3 H4 H5 H6 H7 H8 H9 H10 H11)
    as (w' & Hrun & _ & _ & Hl & Ht & _).
  exists w'. repeat split; assumption.
Defined.

(** X19 for a VM-wide suspend after start-up. *)
Lemma suspendAllCount_steps_witness :
  threadControl_suspendAll rt_two_threads hooked_world
  = Ok JVMTI_ERROR_NONE
       (world_after (threadControl_suspendAll rt_two_threads) hooked_world) /\
  0 <= suspendAllCount hooked_world < jint_max /\
  suspendAllCount (world_after (threadControl_suspendAll rt_two_threads) hooked_world)
  = (if is_NONE JVMTI_ERROR_NONE then jint_inc (suspendAllCount hooked_world)
     else suspendAllCount hooked_world) /\
  0 <= suspendAllCount
         (world_after (threadControl_suspendAll rt_two_threads) hooked_world)
    <= jint_max.
Proof.
  assert (H1 : threadControl_suspendAll rt_two_threads hooked_world
               = Ok JVMTI_ERROR_NONE
                    (world_after (threadControl_suspendAll rt_two_threads)
                       hooked_world)) by (vm_compute; reflexivity).
  assert (H2 : 0 <= suspendAllCount hooked_world < jint_max)
    by (vm_compute; split; [discriminate|reflexivity]).
  split; [exact H1|]. split; [exact H2|].
  destruct (suspendAllCount_steps rt_two_threads hooked_world)
    as (Hs & _ & _ & Hbound).
  split.
  - exact (Hs JVMTI_ERROR_NONE
             (world_after (threadControl_suspendAll rt_two_threads) hooked_world) H1).
  - exact (proj1 (Hbound H2 JVMTI_ERROR_NONE
                    (world_after (threadControl_suspendAll rt_two_threads)
                       hooked_world) (or_introl H1))).
Defined.

(** X20 for thread 1, not started, on the agent before any thread is
    known. *)
Lemma early_suspend_resume_witness :
  not_alive rt_not_started 1 /\
  slot_clearable rt_not_started /\
  tls (initial_world gdata_quiet) !! 1 = None /\
  assertOn (gdata (initial_world gdata_quiet)) = false /\
  jvmtiCallBacksCleared (gdata (initial_world gdata_quiet)) = false /\
  otherThreads_nodes (initial_world gdata_quiet) = [] /\
  node_available rt_not_started 1 /\
  (forall tr, rt_NewGlobalRef rt_not_started tr 1 = true) /\
  rt_isVThread rt_not_started 1 = false /\
  1 <> NULL /\
  is_debug (initial_world gdata_quiet) 1 = false /\
  suspendAllCount (initial_world gdata_quiet) = 0 /\
  exists w1 w2,
    threadControl_suspendThread rt_not_started 1 false (initial_world gdata_quiet)
    = Ok JVMTI_ERROR_NONE w1 /\
    heap w1 = {[ 0%nat := pending_node 1 1 ]} /\
    threadControl_resumeThread rt_not_started 1 true w1 = Ok JVMTI_ERROR_NONE w2 /\
    heap w2 = heap (initial_world gdata_quiet).
Proof.
  assert (H1 : not_alive rt_not_started 1) by (split; intros tr; reflexivity).
  assert (H2 : slot_clearable rt_not_started) by (intros tr t; reflexivity).
  assert (H3 : tls (initial_world gdata_quiet) !! 1 = None) by reflexivity.
  assert (H4 : assertOn (gdata (initial_world gdata_quiet)) = false) by reflexivity.
  assert (H5 : jvmtiCallBacksCleared (gdata (initial_world gdata_quiet)) = false)
    by reflexivity.
  assert (H6 : otherThreads_nodes (initial_world gdata_quiet) = []) by reflexivity.
  assert (H7 : node_available rt_not_started 1)
    by (split; intros tr; reflexivity).
  assert (H8 : forall tr, rt_NewGlobalRef rt_not_started tr 1 = true)
    by (intros tr; reflexivity).
  assert (H9 : rt_isVThread rt_not_started 1 = false) by reflexivity.
  assert (H10 : 1 <> NULL) by (unfold NULL; lia).
  assert (H11 : is_debug (initial_world gdata_quiet) 1 = false) by reflexivity.
  assert (H12 : suspendAllCount (initial_world gdata_quiet) = 0) by reflexivity.
  repeat (split; [assumption|]).
  destruct (early_suspend_resume rt_not_started 1 1 true (initial_world gdata_quiet)
              H1 H2 H3 H4 H5 H6 H7 H8 H9 H10 H11 H12)
    as (w1 & w2 & events & Hs & Hh1 & _ & Hr & Hheap & _).
  exists w1, w2. repeat split; assumption.
Defined.

(** X22 for thread 1, whose slot holds its node. *)
Lemma popFrame_flags_witness :
  slot_read rt_two_threads 1 /\
  tls (tracked_world runningThreads (idle_node 1)) !! 1 = Some 0%nat /\
  heap (tracked_world runningThreads (idle_node 1)) !! 0%nat = Some (idle_node 1) /\
  (setPopFrameEvent rt_two_threads 1 true;; getPopFrameEvent rt_two_threads 1)
    (tracked_world runningThreads (idle_node 1))
  = Ok true
      (node_update 0%nat
         (set_frameGeneration (jlong_inc (frameGeneration (idle_node 1)))
            (set_popFrameEvent true (idle_node 1)))
         [EvMonitorEnter threadLock; EvMonitorExit threadLock;
          EvMonitorEnter threadLock; EvMonitorExit threadLock]
         (tracked_world runningThreads (idle_node 1))).
Proof.
  assert (H1 : slot_read rt_two_threads 1) by (intros tr; reflexivity).
  assert (H2 : tls (tracked_world runningThreads (idle_node 1)) !! 1 = Some 0%nat)
    by reflexivity.
  assert (H3 : heap (tracked_world runningThreads (idle_node 1)) !! 0%nat
               = Some (idle_node 1)) by reflexivity.
  repeat (split; [assumption|]).
  exact (proj1 (proj1 (popFrame_flags rt_two_threads 1 true
                         (tracked_world runningThreads (idle_node 1)) H1)
                  0%nat (idle_node 1) H2 H3)).
Defined.

(** X23 for thread 1 while it handles a breakpoint. *)
Lemma applicationThreadStatus_in_handler_witness :
  slot_read rt_two_threads 1 /\
  tls (tracked_world runningThreads in_breakpoint) !! 1 = Some 0%nat /\
  heap (tracked_world runningThreads in_breakpoint) !! 0%nat = Some in_breakpoint /\
  threadControl_applicationThreadStatus rt_two_threads (fun s => s) (fun s => s) 1 1
    (tracked_world runningThreads in_breakpoint)
  = Ok (JVMTI_ERROR_NONE, 1, 5)
       (with_events [EvMonitorEnter threadLock; EvMonitorExit threadLock]
          (tracked_world runningThreads in_breakpoint)).
Proof.
  assert (H1 : slot_read rt_two_threads 1) by (intros tr; reflexivity).
  assert (H2 : tls (tracked_world runningThreads in_breakpoint) !! 1 = Some 0%nat)
    by reflexivity.
  assert (H3 : heap (tracked_world runningThreads in_breakpoint) !! 0%nat
               = Some in_breakpoint) by reflexivity.
  repeat (split; [assumption|]).
  exact (applicationThreadStatus_in_handler rt_two_threads (fun s => s) (fun s => s)
           1 1 0%nat in_breakpoint (tracked_world runningThreads in_breakpoint)
           H1 H2 H3).
Defined.

(** X21 for the two threads of the start-up table. *)
Lemma commonSuspendList_one_call_witness :
  (forall t, t ∈ [1; 2] -> slot_read rt_two_threads t) /\
  NoDup [1; 2] /\
  slots_set hooked_world [1; 2] /\
  (forall t, t ∈ [1; 2] -> is_on (slot_node hooked_world t) runningThreads = true) /\
  arrays_available rt_two_threads /\
  exists e w',
    commonSuspendList rt_two_threads [1; 2] hooked_world = Ok e w' /\
    nodes_and_calls hooked_world w'.
Proof.
  assert (Hcases : forall (P : jthread -> Prop), P 1 -> P 2 ->
                     forall t, t ∈ [1; 2] -> P t).
  { intros P P1 P2 t Hin.
    apply elem_of_cons in Hin as [->|Hin]; [exact P1|].
    apply list_elem_of_singleton in Hin as ->. exact P2. }
  assert (H1 : forall t, t ∈ [1; 2] -> slot_read rt_two_threads t).
  { apply Hcases; intros tr; reflexivity. }
  assert (H2 : NoDup [1; 2]).
  { apply NoDup_cons. split; [|apply NoDup_singleton].
    intros Hin. apply list_elem_of_singleton in Hin. discriminate Hin. }
  assert (Hs1 : tls hooked_world !! 1 = Some 0%nat) by (vm_compute; reflexivity).
  assert (Hs2 : tls hooked_world !! 2 = Some 1%nat) by (vm_compute; reflexivity).
  assert (H3 : slots_set hooked_world [1; 2]).
  { split.
    - apply Hcases.
      + exists 0%nat. split; [exact Hs1|].
        exists (node_at hooked_world 0%nat). vm_compute. reflexivity.
      + exists 1%nat. split; [exact Hs2|].
        exists (node_at hooked_world 1%nat). vm_compute. reflexivity.
    - intros t t' p Hin Hin'. revert t' Hin'. revert t Hin.
      apply (Hcases (fun t => forall t', t' ∈ [1; 2] -> _ -> _ -> t = t'));
        apply (Hcases (fun t' => _ -> _ -> _ = t')); intros Ha Hb;
        first [ reflexivity
              | pose proof (eq_trans (eq_sym Hs1) Ha) as E1;
                pose proof (eq_trans (eq_sym Hs2) Hb) as E2; congruence
              | pose proof (eq_trans (eq_sym Hs2) Ha) as E1;
                pose proof (eq_trans (eq_sym Hs1) Hb) as E2; congruence ]. }
  assert (H4 : forall t, t ∈ [1; 2] ->
                 is_on (slot_node hooked_world t) runningThreads = true).
  { apply Hcases; vm_compute; reflexivity. }
  assert (H5 : arrays_available rt_two_threads) by (intros tr k; reflexivity).
  repeat (split; [assumption|]).
  pose proof (commonSuspendList_one_call rt_two_threads [1; 2] hooked_world
                H1 H2 H3 H4 H5) as Hcall.
  cbv zeta in Hcall. destruct Hcall as (w' & Hrun & Hshape & _).
  eexists _, w'. split; [exact Hrun|exact Hshape].
Defined.

(** X24 for a VM with the two threads 1 and 2. *)
Lemma startup_tracks_all_threads_witness :
  hookable rt_two_threads 1 [1; 2] /\
  NoDup [1; 2] /\
  tls (initial_world gdata_quiet) = ∅ /\
  assertOn (gdata (initial_world gdata_quiet)) = false /\
  jvmtiCallBacksCleared (gdata (initial_world gdata_quiet)) = false /\
  exists w',
    (threadControl_initialize;; threadControl_onHook rt_two_threads)
      (initial_world gdata_quiet) = Ok tt w' /\
    hooked 1 (reverse [1; 2]) w'.
Proof.
  assert (H1 : hookable rt_two_threads 1 [1; 2]).
  { split; [split; intros tr; reflexivity|].
    split; [intros tr; reflexivity|].
    intros t Hin.
    assert (Ht : t = 1 \/ t = 2).
    { apply elem_of_cons in Hin as [->|Hin]; [by left|].
      apply list_elem_of_singleton in Hin as ->. by right. }
    destruct Ht as [-> | ->].
    - split; [discriminate|].
      split; [intros tr; reflexivity|].
      split; intros tr; reflexivity.
    - split; [discriminate|].
      split; [intros tr; reflexivity|].
      split; intros tr; reflexivity. }
  assert (H2 : NoDup [1; 2]).
  { apply NoDup_cons. split; [|apply NoDup_singleton].
    intros Hin. apply list_elem_of_singleton in Hin. discriminate Hin. }
  assert (H3 : tls (initial_world gdata_quiet) = ∅) by reflexivity.
  assert (H4 : assertOn (gdata (initial_world gdata_quiet)) = false) by reflexivity.
  assert (H5 : jvmtiCallBacksCleared (gdata (initial_world gdata_quiet)) = false)
    by reflexivity.
  repeat (split; [assumption|]).
  destruct (startup_tracks_all_threads rt_two_threads 1 [1; 2]
              (initial_world gdata_quiet) H1 H2 H3 H4 H5)
    as (w' & Hrun & Hw' & _).
  exists w'. split; [exact Hrun|exact Hw'].
Defined.

(** X25 for the head of a chain of two nodes: the second node becomes the
    first. *)
Lemma Links_refine_witness :
  represents two_links two_nodes /\
  heap two_nodes !! 0%nat = Some (idle_node 1) /\
  node_list (idle_node 1) = Some runningThreads /\
  0%nat ∈ list_nodes runningThreads two_nodes /\
  exists s' w',
    Links.removeNode 0%nat two_links = Some s' /\
    removeNode 0%nat two_nodes = Ok tt w' /\
    represents s' w' /\
    list_nodes runningThreads w' = [1%nat] /\
    Links.first s' runningThreads = Some 1%nat.
Proof.
  assert (H1 : represents two_links two_nodes).
  { split; [|split; [|split]].
    - intros []; (split; [reflexivity|]); intros i p Hi.
      + destruct i as [|[|i]]; cbn in Hi; [| |discriminate Hi];
          injection Hi as <-; reflexivity.
      + discriminate Hi.
      + discriminate Hi.
    - intros p. destruct p as [|[|p]]; [reflexivity|reflexivity|].
      unfold two_links, two_nodes. cbn [Links.nodes heap set_list_nodes set_heap].
      rewrite !lookup_insert_ne by discriminate.
      rewrite !lookup_singleton_ne by discriminate. reflexivity.
    - intros p c Hp Hown. destruct p as [|[|p]].
      + injection Hp as <-. discriminate Hown.
      + injection Hp as <-. discriminate Hown.
      + unfold two_links in Hp. cbn [Links.nodes] in Hp.
        rewrite lookup_insert_ne in Hp by discriminate.
        rewrite lookup_singleton_ne in Hp by discriminate. discriminate Hp.
    - reflexivity. }
  assert (H2 : heap two_nodes !! 0%nat = Some (idle_node 1)) by reflexivity.
  assert (H3 : node_list (idle_node 1) = Some runningThreads) by reflexivity.
  assert (H4 : 0%nat ∈ list_nodes runningThreads two_nodes) by left.
  repeat (split; [assumption|]).
  destruct (proj2 (proj2 (Links_refine two_links two_nodes 0%nat (idle_node 1) H1 H2))
              runningThreads H3 H4)
    as (s' & w' & Hrun' & Hrun & Hrep & Hlist & Hfirst & _).
  exists s', w'. split; [exact Hrun'|]. split; [exact Hrun|]. split; [exact Hrep|].
  assert (Hl : list_nodes runningThreads w' = [1%nat]) by exact Hlist.
  split; [exact Hl|]. rewrite Hfirst, Hl. reflexivity.
Defined.
